(** * Chatbot-FDJ: the answer-resolution pipeline of [chatbot.py]

    A shallow embedding of the question-answering pipeline (text normalizer,
    superlative resolver, scripted dialogue, structured fact matchers,
    similarity retrieval, extractive synthesizer and the [chat] orchestrator)
    together with the properties its specification states about it.

    Python values are modelled as the interpreter has them:
    - a [str] is a sequence of Unicode code points ([list N]); [len], slicing,
      [in], [split] and [strip] act on code points;
    - [str.lower], [unicodedata.normalize("NFD", _)], [unicodedata.category]
      and [str.isspace] are driven by the tables of the Unicode Character
      Database 14.0.0 (the one CPython 3.11 ships);
    - a [float] is an IEEE 754 binary64 number ([PrimFloat.float]);
    - an exception is the [Raise] outcome of the [outcome] monad;
    - the data store and the embedding model are collaborators passed in as
      functions. *)

From Stdlib Require Import List NArith ZArith Bool String Ascii Lia Floats.
From Stdlib Require Import Permutation Sorted.
Import ListNotations.

Set Implicit Arguments.

Open Scope string_scope.
Open Scope list_scope.

(** ** Python strings *)

(** A Python [str]: a sequence of code points. *)
Definition str := list N.

(** String literals of the source are written [u "..."]: the UTF-8 bytes of
    the literal decoded into code points. *)
Fixpoint utf8_decode (bs : list N) : str :=
  match bs with
  | [] => []
  | b :: r =>
      if (b <? 0x80)%N then b :: utf8_decode r
      else if (b <? 0xE0)%N then
        match r with
        | b1 :: r1 => ((b - 0xC0) * 64 + (b1 - 0x80))%N :: utf8_decode r1
        | _ => []
        end
      else if (b <? 0xF0)%N then
        match r with
        | b1 :: b2 :: r2 =>
            ((b - 0xE0) * 4096 + (b1 - 0x80) * 64 + (b2 - 0x80))%N :: utf8_decode r2
        | _ => []
        end
      else
        match r with
        | b1 :: b2 :: b3 :: r3 =>
            ((b - 0xF0) * 262144 + (b1 - 0x80) * 4096 + (b2 - 0x80) * 64 + (b3 - 0x80))%N
              :: utf8_decode r3
        | _ => []
        end
  end.

Definition u (s : string) : str :=
  utf8_decode (map N_of_ascii (list_ascii_of_string s)).

Arguments u s%_string_scope.

(** [p in s] for two strings: [p] occurs in [s] as a contiguous substring. *)
Fixpoint prefix_of (p s : str) : bool :=
  match p, s with
  | [], _ => true
  | _ :: _, [] => false
  | a :: p', b :: s' => (a =? b)%N && prefix_of p' s'
  end.

Fixpoint substring (p s : str) : bool :=
  prefix_of p s ||
  match s with
  | [] => false
  | _ :: s' => substring p s'
  end.

(** [c in s] for a single character. *)
Definition has_char (c : N) (s : str) : bool := existsb (N.eqb c) s.

Definition str_eqb (a b : str) : bool :=
  if list_eq_dec N.eq_dec a b then true else false.

(** ** The Unicode Character Database *)

Module Unicode.

Definition lookup {A : Type} (t : list (N * A)) (c : N) : option A :=
  option_map snd (find (fun p => (fst p =? c)%N) t).

Definition in_ranges (t : list (N * N)) (c : N) : bool :=
  existsb (fun r => ((fst r <=? c) && (c <=? snd r))%N) t.

Local Open Scope N_scope.

Definition lower_table_0 : list (N * list N) :=
  [
   (0x41, [0x61]); (0x42, [0x62]); (0x43, [0x63]); (0x44, [0x64]); (0x45, [0x65]);
   (0x46, [0x66]); (0x47, [0x67]); (0x48, [0x68]); (0x49, [0x69]); (0x4A, [0x6A]);
   (0x4B, [0x6B]); (0x4C, [0x6C]); (0x4D, [0x6D]); (0x4E, [0x6E]); (0x4F, [0x6F]);
   (0x50, [0x70]); (0x51, [0x71]); (0x52, [0x72]); (0x53, [0x73]); (0x54, [0x74]);
   (0x55, [0x75]); (0x56, [0x76]); (0x57, [0x77]); (0x58, [0x78]); (0x59, [0x79]);
   (0x5A, [0x7A]); (0xC0, [0xE0]); (0xC1, [0xE1]); (0xC2, [0xE2]); (0xC3, [0xE3]);
   (0xC4, [0xE4]); (0xC5, [0xE5]); (0xC6, [0xE6]); (0xC7, [0xE7]); (0xC8, [0xE8]);
   (0xC9, [0xE9]); (0xCA, [0xEA]); (0xCB, [0xEB]); (0xCC, [0xEC]); (0xCD, [0xED]);
   (0xCE, [0xEE]); (0xCF, [0xEF]); (0xD0, [0xF0]); (0xD1, [0xF1]); (0xD2, [0xF2]);
   (0xD3, [0xF3]); (0xD4, [0xF4]); (0xD5, [0xF5]); (0xD6, [0xF6]); (0xD8, [0xF8]);
   (0xD9, [0xF9]); (0xDA, [0xFA]); (0xDB, [0xFB]); (0xDC, [0xFC]); (0xDD, [0xFD]);
   (0xDE, [0xFE]); (0x100, [0x101]); (0x102, [0x103]); (0x104, [0x105]); (0x106, [0x107]);
   (0x108, [0x109]); (0x10A, [0x10B]); (0x10C, [0x10D]); (0x10E, [0x10F]); (0x110, [0x111]);
   (0x112, [0x113]); (0x114, [0x115]); (0x116, [0x117]); (0x118, [0x119]); (0x11A, [0x11B]);
   (0x11C, [0x11D]); (0x11E, [0x11F]); (0x120, [0x121]); (0x122, [0x123]); (0x124, [0x125]);
   (0x126, [0x127]); (0x128, [0x129]); (0x12A, [0x12B]); (0x12C, [0x12D]); (0x12E, [0x12F]);
   (0x130, [0x69; 0x307]); (0x132, [0x133]); (0x134, [0x135]); (0x136, [0x137]); (0x139, [0x13A]);
   (0x13B, [0x13C]); (0x13D, [0x13E]); (0x13F, [0x140]); (0x141, [0x142]); (0x143, [0x144]);
   (0x145, [0x146]); (0x147, [0x148]); (0x14A, [0x14B]); (0x14C, [0x14D]); (0x14E, [0x14F]);
   (0x150, [0x151]); (0x152, [0x153]); (0x154, [0x155]); (0x156, [0x157]); (0x158, [0x159]);
   (0x15A, [0x15B]); (0x15C, [0x15D]); (0x15E, [0x15F]); (0x160, [0x161]); (0x162, [0x163]);
   (0x164, [0x165]); (0x166, [0x167]); (0x168, [0x169]); (0x16A, [0x16B]); (0x16C, [0x16D]);
   (0x16E, [0x16F]); (0x170, [0x171]); (0x172, [0x173]); (0x174, [0x175]); (0x176, [0x177]);
   (0x178, [0xFF]); (0x179, [0x17A]); (0x17B, [0x17C]); (0x17D, [0x17E]); (0x181, [0x253]);
   (0x182, [0x183]); (0x184, [0x185]); (0x186, [0x254]); (0x187, [0x188]); (0x189, [0x256]);
   (0x18A, [0x257]); (0x18B, [0x18C]); (0x18E, [0x1DD]); (0x18F, [0x259]); (0x190, [0x25B]);
   (0x191, [0x192]); (0x193, [0x260]); (0x194, [0x263]); (0x196, [0x269]); (0x197, [0x268]);
   (0x198, [0x199]); (0x19C, [0x26F]); (0x19D, [0x272]); (0x19F, [0x275]); (0x1A0, [0x1A1]);
   (0x1A2, [0x1A3]); (0x1A4, [0x1A5]); (0x1A6, [0x280]); (0x1A7, [0x1A8]); (0x1A9, [0x283]);
   (0x1AC, [0x1AD]); (0x1AE, [0x288]); (0x1AF, [0x1B0]); (0x1B1, [0x28A]); (0x1B2, [0x28B]);
   (0x1B3, [0x1B4]); (0x1B5, [0x1B6]); (0x1B7, [0x292]); (0x1B8, [0x1B9]); (0x1BC, [0x1BD]);
   (0x1C4, [0x1C6]); (0x1C5, [0x1C6]); (0x1C7, [0x1C9]); (0x1C8, [0x1C9]); (0x1CA, [0x1CC]);
   (0x1CB, [0x1CC]); (0x1CD, [0x1CE]); (0x1CF, [0x1D0]); (0x1D1, [0x1D2]); (0x1D3, [0x1D4]);
   (0x1D5, [0x1D6]); (0x1D7, [0x1D8]); (0x1D9, [0x1DA]); (0x1DB, [0x1DC]); (0x1DE, [0x1DF]);
   (0x1E0, [0x1E1]); (0x1E2, [0x1E3]); (0x1E4, [0x1E5]); (0x1E6, [0x1E7]); (0x1E8, [0x1E9]);
   (0x1EA, [0x1EB]); (0x1EC, [0x1ED]); (0x1EE, [0x1EF]); (0x1F1, [0x1F3]); (0x1F2, [0x1F3]);
   (0x1F4, [0x1F5]); (0x1F6, [0x195]); (0x1F7, [0x1BF]); (0x1F8, [0x1F9]); (0x1FA, [0x1FB]);
   (0x1FC, [0x1FD]); (0x1FE, [0x1FF]); (0x200, [0x201]); (0x202, [0x203]); (0x204, [0x205]);
   (0x206, [0x207]); (0x208, [0x209]); (0x20A, [0x20B]); (0x20C, [0x20D]); (0x20E, [0x20F]);
   (0x210, [0x211]); (0x212, [0x213]); (0x214, [0x215]); (0x216, [0x217]); (0x218, [0x219]);
   (0x21A, [0x21B]); (0x21C, [0x21D]); (0x21E, [0x21F]); (0x220, [0x19E]); (0x222, [0x223]);
   (0x224, [0x225]); (0x226, [0x227]); (0x228, [0x229]); (0x22A, [0x22B]); (0x22C, [0x22D]);
   (0x22E, [0x22F]); (0x230, [0x231]); (0x232, [0x233]); (0x23A, [0x2C65]); (0x23B, [0x23C]);
   (0x23D, [0x19A]); (0x23E, [0x2C66]); (0x241, [0x242]); (0x243, [0x180]); (0x244, [0x289]);
   (0x245, [0x28C]); (0x246, [0x247]); (0x248, [0x249]); (0x24A, [0x24B]); (0x24C, [0x24D]);
   (0x24E, [0x24F]); (0x370, [0x371]); (0x372, [0x373]); (0x376, [0x377]); (0x37F, [0x3F3]);
   (0x386, [0x3AC]); (0x388, [0x3AD]); (0x389, [0x3AE]); (0x38A, [0x3AF]); (0x38C, [0x3CC]);
   (0x38E, [0x3CD]); (0x38F, [0x3CE]); (0x391, [0x3B1]); (0x392, [0x3B2]); (0x393, [0x3B3])
  ].

Definition lower_table_1 : list (N * list N) :=
  [
   (0x394, [0x3B4]); (0x395, [0x3B5]); (0x396, [0x3B6]); (0x397, [0x3B7]); (0x398, [0x3B8]);
   (0x399, [0x3B9]); (0x39A, [0x3BA]); (0x39B, [0x3BB]); (0x39C, [0x3BC]); (0x39D, [0x3BD]);
   (0x39E, [0x3BE]); (0x39F, [0x3BF]); (0x3A0, [0x3C0]); (0x3A1, [0x3C1]); (0x3A3, [0x3C3]);
   (0x3A4, [0x3C4]); (0x3A5, [0x3C5]); (0x3A6, [0x3C6]); (0x3A7, [0x3C7]); (0x3A8, [0x3C8]);
   (0x3A9, [0x3C9]); (0x3AA, [0x3CA]); (0x3AB, [0x3CB]); (0x3CF, [0x3D7]); (0x3D8, [0x3D9]);
   (0x3DA, [0x3DB]); (0x3DC, [0x3DD]); (0x3DE, [0x3DF]); (0x3E0, [0x3E1]); (0x3E2, [0x3E3]);
   (0x3E4, [0x3E5]); (0x3E6, [0x3E7]); (0x3E8, [0x3E9]); (0x3EA, [0x3EB]); (0x3EC, [0x3ED]);
   (0x3EE, [0x3EF]); (0x3F4, [0x3B8]); (0x3F7, [0x3F8]); (0x3F9, [0x3F2]); (0x3FA, [0x3FB]);
   (0x3FD, [0x37B]); (0x3FE, [0x37C]); (0x3FF, [0x37D]); (0x400, [0x450]); (0x401, [0x451]);
   (0x402, [0x452]); (0x403, [0x453]); (0x404, [0x454]); (0x405, [0x455]); (0x406, [0x456]);
   (0x407, [0x457]); (0x408, [0x458]); (0x409, [0x459]); (0x40A, [0x45A]); (0x40B, [0x45B]);
   (0x40C, [0x45C]); (0x40D, [0x45D]); (0x40E, [0x45E]); (0x40F, [0x45F]); (0x410, [0x430]);
   (0x411, [0x431]); (0x412, [0x432]); (0x413, [0x433]); (0x414, [0x434]); (0x415, [0x435]);
   (0x416, [0x436]); (0x417, [0x437]); (0x418, [0x438]); (0x419, [0x439]); (0x41A, [0x43A]);
   (0x41B, [0x43B]); (0x41C, [0x43C]); (0x41D, [0x43D]); (0x41E, [0x43E]); (0x41F, [0x43F]);
   (0x420, [0x440]); (0x421, [0x441]); (0x422, [0x442]); (0x423, [0x443]); (0x424, [0x444]);
   (0x425, [0x445]); (0x426, [0x446]); (0x427, [0x447]); (0x428, [0x448]); (0x429, [0x449]);
   (0x42A, [0x44A]); (0x42B, [0x44B]); (0x42C, [0x44C]); (0x42D, [0x44D]); (0x42E, [0x44E]);
   (0x42F, [0x44F]); (0x460, [0x461]); (0x462, [0x463]); (0x464, [0x465]); (0x466, [0x467]);
   (0x468, [0x469]); (0x46A, [0x46B]); (0x46C, [0x46D]); (0x46E, [0x46F]); (0x470, [0x471]);
   (0x472, [0x473]); (0x474, [0x475]); (0x476, [0x477]); (0x478, [0x479]); (0x47A, [0x47B]);
   (0x47C, [0x47D]); (0x47E, [0x47F]); (0x480, [0x481]); (0x48A, [0x48B]); (0x48C, [0x48D]);
   (0x48E, [0x48F]); (0x490, [0x491]); (0x492, [0x493]); (0x494, [0x495]); (0x496, [0x497]);
   (0x498, [0x499]); (0x49A, [0x49B]); (0x49C, [0x49D]); (0x49E, [0x49F]); (0x4A0, [0x4A1]);
   (0x4A2, [0x4A3]); (0x4A4, [0x4A5]); (0x4A6, [0x4A7]); (0x4A8, [0x4A9]); (0x4AA, [0x4AB]);
   (0x4AC, [0x4AD]); (0x4AE, [0x4AF]); (0x4B0, [0x4B1]); (0x4B2, [0x4B3]); (0x4B4, [0x4B5]);
   (0x4B6, [0x4B7]); (0x4B8, [0x4B9]); (0x4BA, [0x4BB]); (0x4BC, [0x4BD]); (0x4BE, [0x4BF]);
   (0x4C0, [0x4CF]); (0x4C1, [0x4C2]); (0x4C3, [0x4C4]); (0x4C5, [0x4C6]); (0x4C7, [0x4C8]);
   (0x4C9, [0x4CA]); (0x4CB, [0x4CC]); (0x4CD, [0x4CE]); (0x4D0, [0x4D1]); (0x4D2, [0x4D3]);
   (0x4D4, [0x4D5]); (0x4D6, [0x4D7]); (0x4D8, [0x4D9]); (0x4DA, [0x4DB]); (0x4DC, [0x4DD]);
   (0x4DE, [0x4DF]); (0x4E0, [0x4E1]); (0x4E2, [0x4E3]); (0x4E4, [0x4E5]); (0x4E6, [0x4E7]);
   (0x4E8, [0x4E9]); (0x4EA, [0x4EB]); (0x4EC, [0x4ED]); (0x4EE, [0x4EF]); (0x4F0, [0x4F1]);
   (0x4F2, [0x4F3]); (0x4F4, [0x4F5]); (0x4F6, [0x4F7]); (0x4F8, [0x4F9]); (0x4FA, [0x4FB]);
   (0x4FC, [0x4FD]); (0x4FE, [0x4FF]); (0x500, [0x501]); (0x502, [0x503]); (0x504, [0x505]);
   (0x506, [0x507]); (0x508, [0x509]); (0x50A, [0x50B]); (0x50C, [0x50D]); (0x50E, [0x50F]);
   (0x510, [0x511]); (0x512, [0x513]); (0x514, [0x515]); (0x516, [0x517]); (0x518, [0x519]);
   (0x51A, [0x51B]); (0x51C, [0x51D]); (0x51E, [0x51F]); (0x520, [0x521]); (0x522, [0x523]);
   (0x524, [0x525]); (0x526, [0x527]); (0x528, [0x529]); (0x52A, [0x52B]); (0x52C, [0x52D]);
   (0x52E, [0x52F]); (0x531, [0x561]); (0x532, [0x562]); (0x533, [0x563]); (0x534, [0x564]);
   (0x535, [0x565]); (0x536, [0x566]); (0x537, [0x567]); (0x538, [0x568]); (0x539, [0x569]);
   (0x53A, [0x56A]); (0x53B, [0x56B]); (0x53C, [0x56C]); (0x53D, [0x56D]); (0x53E, [0x56E]);
   (0x53F, [0x56F]); (0x540, [0x570]); (0x541, [0x571]); (0x542, [0x572]); (0x543, [0x573]);
   (0x544, [0x574]); (0x545, [0x575]); (0x546, [0x576]); (0x547, [0x577]); (0x548, [0x578]);
   (0x549, [0x579]); (0x54A, [0x57A]); (0x54B, [0x57B]); (0x54C, [0x57C]); (0x54D, [0x57D]);
   (0x54E, [0x57E]); (0x54F, [0x57F]); (0x550, [0x580]); (0x551, [0x581]); (0x552, [0x582]);
   (0x553, [0x583]); (0x554, [0x584]); (0x555, [0x585]); (0x556, [0x586]); (0x10A0, [0x2D00]);
   (0x10A1, [0x2D01]); (0x10A2, [0x2D02]); (0x10A3, [0x2D03]); (0x10A4, [0x2D04]); (0x10A5, [0x2D05]);
   (0x10A6, [0x2D06]); (0x10A7, [0x2D07]); (0x10A8, [0x2D08]); (0x10A9, [0x2D09]); (0x10AA, [0x2D0A])
  ].

Definition lower_table_2 : list (N * list N) :=
  [
   (0x10AB, [0x2D0B]); (0x10AC, [0x2D0C]); (0x10AD, [0x2D0D]); (0x10AE, [0x2D0E]); (0x10AF, [0x2D0F]);
   (0x10B0, [0x2D10]); (0x10B1, [0x2D11]); (0x10B2, [0x2D12]); (0x10B3, [0x2D13]); (0x10B4, [0x2D14]);
   (0x10B5, [0x2D15]); (0x10B6, [0x2D16]); (0x10B7, [0x2D17]); (0x10B8, [0x2D18]); (0x10B9, [0x2D19]);
   (0x10BA, [0x2D1A]); (0x10BB, [0x2D1B]); (0x10BC, [0x2D1C]); (0x10BD, [0x2D1D]); (0x10BE, [0x2D1E]);
   (0x10BF, [0x2D1F]); (0x10C0, [0x2D20]); (0x10C1, [0x2D21]); (0x10C2, [0x2D22]); (0x10C3, [0x2D23]);
   (0x10C4, [0x2D24]); (0x10C5, [0x2D25]); (0x10C7, [0x2D27]); (0x10CD, [0x2D2D]); (0x13A0, [0xAB70]);
   (0x13A1, [0xAB71]); (0x13A2, [0xAB72]); (0x13A3, [0xAB73]); (0x13A4, [0xAB74]); (0x13A5, [0xAB75]);
   (0x13A6, [0xAB76]); (0x13A7, [0xAB77]); (0x13A8, [0xAB78]); (0x13A9, [0xAB79]); (0x13AA, [0xAB7A]);
   (0x13AB, [0xAB7B]); (0x13AC, [0xAB7C]); (0x13AD, [0xAB7D]); (0x13AE, [0xAB7E]); (0x13AF, [0xAB7F]);
   (0x13B0, [0xAB80]); (0x13B1, [0xAB81]); (0x13B2, [0xAB82]); (0x13B3, [0xAB83]); (0x13B4, [0xAB84]);
   (0x13B5, [0xAB85]); (0x13B6, [0xAB86]); (0x13B7, [0xAB87]); (0x13B8, [0xAB88]); (0x13B9, [0xAB89]);
   (0x13BA, [0xAB8A]); (0x13BB, [0xAB8B]); (0x13BC, [0xAB8C]); (0x13BD, [0xAB8D]); (0x13BE, [0xAB8E]);
   (0x13BF, [0xAB8F]); (0x13C0, [0xAB90]); (0x13C1, [0xAB91]); (0x13C2, [0xAB92]); (0x13C3, [0xAB93]);
   (0x13C4, [0xAB94]); (0x13C5, [0xAB95]); (0x13C6, [0xAB96]); (0x13C7, [0xAB97]); (0x13C8, [0xAB98]);
   (0x13C9, [0xAB99]); (0x13CA, [0xAB9A]); (0x13CB, [0xAB9B]); (0x13CC, [0xAB9C]); (0x13CD, [0xAB9D]);
   (0x13CE, [0xAB9E]); (0x13CF, [0xAB9F]); (0x13D0, [0xABA0]); (0x13D1, [0xABA1]); (0x13D2, [0xABA2]);
   (0x13D3, [0xABA3]); (0x13D4, [0xABA4]); (0x13D5, [0xABA5]); (0x13D6, [0xABA6]); (0x13D7, [0xABA7]);
   (0x13D8, [0xABA8]); (0x13D9, [0xABA9]); (0x13DA, [0xABAA]); (0x13DB, [0xABAB]); (0x13DC, [0xABAC]);
   (0x13DD, [0xABAD]); (0x13DE, [0xABAE]); (0x13DF, [0xABAF]); (0x13E0, [0xABB0]); (0x13E1, [0xABB1]);
   (0x13E2, [0xABB2]); (0x13E3, [0xABB3]); (0x13E4, [0xABB4]); (0x13E5, [0xABB5]); (0x13E6, [0xABB6]);
   (0x13E7, [0xABB7]); (0x13E8, [0xABB8]); (0x13E9, [0xABB9]); (0x13EA, [0xABBA]); (0x13EB, [0xABBB]);
   (0x13EC, [0xABBC]); (0x13ED, [0xABBD]); (0x13EE, [0xABBE]); (0x13EF, [0xABBF]); (0x13F0, [0x13F8]);
   (0x13F1, [0x13F9]); (0x13F2, [0x13FA]); (0x13F3, [0x13FB]); (0x13F4, [0x13FC]); (0x13F5, [0x13FD]);
   (0x1C90, [0x10D0]); (0x1C91, [0x10D1]); (0x1C92, [0x10D2]); (0x1C93, [0x10D3]); (0x1C94, [0x10D4]);
   (0x1C95, [0x10D5]); (0x1C96, [0x10D6]); (0x1C97, [0x10D7]); (0x1C98, [0x10D8]); (0x1C99, [0x10D9]);
   (0x1C9A, [0x10DA]); (0x1C9B, [0x10DB]); (0x1C9C, [0x10DC]); (0x1C9D, [0x10DD]); (0x1C9E, [0x10DE]);
   (0x1C9F, [0x10DF]); (0x1CA0, [0x10E0]); (0x1CA1, [0x10E1]); (0x1CA2, [0x10E2]); (0x1CA3, [0x10E3]);
   (0x1CA4, [0x10E4]); (0x1CA5, [0x10E5]); (0x1CA6, [0x10E6]); (0x1CA7, [0x10E7]); (0x1CA8, [0x10E8]);
   (0x1CA9, [0x10E9]); (0x1CAA, [0x10EA]); (0x1CAB, [0x10EB]); (0x1CAC, [0x10EC]); (0x1CAD, [0x10ED]);
   (0x1CAE, [0x10EE]); (0x1CAF, [0x10EF]); (0x1CB0, [0x10F0]); (0x1CB1, [0x10F1]); (0x1CB2, [0x10F2]);
   (0x1CB3, [0x10F3]); (0x1CB4, [0x10F4]); (0x1CB5, [0x10F5]); (0x1CB6, [0x10F6]); (0x1CB7, [0x10F7]);
   (0x1CB8, [0x10F8]); (0x1CB9, [0x10F9]); (0x1CBA, [0x10FA]); (0x1CBD, [0x10FD]); (0x1CBE, [0x10FE]);
   (0x1CBF, [0x10FF]); (0x1E00, [0x1E01]); (0x1E02, [0x1E03]); (0x1E04, [0x1E05]); (0x1E06, [0x1E07]);
   (0x1E08, [0x1E09]); (0x1E0A, [0x1E0B]); (0x1E0C, [0x1E0D]); (0x1E0E, [0x1E0F]); (0x1E10, [0x1E11]);
   (0x1E12, [0x1E13]); (0x1E14, [0x1E15]); (0x1E16, [0x1E17]); (0x1E18, [0x1E19]); (0x1E1A, [0x1E1B]);
   (0x1E1C, [0x1E1D]); (0x1E1E, [0x1E1F]); (0x1E20, [0x1E21]); (0x1E22, [0x1E23]); (0x1E24, [0x1E25]);
   (0x1E26, [0x1E27]); (0x1E28, [0x1E29]); (0x1E2A, [0x1E2B]); (0x1E2C, [0x1E2D]); (0x1E2E, [0x1E2F]);
   (0x1E30, [0x1E31]); (0x1E32, [0x1E33]); (0x1E34, [0x1E35]); (0x1E36, [0x1E37]); (0x1E38, [0x1E39]);
   (0x1E3A, [0x1E3B]); (0x1E3C, [0x1E3D]); (0x1E3E, [0x1E3F]); (0x1E40, [0x1E41]); (0x1E42, [0x1E43]);
   (0x1E44, [0x1E45]); (0x1E46, [0x1E47]); (0x1E48, [0x1E49]); (0x1E4A, [0x1E4B]); (0x1E4C, [0x1E4D]);
   (0x1E4E, [0x1E4F]); (0x1E50, [0x1E51]); (0x1E52, [0x1E53]); (0x1E54, [0x1E55]); (0x1E56, [0x1E57]);
   (0x1E58, [0x1E59]); (0x1E5A, [0x1E5B]); (0x1E5C, [0x1E5D]); (0x1E5E, [0x1E5F]); (0x1E60, [0x1E61]);
   (0x1E62, [0x1E63]); (0x1E64, [0x1E65]); (0x1E66, [0x1E67]); (0x1E68, [0x1E69]); (0x1E6A, [0x1E6B]);
   (0x1E6C, [0x1E6D]); (0x1E6E, [0x1E6F]); (0x1E70, [0x1E71]); (0x1E72, [0x1E73]); (0x1E74, [0x1E75]);
   (0x1E76, [0x1E77]); (0x1E78, [0x1E79]); (0x1E7A, [0x1E7B]); (0x1E7C, [0x1E7D]); (0x1E7E, [0x1E7F]);
   (0x1E80, [0x1E81]); (0x1E82, [0x1E83]); (0x1E84, [0x1E85]); (0x1E86, [0x1E87]); (0x1E88, [0x1E89]);
   (0x1E8A, [0x1E8B]); (0x1E8C, [0x1E8D]); (0x1E8E, [0x1E8F]); (0x1E90, [0x1E91]); (0x1E92, [0x1E93]);
   (0x1E94, [0x1E95]); (0x1E9E, [0xDF]); (0x1EA0, [0x1EA1]); (0x1EA2, [0x1EA3]); (0x1EA4, [0x1EA5])
  ].

Definition lower_table_3 : list (N * list N) :=
  [
   (0x1EA6, [0x1EA7]); (0x1EA8, [0x1EA9]); (0x1EAA, [0x1EAB]); (0x1EAC, [0x1EAD]); (0x1EAE, [0x1EAF]);
   (0x1EB0, [0x1EB1]); (0x1EB2, [0x1EB3]); (0x1EB4, [0x1EB5]); (0x1EB6, [0x1EB7]); (0x1EB8, [0x1EB9]);
   (0x1EBA, [0x1EBB]); (0x1EBC, [0x1EBD]); (0x1EBE, [0x1EBF]); (0x1EC0, [0x1EC1]); (0x1EC2, [0x1EC3]);
   (0x1EC4, [0x1EC5]); (0x1EC6, [0x1EC7]); (0x1EC8, [0x1EC9]); (0x1ECA, [0x1ECB]); (0x1ECC, [0x1ECD]);
   (0x1ECE, [0x1ECF]); (0x1ED0, [0x1ED1]); (0x1ED2, [0x1ED3]); (0x1ED4, [0x1ED5]); (0x1ED6, [0x1ED7]);
   (0x1ED8, [0x1ED9]); (0x1EDA, [0x1EDB]); (0x1EDC, [0x1EDD]); (0x1EDE, [0x1EDF]); (0x1EE0, [0x1EE1]);
   (0x1EE2, [0x1EE3]); (0x1EE4, [0x1EE5]); (0x1EE6, [0x1EE7]); (0x1EE8, [0x1EE9]); (0x1EEA, [0x1EEB]);
   (0x1EEC, [0x1EED]); (0x1EEE, [0x1EEF]); (0x1EF0, [0x1EF1]); (0x1EF2, [0x1EF3]); (0x1EF4, [0x1EF5]);
   (0x1EF6, [0x1EF7]); (0x1EF8, [0x1EF9]); (0x1EFA, [0x1EFB]); (0x1EFC, [0x1EFD]); (0x1EFE, [0x1EFF]);
   (0x1F08, [0x1F00]); (0x1F09, [0x1F01]); (0x1F0A, [0x1F02]); (0x1F0B, [0x1F03]); (0x1F0C, [0x1F04]);
   (0x1F0D, [0x1F05]); (0x1F0E, [0x1F06]); (0x1F0F, [0x1F07]); (0x1F18, [0x1F10]); (0x1F19, [0x1F11]);
   (0x1F1A, [0x1F12]); (0x1F1B, [0x1F13]); (0x1F1C, [0x1F14]); (0x1F1D, [0x1F15]); (0x1F28, [0x1F20]);
   (0x1F29, [0x1F21]); (0x1F2A, [0x1F22]); (0x1F2B, [0x1F23]); (0x1F2C, [0x1F24]); (0x1F2D, [0x1F25]);
   (0x1F2E, [0x1F26]); (0x1F2F, [0x1F27]); (0x1F38, [0x1F30]); (0x1F39, [0x1F31]); (0x1F3A, [0x1F32]);
   (0x1F3B, [0x1F33]); (0x1F3C, [0x1F34]); (0x1F3D, [0x1F35]); (0x1F3E, [0x1F36]); (0x1F3F, [0x1F37]);
   (0x1F48, [0x1F40]); (0x1F49, [0x1F41]); (0x1F4A, [0x1F42]); (0x1F4B, [0x1F43]); (0x1F4C, [0x1F44]);
   (0x1F4D, [0x1F45]); (0x1F59, [0x1F51]); (0x1F5B, [0x1F53]); (0x1F5D, [0x1F55]); (0x1F5F, [0x1F57]);
   (0x1F68, [0x1F60]); (0x1F69, [0x1F61]); (0x1F6A, [0x1F62]); (0x1F6B, [0x1F63]); (0x1F6C, [0x1F64]);
   (0x1F6D, [0x1F65]); (0x1F6E, [0x1F66]); (0x1F6F, [0x1F67]); (0x1F88, [0x1F80]); (0x1F89, [0x1F81]);
   (0x1F8A, [0x1F82]); (0x1F8B, [0x1F83]); (0x1F8C, [0x1F84]); (0x1F8D, [0x1F85]); (0x1F8E, [0x1F86]);
   (0x1F8F, [0x1F87]); (0x1F98, [0x1F90]); (0x1F99, [0x1F91]); (0x1F9A, [0x1F92]); (0x1F9B, [0x1F93]);
   (0x1F9C, [0x1F94]); (0x1F9D, [0x1F95]); (0x1F9E, [0x1F96]); (0x1F9F, [0x1F97]); (0x1FA8, [0x1FA0]);
   (0x1FA9, [0x1FA1]); (0x1FAA, [0x1FA2]); (0x1FAB, [0x1FA3]); (0x1FAC, [0x1FA4]); (0x1FAD, [0x1FA5]);
   (0x1FAE, [0x1FA6]); (0x1FAF, [0x1FA7]); (0x1FB8, [0x1FB0]); (0x1FB9, [0x1FB1]); (0x1FBA, [0x1F70]);
   (0x1FBB, [0x1F71]); (0x1FBC, [0x1FB3]); (0x1FC8, [0x1F72]); (0x1FC9, [0x1F73]); (0x1FCA, [0x1F74]);
   (0x1FCB, [0x1F75]); (0x1FCC, [0x1FC3]); (0x1FD8, [0x1FD0]); (0x1FD9, [0x1FD1]); (0x1FDA, [0x1F76]);
   (0x1FDB, [0x1F77]); (0x1FE8, [0x1FE0]); (0x1FE9, [0x1FE1]); (0x1FEA, [0x1F7A]); (0x1FEB, [0x1F7B]);
   (0x1FEC, [0x1FE5]); (0x1FF8, [0x1F78]); (0x1FF9, [0x1F79]); (0x1FFA, [0x1F7C]); (0x1FFB, [0x1F7D]);
   (0x1FFC, [0x1FF3]); (0x2126, [0x3C9]); (0x212A, [0x6B]); (0x212B, [0xE5]); (0x2132, [0x214E]);
   (0x2160, [0x2170]); (0x2161, [0x2171]); (0x2162, [0x2172]); (0x2163, [0x2173]); (0x2164, [0x2174]);
   (0x2165, [0x2175]); (0x2166, [0x2176]); (0x2167, [0x2177]); (0x2168, [0x2178]); (0x2169, [0x2179]);
   (0x216A, [0x217A]); (0x216B, [0x217B]); (0x216C, [0x217C]); (0x216D, [0x217D]); (0x216E, [0x217E]);
   (0x216F, [0x217F]); (0x2183, [0x2184]); (0x24B6, [0x24D0]); (0x24B7, [0x24D1]); (0x24B8, [0x24D2]);
   (0x24B9, [0x24D3]); (0x24BA, [0x24D4]); (0x24BB, [0x24D5]); (0x24BC, [0x24D6]); (0x24BD, [0x24D7]);
   (0x24BE, [0x24D8]); (0x24BF, [0x24D9]); (0x24C0, [0x24DA]); (0x24C1, [0x24DB]); (0x24C2, [0x24DC]);
   (0x24C3, [0x24DD]); (0x24C4, [0x24DE]); (0x24C5, [0x24DF]); (0x24C6, [0x24E0]); (0x24C7, [0x24E1]);
   (0x24C8, [0x24E2]); (0x24C9, [0x24E3]); (0x24CA, [0x24E4]); (0x24CB, [0x24E5]); (0x24CC, [0x24E6]);
   (0x24CD, [0x24E7]); (0x24CE, [0x24E8]); (0x24CF, [0x24E9]); (0x2C00, [0x2C30]); (0x2C01, [0x2C31]);
   (0x2C02, [0x2C32]); (0x2C03, [0x2C33]); (0x2C04, [0x2C34]); (0x2C05, [0x2C35]); (0x2C06, [0x2C36]);
   (0x2C07, [0x2C37]); (0x2C08, [0x2C38]); (0x2C09, [0x2C39]); (0x2C0A, [0x2C3A]); (0x2C0B, [0x2C3B]);
   (0x2C0C, [0x2C3C]); (0x2C0D, [0x2C3D]); (0x2C0E, [0x2C3E]); (0x2C0F, [0x2C3F]); (0x2C10, [0x2C40]);
   (0x2C11, [0x2C41]); (0x2C12, [0x2C42]); (0x2C13, [0x2C43]); (0x2C14, [0x2C44]); (0x2C15, [0x2C45]);
   (0x2C16, [0x2C46]); (0x2C17, [0x2C47]); (0x2C18, [0x2C48]); (0x2C19, [0x2C49]); (0x2C1A, [0x2C4A]);
   (0x2C1B, [0x2C4B]); (0x2C1C, [0x2C4C]); (0x2C1D, [0x2C4D]); (0x2C1E, [0x2C4E]); (0x2C1F, [0x2C4F]);
   (0x2C20, [0x2C50]); (0x2C21, [0x2C51]); (0x2C22, [0x2C52]); (0x2C23, [0x2C53]); (0x2C24, [0x2C54]);
   (0x2C25, [0x2C55]); (0x2C26, [0x2C56]); (0x2C27, [0x2C57]); (0x2C28, [0x2C58]); (0x2C29, [0x2C59]);
   (0x2C2A, [0x2C5A]); (0x2C2B, [0x2C5B]); (0x2C2C, [0x2C5C]); (0x2C2D, [0x2C5D]); (0x2C2E, [0x2C5E]);
   (0x2C2F, [0x2C5F]); (0x2C60, [0x2C61]); (0x2C62, [0x26B]); (0x2C63, [0x1D7D]); (0x2C64, [0x27D])
  ].

Definition lower_table_4 : list (N * list N) :=
  [
   (0x2C67, [0x2C68]); (0x2C69, [0x2C6A]); (0x2C6B, [0x2C6C]); (0x2C6D, [0x251]); (0x2C6E, [0x271]);
   (0x2C6F, [0x250]); (0x2C70, [0x252]); (0x2C72, [0x2C73]); (0x2C75, [0x2C76]); (0x2C7E, [0x23F]);
   (0x2C7F, [0x240]); (0x2C80, [0x2C81]); (0x2C82, [0x2C83]); (0x2C84, [0x2C85]); (0x2C86, [0x2C87]);
   (0x2C88, [0x2C89]); (0x2C8A, [0x2C8B]); (0x2C8C, [0x2C8D]); (0x2C8E, [0x2C8F]); (0x2C90, [0x2C91]);
   (0x2C92, [0x2C93]); (0x2C94, [0x2C95]); (0x2C96, [0x2C97]); (0x2C98, [0x2C99]); (0x2C9A, [0x2C9B]);
   (0x2C9C, [0x2C9D]); (0x2C9E, [0x2C9F]); (0x2CA0, [0x2CA1]); (0x2CA2, [0x2CA3]); (0x2CA4, [0x2CA5]);
   (0x2CA6, [0x2CA7]); (0x2CA8, [0x2CA9]); (0x2CAA, [0x2CAB]); (0x2CAC, [0x2CAD]); (0x2CAE, [0x2CAF]);
   (0x2CB0, [0x2CB1]); (0x2CB2, [0x2CB3]); (0x2CB4, [0x2CB5]); (0x2CB6, [0x2CB7]); (0x2CB8, [0x2CB9]);
   (0x2CBA, [0x2CBB]); (0x2CBC, [0x2CBD]); (0x2CBE, [0x2CBF]); (0x2CC0, [0x2CC1]); (0x2CC2, [0x2CC3]);
   (0x2CC4, [0x2CC5]); (0x2CC6, [0x2CC7]); (0x2CC8, [0x2CC9]); (0x2CCA, [0x2CCB]); (0x2CCC, [0x2CCD]);
   (0x2CCE, [0x2CCF]); (0x2CD0, [0x2CD1]); (0x2CD2, [0x2CD3]); (0x2CD4, [0x2CD5]); (0x2CD6, [0x2CD7]);
   (0x2CD8, [0x2CD9]); (0x2CDA, [0x2CDB]); (0x2CDC, [0x2CDD]); (0x2CDE, [0x2CDF]); (0x2CE0, [0x2CE1]);
   (0x2CE2, [0x2CE3]); (0x2CEB, [0x2CEC]); (0x2CED, [0x2CEE]); (0x2CF2, [0x2CF3]); (0xA640, [0xA641]);
   (0xA642, [0xA643]); (0xA644, [0xA645]); (0xA646, [0xA647]); (0xA648, [0xA649]); (0xA64A, [0xA64B]);
   (0xA64C, [0xA64D]); (0xA64E, [0xA64F]); (0xA650, [0xA651]); (0xA652, [0xA653]); (0xA654, [0xA655]);
   (0xA656, [0xA657]); (0xA658, [0xA659]); (0xA65A, [0xA65B]); (0xA65C, [0xA65D]); (0xA65E, [0xA65F]);
   (0xA660, [0xA661]); (0xA662, [0xA663]); (0xA664, [0xA665]); (0xA666, [0xA667]); (0xA668, [0xA669]);
   (0xA66A, [0xA66B]); (0xA66C, [0xA66D]); (0xA680, [0xA681]); (0xA682, [0xA683]); (0xA684, [0xA685]);
   (0xA686, [0xA687]); (0xA688, [0xA689]); (0xA68A, [0xA68B]); (0xA68C, [0xA68D]); (0xA68E, [0xA68F]);
   (0xA690, [0xA691]); (0xA692, [0xA693]); (0xA694, [0xA695]); (0xA696, [0xA697]); (0xA698, [0xA699]);
   (0xA69A, [0xA69B]); (0xA722, [0xA723]); (0xA724, [0xA725]); (0xA726, [0xA727]); (0xA728, [0xA729]);
   (0xA72A, [0xA72B]); (0xA72C, [0xA72D]); (0xA72E, [0xA72F]); (0xA732, [0xA733]); (0xA734, [0xA735]);
   (0xA736, [0xA737]); (0xA738, [0xA739]); (0xA73A, [0xA73B]); (0xA73C, [0xA73D]); (0xA73E, [0xA73F]);
   (0xA740, [0xA741]); (0xA742, [0xA743]); (0xA744, [0xA745]); (0xA746, [0xA747]); (0xA748, [0xA749]);
   (0xA74A, [0xA74B]); (0xA74C, [0xA74D]); (0xA74E, [0xA74F]); (0xA750, [0xA751]); (0xA752, [0xA753]);
   (0xA754, [0xA755]); (0xA756, [0xA757]); (0xA758, [0xA759]); (0xA75A, [0xA75B]); (0xA75C, [0xA75D]);
   (0xA75E, [0xA75F]); (0xA760, [0xA761]); (0xA762, [0xA763]); (0xA764, [0xA765]); (0xA766, [0xA767]);
   (0xA768, [0xA769]); (0xA76A, [0xA76B]); (0xA76C, [0xA76D]); (0xA76E, [0xA76F]); (0xA779, [0xA77A]);
   (0xA77B, [0xA77C]); (0xA77D, [0x1D79]); (0xA77E, [0xA77F]); (0xA780, [0xA781]); (0xA782, [0xA783]);
   (0xA784, [0xA785]); (0xA786, [0xA787]); (0xA78B, [0xA78C]); (0xA78D, [0x265]); (0xA790, [0xA791]);
   (0xA792, [0xA793]); (0xA796, [0xA797]); (0xA798, [0xA799]); (0xA79A, [0xA79B]); (0xA79C, [0xA79D]);
   (0xA79E, [0xA79F]); (0xA7A0, [0xA7A1]); (0xA7A2, [0xA7A3]); (0xA7A4, [0xA7A5]); (0xA7A6, [0xA7A7]);
   (0xA7A8, [0xA7A9]); (0xA7AA, [0x266]); (0xA7AB, [0x25C]); (0xA7AC, [0x261]); (0xA7AD, [0x26C]);
   (0xA7AE, [0x26A]); (0xA7B0, [0x29E]); (0xA7B1, [0x287]); (0xA7B2, [0x29D]); (0xA7B3, [0xAB53]);
   (0xA7B4, [0xA7B5]); (0xA7B6, [0xA7B7]); (0xA7B8, [0xA7B9]); (0xA7BA, [0xA7BB]); (0xA7BC, [0xA7BD]);
   (0xA7BE, [0xA7BF]); (0xA7C0, [0xA7C1]); (0xA7C2, [0xA7C3]); (0xA7C4, [0xA794]); (0xA7C5, [0x282]);
   (0xA7C6, [0x1D8E]); (0xA7C7, [0xA7C8]); (0xA7C9, [0xA7CA]); (0xA7D0, [0xA7D1]); (0xA7D6, [0xA7D7]);
   (0xA7D8, [0xA7D9]); (0xA7F5, [0xA7F6]); (0xFF21, [0xFF41]); (0xFF22, [0xFF42]); (0xFF23, [0xFF43]);
   (0xFF24, [0xFF44]); (0xFF25, [0xFF45]); (0xFF26, [0xFF46]); (0xFF27, [0xFF47]); (0xFF28, [0xFF48]);
   (0xFF29, [0xFF49]); (0xFF2A, [0xFF4A]); (0xFF2B, [0xFF4B]); (0xFF2C, [0xFF4C]); (0xFF2D, [0xFF4D]);
   (0xFF2E, [0xFF4E]); (0xFF2F, [0xFF4F]); (0xFF30, [0xFF50]); (0xFF31, [0xFF51]); (0xFF32, [0xFF52]);
   (0xFF33, [0xFF53]); (0xFF34, [0xFF54]); (0xFF35, [0xFF55]); (0xFF36, [0xFF56]); (0xFF37, [0xFF57]);
   (0xFF38, [0xFF58]); (0xFF39, [0xFF59]); (0xFF3A, [0xFF5A]); (0x10400, [0x10428]); (0x10401, [0x10429]);
   (0x10402, [0x1042A]); (0x10403, [0x1042B]); (0x10404, [0x1042C]); (0x10405, [0x1042D]); (0x10406, [0x1042E]);
   (0x10407, [0x1042F]); (0x10408, [0x10430]); (0x10409, [0x10431]); (0x1040A, [0x10432]); (0x1040B, [0x10433]);
   (0x1040C, [0x10434]); (0x1040D, [0x10435]); (0x1040E, [0x10436]); (0x1040F, [0x10437]); (0x10410, [0x10438]);
   (0x10411, [0x10439]); (0x10412, [0x1043A]); (0x10413, [0x1043B]); (0x10414, [0x1043C]); (0x10415, [0x1043D]);
   (0x10416, [0x1043E]); (0x10417, [0x1043F]); (0x10418, [0x10440]); (0x10419, [0x10441]); (0x1041A, [0x10442])
  ].

Definition lower_table_5 : list (N * list N) :=
  [
   (0x1041B, [0x10443]); (0x1041C, [0x10444]); (0x1041D, [0x10445]); (0x1041E, [0x10446]); (0x1041F, [0x10447]);
   (0x10420, [0x10448]); (0x10421, [0x10449]); (0x10422, [0x1044A]); (0x10423, [0x1044B]); (0x10424, [0x1044C]);
   (0x10425, [0x1044D]); (0x10426, [0x1044E]); (0x10427, [0x1044F]); (0x104B0, [0x104D8]); (0x104B1, [0x104D9]);
   (0x104B2, [0x104DA]); (0x104B3, [0x104DB]); (0x104B4, [0x104DC]); (0x104B5, [0x104DD]); (0x104B6, [0x104DE]);
   (0x104B7, [0x104DF]); (0x104B8, [0x104E0]); (0x104B9, [0x104E1]); (0x104BA, [0x104E2]); (0x104BB, [0x104E3]);
   (0x104BC, [0x104E4]); (0x104BD, [0x104E5]); (0x104BE, [0x104E6]); (0x104BF, [0x104E7]); (0x104C0, [0x104E8]);
   (0x104C1, [0x104E9]); (0x104C2, [0x104EA]); (0x104C3, [0x104EB]); (0x104C4, [0x104EC]); (0x104C5, [0x104ED]);
   (0x104C6, [0x104EE]); (0x104C7, [0x104EF]); (0x104C8, [0x104F0]); (0x104C9, [0x104F1]); (0x104CA, [0x104F2]);
   (0x104CB, [0x104F3]); (0x104CC, [0x104F4]); (0x104CD, [0x104F5]); (0x104CE, [0x104F6]); (0x104CF, [0x104F7]);
   (0x104D0, [0x104F8]); (0x104D1, [0x104F9]); (0x104D2, [0x104FA]); (0x104D3, [0x104FB]); (0x10570, [0x10597]);
   (0x10571, [0x10598]); (0x10572, [0x10599]); (0x10573, [0x1059A]); (0x10574, [0x1059B]); (0x10575, [0x1059C]);
   (0x10576, [0x1059D]); (0x10577, [0x1059E]); (0x10578, [0x1059F]); (0x10579, [0x105A0]); (0x1057A, [0x105A1]);
   (0x1057C, [0x105A3]); (0x1057D, [0x105A4]); (0x1057E, [0x105A5]); (0x1057F, [0x105A6]); (0x10580, [0x105A7]);
   (0x10581, [0x105A8]); (0x10582, [0x105A9]); (0x10583, [0x105AA]); (0x10584, [0x105AB]); (0x10585, [0x105AC]);
   (0x10586, [0x105AD]); (0x10587, [0x105AE]); (0x10588, [0x105AF]); (0x10589, [0x105B0]); (0x1058A, [0x105B1]);
   (0x1058C, [0x105B3]); (0x1058D, [0x105B4]); (0x1058E, [0x105B5]); (0x1058F, [0x105B6]); (0x10590, [0x105B7]);
   (0x10591, [0x105B8]); (0x10592, [0x105B9]); (0x10594, [0x105BB]); (0x10595, [0x105BC]); (0x10C80, [0x10CC0]);
   (0x10C81, [0x10CC1]); (0x10C82, [0x10CC2]); (0x10C83, [0x10CC3]); (0x10C84, [0x10CC4]); (0x10C85, [0x10CC5]);
   (0x10C86, [0x10CC6]); (0x10C87, [0x10CC7]); (0x10C88, [0x10CC8]); (0x10C89, [0x10CC9]); (0x10C8A, [0x10CCA]);
   (0x10C8B, [0x10CCB]); (0x10C8C, [0x10CCC]); (0x10C8D, [0x10CCD]); (0x10C8E, [0x10CCE]); (0x10C8F, [0x10CCF]);
   (0x10C90, [0x10CD0]); (0x10C91, [0x10CD1]); (0x10C92, [0x10CD2]); (0x10C93, [0x10CD3]); (0x10C94, [0x10CD4]);
   (0x10C95, [0x10CD5]); (0x10C96, [0x10CD6]); (0x10C97, [0x10CD7]); (0x10C98, [0x10CD8]); (0x10C99, [0x10CD9]);
   (0x10C9A, [0x10CDA]); (0x10C9B, [0x10CDB]); (0x10C9C, [0x10CDC]); (0x10C9D, [0x10CDD]); (0x10C9E, [0x10CDE]);
   (0x10C9F, [0x10CDF]); (0x10CA0, [0x10CE0]); (0x10CA1, [0x10CE1]); (0x10CA2, [0x10CE2]); (0x10CA3, [0x10CE3]);
   (0x10CA4, [0x10CE4]); (0x10CA5, [0x10CE5]); (0x10CA6, [0x10CE6]); (0x10CA7, [0x10CE7]); (0x10CA8, [0x10CE8]);
   (0x10CA9, [0x10CE9]); (0x10CAA, [0x10CEA]); (0x10CAB, [0x10CEB]); (0x10CAC, [0x10CEC]); (0x10CAD, [0x10CED]);
   (0x10CAE, [0x10CEE]); (0x10CAF, [0x10CEF]); (0x10CB0, [0x10CF0]); (0x10CB1, [0x10CF1]); (0x10CB2, [0x10CF2]);
   (0x118A0, [0x118C0]); (0x118A1, [0x118C1]); (0x118A2, [0x118C2]); (0x118A3, [0x118C3]); (0x118A4, [0x118C4]);
   (0x118A5, [0x118C5]); (0x118A6, [0x118C6]); (0x118A7, [0x118C7]); (0x118A8, [0x118C8]); (0x118A9, [0x118C9]);
   (0x118AA, [0x118CA]); (0x118AB, [0x118CB]); (0x118AC, [0x118CC]); (0x118AD, [0x118CD]); (0x118AE, [0x118CE]);
   (0x118AF, [0x118CF]); (0x118B0, [0x118D0]); (0x118B1, [0x118D1]); (0x118B2, [0x118D2]); (0x118B3, [0x118D3]);
   (0x118B4, [0x118D4]); (0x118B5, [0x118D5]); (0x118B6, [0x118D6]); (0x118B7, [0x118D7]); (0x118B8, [0x118D8]);
   (0x118B9, [0x118D9]); (0x118BA, [0x118DA]); (0x118BB, [0x118DB]); (0x118BC, [0x118DC]); (0x118BD, [0x118DD]);
   (0x118BE, [0x118DE]); (0x118BF, [0x118DF]); (0x16E40, [0x16E60]); (0x16E41, [0x16E61]); (0x16E42, [0x16E62]);
   (0x16E43, [0x16E63]); (0x16E44, [0x16E64]); (0x16E45, [0x16E65]); (0x16E46, [0x16E66]); (0x16E47, [0x16E67]);
   (0x16E48, [0x16E68]); (0x16E49, [0x16E69]); (0x16E4A, [0x16E6A]); (0x16E4B, [0x16E6B]); (0x16E4C, [0x16E6C]);
   (0x16E4D, [0x16E6D]); (0x16E4E, [0x16E6E]); (0x16E4F, [0x16E6F]); (0x16E50, [0x16E70]); (0x16E51, [0x16E71]);
   (0x16E52, [0x16E72]); (0x16E53, [0x16E73]); (0x16E54, [0x16E74]); (0x16E55, [0x16E75]); (0x16E56, [0x16E76]);
   (0x16E57, [0x16E77]); (0x16E58, [0x16E78]); (0x16E59, [0x16E79]); (0x16E5A, [0x16E7A]); (0x16E5B, [0x16E7B]);
   (0x16E5C, [0x16E7C]); (0x16E5D, [0x16E7D]); (0x16E5E, [0x16E7E]); (0x16E5F, [0x16E7F]); (0x1E900, [0x1E922]);
   (0x1E901, [0x1E923]); (0x1E902, [0x1E924]); (0x1E903, [0x1E925]); (0x1E904, [0x1E926]); (0x1E905, [0x1E927]);
   (0x1E906, [0x1E928]); (0x1E907, [0x1E929]); (0x1E908, [0x1E92A]); (0x1E909, [0x1E92B]); (0x1E90A, [0x1E92C]);
   (0x1E90B, [0x1E92D]); (0x1E90C, [0x1E92E]); (0x1E90D, [0x1E92F]); (0x1E90E, [0x1E930]); (0x1E90F, [0x1E931]);
   (0x1E910, [0x1E932]); (0x1E911, [0x1E933]); (0x1E912, [0x1E934]); (0x1E913, [0x1E935]); (0x1E914, [0x1E936]);
   (0x1E915, [0x1E937]); (0x1E916, [0x1E938]); (0x1E917, [0x1E939]); (0x1E918, [0x1E93A]); (0x1E919, [0x1E93B]);
   (0x1E91A, [0x1E93C]); (0x1E91B, [0x1E93D]); (0x1E91C, [0x1E93E]); (0x1E91D, [0x1E93F]); (0x1E91E, [0x1E940]);
   (0x1E91F, [0x1E941]); (0x1E920, [0x1E942]); (0x1E921, [0x1E943])
  ].

(** [str.lower] of every single code point that it changes. *)
Definition lower_table : list (N * list N) :=
  lower_table_0 ++ lower_table_1 ++ lower_table_2 ++ lower_table_3 ++ lower_table_4 ++ lower_table_5.
Definition decomp_table_0 : list (N * list N) :=
  [
   (0xC0, [0x41; 0x300]); (0xC1, [0x41; 0x301]); (0xC2, [0x41; 0x302]); (0xC3, [0x41; 0x303]);
   (0xC4, [0x41; 0x308]); (0xC5, [0x41; 0x30A]); (0xC7, [0x43; 0x327]); (0xC8, [0x45; 0x300]);
   (0xC9, [0x45; 0x301]); (0xCA, [0x45; 0x302]); (0xCB, [0x45; 0x308]); (0xCC, [0x49; 0x300]);
   (0xCD, [0x49; 0x301]); (0xCE, [0x49; 0x302]); (0xCF, [0x49; 0x308]); (0xD1, [0x4E; 0x303]);
   (0xD2, [0x4F; 0x300]); (0xD3, [0x4F; 0x301]); (0xD4, [0x4F; 0x302]); (0xD5, [0x4F; 0x303]);
   (0xD6, [0x4F; 0x308]); (0xD9, [0x55; 0x300]); (0xDA, [0x55; 0x301]); (0xDB, [0x55; 0x302]);
   (0xDC, [0x55; 0x308]); (0xDD, [0x59; 0x301]); (0xE0, [0x61; 0x300]); (0xE1, [0x61; 0x301]);
   (0xE2, [0x61; 0x302]); (0xE3, [0x61; 0x303]); (0xE4, [0x61; 0x308]); (0xE5, [0x61; 0x30A]);
   (0xE7, [0x63; 0x327]); (0xE8, [0x65; 0x300]); (0xE9, [0x65; 0x301]); (0xEA, [0x65; 0x302]);
   (0xEB, [0x65; 0x308]); (0xEC, [0x69; 0x300]); (0xED, [0x69; 0x301]); (0xEE, [0x69; 0x302]);
   (0xEF, [0x69; 0x308]); (0xF1, [0x6E; 0x303]); (0xF2, [0x6F; 0x300]); (0xF3, [0x6F; 0x301]);
   (0xF4, [0x6F; 0x302]); (0xF5, [0x6F; 0x303]); (0xF6, [0x6F; 0x308]); (0xF9, [0x75; 0x300]);
   (0xFA, [0x75; 0x301]); (0xFB, [0x75; 0x302]); (0xFC, [0x75; 0x308]); (0xFD, [0x79; 0x301]);
   (0xFF, [0x79; 0x308]); (0x100, [0x41; 0x304]); (0x101, [0x61; 0x304]); (0x102, [0x41; 0x306]);
   (0x103, [0x61; 0x306]); (0x104, [0x41; 0x328]); (0x105, [0x61; 0x328]); (0x106, [0x43; 0x301]);
   (0x107, [0x63; 0x301]); (0x108, [0x43; 0x302]); (0x109, [0x63; 0x302]); (0x10A, [0x43; 0x307]);
   (0x10B, [0x63; 0x307]); (0x10C, [0x43; 0x30C]); (0x10D, [0x63; 0x30C]); (0x10E, [0x44; 0x30C]);
   (0x10F, [0x64; 0x30C]); (0x112, [0x45; 0x304]); (0x113, [0x65; 0x304]); (0x114, [0x45; 0x306]);
   (0x115, [0x65; 0x306]); (0x116, [0x45; 0x307]); (0x117, [0x65; 0x307]); (0x118, [0x45; 0x328]);
   (0x119, [0x65; 0x328]); (0x11A, [0x45; 0x30C]); (0x11B, [0x65; 0x30C]); (0x11C, [0x47; 0x302]);
   (0x11D, [0x67; 0x302]); (0x11E, [0x47; 0x306]); (0x11F, [0x67; 0x306]); (0x120, [0x47; 0x307]);
   (0x121, [0x67; 0x307]); (0x122, [0x47; 0x327]); (0x123, [0x67; 0x327]); (0x124, [0x48; 0x302]);
   (0x125, [0x68; 0x302]); (0x128, [0x49; 0x303]); (0x129, [0x69; 0x303]); (0x12A, [0x49; 0x304]);
   (0x12B, [0x69; 0x304]); (0x12C, [0x49; 0x306]); (0x12D, [0x69; 0x306]); (0x12E, [0x49; 0x328]);
   (0x12F, [0x69; 0x328]); (0x130, [0x49; 0x307]); (0x134, [0x4A; 0x302]); (0x135, [0x6A; 0x302]);
   (0x136, [0x4B; 0x327]); (0x137, [0x6B; 0x327]); (0x139, [0x4C; 0x301]); (0x13A, [0x6C; 0x301]);
   (0x13B, [0x4C; 0x327]); (0x13C, [0x6C; 0x327]); (0x13D, [0x4C; 0x30C]); (0x13E, [0x6C; 0x30C]);
   (0x143, [0x4E; 0x301]); (0x144, [0x6E; 0x301]); (0x145, [0x4E; 0x327]); (0x146, [0x6E; 0x327]);
   (0x147, [0x4E; 0x30C]); (0x148, [0x6E; 0x30C]); (0x14C, [0x4F; 0x304]); (0x14D, [0x6F; 0x304]);
   (0x14E, [0x4F; 0x306]); (0x14F, [0x6F; 0x306]); (0x150, [0x4F; 0x30B]); (0x151, [0x6F; 0x30B]);
   (0x154, [0x52; 0x301]); (0x155, [0x72; 0x301]); (0x156, [0x52; 0x327]); (0x157, [0x72; 0x327]);
   (0x158, [0x52; 0x30C]); (0x159, [0x72; 0x30C]); (0x15A, [0x53; 0x301]); (0x15B, [0x73; 0x301]);
   (0x15C, [0x53; 0x302]); (0x15D, [0x73; 0x302]); (0x15E, [0x53; 0x327]); (0x15F, [0x73; 0x327]);
   (0x160, [0x53; 0x30C]); (0x161, [0x73; 0x30C]); (0x162, [0x54; 0x327]); (0x163, [0x74; 0x327]);
   (0x164, [0x54; 0x30C]); (0x165, [0x74; 0x30C]); (0x168, [0x55; 0x303]); (0x169, [0x75; 0x303]);
   (0x16A, [0x55; 0x304]); (0x16B, [0x75; 0x304]); (0x16C, [0x55; 0x306]); (0x16D, [0x75; 0x306]);
   (0x16E, [0x55; 0x30A]); (0x16F, [0x75; 0x30A]); (0x170, [0x55; 0x30B]); (0x171, [0x75; 0x30B]);
   (0x172, [0x55; 0x328]); (0x173, [0x75; 0x328]); (0x174, [0x57; 0x302]); (0x175, [0x77; 0x302]);
   (0x176, [0x59; 0x302]); (0x177, [0x79; 0x302]); (0x178, [0x59; 0x308]); (0x179, [0x5A; 0x301]);
   (0x17A, [0x7A; 0x301]); (0x17B, [0x5A; 0x307]); (0x17C, [0x7A; 0x307]); (0x17D, [0x5A; 0x30C]);
   (0x17E, [0x7A; 0x30C]); (0x1A0, [0x4F; 0x31B]); (0x1A1, [0x6F; 0x31B]); (0x1AF, [0x55; 0x31B]);
   (0x1B0, [0x75; 0x31B]); (0x1CD, [0x41; 0x30C]); (0x1CE, [0x61; 0x30C]); (0x1CF, [0x49; 0x30C]);
   (0x1D0, [0x69; 0x30C]); (0x1D1, [0x4F; 0x30C]); (0x1D2, [0x6F; 0x30C]); (0x1D3, [0x55; 0x30C]);
   (0x1D4, [0x75; 0x30C]); (0x1D5, [0x55; 0x308; 0x304]); (0x1D6, [0x75; 0x308; 0x304]); (0x1D7, [0x55; 0x308; 0x301]);
   (0x1D8, [0x75; 0x308; 0x301]); (0x1D9, [0x55; 0x308; 0x30C]); (0x1DA, [0x75; 0x308; 0x30C]); (0x1DB, [0x55; 0x308; 0x300]);
   (0x1DC, [0x75; 0x308; 0x300]); (0x1DE, [0x41; 0x308; 0x304]); (0x1DF, [0x61; 0x308; 0x304]); (0x1E0, [0x41; 0x307; 0x304]);
   (0x1E1, [0x61; 0x307; 0x304]); (0x1E2, [0xC6; 0x304]); (0x1E3, [0xE6; 0x304]); (0x1E6, [0x47; 0x30C]);
   (0x1E7, [0x67; 0x30C]); (0x1E8, [0x4B; 0x30C]); (0x1E9, [0x6B; 0x30C]); (0x1EA, [0x4F; 0x328]);
   (0x1EB, [0x6F; 0x328]); (0x1EC, [0x4F; 0x328; 0x304]); (0x1ED, [0x6F; 0x328; 0x304]); (0x1EE, [0x1B7; 0x30C]);
   (0x1EF, [0x292; 0x30C]); (0x1F0, [0x6A; 0x30C]); (0x1F4, [0x47; 0x301]); (0x1F5, [0x67; 0x301]);
   (0x1F8, [0x4E; 0x300]); (0x1F9, [0x6E; 0x300]); (0x1FA, [0x41; 0x30A; 0x301]); (0x1FB, [0x61; 0x30A; 0x301]);
   (0x1FC, [0xC6; 0x301]); (0x1FD, [0xE6; 0x301]); (0x1FE, [0xD8; 0x301]); (0x1FF, [0xF8; 0x301]);
   (0x200, [0x41; 0x30F]); (0x201, [0x61; 0x30F]); (0x202, [0x41; 0x311]); (0x203, [0x61; 0x311]);
   (0x204, [0x45; 0x30F]); (0x205, [0x65; 0x30F]); (0x206, [0x45; 0x311]); (0x207, [0x65; 0x311]);
   (0x208, [0x49; 0x30F]); (0x209, [0x69; 0x30F]); (0x20A, [0x49; 0x311]); (0x20B, [0x69; 0x311]);
   (0x20C, [0x4F; 0x30F]); (0x20D, [0x6F; 0x30F]); (0x20E, [0x4F; 0x311]); (0x20F, [0x6F; 0x311]);
   (0x210, [0x52; 0x30F]); (0x211, [0x72; 0x30F]); (0x212, [0x52; 0x311]); (0x213, [0x72; 0x311]);
   (0x214, [0x55; 0x30F]); (0x215, [0x75; 0x30F]); (0x216, [0x55; 0x311]); (0x217, [0x75; 0x311]);
   (0x218, [0x53; 0x326]); (0x219, [0x73; 0x326]); (0x21A, [0x54; 0x326]); (0x21B, [0x74; 0x326]);
   (0x21E, [0x48; 0x30C]); (0x21F, [0x68; 0x30C]); (0x226, [0x41; 0x307]); (0x227, [0x61; 0x307])
  ].

Definition decomp_table_1 : list (N * list N) :=
  [
   (0x228, [0x45; 0x327]); (0x229, [0x65; 0x327]); (0x22A, [0x4F; 0x308; 0x304]); (0x22B, [0x6F; 0x308; 0x304]);
   (0x22C, [0x4F; 0x303; 0x304]); (0x22D, [0x6F; 0x303; 0x304]); (0x22E, [0x4F; 0x307]); (0x22F, [0x6F; 0x307]);
   (0x230, [0x4F; 0x307; 0x304]); (0x231, [0x6F; 0x307; 0x304]); (0x232, [0x59; 0x304]); (0x233, [0x79; 0x304]);
   (0x340, [0x300]); (0x341, [0x301]); (0x343, [0x313]); (0x344, [0x308; 0x301]);
   (0x374, [0x2B9]); (0x37E, [0x3B]); (0x385, [0xA8; 0x301]); (0x386, [0x391; 0x301]);
   (0x387, [0xB7]); (0x388, [0x395; 0x301]); (0x389, [0x397; 0x301]); (0x38A, [0x399; 0x301]);
   (0x38C, [0x39F; 0x301]); (0x38E, [0x3A5; 0x301]); (0x38F, [0x3A9; 0x301]); (0x390, [0x3B9; 0x308; 0x301]);
   (0x3AA, [0x399; 0x308]); (0x3AB, [0x3A5; 0x308]); (0x3AC, [0x3B1; 0x301]); (0x3AD, [0x3B5; 0x301]);
   (0x3AE, [0x3B7; 0x301]); (0x3AF, [0x3B9; 0x301]); (0x3B0, [0x3C5; 0x308; 0x301]); (0x3CA, [0x3B9; 0x308]);
   (0x3CB, [0x3C5; 0x308]); (0x3CC, [0x3BF; 0x301]); (0x3CD, [0x3C5; 0x301]); (0x3CE, [0x3C9; 0x301]);
   (0x3D3, [0x3D2; 0x301]); (0x3D4, [0x3D2; 0x308]); (0x400, [0x415; 0x300]); (0x401, [0x415; 0x308]);
   (0x403, [0x413; 0x301]); (0x407, [0x406; 0x308]); (0x40C, [0x41A; 0x301]); (0x40D, [0x418; 0x300]);
   (0x40E, [0x423; 0x306]); (0x419, [0x418; 0x306]); (0x439, [0x438; 0x306]); (0x450, [0x435; 0x300]);
   (0x451, [0x435; 0x308]); (0x453, [0x433; 0x301]); (0x457, [0x456; 0x308]); (0x45C, [0x43A; 0x301]);
   (0x45D, [0x438; 0x300]); (0x45E, [0x443; 0x306]); (0x476, [0x474; 0x30F]); (0x477, [0x475; 0x30F]);
   (0x4C1, [0x416; 0x306]); (0x4C2, [0x436; 0x306]); (0x4D0, [0x410; 0x306]); (0x4D1, [0x430; 0x306]);
   (0x4D2, [0x410; 0x308]); (0x4D3, [0x430; 0x308]); (0x4D6, [0x415; 0x306]); (0x4D7, [0x435; 0x306]);
   (0x4DA, [0x4D8; 0x308]); (0x4DB, [0x4D9; 0x308]); (0x4DC, [0x416; 0x308]); (0x4DD, [0x436; 0x308]);
   (0x4DE, [0x417; 0x308]); (0x4DF, [0x437; 0x308]); (0x4E2, [0x418; 0x304]); (0x4E3, [0x438; 0x304]);
   (0x4E4, [0x418; 0x308]); (0x4E5, [0x438; 0x308]); (0x4E6, [0x41E; 0x308]); (0x4E7, [0x43E; 0x308]);
   (0x4EA, [0x4E8; 0x308]); (0x4EB, [0x4E9; 0x308]); (0x4EC, [0x42D; 0x308]); (0x4ED, [0x44D; 0x308]);
   (0x4EE, [0x423; 0x304]); (0x4EF, [0x443; 0x304]); (0x4F0, [0x423; 0x308]); (0x4F1, [0x443; 0x308]);
   (0x4F2, [0x423; 0x30B]); (0x4F3, [0x443; 0x30B]); (0x4F4, [0x427; 0x308]); (0x4F5, [0x447; 0x308]);
   (0x4F8, [0x42B; 0x308]); (0x4F9, [0x44B; 0x308]); (0x622, [0x627; 0x653]); (0x623, [0x627; 0x654]);
   (0x624, [0x648; 0x654]); (0x625, [0x627; 0x655]); (0x626, [0x64A; 0x654]); (0x6C0, [0x6D5; 0x654]);
   (0x6C2, [0x6C1; 0x654]); (0x6D3, [0x6D2; 0x654]); (0x929, [0x928; 0x93C]); (0x931, [0x930; 0x93C]);
   (0x934, [0x933; 0x93C]); (0x958, [0x915; 0x93C]); (0x959, [0x916; 0x93C]); (0x95A, [0x917; 0x93C]);
   (0x95B, [0x91C; 0x93C]); (0x95C, [0x921; 0x93C]); (0x95D, [0x922; 0x93C]); (0x95E, [0x92B; 0x93C]);
   (0x95F, [0x92F; 0x93C]); (0x9CB, [0x9C7; 0x9BE]); (0x9CC, [0x9C7; 0x9D7]); (0x9DC, [0x9A1; 0x9BC]);
   (0x9DD, [0x9A2; 0x9BC]); (0x9DF, [0x9AF; 0x9BC]); (0xA33, [0xA32; 0xA3C]); (0xA36, [0xA38; 0xA3C]);
   (0xA59, [0xA16; 0xA3C]); (0xA5A, [0xA17; 0xA3C]); (0xA5B, [0xA1C; 0xA3C]); (0xA5E, [0xA2B; 0xA3C]);
   (0xB48, [0xB47; 0xB56]); (0xB4B, [0xB47; 0xB3E]); (0xB4C, [0xB47; 0xB57]); (0xB5C, [0xB21; 0xB3C]);
   (0xB5D, [0xB22; 0xB3C]); (0xB94, [0xB92; 0xBD7]); (0xBCA, [0xBC6; 0xBBE]); (0xBCB, [0xBC7; 0xBBE]);
   (0xBCC, [0xBC6; 0xBD7]); (0xC48, [0xC46; 0xC56]); (0xCC0, [0xCBF; 0xCD5]); (0xCC7, [0xCC6; 0xCD5]);
   (0xCC8, [0xCC6; 0xCD6]); (0xCCA, [0xCC6; 0xCC2]); (0xCCB, [0xCC6; 0xCC2; 0xCD5]); (0xD4A, [0xD46; 0xD3E]);
   (0xD4B, [0xD47; 0xD3E]); (0xD4C, [0xD46; 0xD57]); (0xDDA, [0xDD9; 0xDCA]); (0xDDC, [0xDD9; 0xDCF]);
   (0xDDD, [0xDD9; 0xDCF; 0xDCA]); (0xDDE, [0xDD9; 0xDDF]); (0xF43, [0xF42; 0xFB7]); (0xF4D, [0xF4C; 0xFB7]);
   (0xF52, [0xF51; 0xFB7]); (0xF57, [0xF56; 0xFB7]); (0xF5C, [0xF5B; 0xFB7]); (0xF69, [0xF40; 0xFB5]);
   (0xF73, [0xF71; 0xF72]); (0xF75, [0xF71; 0xF74]); (0xF76, [0xFB2; 0xF80]); (0xF78, [0xFB3; 0xF80]);
   (0xF81, [0xF71; 0xF80]); (0xF93, [0xF92; 0xFB7]); (0xF9D, [0xF9C; 0xFB7]); (0xFA2, [0xFA1; 0xFB7]);
   (0xFA7, [0xFA6; 0xFB7]); (0xFAC, [0xFAB; 0xFB7]); (0xFB9, [0xF90; 0xFB5]); (0x1026, [0x1025; 0x102E]);
   (0x1B06, [0x1B05; 0x1B35]); (0x1B08, [0x1B07; 0x1B35]); (0x1B0A, [0x1B09; 0x1B35]); (0x1B0C, [0x1B0B; 0x1B35]);
   (0x1B0E, [0x1B0D; 0x1B35]); (0x1B12, [0x1B11; 0x1B35]); (0x1B3B, [0x1B3A; 0x1B35]); (0x1B3D, [0x1B3C; 0x1B35]);
   (0x1B40, [0x1B3E; 0x1B35]); (0x1B41, [0x1B3F; 0x1B35]); (0x1B43, [0x1B42; 0x1B35]); (0x1E00, [0x41; 0x325]);
   (0x1E01, [0x61; 0x325]); (0x1E02, [0x42; 0x307]); (0x1E03, [0x62; 0x307]); (0x1E04, [0x42; 0x323]);
   (0x1E05, [0x62; 0x323]); (0x1E06, [0x42; 0x331]); (0x1E07, [0x62; 0x331]); (0x1E08, [0x43; 0x327; 0x301]);
   (0x1E09, [0x63; 0x327; 0x301]); (0x1E0A, [0x44; 0x307]); (0x1E0B, [0x64; 0x307]); (0x1E0C, [0x44; 0x323]);
   (0x1E0D, [0x64; 0x323]); (0x1E0E, [0x44; 0x331]); (0x1E0F, [0x64; 0x331]); (0x1E10, [0x44; 0x327]);
   (0x1E11, [0x64; 0x327]); (0x1E12, [0x44; 0x32D]); (0x1E13, [0x64; 0x32D]); (0x1E14, [0x45; 0x304; 0x300]);
   (0x1E15, [0x65; 0x304; 0x300]); (0x1E16, [0x45; 0x304; 0x301]); (0x1E17, [0x65; 0x304; 0x301]); (0x1E18, [0x45; 0x32D]);
   (0x1E19, [0x65; 0x32D]); (0x1E1A, [0x45; 0x330]); (0x1E1B, [0x65; 0x330]); (0x1E1C, [0x45; 0x327; 0x306]);
   (0x1E1D, [0x65; 0x327; 0x306]); (0x1E1E, [0x46; 0x307]); (0x1E1F, [0x66; 0x307]); (0x1E20, [0x47; 0x304]);
   (0x1E21, [0x67; 0x304]); (0x1E22, [0x48; 0x307]); (0x1E23, [0x68; 0x307]); (0x1E24, [0x48; 0x323]);
   (0x1E25, [0x68; 0x323]); (0x1E26, [0x48; 0x308]); (0x1E27, [0x68; 0x308]); (0x1E28, [0x48; 0x327]);
   (0x1E29, [0x68; 0x327]); (0x1E2A, [0x48; 0x32E]); (0x1E2B, [0x68; 0x32E]); (0x1E2C, [0x49; 0x330]);
   (0x1E2D, [0x69; 0x330]); (0x1E2E, [0x49; 0x308; 0x301]); (0x1E2F, [0x69; 0x308; 0x301]); (0x1E30, [0x4B; 0x301]);
   (0x1E31, [0x6B; 0x301]); (0x1E32, [0x4B; 0x323]); (0x1E33, [0x6B; 0x323]); (0x1E34, [0x4B; 0x331]);
   (0x1E35, [0x6B; 0x331]); (0x1E36, [0x4C; 0x323]); (0x1E37, [0x6C; 0x323]); (0x1E38, [0x4C; 0x323; 0x304]);
   (0x1E39, [0x6C; 0x323; 0x304]); (0x1E3A, [0x4C; 0x331]); (0x1E3B, [0x6C; 0x331]); (0x1E3C, [0x4C; 0x32D]);
   (0x1E3D, [0x6C; 0x32D]); (0x1E3E, [0x4D; 0x301]); (0x1E3F, [0x6D; 0x301]); (0x1E40, [0x4D; 0x307])
  ].

Definition decomp_table_2 : list (N * list N) :=
  [
   (0x1E41, [0x6D; 0x307]); (0x1E42, [0x4D; 0x323]); (0x1E43, [0x6D; 0x323]); (0x1E44, [0x4E; 0x307]);
   (0x1E45, [0x6E; 0x307]); (0x1E46, [0x4E; 0x323]); (0x1E47, [0x6E; 0x323]); (0x1E48, [0x4E; 0x331]);
   (0x1E49, [0x6E; 0x331]); (0x1E4A, [0x4E; 0x32D]); (0x1E4B, [0x6E; 0x32D]); (0x1E4C, [0x4F; 0x303; 0x301]);
   (0x1E4D, [0x6F; 0x303; 0x301]); (0x1E4E, [0x4F; 0x303; 0x308]); (0x1E4F, [0x6F; 0x303; 0x308]); (0x1E50, [0x4F; 0x304; 0x300]);
   (0x1E51, [0x6F; 0x304; 0x300]); (0x1E52, [0x4F; 0x304; 0x301]); (0x1E53, [0x6F; 0x304; 0x301]); (0x1E54, [0x50; 0x301]);
   (0x1E55, [0x70; 0x301]); (0x1E56, [0x50; 0x307]); (0x1E57, [0x70; 0x307]); (0x1E58, [0x52; 0x307]);
   (0x1E59, [0x72; 0x307]); (0x1E5A, [0x52; 0x323]); (0x1E5B, [0x72; 0x323]); (0x1E5C, [0x52; 0x323; 0x304]);
   (0x1E5D, [0x72; 0x323; 0x304]); (0x1E5E, [0x52; 0x331]); (0x1E5F, [0x72; 0x331]); (0x1E60, [0x53; 0x307]);
   (0x1E61, [0x73; 0x307]); (0x1E62, [0x53; 0x323]); (0x1E63, [0x73; 0x323]); (0x1E64, [0x53; 0x301; 0x307]);
   (0x1E65, [0x73; 0x301; 0x307]); (0x1E66, [0x53; 0x30C; 0x307]); (0x1E67, [0x73; 0x30C; 0x307]); (0x1E68, [0x53; 0x323; 0x307]);
   (0x1E69, [0x73; 0x323; 0x307]); (0x1E6A, [0x54; 0x307]); (0x1E6B, [0x74; 0x307]); (0x1E6C, [0x54; 0x323]);
   (0x1E6D, [0x74; 0x323]); (0x1E6E, [0x54; 0x331]); (0x1E6F, [0x74; 0x331]); (0x1E70, [0x54; 0x32D]);
   (0x1E71, [0x74; 0x32D]); (0x1E72, [0x55; 0x324]); (0x1E73, [0x75; 0x324]); (0x1E74, [0x55; 0x330]);
   (0x1E75, [0x75; 0x330]); (0x1E76, [0x55; 0x32D]); (0x1E77, [0x75; 0x32D]); (0x1E78, [0x55; 0x303; 0x301]);
   (0x1E79, [0x75; 0x303; 0x301]); (0x1E7A, [0x55; 0x304; 0x308]); (0x1E7B, [0x75; 0x304; 0x308]); (0x1E7C, [0x56; 0x303]);
   (0x1E7D, [0x76; 0x303]); (0x1E7E, [0x56; 0x323]); (0x1E7F, [0x76; 0x323]); (0x1E80, [0x57; 0x300]);
   (0x1E81, [0x77; 0x300]); (0x1E82, [0x57; 0x301]); (0x1E83, [0x77; 0x301]); (0x1E84, [0x57; 0x308]);
   (0x1E85, [0x77; 0x308]); (0x1E86, [0x57; 0x307]); (0x1E87, [0x77; 0x307]); (0x1E88, [0x57; 0x323]);
   (0x1E89, [0x77; 0x323]); (0x1E8A, [0x58; 0x307]); (0x1E8B, [0x78; 0x307]); (0x1E8C, [0x58; 0x308]);
   (0x1E8D, [0x78; 0x308]); (0x1E8E, [0x59; 0x307]); (0x1E8F, [0x79; 0x307]); (0x1E90, [0x5A; 0x302]);
   (0x1E91, [0x7A; 0x302]); (0x1E92, [0x5A; 0x323]); (0x1E93, [0x7A; 0x323]); (0x1E94, [0x5A; 0x331]);
   (0x1E95, [0x7A; 0x331]); (0x1E96, [0x68; 0x331]); (0x1E97, [0x74; 0x308]); (0x1E98, [0x77; 0x30A]);
   (0x1E99, [0x79; 0x30A]); (0x1E9B, [0x17F; 0x307]); (0x1EA0, [0x41; 0x323]); (0x1EA1, [0x61; 0x323]);
   (0x1EA2, [0x41; 0x309]); (0x1EA3, [0x61; 0x309]); (0x1EA4, [0x41; 0x302; 0x301]); (0x1EA5, [0x61; 0x302; 0x301]);
   (0x1EA6, [0x41; 0x302; 0x300]); (0x1EA7, [0x61; 0x302; 0x300]); (0x1EA8, [0x41; 0x302; 0x309]); (0x1EA9, [0x61; 0x302; 0x309]);
   (0x1EAA, [0x41; 0x302; 0x303]); (0x1EAB, [0x61; 0x302; 0x303]); (0x1EAC, [0x41; 0x323; 0x302]); (0x1EAD, [0x61; 0x323; 0x302]);
   (0x1EAE, [0x41; 0x306; 0x301]); (0x1EAF, [0x61; 0x306; 0x301]); (0x1EB0, [0x41; 0x306; 0x300]); (0x1EB1, [0x61; 0x306; 0x300]);
   (0x1EB2, [0x41; 0x306; 0x309]); (0x1EB3, [0x61; 0x306; 0x309]); (0x1EB4, [0x41; 0x306; 0x303]); (0x1EB5, [0x61; 0x306; 0x303]);
   (0x1EB6, [0x41; 0x323; 0x306]); (0x1EB7, [0x61; 0x323; 0x306]); (0x1EB8, [0x45; 0x323]); (0x1EB9, [0x65; 0x323]);
   (0x1EBA, [0x45; 0x309]); (0x1EBB, [0x65; 0x309]); (0x1EBC, [0x45; 0x303]); (0x1EBD, [0x65; 0x303]);
   (0x1EBE, [0x45; 0x302; 0x301]); (0x1EBF, [0x65; 0x302; 0x301]); (0x1EC0, [0x45; 0x302; 0x300]); (0x1EC1, [0x65; 0x302; 0x300]);
   (0x1EC2, [0x45; 0x302; 0x309]); (0x1EC3, [0x65; 0x302; 0x309]); (0x1EC4, [0x45; 0x302; 0x303]); (0x1EC5, [0x65; 0x302; 0x303]);
   (0x1EC6, [0x45; 0x323; 0x302]); (0x1EC7, [0x65; 0x323; 0x302]); (0x1EC8, [0x49; 0x309]); (0x1EC9, [0x69; 0x309]);
   (0x1ECA, [0x49; 0x323]); (0x1ECB, [0x69; 0x323]); (0x1ECC, [0x4F; 0x323]); (0x1ECD, [0x6F; 0x323]);
   (0x1ECE, [0x4F; 0x309]); (0x1ECF, [0x6F; 0x309]); (0x1ED0, [0x4F; 0x302; 0x301]); (0x1ED1, [0x6F; 0x302; 0x301]);
   (0x1ED2, [0x4F; 0x302; 0x300]); (0x1ED3, [0x6F; 0x302; 0x300]); (0x1ED4, [0x4F; 0x302; 0x309]); (0x1ED5, [0x6F; 0x302; 0x309]);
   (0x1ED6, [0x4F; 0x302; 0x303]); (0x1ED7, [0x6F; 0x302; 0x303]); (0x1ED8, [0x4F; 0x323; 0x302]); (0x1ED9, [0x6F; 0x323; 0x302]);
   (0x1EDA, [0x4F; 0x31B; 0x301]); (0x1EDB, [0x6F; 0x31B; 0x301]); (0x1EDC, [0x4F; 0x31B; 0x300]); (0x1EDD, [0x6F; 0x31B; 0x300]);
   (0x1EDE, [0x4F; 0x31B; 0x309]); (0x1EDF, [0x6F; 0x31B; 0x309]); (0x1EE0, [0x4F; 0x31B; 0x303]); (0x1EE1, [0x6F; 0x31B; 0x303]);
   (0x1EE2, [0x4F; 0x31B; 0x323]); (0x1EE3, [0x6F; 0x31B; 0x323]); (0x1EE4, [0x55; 0x323]); (0x1EE5, [0x75; 0x323]);
   (0x1EE6, [0x55; 0x309]); (0x1EE7, [0x75; 0x309]); (0x1EE8, [0x55; 0x31B; 0x301]); (0x1EE9, [0x75; 0x31B; 0x301]);
   (0x1EEA, [0x55; 0x31B; 0x300]); (0x1EEB, [0x75; 0x31B; 0x300]); (0x1EEC, [0x55; 0x31B; 0x309]); (0x1EED, [0x75; 0x31B; 0x309]);
   (0x1EEE, [0x55; 0x31B; 0x303]); (0x1EEF, [0x75; 0x31B; 0x303]); (0x1EF0, [0x55; 0x31B; 0x323]); (0x1EF1, [0x75; 0x31B; 0x323]);
   (0x1EF2, [0x59; 0x300]); (0x1EF3, [0x79; 0x300]); (0x1EF4, [0x59; 0x323]); (0x1EF5, [0x79; 0x323]);
   (0x1EF6, [0x59; 0x309]); (0x1EF7, [0x79; 0x309]); (0x1EF8, [0x59; 0x303]); (0x1EF9, [0x79; 0x303]);
   (0x1F00, [0x3B1; 0x313]); (0x1F01, [0x3B1; 0x314]); (0x1F02, [0x3B1; 0x313; 0x300]); (0x1F03, [0x3B1; 0x314; 0x300]);
   (0x1F04, [0x3B1; 0x313; 0x301]); (0x1F05, [0x3B1; 0x314; 0x301]); (0x1F06, [0x3B1; 0x313; 0x342]); (0x1F07, [0x3B1; 0x314; 0x342]);
   (0x1F08, [0x391; 0x313]); (0x1F09, [0x391; 0x314]); (0x1F0A, [0x391; 0x313; 0x300]); (0x1F0B, [0x391; 0x314; 0x300]);
   (0x1F0C, [0x391; 0x313; 0x301]); (0x1F0D, [0x391; 0x314; 0x301]); (0x1F0E, [0x391; 0x313; 0x342]); (0x1F0F, [0x391; 0x314; 0x342]);
   (0x1F10, [0x3B5; 0x313]); (0x1F11, [0x3B5; 0x314]); (0x1F12, [0x3B5; 0x313; 0x300]); (0x1F13, [0x3B5; 0x314; 0x300]);
   (0x1F14, [0x3B5; 0x313; 0x301]); (0x1F15, [0x3B5; 0x314; 0x301]); (0x1F18, [0x395; 0x313]); (0x1F19, [0x395; 0x314]);
   (0x1F1A, [0x395; 0x313; 0x300]); (0x1F1B, [0x395; 0x314; 0x300]); (0x1F1C, [0x395; 0x313; 0x301]); (0x1F1D, [0x395; 0x314; 0x301]);
   (0x1F20, [0x3B7; 0x313]); (0x1F21, [0x3B7; 0x314]); (0x1F22, [0x3B7; 0x313; 0x300]); (0x1F23, [0x3B7; 0x314; 0x300]);
   (0x1F24, [0x3B7; 0x313; 0x301]); (0x1F25, [0x3B7; 0x314; 0x301]); (0x1F26, [0x3B7; 0x313; 0x342]); (0x1F27, [0x3B7; 0x314; 0x342]);
   (0x1F28, [0x397; 0x313]); (0x1F29, [0x397; 0x314]); (0x1F2A, [0x397; 0x313; 0x300]); (0x1F2B, [0x397; 0x314; 0x300]);
   (0x1F2C, [0x397; 0x313; 0x301]); (0x1F2D, [0x397; 0x314; 0x301]); (0x1F2E, [0x397; 0x313; 0x342]); (0x1F2F, [0x397; 0x314; 0x342]);
   (0x1F30, [0x3B9; 0x313]); (0x1F31, [0x3B9; 0x314]); (0x1F32, [0x3B9; 0x313; 0x300]); (0x1F33, [0x3B9; 0x314; 0x300]);
   (0x1F34, [0x3B9; 0x313; 0x301]); (0x1F35, [0x3B9; 0x314; 0x301]); (0x1F36, [0x3B9; 0x313; 0x342]); (0x1F37, [0x3B9; 0x314; 0x342]);
   (0x1F38, [0x399; 0x313]); (0x1F39, [0x399; 0x314]); (0x1F3A, [0x399; 0x313; 0x300]); (0x1F3B, [0x399; 0x314; 0x300]);
   (0x1F3C, [0x399; 0x313; 0x301]); (0x1F3D, [0x399; 0x314; 0x301]); (0x1F3E, [0x399; 0x313; 0x342]); (0x1F3F, [0x399; 0x314; 0x342])
  ].

Definition decomp_table_3 : list (N * list N) :=
  [
   (0x1F40, [0x3BF; 0x313]); (0x1F41, [0x3BF; 0x314]); (0x1F42, [0x3BF; 0x313; 0x300]); (0x1F43, [0x3BF; 0x314; 0x300]);
   (0x1F44, [0x3BF; 0x313; 0x301]); (0x1F45, [0x3BF; 0x314; 0x301]); (0x1F48, [0x39F; 0x313]); (0x1F49, [0x39F; 0x314]);
   (0x1F4A, [0x39F; 0x313; 0x300]); (0x1F4B, [0x39F; 0x314; 0x300]); (0x1F4C, [0x39F; 0x313; 0x301]); (0x1F4D, [0x39F; 0x314; 0x301]);
   (0x1F50, [0x3C5; 0x313]); (0x1F51, [0x3C5; 0x314]); (0x1F52, [0x3C5; 0x313; 0x300]); (0x1F53, [0x3C5; 0x314; 0x300]);
   (0x1F54, [0x3C5; 0x313; 0x301]); (0x1F55, [0x3C5; 0x314; 0x301]); (0x1F56, [0x3C5; 0x313; 0x342]); (0x1F57, [0x3C5; 0x314; 0x342]);
   (0x1F59, [0x3A5; 0x314]); (0x1F5B, [0x3A5; 0x314; 0x300]); (0x1F5D, [0x3A5; 0x314; 0x301]); (0x1F5F, [0x3A5; 0x314; 0x342]);
   (0x1F60, [0x3C9; 0x313]); (0x1F61, [0x3C9; 0x314]); (0x1F62, [0x3C9; 0x313; 0x300]); (0x1F63, [0x3C9; 0x314; 0x300]);
   (0x1F64, [0x3C9; 0x313; 0x301]); (0x1F65, [0x3C9; 0x314; 0x301]); (0x1F66, [0x3C9; 0x313; 0x342]); (0x1F67, [0x3C9; 0x314; 0x342]);
   (0x1F68, [0x3A9; 0x313]); (0x1F69, [0x3A9; 0x314]); (0x1F6A, [0x3A9; 0x313; 0x300]); (0x1F6B, [0x3A9; 0x314; 0x300]);
   (0x1F6C, [0x3A9; 0x313; 0x301]); (0x1F6D, [0x3A9; 0x314; 0x301]); (0x1F6E, [0x3A9; 0x313; 0x342]); (0x1F6F, [0x3A9; 0x314; 0x342]);
   (0x1F70, [0x3B1; 0x300]); (0x1F71, [0x3B1; 0x301]); (0x1F72, [0x3B5; 0x300]); (0x1F73, [0x3B5; 0x301]);
   (0x1F74, [0x3B7; 0x300]); (0x1F75, [0x3B7; 0x301]); (0x1F76, [0x3B9; 0x300]); (0x1F77, [0x3B9; 0x301]);
   (0x1F78, [0x3BF; 0x300]); (0x1F79, [0x3BF; 0x301]); (0x1F7A, [0x3C5; 0x300]); (0x1F7B, [0x3C5; 0x301]);
   (0x1F7C, [0x3C9; 0x300]); (0x1F7D, [0x3C9; 0x301]); (0x1F80, [0x3B1; 0x313; 0x345]); (0x1F81, [0x3B1; 0x314; 0x345]);
   (0x1F82, [0x3B1; 0x313; 0x300; 0x345]); (0x1F83, [0x3B1; 0x314; 0x300; 0x345]); (0x1F84, [0x3B1; 0x313; 0x301; 0x345]); (0x1F85, [0x3B1; 0x314; 0x301; 0x345]);
   (0x1F86, [0x3B1; 0x313; 0x342; 0x345]); (0x1F87, [0x3B1; 0x314; 0x342; 0x345]); (0x1F88, [0x391; 0x313; 0x345]); (0x1F89, [0x391; 0x314; 0x345]);
   (0x1F8A, [0x391; 0x313; 0x300; 0x345]); (0x1F8B, [0x391; 0x314; 0x300; 0x345]); (0x1F8C, [0x391; 0x313; 0x301; 0x345]); (0x1F8D, [0x391; 0x314; 0x301; 0x345]);
   (0x1F8E, [0x391; 0x313; 0x342; 0x345]); (0x1F8F, [0x391; 0x314; 0x342; 0x345]); (0x1F90, [0x3B7; 0x313; 0x345]); (0x1F91, [0x3B7; 0x314; 0x345]);
   (0x1F92, [0x3B7; 0x313; 0x300; 0x345]); (0x1F93, [0x3B7; 0x314; 0x300; 0x345]); (0x1F94, [0x3B7; 0x313; 0x301; 0x345]); (0x1F95, [0x3B7; 0x314; 0x301; 0x345]);
   (0x1F96, [0x3B7; 0x313; 0x342; 0x345]); (0x1F97, [0x3B7; 0x314; 0x342; 0x345]); (0x1F98, [0x397; 0x313; 0x345]); (0x1F99, [0x397; 0x314; 0x345]);
   (0x1F9A, [0x397; 0x313; 0x300; 0x345]); (0x1F9B, [0x397; 0x314; 0x300; 0x345]); (0x1F9C, [0x397; 0x313; 0x301; 0x345]); (0x1F9D, [0x397; 0x314; 0x301; 0x345]);
   (0x1F9E, [0x397; 0x313; 0x342; 0x345]); (0x1F9F, [0x397; 0x314; 0x342; 0x345]); (0x1FA0, [0x3C9; 0x313; 0x345]); (0x1FA1, [0x3C9; 0x314; 0x345]);
   (0x1FA2, [0x3C9; 0x313; 0x300; 0x345]); (0x1FA3, [0x3C9; 0x314; 0x300; 0x345]); (0x1FA4, [0x3C9; 0x313; 0x301; 0x345]); (0x1FA5, [0x3C9; 0x314; 0x301; 0x345]);
   (0x1FA6, [0x3C9; 0x313; 0x342; 0x345]); (0x1FA7, [0x3C9; 0x314; 0x342; 0x345]); (0x1FA8, [0x3A9; 0x313; 0x345]); (0x1FA9, [0x3A9; 0x314; 0x345]);
   (0x1FAA, [0x3A9; 0x313; 0x300; 0x345]); (0x1FAB, [0x3A9; 0x314; 0x300; 0x345]); (0x1FAC, [0x3A9; 0x313; 0x301; 0x345]); (0x1FAD, [0x3A9; 0x314; 0x301; 0x345]);
   (0x1FAE, [0x3A9; 0x313; 0x342; 0x345]); (0x1FAF, [0x3A9; 0x314; 0x342; 0x345]); (0x1FB0, [0x3B1; 0x306]); (0x1FB1, [0x3B1; 0x304]);
   (0x1FB2, [0x3B1; 0x300; 0x345]); (0x1FB3, [0x3B1; 0x345]); (0x1FB4, [0x3B1; 0x301; 0x345]); (0x1FB6, [0x3B1; 0x342]);
   (0x1FB7, [0x3B1; 0x342; 0x345]); (0x1FB8, [0x391; 0x306]); (0x1FB9, [0x391; 0x304]); (0x1FBA, [0x391; 0x300]);
   (0x1FBB, [0x391; 0x301]); (0x1FBC, [0x391; 0x345]); (0x1FBE, [0x3B9]); (0x1FC1, [0xA8; 0x342]);
   (0x1FC2, [0x3B7; 0x300; 0x345]); (0x1FC3, [0x3B7; 0x345]); (0x1FC4, [0x3B7; 0x301; 0x345]); (0x1FC6, [0x3B7; 0x342]);
   (0x1FC7, [0x3B7; 0x342; 0x345]); (0x1FC8, [0x395; 0x300]); (0x1FC9, [0x395; 0x301]); (0x1FCA, [0x397; 0x300]);
   (0x1FCB, [0x397; 0x301]); (0x1FCC, [0x397; 0x345]); (0x1FCD, [0x1FBF; 0x300]); (0x1FCE, [0x1FBF; 0x301]);
   (0x1FCF, [0x1FBF; 0x342]); (0x1FD0, [0x3B9; 0x306]); (0x1FD1, [0x3B9; 0x304]); (0x1FD2, [0x3B9; 0x308; 0x300]);
   (0x1FD3, [0x3B9; 0x308; 0x301]); (0x1FD6, [0x3B9; 0x342]); (0x1FD7, [0x3B9; 0x308; 0x342]); (0x1FD8, [0x399; 0x306]);
   (0x1FD9, [0x399; 0x304]); (0x1FDA, [0x399; 0x300]); (0x1FDB, [0x399; 0x301]); (0x1FDD, [0x1FFE; 0x300]);
   (0x1FDE, [0x1FFE; 0x301]); (0x1FDF, [0x1FFE; 0x342]); (0x1FE0, [0x3C5; 0x306]); (0x1FE1, [0x3C5; 0x304]);
   (0x1FE2, [0x3C5; 0x308; 0x300]); (0x1FE3, [0x3C5; 0x308; 0x301]); (0x1FE4, [0x3C1; 0x313]); (0x1FE5, [0x3C1; 0x314]);
   (0x1FE6, [0x3C5; 0x342]); (0x1FE7, [0x3C5; 0x308; 0x342]); (0x1FE8, [0x3A5; 0x306]); (0x1FE9, [0x3A5; 0x304]);
   (0x1FEA, [0x3A5; 0x300]); (0x1FEB, [0x3A5; 0x301]); (0x1FEC, [0x3A1; 0x314]); (0x1FED, [0xA8; 0x300]);
   (0x1FEE, [0xA8; 0x301]); (0x1FEF, [0x60]); (0x1FF2, [0x3C9; 0x300; 0x345]); (0x1FF3, [0x3C9; 0x345]);
   (0x1FF4, [0x3C9; 0x301; 0x345]); (0x1FF6, [0x3C9; 0x342]); (0x1FF7, [0x3C9; 0x342; 0x345]); (0x1FF8, [0x39F; 0x300]);
   (0x1FF9, [0x39F; 0x301]); (0x1FFA, [0x3A9; 0x300]); (0x1FFB, [0x3A9; 0x301]); (0x1FFC, [0x3A9; 0x345]);
   (0x1FFD, [0xB4]); (0x2000, [0x2002]); (0x2001, [0x2003]); (0x2126, [0x3A9]);
   (0x212A, [0x4B]); (0x212B, [0x41; 0x30A]); (0x219A, [0x2190; 0x338]); (0x219B, [0x2192; 0x338]);
   (0x21AE, [0x2194; 0x338]); (0x21CD, [0x21D0; 0x338]); (0x21CE, [0x21D4; 0x338]); (0x21CF, [0x21D2; 0x338]);
   (0x2204, [0x2203; 0x338]); (0x2209, [0x2208; 0x338]); (0x220C, [0x220B; 0x338]); (0x2224, [0x2223; 0x338]);
   (0x2226, [0x2225; 0x338]); (0x2241, [0x223C; 0x338]); (0x2244, [0x2243; 0x338]); (0x2247, [0x2245; 0x338]);
   (0x2249, [0x2248; 0x338]); (0x2260, [0x3D; 0x338]); (0x2262, [0x2261; 0x338]); (0x226D, [0x224D; 0x338]);
   (0x226E, [0x3C; 0x338]); (0x226F, [0x3E; 0x338]); (0x2270, [0x2264; 0x338]); (0x2271, [0x2265; 0x338]);
   (0x2274, [0x2272; 0x338]); (0x2275, [0x2273; 0x338]); (0x2278, [0x2276; 0x338]); (0x2279, [0x2277; 0x338]);
   (0x2280, [0x227A; 0x338]); (0x2281, [0x227B; 0x338]); (0x2284, [0x2282; 0x338]); (0x2285, [0x2283; 0x338]);
   (0x2288, [0x2286; 0x338]); (0x2289, [0x2287; 0x338]); (0x22AC, [0x22A2; 0x338]); (0x22AD, [0x22A8; 0x338]);
   (0x22AE, [0x22A9; 0x338]); (0x22AF, [0x22AB; 0x338]); (0x22E0, [0x227C; 0x338]); (0x22E1, [0x227D; 0x338]);
   (0x22E2, [0x2291; 0x338]); (0x22E3, [0x2292; 0x338]); (0x22EA, [0x22B2; 0x338]); (0x22EB, [0x22B3; 0x338]);
   (0x22EC, [0x22B4; 0x338]); (0x22ED, [0x22B5; 0x338]); (0x2329, [0x3008]); (0x232A, [0x3009]);
   (0x2ADC, [0x2ADD; 0x338]); (0x304C, [0x304B; 0x3099]); (0x304E, [0x304D; 0x3099]); (0x3050, [0x304F; 0x3099]);
   (0x3052, [0x3051; 0x3099]); (0x3054, [0x3053; 0x3099]); (0x3056, [0x3055; 0x3099]); (0x3058, [0x3057; 0x3099]);
   (0x305A, [0x3059; 0x3099]); (0x305C, [0x305B; 0x3099]); (0x305E, [0x305D; 0x3099]); (0x3060, [0x305F; 0x3099]);
   (0x3062, [0x3061; 0x3099]); (0x3065, [0x3064; 0x3099]); (0x3067, [0x3066; 0x3099]); (0x3069, [0x3068; 0x3099]);
   (0x3070, [0x306F; 0x3099]); (0x3071, [0x306F; 0x309A]); (0x3073, [0x3072; 0x3099]); (0x3074, [0x3072; 0x309A])
  ].

Definition decomp_table_4 : list (N * list N) :=
  [
   (0x3076, [0x3075; 0x3099]); (0x3077, [0x3075; 0x309A]); (0x3079, [0x3078; 0x3099]); (0x307A, [0x3078; 0x309A]);
   (0x307C, [0x307B; 0x3099]); (0x307D, [0x307B; 0x309A]); (0x3094, [0x3046; 0x3099]); (0x309E, [0x309D; 0x3099]);
   (0x30AC, [0x30AB; 0x3099]); (0x30AE, [0x30AD; 0x3099]); (0x30B0, [0x30AF; 0x3099]); (0x30B2, [0x30B1; 0x3099]);
   (0x30B4, [0x30B3; 0x3099]); (0x30B6, [0x30B5; 0x3099]); (0x30B8, [0x30B7; 0x3099]); (0x30BA, [0x30B9; 0x3099]);
   (0x30BC, [0x30BB; 0x3099]); (0x30BE, [0x30BD; 0x3099]); (0x30C0, [0x30BF; 0x3099]); (0x30C2, [0x30C1; 0x3099]);
   (0x30C5, [0x30C4; 0x3099]); (0x30C7, [0x30C6; 0x3099]); (0x30C9, [0x30C8; 0x3099]); (0x30D0, [0x30CF; 0x3099]);
   (0x30D1, [0x30CF; 0x309A]); (0x30D3, [0x30D2; 0x3099]); (0x30D4, [0x30D2; 0x309A]); (0x30D6, [0x30D5; 0x3099]);
   (0x30D7, [0x30D5; 0x309A]); (0x30D9, [0x30D8; 0x3099]); (0x30DA, [0x30D8; 0x309A]); (0x30DC, [0x30DB; 0x3099]);
   (0x30DD, [0x30DB; 0x309A]); (0x30F4, [0x30A6; 0x3099]); (0x30F7, [0x30EF; 0x3099]); (0x30F8, [0x30F0; 0x3099]);
   (0x30F9, [0x30F1; 0x3099]); (0x30FA, [0x30F2; 0x3099]); (0x30FE, [0x30FD; 0x3099]); (0xF900, [0x8C48]);
   (0xF901, [0x66F4]); (0xF902, [0x8ECA]); (0xF903, [0x8CC8]); (0xF904, [0x6ED1]);
   (0xF905, [0x4E32]); (0xF906, [0x53E5]); (0xF907, [0x9F9C]); (0xF908, [0x9F9C]);
   (0xF909, [0x5951]); (0xF90A, [0x91D1]); (0xF90B, [0x5587]); (0xF90C, [0x5948]);
   (0xF90D, [0x61F6]); (0xF90E, [0x7669]); (0xF90F, [0x7F85]); (0xF910, [0x863F]);
   (0xF911, [0x87BA]); (0xF912, [0x88F8]); (0xF913, [0x908F]); (0xF914, [0x6A02]);
   (0xF915, [0x6D1B]); (0xF916, [0x70D9]); (0xF917, [0x73DE]); (0xF918, [0x843D]);
   (0xF919, [0x916A]); (0xF91A, [0x99F1]); (0xF91B, [0x4E82]); (0xF91C, [0x5375]);
   (0xF91D, [0x6B04]); (0xF91E, [0x721B]); (0xF91F, [0x862D]); (0xF920, [0x9E1E]);
   (0xF921, [0x5D50]); (0xF922, [0x6FEB]); (0xF923, [0x85CD]); (0xF924, [0x8964]);
   (0xF925, [0x62C9]); (0xF926, [0x81D8]); (0xF927, [0x881F]); (0xF928, [0x5ECA]);
   (0xF929, [0x6717]); (0xF92A, [0x6D6A]); (0xF92B, [0x72FC]); (0xF92C, [0x90CE]);
   (0xF92D, [0x4F86]); (0xF92E, [0x51B7]); (0xF92F, [0x52DE]); (0xF930, [0x64C4]);
   (0xF931, [0x6AD3]); (0xF932, [0x7210]); (0xF933, [0x76E7]); (0xF934, [0x8001]);
   (0xF935, [0x8606]); (0xF936, [0x865C]); (0xF937, [0x8DEF]); (0xF938, [0x9732]);
   (0xF939, [0x9B6F]); (0xF93A, [0x9DFA]); (0xF93B, [0x788C]); (0xF93C, [0x797F]);
   (0xF93D, [0x7DA0]); (0xF93E, [0x83C9]); (0xF93F, [0x9304]); (0xF940, [0x9E7F]);
   (0xF941, [0x8AD6]); (0xF942, [0x58DF]); (0xF943, [0x5F04]); (0xF944, [0x7C60]);
   (0xF945, [0x807E]); (0xF946, [0x7262]); (0xF947, [0x78CA]); (0xF948, [0x8CC2]);
   (0xF949, [0x96F7]); (0xF94A, [0x58D8]); (0xF94B, [0x5C62]); (0xF94C, [0x6A13]);
   (0xF94D, [0x6DDA]); (0xF94E, [0x6F0F]); (0xF94F, [0x7D2F]); (0xF950, [0x7E37]);
   (0xF951, [0x964B]); (0xF952, [0x52D2]); (0xF953, [0x808B]); (0xF954, [0x51DC]);
   (0xF955, [0x51CC]); (0xF956, [0x7A1C]); (0xF957, [0x7DBE]); (0xF958, [0x83F1]);
   (0xF959, [0x9675]); (0xF95A, [0x8B80]); (0xF95B, [0x62CF]); (0xF95C, [0x6A02]);
   (0xF95D, [0x8AFE]); (0xF95E, [0x4E39]); (0xF95F, [0x5BE7]); (0xF960, [0x6012]);
   (0xF961, [0x7387]); (0xF962, [0x7570]); (0xF963, [0x5317]); (0xF964, [0x78FB]);
   (0xF965, [0x4FBF]); (0xF966, [0x5FA9]); (0xF967, [0x4E0D]); (0xF968, [0x6CCC]);
   (0xF969, [0x6578]); (0xF96A, [0x7D22]); (0xF96B, [0x53C3]); (0xF96C, [0x585E]);
   (0xF96D, [0x7701]); (0xF96E, [0x8449]); (0xF96F, [0x8AAA]); (0xF970, [0x6BBA]);
   (0xF971, [0x8FB0]); (0xF972, [0x6C88]); (0xF973, [0x62FE]); (0xF974, [0x82E5]);
   (0xF975, [0x63A0]); (0xF976, [0x7565]); (0xF977, [0x4EAE]); (0xF978, [0x5169]);
   (0xF979, [0x51C9]); (0xF97A, [0x6881]); (0xF97B, [0x7CE7]); (0xF97C, [0x826F]);
   (0xF97D, [0x8AD2]); (0xF97E, [0x91CF]); (0xF97F, [0x52F5]); (0xF980, [0x5442]);
   (0xF981, [0x5973]); (0xF982, [0x5EEC]); (0xF983, [0x65C5]); (0xF984, [0x6FFE]);
   (0xF985, [0x792A]); (0xF986, [0x95AD]); (0xF987, [0x9A6A]); (0xF988, [0x9E97]);
   (0xF989, [0x9ECE]); (0xF98A, [0x529B]); (0xF98B, [0x66C6]); (0xF98C, [0x6B77]);
   (0xF98D, [0x8F62]); (0xF98E, [0x5E74]); (0xF98F, [0x6190]); (0xF990, [0x6200]);
   (0xF991, [0x649A]); (0xF992, [0x6F23]); (0xF993, [0x7149]); (0xF994, [0x7489]);
   (0xF995, [0x79CA]); (0xF996, [0x7DF4]); (0xF997, [0x806F]); (0xF998, [0x8F26]);
   (0xF999, [0x84EE]); (0xF99A, [0x9023]); (0xF99B, [0x934A]); (0xF99C, [0x5217]);
   (0xF99D, [0x52A3]); (0xF99E, [0x54BD]); (0xF99F, [0x70C8]); (0xF9A0, [0x88C2]);
   (0xF9A1, [0x8AAA]); (0xF9A2, [0x5EC9]); (0xF9A3, [0x5FF5]); (0xF9A4, [0x637B]);
   (0xF9A5, [0x6BAE]); (0xF9A6, [0x7C3E]); (0xF9A7, [0x7375]); (0xF9A8, [0x4EE4]);
   (0xF9A9, [0x56F9]); (0xF9AA, [0x5BE7]); (0xF9AB, [0x5DBA]); (0xF9AC, [0x601C]);
   (0xF9AD, [0x73B2]); (0xF9AE, [0x7469]); (0xF9AF, [0x7F9A]); (0xF9B0, [0x8046]);
   (0xF9B1, [0x9234]); (0xF9B2, [0x96F6]); (0xF9B3, [0x9748]); (0xF9B4, [0x9818]);
   (0xF9B5, [0x4F8B]); (0xF9B6, [0x79AE]); (0xF9B7, [0x91B4]); (0xF9B8, [0x96B8]);
   (0xF9B9, [0x60E1]); (0xF9BA, [0x4E86]); (0xF9BB, [0x50DA]); (0xF9BC, [0x5BEE]);
   (0xF9BD, [0x5C3F]); (0xF9BE, [0x6599]); (0xF9BF, [0x6A02]); (0xF9C0, [0x71CE]);
   (0xF9C1, [0x7642]); (0xF9C2, [0x84FC]); (0xF9C3, [0x907C]); (0xF9C4, [0x9F8D]);
   (0xF9C5, [0x6688]); (0xF9C6, [0x962E]); (0xF9C7, [0x5289]); (0xF9C8, [0x677B])
  ].

Definition decomp_table_5 : list (N * list N) :=
  [
   (0xF9C9, [0x67F3]); (0xF9CA, [0x6D41]); (0xF9CB, [0x6E9C]); (0xF9CC, [0x7409]);
   (0xF9CD, [0x7559]); (0xF9CE, [0x786B]); (0xF9CF, [0x7D10]); (0xF9D0, [0x985E]);
   (0xF9D1, [0x516D]); (0xF9D2, [0x622E]); (0xF9D3, [0x9678]); (0xF9D4, [0x502B]);
   (0xF9D5, [0x5D19]); (0xF9D6, [0x6DEA]); (0xF9D7, [0x8F2A]); (0xF9D8, [0x5F8B]);
   (0xF9D9, [0x6144]); (0xF9DA, [0x6817]); (0xF9DB, [0x7387]); (0xF9DC, [0x9686]);
   (0xF9DD, [0x5229]); (0xF9DE, [0x540F]); (0xF9DF, [0x5C65]); (0xF9E0, [0x6613]);
   (0xF9E1, [0x674E]); (0xF9E2, [0x68A8]); (0xF9E3, [0x6CE5]); (0xF9E4, [0x7406]);
   (0xF9E5, [0x75E2]); (0xF9E6, [0x7F79]); (0xF9E7, [0x88CF]); (0xF9E8, [0x88E1]);
   (0xF9E9, [0x91CC]); (0xF9EA, [0x96E2]); (0xF9EB, [0x533F]); (0xF9EC, [0x6EBA]);
   (0xF9ED, [0x541D]); (0xF9EE, [0x71D0]); (0xF9EF, [0x7498]); (0xF9F0, [0x85FA]);
   (0xF9F1, [0x96A3]); (0xF9F2, [0x9C57]); (0xF9F3, [0x9E9F]); (0xF9F4, [0x6797]);
   (0xF9F5, [0x6DCB]); (0xF9F6, [0x81E8]); (0xF9F7, [0x7ACB]); (0xF9F8, [0x7B20]);
   (0xF9F9, [0x7C92]); (0xF9FA, [0x72C0]); (0xF9FB, [0x7099]); (0xF9FC, [0x8B58]);
   (0xF9FD, [0x4EC0]); (0xF9FE, [0x8336]); (0xF9FF, [0x523A]); (0xFA00, [0x5207]);
   (0xFA01, [0x5EA6]); (0xFA02, [0x62D3]); (0xFA03, [0x7CD6]); (0xFA04, [0x5B85]);
   (0xFA05, [0x6D1E]); (0xFA06, [0x66B4]); (0xFA07, [0x8F3B]); (0xFA08, [0x884C]);
   (0xFA09, [0x964D]); (0xFA0A, [0x898B]); (0xFA0B, [0x5ED3]); (0xFA0C, [0x5140]);
   (0xFA0D, [0x55C0]); (0xFA10, [0x585A]); (0xFA12, [0x6674]); (0xFA15, [0x51DE]);
   (0xFA16, [0x732A]); (0xFA17, [0x76CA]); (0xFA18, [0x793C]); (0xFA19, [0x795E]);
   (0xFA1A, [0x7965]); (0xFA1B, [0x798F]); (0xFA1C, [0x9756]); (0xFA1D, [0x7CBE]);
   (0xFA1E, [0x7FBD]); (0xFA20, [0x8612]); (0xFA22, [0x8AF8]); (0xFA25, [0x9038]);
   (0xFA26, [0x90FD]); (0xFA2A, [0x98EF]); (0xFA2B, [0x98FC]); (0xFA2C, [0x9928]);
   (0xFA2D, [0x9DB4]); (0xFA2E, [0x90DE]); (0xFA2F, [0x96B7]); (0xFA30, [0x4FAE]);
   (0xFA31, [0x50E7]); (0xFA32, [0x514D]); (0xFA33, [0x52C9]); (0xFA34, [0x52E4]);
   (0xFA35, [0x5351]); (0xFA36, [0x559D]); (0xFA37, [0x5606]); (0xFA38, [0x5668]);
   (0xFA39, [0x5840]); (0xFA3A, [0x58A8]); (0xFA3B, [0x5C64]); (0xFA3C, [0x5C6E]);
   (0xFA3D, [0x6094]); (0xFA3E, [0x6168]); (0xFA3F, [0x618E]); (0xFA40, [0x61F2]);
   (0xFA41, [0x654F]); (0xFA42, [0x65E2]); (0xFA43, [0x6691]); (0xFA44, [0x6885]);
   (0xFA45, [0x6D77]); (0xFA46, [0x6E1A]); (0xFA47, [0x6F22]); (0xFA48, [0x716E]);
   (0xFA49, [0x722B]); (0xFA4A, [0x7422]); (0xFA4B, [0x7891]); (0xFA4C, [0x793E]);
   (0xFA4D, [0x7949]); (0xFA4E, [0x7948]); (0xFA4F, [0x7950]); (0xFA50, [0x7956]);
   (0xFA51, [0x795D]); (0xFA52, [0x798D]); (0xFA53, [0x798E]); (0xFA54, [0x7A40]);
   (0xFA55, [0x7A81]); (0xFA56, [0x7BC0]); (0xFA57, [0x7DF4]); (0xFA58, [0x7E09]);
   (0xFA59, [0x7E41]); (0xFA5A, [0x7F72]); (0xFA5B, [0x8005]); (0xFA5C, [0x81ED]);
   (0xFA5D, [0x8279]); (0xFA5E, [0x8279]); (0xFA5F, [0x8457]); (0xFA60, [0x8910]);
   (0xFA61, [0x8996]); (0xFA62, [0x8B01]); (0xFA63, [0x8B39]); (0xFA64, [0x8CD3]);
   (0xFA65, [0x8D08]); (0xFA66, [0x8FB6]); (0xFA67, [0x9038]); (0xFA68, [0x96E3]);
   (0xFA69, [0x97FF]); (0xFA6A, [0x983B]); (0xFA6B, [0x6075]); (0xFA6C, [0x242EE]);
   (0xFA6D, [0x8218]); (0xFA70, [0x4E26]); (0xFA71, [0x51B5]); (0xFA72, [0x5168]);
   (0xFA73, [0x4F80]); (0xFA74, [0x5145]); (0xFA75, [0x5180]); (0xFA76, [0x52C7]);
   (0xFA77, [0x52FA]); (0xFA78, [0x559D]); (0xFA79, [0x5555]); (0xFA7A, [0x5599]);
   (0xFA7B, [0x55E2]); (0xFA7C, [0x585A]); (0xFA7D, [0x58B3]); (0xFA7E, [0x5944]);
   (0xFA7F, [0x5954]); (0xFA80, [0x5A62]); (0xFA81, [0x5B28]); (0xFA82, [0x5ED2]);
   (0xFA83, [0x5ED9]); (0xFA84, [0x5F69]); (0xFA85, [0x5FAD]); (0xFA86, [0x60D8]);
   (0xFA87, [0x614E]); (0xFA88, [0x6108]); (0xFA89, [0x618E]); (0xFA8A, [0x6160]);
   (0xFA8B, [0x61F2]); (0xFA8C, [0x6234]); (0xFA8D, [0x63C4]); (0xFA8E, [0x641C]);
   (0xFA8F, [0x6452]); (0xFA90, [0x6556]); (0xFA91, [0x6674]); (0xFA92, [0x6717]);
   (0xFA93, [0x671B]); (0xFA94, [0x6756]); (0xFA95, [0x6B79]); (0xFA96, [0x6BBA]);
   (0xFA97, [0x6D41]); (0xFA98, [0x6EDB]); (0xFA99, [0x6ECB]); (0xFA9A, [0x6F22]);
   (0xFA9B, [0x701E]); (0xFA9C, [0x716E]); (0xFA9D, [0x77A7]); (0xFA9E, [0x7235]);
   (0xFA9F, [0x72AF]); (0xFAA0, [0x732A]); (0xFAA1, [0x7471]); (0xFAA2, [0x7506]);
   (0xFAA3, [0x753B]); (0xFAA4, [0x761D]); (0xFAA5, [0x761F]); (0xFAA6, [0x76CA]);
   (0xFAA7, [0x76DB]); (0xFAA8, [0x76F4]); (0xFAA9, [0x774A]); (0xFAAA, [0x7740]);
   (0xFAAB, [0x78CC]); (0xFAAC, [0x7AB1]); (0xFAAD, [0x7BC0]); (0xFAAE, [0x7C7B]);
   (0xFAAF, [0x7D5B]); (0xFAB0, [0x7DF4]); (0xFAB1, [0x7F3E]); (0xFAB2, [0x8005]);
   (0xFAB3, [0x8352]); (0xFAB4, [0x83EF]); (0xFAB5, [0x8779]); (0xFAB6, [0x8941]);
   (0xFAB7, [0x8986]); (0xFAB8, [0x8996]); (0xFAB9, [0x8ABF]); (0xFABA, [0x8AF8]);
   (0xFABB, [0x8ACB]); (0xFABC, [0x8B01]); (0xFABD, [0x8AFE]); (0xFABE, [0x8AED]);
   (0xFABF, [0x8B39]); (0xFAC0, [0x8B8A]); (0xFAC1, [0x8D08]); (0xFAC2, [0x8F38]);
   (0xFAC3, [0x9072]); (0xFAC4, [0x9199]); (0xFAC5, [0x9276]); (0xFAC6, [0x967C])
  ].

Definition decomp_table_6 : list (N * list N) :=
  [
   (0xFAC7, [0x96E3]); (0xFAC8, [0x9756]); (0xFAC9, [0x97DB]); (0xFACA, [0x97FF]);
   (0xFACB, [0x980B]); (0xFACC, [0x983B]); (0xFACD, [0x9B12]); (0xFACE, [0x9F9C]);
   (0xFACF, [0x2284A]); (0xFAD0, [0x22844]); (0xFAD1, [0x233D5]); (0xFAD2, [0x3B9D]);
   (0xFAD3, [0x4018]); (0xFAD4, [0x4039]); (0xFAD5, [0x25249]); (0xFAD6, [0x25CD0]);
   (0xFAD7, [0x27ED3]); (0xFAD8, [0x9F43]); (0xFAD9, [0x9F8E]); (0xFB1D, [0x5D9; 0x5B4]);
   (0xFB1F, [0x5F2; 0x5B7]); (0xFB2A, [0x5E9; 0x5C1]); (0xFB2B, [0x5E9; 0x5C2]); (0xFB2C, [0x5E9; 0x5BC; 0x5C1]);
   (0xFB2D, [0x5E9; 0x5BC; 0x5C2]); (0xFB2E, [0x5D0; 0x5B7]); (0xFB2F, [0x5D0; 0x5B8]); (0xFB30, [0x5D0; 0x5BC]);
   (0xFB31, [0x5D1; 0x5BC]); (0xFB32, [0x5D2; 0x5BC]); (0xFB33, [0x5D3; 0x5BC]); (0xFB34, [0x5D4; 0x5BC]);
   (0xFB35, [0x5D5; 0x5BC]); (0xFB36, [0x5D6; 0x5BC]); (0xFB38, [0x5D8; 0x5BC]); (0xFB39, [0x5D9; 0x5BC]);
   (0xFB3A, [0x5DA; 0x5BC]); (0xFB3B, [0x5DB; 0x5BC]); (0xFB3C, [0x5DC; 0x5BC]); (0xFB3E, [0x5DE; 0x5BC]);
   (0xFB40, [0x5E0; 0x5BC]); (0xFB41, [0x5E1; 0x5BC]); (0xFB43, [0x5E3; 0x5BC]); (0xFB44, [0x5E4; 0x5BC]);
   (0xFB46, [0x5E6; 0x5BC]); (0xFB47, [0x5E7; 0x5BC]); (0xFB48, [0x5E8; 0x5BC]); (0xFB49, [0x5E9; 0x5BC]);
   (0xFB4A, [0x5EA; 0x5BC]); (0xFB4B, [0x5D5; 0x5B9]); (0xFB4C, [0x5D1; 0x5BF]); (0xFB4D, [0x5DB; 0x5BF]);
   (0xFB4E, [0x5E4; 0x5BF]); (0x1109A, [0x11099; 0x110BA]); (0x1109C, [0x1109B; 0x110BA]); (0x110AB, [0x110A5; 0x110BA]);
   (0x1112E, [0x11131; 0x11127]); (0x1112F, [0x11132; 0x11127]); (0x1134B, [0x11347; 0x1133E]); (0x1134C, [0x11347; 0x11357]);
   (0x114BB, [0x114B9; 0x114BA]); (0x114BC, [0x114B9; 0x114B0]); (0x114BE, [0x114B9; 0x114BD]); (0x115BA, [0x115B8; 0x115AF]);
   (0x115BB, [0x115B9; 0x115AF]); (0x11938, [0x11935; 0x11930]); (0x1D15E, [0x1D157; 0x1D165]); (0x1D15F, [0x1D158; 0x1D165]);
   (0x1D160, [0x1D158; 0x1D165; 0x1D16E]); (0x1D161, [0x1D158; 0x1D165; 0x1D16F]); (0x1D162, [0x1D158; 0x1D165; 0x1D170]); (0x1D163, [0x1D158; 0x1D165; 0x1D171]);
   (0x1D164, [0x1D158; 0x1D165; 0x1D172]); (0x1D1BB, [0x1D1B9; 0x1D165]); (0x1D1BC, [0x1D1BA; 0x1D165]); (0x1D1BD, [0x1D1B9; 0x1D165; 0x1D16E]);
   (0x1D1BE, [0x1D1BA; 0x1D165; 0x1D16E]); (0x1D1BF, [0x1D1B9; 0x1D165; 0x1D16F]); (0x1D1C0, [0x1D1BA; 0x1D165; 0x1D16F]); (0x2F800, [0x4E3D]);
   (0x2F801, [0x4E38]); (0x2F802, [0x4E41]); (0x2F803, [0x20122]); (0x2F804, [0x4F60]);
   (0x2F805, [0x4FAE]); (0x2F806, [0x4FBB]); (0x2F807, [0x5002]); (0x2F808, [0x507A]);
   (0x2F809, [0x5099]); (0x2F80A, [0x50E7]); (0x2F80B, [0x50CF]); (0x2F80C, [0x349E]);
   (0x2F80D, [0x2063A]); (0x2F80E, [0x514D]); (0x2F80F, [0x5154]); (0x2F810, [0x5164]);
   (0x2F811, [0x5177]); (0x2F812, [0x2051C]); (0x2F813, [0x34B9]); (0x2F814, [0x5167]);
   (0x2F815, [0x518D]); (0x2F816, [0x2054B]); (0x2F817, [0x5197]); (0x2F818, [0x51A4]);
   (0x2F819, [0x4ECC]); (0x2F81A, [0x51AC]); (0x2F81B, [0x51B5]); (0x2F81C, [0x291DF]);
   (0x2F81D, [0x51F5]); (0x2F81E, [0x5203]); (0x2F81F, [0x34DF]); (0x2F820, [0x523B]);
   (0x2F821, [0x5246]); (0x2F822, [0x5272]); (0x2F823, [0x5277]); (0x2F824, [0x3515]);
   (0x2F825, [0x52C7]); (0x2F826, [0x52C9]); (0x2F827, [0x52E4]); (0x2F828, [0x52FA]);
   (0x2F829, [0x5305]); (0x2F82A, [0x5306]); (0x2F82B, [0x5317]); (0x2F82C, [0x5349]);
   (0x2F82D, [0x5351]); (0x2F82E, [0x535A]); (0x2F82F, [0x5373]); (0x2F830, [0x537D]);
   (0x2F831, [0x537F]); (0x2F832, [0x537F]); (0x2F833, [0x537F]); (0x2F834, [0x20A2C]);
   (0x2F835, [0x7070]); (0x2F836, [0x53CA]); (0x2F837, [0x53DF]); (0x2F838, [0x20B63]);
   (0x2F839, [0x53EB]); (0x2F83A, [0x53F1]); (0x2F83B, [0x5406]); (0x2F83C, [0x549E]);
   (0x2F83D, [0x5438]); (0x2F83E, [0x5448]); (0x2F83F, [0x5468]); (0x2F840, [0x54A2]);
   (0x2F841, [0x54F6]); (0x2F842, [0x5510]); (0x2F843, [0x5553]); (0x2F844, [0x5563]);
   (0x2F845, [0x5584]); (0x2F846, [0x5584]); (0x2F847, [0x5599]); (0x2F848, [0x55AB]);
   (0x2F849, [0x55B3]); (0x2F84A, [0x55C2]); (0x2F84B, [0x5716]); (0x2F84C, [0x5606]);
   (0x2F84D, [0x5717]); (0x2F84E, [0x5651]); (0x2F84F, [0x5674]); (0x2F850, [0x5207]);
   (0x2F851, [0x58EE]); (0x2F852, [0x57CE]); (0x2F853, [0x57F4]); (0x2F854, [0x580D]);
   (0x2F855, [0x578B]); (0x2F856, [0x5832]); (0x2F857, [0x5831]); (0x2F858, [0x58AC]);
   (0x2F859, [0x214E4]); (0x2F85A, [0x58F2]); (0x2F85B, [0x58F7]); (0x2F85C, [0x5906]);
   (0x2F85D, [0x591A]); (0x2F85E, [0x5922]); (0x2F85F, [0x5962]); (0x2F860, [0x216A8]);
   (0x2F861, [0x216EA]); (0x2F862, [0x59EC]); (0x2F863, [0x5A1B]); (0x2F864, [0x5A27]);
   (0x2F865, [0x59D8]); (0x2F866, [0x5A66]); (0x2F867, [0x36EE]); (0x2F868, [0x36FC]);
   (0x2F869, [0x5B08]); (0x2F86A, [0x5B3E]); (0x2F86B, [0x5B3E]); (0x2F86C, [0x219C8]);
   (0x2F86D, [0x5BC3]); (0x2F86E, [0x5BD8]); (0x2F86F, [0x5BE7]); (0x2F870, [0x5BF3]);
   (0x2F871, [0x21B18]); (0x2F872, [0x5BFF]); (0x2F873, [0x5C06]); (0x2F874, [0x5F53]);
   (0x2F875, [0x5C22]); (0x2F876, [0x3781]); (0x2F877, [0x5C60]); (0x2F878, [0x5C6E]);
   (0x2F879, [0x5CC0]); (0x2F87A, [0x5C8D]); (0x2F87B, [0x21DE4]); (0x2F87C, [0x5D43]);
   (0x2F87D, [0x21DE6]); (0x2F87E, [0x5D6E]); (0x2F87F, [0x5D6B]); (0x2F880, [0x5D7C]);
   (0x2F881, [0x5DE1]); (0x2F882, [0x5DE2]); (0x2F883, [0x382F]); (0x2F884, [0x5DFD]);
   (0x2F885, [0x5E28]); (0x2F886, [0x5E3D]); (0x2F887, [0x5E69]); (0x2F888, [0x3862]);
   (0x2F889, [0x22183]); (0x2F88A, [0x387C]); (0x2F88B, [0x5EB0]); (0x2F88C, [0x5EB3]);
   (0x2F88D, [0x5EB6]); (0x2F88E, [0x5ECA]); (0x2F88F, [0x2A392]); (0x2F890, [0x5EFE]);
   (0x2F891, [0x22331]); (0x2F892, [0x22331]); (0x2F893, [0x8201]); (0x2F894, [0x5F22]);
   (0x2F895, [0x5F22]); (0x2F896, [0x38C7]); (0x2F897, [0x232B8]); (0x2F898, [0x261DA]);
   (0x2F899, [0x5F62]); (0x2F89A, [0x5F6B]); (0x2F89B, [0x38E3]); (0x2F89C, [0x5F9A]);
   (0x2F89D, [0x5FCD]); (0x2F89E, [0x5FD7]); (0x2F89F, [0x5FF9]); (0x2F8A0, [0x6081])
  ].

Definition decomp_table_7 : list (N * list N) :=
  [
   (0x2F8A1, [0x393A]); (0x2F8A2, [0x391C]); (0x2F8A3, [0x6094]); (0x2F8A4, [0x226D4]);
   (0x2F8A5, [0x60C7]); (0x2F8A6, [0x6148]); (0x2F8A7, [0x614C]); (0x2F8A8, [0x614E]);
   (0x2F8A9, [0x614C]); (0x2F8AA, [0x617A]); (0x2F8AB, [0x618E]); (0x2F8AC, [0x61B2]);
   (0x2F8AD, [0x61A4]); (0x2F8AE, [0x61AF]); (0x2F8AF, [0x61DE]); (0x2F8B0, [0x61F2]);
   (0x2F8B1, [0x61F6]); (0x2F8B2, [0x6210]); (0x2F8B3, [0x621B]); (0x2F8B4, [0x625D]);
   (0x2F8B5, [0x62B1]); (0x2F8B6, [0x62D4]); (0x2F8B7, [0x6350]); (0x2F8B8, [0x22B0C]);
   (0x2F8B9, [0x633D]); (0x2F8BA, [0x62FC]); (0x2F8BB, [0x6368]); (0x2F8BC, [0x6383]);
   (0x2F8BD, [0x63E4]); (0x2F8BE, [0x22BF1]); (0x2F8BF, [0x6422]); (0x2F8C0, [0x63C5]);
   (0x2F8C1, [0x63A9]); (0x2F8C2, [0x3A2E]); (0x2F8C3, [0x6469]); (0x2F8C4, [0x647E]);
   (0x2F8C5, [0x649D]); (0x2F8C6, [0x6477]); (0x2F8C7, [0x3A6C]); (0x2F8C8, [0x654F]);
   (0x2F8C9, [0x656C]); (0x2F8CA, [0x2300A]); (0x2F8CB, [0x65E3]); (0x2F8CC, [0x66F8]);
   (0x2F8CD, [0x6649]); (0x2F8CE, [0x3B19]); (0x2F8CF, [0x6691]); (0x2F8D0, [0x3B08]);
   (0x2F8D1, [0x3AE4]); (0x2F8D2, [0x5192]); (0x2F8D3, [0x5195]); (0x2F8D4, [0x6700]);
   (0x2F8D5, [0x669C]); (0x2F8D6, [0x80AD]); (0x2F8D7, [0x43D9]); (0x2F8D8, [0x6717]);
   (0x2F8D9, [0x671B]); (0x2F8DA, [0x6721]); (0x2F8DB, [0x675E]); (0x2F8DC, [0x6753]);
   (0x2F8DD, [0x233C3]); (0x2F8DE, [0x3B49]); (0x2F8DF, [0x67FA]); (0x2F8E0, [0x6785]);
   (0x2F8E1, [0x6852]); (0x2F8E2, [0x6885]); (0x2F8E3, [0x2346D]); (0x2F8E4, [0x688E]);
   (0x2F8E5, [0x681F]); (0x2F8E6, [0x6914]); (0x2F8E7, [0x3B9D]); (0x2F8E8, [0x6942]);
   (0x2F8E9, [0x69A3]); (0x2F8EA, [0x69EA]); (0x2F8EB, [0x6AA8]); (0x2F8EC, [0x236A3]);
   (0x2F8ED, [0x6ADB]); (0x2F8EE, [0x3C18]); (0x2F8EF, [0x6B21]); (0x2F8F0, [0x238A7]);
   (0x2F8F1, [0x6B54]); (0x2F8F2, [0x3C4E]); (0x2F8F3, [0x6B72]); (0x2F8F4, [0x6B9F]);
   (0x2F8F5, [0x6BBA]); (0x2F8F6, [0x6BBB]); (0x2F8F7, [0x23A8D]); (0x2F8F8, [0x21D0B]);
   (0x2F8F9, [0x23AFA]); (0x2F8FA, [0x6C4E]); (0x2F8FB, [0x23CBC]); (0x2F8FC, [0x6CBF]);
   (0x2F8FD, [0x6CCD]); (0x2F8FE, [0x6C67]); (0x2F8FF, [0x6D16]); (0x2F900, [0x6D3E]);
   (0x2F901, [0x6D77]); (0x2F902, [0x6D41]); (0x2F903, [0x6D69]); (0x2F904, [0x6D78]);
   (0x2F905, [0x6D85]); (0x2F906, [0x23D1E]); (0x2F907, [0x6D34]); (0x2F908, [0x6E2F]);
   (0x2F909, [0x6E6E]); (0x2F90A, [0x3D33]); (0x2F90B, [0x6ECB]); (0x2F90C, [0x6EC7]);
   (0x2F90D, [0x23ED1]); (0x2F90E, [0x6DF9]); (0x2F90F, [0x6F6E]); (0x2F910, [0x23F5E]);
   (0x2F911, [0x23F8E]); (0x2F912, [0x6FC6]); (0x2F913, [0x7039]); (0x2F914, [0x701E]);
   (0x2F915, [0x701B]); (0x2F916, [0x3D96]); (0x2F917, [0x704A]); (0x2F918, [0x707D]);
   (0x2F919, [0x7077]); (0x2F91A, [0x70AD]); (0x2F91B, [0x20525]); (0x2F91C, [0x7145]);
   (0x2F91D, [0x24263]); (0x2F91E, [0x719C]); (0x2F91F, [0x243AB]); (0x2F920, [0x7228]);
   (0x2F921, [0x7235]); (0x2F922, [0x7250]); (0x2F923, [0x24608]); (0x2F924, [0x7280]);
   (0x2F925, [0x7295]); (0x2F926, [0x24735]); (0x2F927, [0x24814]); (0x2F928, [0x737A]);
   (0x2F929, [0x738B]); (0x2F92A, [0x3EAC]); (0x2F92B, [0x73A5]); (0x2F92C, [0x3EB8]);
   (0x2F92D, [0x3EB8]); (0x2F92E, [0x7447]); (0x2F92F, [0x745C]); (0x2F930, [0x7471]);
   (0x2F931, [0x7485]); (0x2F932, [0x74CA]); (0x2F933, [0x3F1B]); (0x2F934, [0x7524]);
   (0x2F935, [0x24C36]); (0x2F936, [0x753E]); (0x2F937, [0x24C92]); (0x2F938, [0x7570]);
   (0x2F939, [0x2219F]); (0x2F93A, [0x7610]); (0x2F93B, [0x24FA1]); (0x2F93C, [0x24FB8]);
   (0x2F93D, [0x25044]); (0x2F93E, [0x3FFC]); (0x2F93F, [0x4008]); (0x2F940, [0x76F4]);
   (0x2F941, [0x250F3]); (0x2F942, [0x250F2]); (0x2F943, [0x25119]); (0x2F944, [0x25133]);
   (0x2F945, [0x771E]); (0x2F946, [0x771F]); (0x2F947, [0x771F]); (0x2F948, [0x774A]);
   (0x2F949, [0x4039]); (0x2F94A, [0x778B]); (0x2F94B, [0x4046]); (0x2F94C, [0x4096]);
   (0x2F94D, [0x2541D]); (0x2F94E, [0x784E]); (0x2F94F, [0x788C]); (0x2F950, [0x78CC]);
   (0x2F951, [0x40E3]); (0x2F952, [0x25626]); (0x2F953, [0x7956]); (0x2F954, [0x2569A]);
   (0x2F955, [0x256C5]); (0x2F956, [0x798F]); (0x2F957, [0x79EB]); (0x2F958, [0x412F]);
   (0x2F959, [0x7A40]); (0x2F95A, [0x7A4A]); (0x2F95B, [0x7A4F]); (0x2F95C, [0x2597C]);
   (0x2F95D, [0x25AA7]); (0x2F95E, [0x25AA7]); (0x2F95F, [0x7AEE]); (0x2F960, [0x4202]);
   (0x2F961, [0x25BAB]); (0x2F962, [0x7BC6]); (0x2F963, [0x7BC9]); (0x2F964, [0x4227]);
   (0x2F965, [0x25C80]); (0x2F966, [0x7CD2]); (0x2F967, [0x42A0]); (0x2F968, [0x7CE8]);
   (0x2F969, [0x7CE3]); (0x2F96A, [0x7D00]); (0x2F96B, [0x25F86]); (0x2F96C, [0x7D63]);
   (0x2F96D, [0x4301]); (0x2F96E, [0x7DC7]); (0x2F96F, [0x7E02]); (0x2F970, [0x7E45]);
   (0x2F971, [0x4334]); (0x2F972, [0x26228]); (0x2F973, [0x26247]); (0x2F974, [0x4359]);
   (0x2F975, [0x262D9]); (0x2F976, [0x7F7A]); (0x2F977, [0x2633E]); (0x2F978, [0x7F95]);
   (0x2F979, [0x7FFA]); (0x2F97A, [0x8005]); (0x2F97B, [0x264DA]); (0x2F97C, [0x26523]);
   (0x2F97D, [0x8060]); (0x2F97E, [0x265A8]); (0x2F97F, [0x8070]); (0x2F980, [0x2335F]);
   (0x2F981, [0x43D5]); (0x2F982, [0x80B2]); (0x2F983, [0x8103]); (0x2F984, [0x440B]);
   (0x2F985, [0x813E]); (0x2F986, [0x5AB5]); (0x2F987, [0x267A7]); (0x2F988, [0x267B5]);
   (0x2F989, [0x23393]); (0x2F98A, [0x2339C]); (0x2F98B, [0x8201]); (0x2F98C, [0x8204]);
   (0x2F98D, [0x8F9E]); (0x2F98E, [0x446B]); (0x2F98F, [0x8291]); (0x2F990, [0x828B])
  ].

Definition decomp_table_8 : list (N * list N) :=
  [
   (0x2F991, [0x829D]); (0x2F992, [0x52B3]); (0x2F993, [0x82B1]); (0x2F994, [0x82B3]);
   (0x2F995, [0x82BD]); (0x2F996, [0x82E6]); (0x2F997, [0x26B3C]); (0x2F998, [0x82E5]);
   (0x2F999, [0x831D]); (0x2F99A, [0x8363]); (0x2F99B, [0x83AD]); (0x2F99C, [0x8323]);
   (0x2F99D, [0x83BD]); (0x2F99E, [0x83E7]); (0x2F99F, [0x8457]); (0x2F9A0, [0x8353]);
   (0x2F9A1, [0x83CA]); (0x2F9A2, [0x83CC]); (0x2F9A3, [0x83DC]); (0x2F9A4, [0x26C36]);
   (0x2F9A5, [0x26D6B]); (0x2F9A6, [0x26CD5]); (0x2F9A7, [0x452B]); (0x2F9A8, [0x84F1]);
   (0x2F9A9, [0x84F3]); (0x2F9AA, [0x8516]); (0x2F9AB, [0x273CA]); (0x2F9AC, [0x8564]);
   (0x2F9AD, [0x26F2C]); (0x2F9AE, [0x455D]); (0x2F9AF, [0x4561]); (0x2F9B0, [0x26FB1]);
   (0x2F9B1, [0x270D2]); (0x2F9B2, [0x456B]); (0x2F9B3, [0x8650]); (0x2F9B4, [0x865C]);
   (0x2F9B5, [0x8667]); (0x2F9B6, [0x8669]); (0x2F9B7, [0x86A9]); (0x2F9B8, [0x8688]);
   (0x2F9B9, [0x870E]); (0x2F9BA, [0x86E2]); (0x2F9BB, [0x8779]); (0x2F9BC, [0x8728]);
   (0x2F9BD, [0x876B]); (0x2F9BE, [0x8786]); (0x2F9BF, [0x45D7]); (0x2F9C0, [0x87E1]);
   (0x2F9C1, [0x8801]); (0x2F9C2, [0x45F9]); (0x2F9C3, [0x8860]); (0x2F9C4, [0x8863]);
   (0x2F9C5, [0x27667]); (0x2F9C6, [0x88D7]); (0x2F9C7, [0x88DE]); (0x2F9C8, [0x4635]);
   (0x2F9C9, [0x88FA]); (0x2F9CA, [0x34BB]); (0x2F9CB, [0x278AE]); (0x2F9CC, [0x27966]);
   (0x2F9CD, [0x46BE]); (0x2F9CE, [0x46C7]); (0x2F9CF, [0x8AA0]); (0x2F9D0, [0x8AED]);
   (0x2F9D1, [0x8B8A]); (0x2F9D2, [0x8C55]); (0x2F9D3, [0x27CA8]); (0x2F9D4, [0x8CAB]);
   (0x2F9D5, [0x8CC1]); (0x2F9D6, [0x8D1B]); (0x2F9D7, [0x8D77]); (0x2F9D8, [0x27F2F]);
   (0x2F9D9, [0x20804]); (0x2F9DA, [0x8DCB]); (0x2F9DB, [0x8DBC]); (0x2F9DC, [0x8DF0]);
   (0x2F9DD, [0x208DE]); (0x2F9DE, [0x8ED4]); (0x2F9DF, [0x8F38]); (0x2F9E0, [0x285D2]);
   (0x2F9E1, [0x285ED]); (0x2F9E2, [0x9094]); (0x2F9E3, [0x90F1]); (0x2F9E4, [0x9111]);
   (0x2F9E5, [0x2872E]); (0x2F9E6, [0x911B]); (0x2F9E7, [0x9238]); (0x2F9E8, [0x92D7]);
   (0x2F9E9, [0x92D8]); (0x2F9EA, [0x927C]); (0x2F9EB, [0x93F9]); (0x2F9EC, [0x9415]);
   (0x2F9ED, [0x28BFA]); (0x2F9EE, [0x958B]); (0x2F9EF, [0x4995]); (0x2F9F0, [0x95B7]);
   (0x2F9F1, [0x28D77]); (0x2F9F2, [0x49E6]); (0x2F9F3, [0x96C3]); (0x2F9F4, [0x5DB2]);
   (0x2F9F5, [0x9723]); (0x2F9F6, [0x29145]); (0x2F9F7, [0x2921A]); (0x2F9F8, [0x4A6E]);
   (0x2F9F9, [0x4A76]); (0x2F9FA, [0x97E0]); (0x2F9FB, [0x2940A]); (0x2F9FC, [0x4AB2]);
   (0x2F9FD, [0x29496]); (0x2F9FE, [0x980B]); (0x2F9FF, [0x980B]); (0x2FA00, [0x9829]);
   (0x2FA01, [0x295B6]); (0x2FA02, [0x98E2]); (0x2FA03, [0x4B33]); (0x2FA04, [0x9929]);
   (0x2FA05, [0x99A7]); (0x2FA06, [0x99C2]); (0x2FA07, [0x99FE]); (0x2FA08, [0x4BCE]);
   (0x2FA09, [0x29B30]); (0x2FA0A, [0x9B12]); (0x2FA0B, [0x9C40]); (0x2FA0C, [0x9CFD]);
   (0x2FA0D, [0x4CCE]); (0x2FA0E, [0x4CED]); (0x2FA0F, [0x9D67]); (0x2FA10, [0x2A0CE]);
   (0x2FA11, [0x4CF8]); (0x2FA12, [0x2A105]); (0x2FA13, [0x2A20E]); (0x2FA14, [0x2A291]);
   (0x2FA15, [0x9EBB]); (0x2FA16, [0x4D56]); (0x2FA17, [0x9EF9]); (0x2FA18, [0x9EFE]);
   (0x2FA19, [0x9F05]); (0x2FA1A, [0x9F0F]); (0x2FA1B, [0x9F16]); (0x2FA1C, [0x9F3B]);
   (0x2FA1D, [0x2A600])
  ].

(** Full canonical decomposition of every code point that has one (Hangul syllables apart). *)
Definition decomp_table : list (N * list N) :=
  decomp_table_0 ++ decomp_table_1 ++ decomp_table_2 ++ decomp_table_3 ++ decomp_table_4 ++ decomp_table_5 ++ decomp_table_6 ++ decomp_table_7 ++ decomp_table_8.
Definition ccc_table_0 : list (N * N) :=
  [
   (0x300, 230); (0x301, 230); (0x302, 230); (0x303, 230); (0x304, 230); (0x305, 230); (0x306, 230); (0x307, 230);
   (0x308, 230); (0x309, 230); (0x30A, 230); (0x30B, 230); (0x30C, 230); (0x30D, 230); (0x30E, 230); (0x30F, 230);
   (0x310, 230); (0x311, 230); (0x312, 230); (0x313, 230); (0x314, 230); (0x315, 232); (0x316, 220); (0x317, 220);
   (0x318, 220); (0x319, 220); (0x31A, 232); (0x31B, 216); (0x31C, 220); (0x31D, 220); (0x31E, 220); (0x31F, 220);
   (0x320, 220); (0x321, 202); (0x322, 202); (0x323, 220); (0x324, 220); (0x325, 220); (0x326, 220); (0x327, 202);
   (0x328, 202); (0x329, 220); (0x32A, 220); (0x32B, 220); (0x32C, 220); (0x32D, 220); (0x32E, 220); (0x32F, 220);
   (0x330, 220); (0x331, 220); (0x332, 220); (0x333, 220); (0x334, 1); (0x335, 1); (0x336, 1); (0x337, 1);
   (0x338, 1); (0x339, 220); (0x33A, 220); (0x33B, 220); (0x33C, 220); (0x33D, 230); (0x33E, 230); (0x33F, 230);
   (0x340, 230); (0x341, 230); (0x342, 230); (0x343, 230); (0x344, 230); (0x345, 240); (0x346, 230); (0x347, 220);
   (0x348, 220); (0x349, 220); (0x34A, 230); (0x34B, 230); (0x34C, 230); (0x34D, 220); (0x34E, 220); (0x350, 230);
   (0x351, 230); (0x352, 230); (0x353, 220); (0x354, 220); (0x355, 220); (0x356, 220); (0x357, 230); (0x358, 232);
   (0x359, 220); (0x35A, 220); (0x35B, 230); (0x35C, 233); (0x35D, 234); (0x35E, 234); (0x35F, 233); (0x360, 234);
   (0x361, 234); (0x362, 233); (0x363, 230); (0x364, 230); (0x365, 230); (0x366, 230); (0x367, 230); (0x368, 230);
   (0x369, 230); (0x36A, 230); (0x36B, 230); (0x36C, 230); (0x36D, 230); (0x36E, 230); (0x36F, 230); (0x483, 230);
   (0x484, 230); (0x485, 230); (0x486, 230); (0x487, 230); (0x591, 220); (0x592, 230); (0x593, 230); (0x594, 230);
   (0x595, 230); (0x596, 220); (0x597, 230); (0x598, 230); (0x599, 230); (0x59A, 222); (0x59B, 220); (0x59C, 230);
   (0x59D, 230); (0x59E, 230); (0x59F, 230); (0x5A0, 230); (0x5A1, 230); (0x5A2, 220); (0x5A3, 220); (0x5A4, 220);
   (0x5A5, 220); (0x5A6, 220); (0x5A7, 220); (0x5A8, 230); (0x5A9, 230); (0x5AA, 220); (0x5AB, 230); (0x5AC, 230);
   (0x5AD, 222); (0x5AE, 228); (0x5AF, 230); (0x5B0, 10); (0x5B1, 11); (0x5B2, 12); (0x5B3, 13); (0x5B4, 14);
   (0x5B5, 15); (0x5B6, 16); (0x5B7, 17); (0x5B8, 18); (0x5B9, 19); (0x5BA, 19); (0x5BB, 20); (0x5BC, 21);
   (0x5BD, 22); (0x5BF, 23); (0x5C1, 24); (0x5C2, 25); (0x5C4, 230); (0x5C5, 220); (0x5C7, 18); (0x610, 230);
   (0x611, 230); (0x612, 230); (0x613, 230); (0x614, 230); (0x615, 230); (0x616, 230); (0x617, 230); (0x618, 30);
   (0x619, 31); (0x61A, 32); (0x64B, 27); (0x64C, 28); (0x64D, 29); (0x64E, 30); (0x64F, 31); (0x650, 32);
   (0x651, 33); (0x652, 34); (0x653, 230); (0x654, 230); (0x655, 220); (0x656, 220); (0x657, 230); (0x658, 230);
   (0x659, 230); (0x65A, 230); (0x65B, 230); (0x65C, 220); (0x65D, 230); (0x65E, 230); (0x65F, 220); (0x670, 35);
   (0x6D6, 230); (0x6D7, 230); (0x6D8, 230); (0x6D9, 230); (0x6DA, 230); (0x6DB, 230); (0x6DC, 230); (0x6DF, 230);
   (0x6E0, 230); (0x6E1, 230); (0x6E2, 230); (0x6E3, 220); (0x6E4, 230); (0x6E7, 230); (0x6E8, 230); (0x6EA, 220);
   (0x6EB, 230); (0x6EC, 230); (0x6ED, 220); (0x711, 36); (0x730, 230); (0x731, 220); (0x732, 230); (0x733, 230);
   (0x734, 220); (0x735, 230); (0x736, 230); (0x737, 220); (0x738, 220); (0x739, 220); (0x73A, 230); (0x73B, 220);
   (0x73C, 220); (0x73D, 230); (0x73E, 220); (0x73F, 230); (0x740, 230); (0x741, 230); (0x742, 220); (0x743, 230)
  ].

Definition ccc_table_1 : list (N * N) :=
  [
   (0x744, 220); (0x745, 230); (0x746, 220); (0x747, 230); (0x748, 220); (0x749, 230); (0x74A, 230); (0x7EB, 230);
   (0x7EC, 230); (0x7ED, 230); (0x7EE, 230); (0x7EF, 230); (0x7F0, 230); (0x7F1, 230); (0x7F2, 220); (0x7F3, 230);
   (0x7FD, 220); (0x816, 230); (0x817, 230); (0x818, 230); (0x819, 230); (0x81B, 230); (0x81C, 230); (0x81D, 230);
   (0x81E, 230); (0x81F, 230); (0x820, 230); (0x821, 230); (0x822, 230); (0x823, 230); (0x825, 230); (0x826, 230);
   (0x827, 230); (0x829, 230); (0x82A, 230); (0x82B, 230); (0x82C, 230); (0x82D, 230); (0x859, 220); (0x85A, 220);
   (0x85B, 220); (0x898, 230); (0x899, 220); (0x89A, 220); (0x89B, 220); (0x89C, 230); (0x89D, 230); (0x89E, 230);
   (0x89F, 230); (0x8CA, 230); (0x8CB, 230); (0x8CC, 230); (0x8CD, 230); (0x8CE, 230); (0x8CF, 220); (0x8D0, 220);
   (0x8D1, 220); (0x8D2, 220); (0x8D3, 220); (0x8D4, 230); (0x8D5, 230); (0x8D6, 230); (0x8D7, 230); (0x8D8, 230);
   (0x8D9, 230); (0x8DA, 230); (0x8DB, 230); (0x8DC, 230); (0x8DD, 230); (0x8DE, 230); (0x8DF, 230); (0x8E0, 230);
   (0x8E1, 230); (0x8E3, 220); (0x8E4, 230); (0x8E5, 230); (0x8E6, 220); (0x8E7, 230); (0x8E8, 230); (0x8E9, 220);
   (0x8EA, 230); (0x8EB, 230); (0x8EC, 230); (0x8ED, 220); (0x8EE, 220); (0x8EF, 220); (0x8F0, 27); (0x8F1, 28);
   (0x8F2, 29); (0x8F3, 230); (0x8F4, 230); (0x8F5, 230); (0x8F6, 220); (0x8F7, 230); (0x8F8, 230); (0x8F9, 220);
   (0x8FA, 220); (0x8FB, 230); (0x8FC, 230); (0x8FD, 230); (0x8FE, 230); (0x8FF, 230); (0x93C, 7); (0x94D, 9);
   (0x951, 230); (0x952, 220); (0x953, 230); (0x954, 230); (0x9BC, 7); (0x9CD, 9); (0x9FE, 230); (0xA3C, 7);
   (0xA4D, 9); (0xABC, 7); (0xACD, 9); (0xB3C, 7); (0xB4D, 9); (0xBCD, 9); (0xC3C, 7); (0xC4D, 9);
   (0xC55, 84); (0xC56, 91); (0xCBC, 7); (0xCCD, 9); (0xD3B, 9); (0xD3C, 9); (0xD4D, 9); (0xDCA, 9);
   (0xE38, 103); (0xE39, 103); (0xE3A, 9); (0xE48, 107); (0xE49, 107); (0xE4A, 107); (0xE4B, 107); (0xEB8, 118);
   (0xEB9, 118); (0xEBA, 9); (0xEC8, 122); (0xEC9, 122); (0xECA, 122); (0xECB, 122); (0xF18, 220); (0xF19, 220);
   (0xF35, 220); (0xF37, 220); (0xF39, 216); (0xF71, 129); (0xF72, 130); (0xF74, 132); (0xF7A, 130); (0xF7B, 130);
   (0xF7C, 130); (0xF7D, 130); (0xF80, 130); (0xF82, 230); (0xF83, 230); (0xF84, 9); (0xF86, 230); (0xF87, 230);
   (0xFC6, 220); (0x1037, 7); (0x1039, 9); (0x103A, 9); (0x108D, 220); (0x135D, 230); (0x135E, 230); (0x135F, 230);
   (0x1714, 9); (0x1715, 9); (0x1734, 9); (0x17D2, 9); (0x17DD, 230); (0x18A9, 228); (0x1939, 222); (0x193A, 230);
   (0x193B, 220); (0x1A17, 230); (0x1A18, 220); (0x1A60, 9); (0x1A75, 230); (0x1A76, 230); (0x1A77, 230); (0x1A78, 230);
   (0x1A79, 230); (0x1A7A, 230); (0x1A7B, 230); (0x1A7C, 230); (0x1A7F, 220); (0x1AB0, 230); (0x1AB1, 230); (0x1AB2, 230);
   (0x1AB3, 230); (0x1AB4, 230); (0x1AB5, 220); (0x1AB6, 220); (0x1AB7, 220); (0x1AB8, 220); (0x1AB9, 220); (0x1ABA, 220);
   (0x1ABB, 230); (0x1ABC, 230); (0x1ABD, 220); (0x1ABF, 220); (0x1AC0, 220); (0x1AC1, 230); (0x1AC2, 230); (0x1AC3, 220);
   (0x1AC4, 220); (0x1AC5, 230); (0x1AC6, 230); (0x1AC7, 230); (0x1AC8, 230); (0x1AC9, 230); (0x1ACA, 220); (0x1ACB, 230);
   (0x1ACC, 230); (0x1ACD, 230); (0x1ACE, 230); (0x1B34, 7); (0x1B44, 9); (0x1B6B, 230); (0x1B6C, 220); (0x1B6D, 230);
   (0x1B6E, 230); (0x1B6F, 230); (0x1B70, 230); (0x1B71, 230); (0x1B72, 230); (0x1B73, 230); (0x1BAA, 9); (0x1BAB, 9);
   (0x1BE6, 7); (0x1BF2, 9); (0x1BF3, 9); (0x1C37, 7); (0x1CD0, 230); (0x1CD1, 230); (0x1CD2, 230); (0x1CD4, 1)
  ].

Definition ccc_table_2 : list (N * N) :=
  [
   (0x1CD5, 220); (0x1CD6, 220); (0x1CD7, 220); (0x1CD8, 220); (0x1CD9, 220); (0x1CDA, 230); (0x1CDB, 230); (0x1CDC, 220);
   (0x1CDD, 220); (0x1CDE, 220); (0x1CDF, 220); (0x1CE0, 230); (0x1CE2, 1); (0x1CE3, 1); (0x1CE4, 1); (0x1CE5, 1);
   (0x1CE6, 1); (0x1CE7, 1); (0x1CE8, 1); (0x1CED, 220); (0x1CF4, 230); (0x1CF8, 230); (0x1CF9, 230); (0x1DC0, 230);
   (0x1DC1, 230); (0x1DC2, 220); (0x1DC3, 230); (0x1DC4, 230); (0x1DC5, 230); (0x1DC6, 230); (0x1DC7, 230); (0x1DC8, 230);
   (0x1DC9, 230); (0x1DCA, 220); (0x1DCB, 230); (0x1DCC, 230); (0x1DCD, 234); (0x1DCE, 214); (0x1DCF, 220); (0x1DD0, 202);
   (0x1DD1, 230); (0x1DD2, 230); (0x1DD3, 230); (0x1DD4, 230); (0x1DD5, 230); (0x1DD6, 230); (0x1DD7, 230); (0x1DD8, 230);
   (0x1DD9, 230); (0x1DDA, 230); (0x1DDB, 230); (0x1DDC, 230); (0x1DDD, 230); (0x1DDE, 230); (0x1DDF, 230); (0x1DE0, 230);
   (0x1DE1, 230); (0x1DE2, 230); (0x1DE3, 230); (0x1DE4, 230); (0x1DE5, 230); (0x1DE6, 230); (0x1DE7, 230); (0x1DE8, 230);
   (0x1DE9, 230); (0x1DEA, 230); (0x1DEB, 230); (0x1DEC, 230); (0x1DED, 230); (0x1DEE, 230); (0x1DEF, 230); (0x1DF0, 230);
   (0x1DF1, 230); (0x1DF2, 230); (0x1DF3, 230); (0x1DF4, 230); (0x1DF5, 230); (0x1DF6, 232); (0x1DF7, 228); (0x1DF8, 228);
   (0x1DF9, 220); (0x1DFA, 218); (0x1DFB, 230); (0x1DFC, 233); (0x1DFD, 220); (0x1DFE, 230); (0x1DFF, 220); (0x20D0, 230);
   (0x20D1, 230); (0x20D2, 1); (0x20D3, 1); (0x20D4, 230); (0x20D5, 230); (0x20D6, 230); (0x20D7, 230); (0x20D8, 1);
   (0x20D9, 1); (0x20DA, 1); (0x20DB, 230); (0x20DC, 230); (0x20E1, 230); (0x20E5, 1); (0x20E6, 1); (0x20E7, 230);
   (0x20E8, 220); (0x20E9, 230); (0x20EA, 1); (0x20EB, 1); (0x20EC, 220); (0x20ED, 220); (0x20EE, 220); (0x20EF, 220);
   (0x20F0, 230); (0x2CEF, 230); (0x2CF0, 230); (0x2CF1, 230); (0x2D7F, 9); (0x2DE0, 230); (0x2DE1, 230); (0x2DE2, 230);
   (0x2DE3, 230); (0x2DE4, 230); (0x2DE5, 230); (0x2DE6, 230); (0x2DE7, 230); (0x2DE8, 230); (0x2DE9, 230); (0x2DEA, 230);
   (0x2DEB, 230); (0x2DEC, 230); (0x2DED, 230); (0x2DEE, 230); (0x2DEF, 230); (0x2DF0, 230); (0x2DF1, 230); (0x2DF2, 230);
   (0x2DF3, 230); (0x2DF4, 230); (0x2DF5, 230); (0x2DF6, 230); (0x2DF7, 230); (0x2DF8, 230); (0x2DF9, 230); (0x2DFA, 230);
   (0x2DFB, 230); (0x2DFC, 230); (0x2DFD, 230); (0x2DFE, 230); (0x2DFF, 230); (0x302A, 218); (0x302B, 228); (0x302C, 232);
   (0x302D, 222); (0x302E, 224); (0x302F, 224); (0x3099, 8); (0x309A, 8); (0xA66F, 230); (0xA674, 230); (0xA675, 230);
   (0xA676, 230); (0xA677, 230); (0xA678, 230); (0xA679, 230); (0xA67A, 230); (0xA67B, 230); (0xA67C, 230); (0xA67D, 230);
   (0xA69E, 230); (0xA69F, 230); (0xA6F0, 230); (0xA6F1, 230); (0xA806, 9); (0xA82C, 9); (0xA8C4, 9); (0xA8E0, 230);
   (0xA8E1, 230); (0xA8E2, 230); (0xA8E3, 230); (0xA8E4, 230); (0xA8E5, 230); (0xA8E6, 230); (0xA8E7, 230); (0xA8E8, 230);
   (0xA8E9, 230); (0xA8EA, 230); (0xA8EB, 230); (0xA8EC, 230); (0xA8ED, 230); (0xA8EE, 230); (0xA8EF, 230); (0xA8F0, 230);
   (0xA8F1, 230); (0xA92B, 220); (0xA92C, 220); (0xA92D, 220); (0xA953, 9); (0xA9B3, 7); (0xA9C0, 9); (0xAAB0, 230);
   (0xAAB2, 230); (0xAAB3, 230); (0xAAB4, 220); (0xAAB7, 230); (0xAAB8, 230); (0xAABE, 230); (0xAABF, 230); (0xAAC1, 230);
   (0xAAF6, 9); (0xABED, 9); (0xFB1E, 26); (0xFE20, 230); (0xFE21, 230); (0xFE22, 230); (0xFE23, 230); (0xFE24, 230);
   (0xFE25, 230); (0xFE26, 230); (0xFE27, 220); (0xFE28, 220); (0xFE29, 220); (0xFE2A, 220); (0xFE2B, 220); (0xFE2C, 220);
   (0xFE2D, 220); (0xFE2E, 230); (0xFE2F, 230); (0x101FD, 220); (0x102E0, 220); (0x10376, 230); (0x10377, 230); (0x10378, 230);
   (0x10379, 230); (0x1037A, 230); (0x10A0D, 220); (0x10A0F, 230); (0x10A38, 230); (0x10A39, 1); (0x10A3A, 220); (0x10A3F, 9)
  ].

Definition ccc_table_3 : list (N * N) :=
  [
   (0x10AE5, 230); (0x10AE6, 220); (0x10D24, 230); (0x10D25, 230); (0x10D26, 230); (0x10D27, 230); (0x10EAB, 230); (0x10EAC, 230);
   (0x10F46, 220); (0x10F47, 220); (0x10F48, 230); (0x10F49, 230); (0x10F4A, 230); (0x10F4B, 220); (0x10F4C, 230); (0x10F4D, 220);
   (0x10F4E, 220); (0x10F4F, 220); (0x10F50, 220); (0x10F82, 230); (0x10F83, 220); (0x10F84, 230); (0x10F85, 220); (0x11046, 9);
   (0x11070, 9); (0x1107F, 9); (0x110B9, 9); (0x110BA, 7); (0x11100, 230); (0x11101, 230); (0x11102, 230); (0x11133, 9);
   (0x11134, 9); (0x11173, 7); (0x111C0, 9); (0x111CA, 7); (0x11235, 9); (0x11236, 7); (0x112E9, 7); (0x112EA, 9);
   (0x1133B, 7); (0x1133C, 7); (0x1134D, 9); (0x11366, 230); (0x11367, 230); (0x11368, 230); (0x11369, 230); (0x1136A, 230);
   (0x1136B, 230); (0x1136C, 230); (0x11370, 230); (0x11371, 230); (0x11372, 230); (0x11373, 230); (0x11374, 230); (0x11442, 9);
   (0x11446, 7); (0x1145E, 230); (0x114C2, 9); (0x114C3, 7); (0x115BF, 9); (0x115C0, 7); (0x1163F, 9); (0x116B6, 9);
   (0x116B7, 7); (0x1172B, 9); (0x11839, 9); (0x1183A, 7); (0x1193D, 9); (0x1193E, 9); (0x11943, 7); (0x119E0, 9);
   (0x11A34, 9); (0x11A47, 9); (0x11A99, 9); (0x11C3F, 9); (0x11D42, 7); (0x11D44, 9); (0x11D45, 9); (0x11D97, 9);
   (0x16AF0, 1); (0x16AF1, 1); (0x16AF2, 1); (0x16AF3, 1); (0x16AF4, 1); (0x16B30, 230); (0x16B31, 230); (0x16B32, 230);
   (0x16B33, 230); (0x16B34, 230); (0x16B35, 230); (0x16B36, 230); (0x16FF0, 6); (0x16FF1, 6); (0x1BC9E, 1); (0x1D165, 216);
   (0x1D166, 216); (0x1D167, 1); (0x1D168, 1); (0x1D169, 1); (0x1D16D, 226); (0x1D16E, 216); (0x1D16F, 216); (0x1D170, 216);
   (0x1D171, 216); (0x1D172, 216); (0x1D17B, 220); (0x1D17C, 220); (0x1D17D, 220); (0x1D17E, 220); (0x1D17F, 220); (0x1D180, 220);
   (0x1D181, 220); (0x1D182, 220); (0x1D185, 230); (0x1D186, 230); (0x1D187, 230); (0x1D188, 230); (0x1D189, 230); (0x1D18A, 220);
   (0x1D18B, 220); (0x1D1AA, 230); (0x1D1AB, 230); (0x1D1AC, 230); (0x1D1AD, 230); (0x1D242, 230); (0x1D243, 230); (0x1D244, 230);
   (0x1E000, 230); (0x1E001, 230); (0x1E002, 230); (0x1E003, 230); (0x1E004, 230); (0x1E005, 230); (0x1E006, 230); (0x1E008, 230);
   (0x1E009, 230); (0x1E00A, 230); (0x1E00B, 230); (0x1E00C, 230); (0x1E00D, 230); (0x1E00E, 230); (0x1E00F, 230); (0x1E010, 230);
   (0x1E011, 230); (0x1E012, 230); (0x1E013, 230); (0x1E014, 230); (0x1E015, 230); (0x1E016, 230); (0x1E017, 230); (0x1E018, 230);
   (0x1E01B, 230); (0x1E01C, 230); (0x1E01D, 230); (0x1E01E, 230); (0x1E01F, 230); (0x1E020, 230); (0x1E021, 230); (0x1E023, 230);
   (0x1E024, 230); (0x1E026, 230); (0x1E027, 230); (0x1E028, 230); (0x1E029, 230); (0x1E02A, 230); (0x1E130, 230); (0x1E131, 230);
   (0x1E132, 230); (0x1E133, 230); (0x1E134, 230); (0x1E135, 230); (0x1E136, 230); (0x1E2AE, 230); (0x1E2EC, 230); (0x1E2ED, 230);
   (0x1E2EE, 230); (0x1E2EF, 230); (0x1E8D0, 220); (0x1E8D1, 220); (0x1E8D2, 220); (0x1E8D3, 220); (0x1E8D4, 220); (0x1E8D5, 220);
   (0x1E8D6, 220); (0x1E944, 230); (0x1E945, 230); (0x1E946, 230); (0x1E947, 230); (0x1E948, 230); (0x1E949, 230); (0x1E94A, 7)
  ].

(** [unicodedata.combining]: the code points of non-zero canonical combining class. *)
Definition ccc_table : list (N * N) :=
  ccc_table_0 ++ ccc_table_1 ++ ccc_table_2 ++ ccc_table_3.
Definition Mn_ranges_0 : list (N * N) :=
  [
   (0x300, 0x36F); (0x483, 0x487); (0x591, 0x5BD); (0x5BF, 0x5BF); (0x5C1, 0x5C2);
   (0x5C4, 0x5C5); (0x5C7, 0x5C7); (0x610, 0x61A); (0x64B, 0x65F); (0x670, 0x670);
   (0x6D6, 0x6DC); (0x6DF, 0x6E4); (0x6E7, 0x6E8); (0x6EA, 0x6ED); (0x711, 0x711);
   (0x730, 0x74A); (0x7A6, 0x7B0); (0x7EB, 0x7F3); (0x7FD, 0x7FD); (0x816, 0x819);
   (0x81B, 0x823); (0x825, 0x827); (0x829, 0x82D); (0x859, 0x85B); (0x898, 0x89F);
   (0x8CA, 0x8E1); (0x8E3, 0x902); (0x93A, 0x93A); (0x93C, 0x93C); (0x941, 0x948);
   (0x94D, 0x94D); (0x951, 0x957); (0x962, 0x963); (0x981, 0x981); (0x9BC, 0x9BC);
   (0x9C1, 0x9C4); (0x9CD, 0x9CD); (0x9E2, 0x9E3); (0x9FE, 0x9FE); (0xA01, 0xA02);
   (0xA3C, 0xA3C); (0xA41, 0xA42); (0xA47, 0xA48); (0xA4B, 0xA4D); (0xA51, 0xA51);
   (0xA70, 0xA71); (0xA75, 0xA75); (0xA81, 0xA82); (0xABC, 0xABC); (0xAC1, 0xAC5);
   (0xAC7, 0xAC8); (0xACD, 0xACD); (0xAE2, 0xAE3); (0xAFA, 0xAFF); (0xB01, 0xB01);
   (0xB3C, 0xB3C); (0xB3F, 0xB3F); (0xB41, 0xB44); (0xB4D, 0xB4D); (0xB55, 0xB56);
   (0xB62, 0xB63); (0xB82, 0xB82); (0xBC0, 0xBC0); (0xBCD, 0xBCD); (0xC00, 0xC00);
   (0xC04, 0xC04); (0xC3C, 0xC3C); (0xC3E, 0xC40); (0xC46, 0xC48); (0xC4A, 0xC4D);
   (0xC55, 0xC56); (0xC62, 0xC63); (0xC81, 0xC81); (0xCBC, 0xCBC); (0xCBF, 0xCBF);
   (0xCC6, 0xCC6); (0xCCC, 0xCCD); (0xCE2, 0xCE3); (0xD00, 0xD01); (0xD3B, 0xD3C);
   (0xD41, 0xD44); (0xD4D, 0xD4D); (0xD62, 0xD63); (0xD81, 0xD81); (0xDCA, 0xDCA);
   (0xDD2, 0xDD4); (0xDD6, 0xDD6); (0xE31, 0xE31); (0xE34, 0xE3A); (0xE47, 0xE4E);
   (0xEB1, 0xEB1); (0xEB4, 0xEBC); (0xEC8, 0xECD); (0xF18, 0xF19); (0xF35, 0xF35);
   (0xF37, 0xF37); (0xF39, 0xF39); (0xF71, 0xF7E); (0xF80, 0xF84); (0xF86, 0xF87);
   (0xF8D, 0xF97); (0xF99, 0xFBC); (0xFC6, 0xFC6); (0x102D, 0x1030); (0x1032, 0x1037);
   (0x1039, 0x103A); (0x103D, 0x103E); (0x1058, 0x1059); (0x105E, 0x1060); (0x1071, 0x1074);
   (0x1082, 0x1082); (0x1085, 0x1086); (0x108D, 0x108D); (0x109D, 0x109D); (0x135D, 0x135F);
   (0x1712, 0x1714); (0x1732, 0x1733); (0x1752, 0x1753); (0x1772, 0x1773); (0x17B4, 0x17B5);
   (0x17B7, 0x17BD); (0x17C6, 0x17C6); (0x17C9, 0x17D3); (0x17DD, 0x17DD); (0x180B, 0x180D);
   (0x180F, 0x180F); (0x1885, 0x1886); (0x18A9, 0x18A9); (0x1920, 0x1922); (0x1927, 0x1928);
   (0x1932, 0x1932); (0x1939, 0x193B); (0x1A17, 0x1A18); (0x1A1B, 0x1A1B); (0x1A56, 0x1A56);
   (0x1A58, 0x1A5E); (0x1A60, 0x1A60); (0x1A62, 0x1A62); (0x1A65, 0x1A6C); (0x1A73, 0x1A7C);
   (0x1A7F, 0x1A7F); (0x1AB0, 0x1ABD); (0x1ABF, 0x1ACE); (0x1B00, 0x1B03); (0x1B34, 0x1B34);
   (0x1B36, 0x1B3A); (0x1B3C, 0x1B3C); (0x1B42, 0x1B42); (0x1B6B, 0x1B73); (0x1B80, 0x1B81);
   (0x1BA2, 0x1BA5); (0x1BA8, 0x1BA9); (0x1BAB, 0x1BAD); (0x1BE6, 0x1BE6); (0x1BE8, 0x1BE9);
   (0x1BED, 0x1BED); (0x1BEF, 0x1BF1); (0x1C2C, 0x1C33); (0x1C36, 0x1C37); (0x1CD0, 0x1CD2);
   (0x1CD4, 0x1CE0); (0x1CE2, 0x1CE8); (0x1CED, 0x1CED); (0x1CF4, 0x1CF4); (0x1CF8, 0x1CF9);
   (0x1DC0, 0x1DFF); (0x20D0, 0x20DC); (0x20E1, 0x20E1); (0x20E5, 0x20F0); (0x2CEF, 0x2CF1);
   (0x2D7F, 0x2D7F); (0x2DE0, 0x2DFF); (0x302A, 0x302D); (0x3099, 0x309A); (0xA66F, 0xA66F);
   (0xA674, 0xA67D); (0xA69E, 0xA69F); (0xA6F0, 0xA6F1); (0xA802, 0xA802); (0xA806, 0xA806);
   (0xA80B, 0xA80B); (0xA825, 0xA826); (0xA82C, 0xA82C); (0xA8C4, 0xA8C5); (0xA8E0, 0xA8F1);
   (0xA8FF, 0xA8FF); (0xA926, 0xA92D); (0xA947, 0xA951); (0xA980, 0xA982); (0xA9B3, 0xA9B3);
   (0xA9B6, 0xA9B9); (0xA9BC, 0xA9BD); (0xA9E5, 0xA9E5); (0xAA29, 0xAA2E); (0xAA31, 0xAA32);
   (0xAA35, 0xAA36); (0xAA43, 0xAA43); (0xAA4C, 0xAA4C); (0xAA7C, 0xAA7C); (0xAAB0, 0xAAB0);
   (0xAAB2, 0xAAB4); (0xAAB7, 0xAAB8); (0xAABE, 0xAABF); (0xAAC1, 0xAAC1); (0xAAEC, 0xAAED);
   (0xAAF6, 0xAAF6); (0xABE5, 0xABE5); (0xABE8, 0xABE8); (0xABED, 0xABED); (0xFB1E, 0xFB1E);
   (0xFE00, 0xFE0F); (0xFE20, 0xFE2F); (0x101FD, 0x101FD); (0x102E0, 0x102E0); (0x10376, 0x1037A);
   (0x10A01, 0x10A03); (0x10A05, 0x10A06); (0x10A0C, 0x10A0F); (0x10A38, 0x10A3A); (0x10A3F, 0x10A3F);
   (0x10AE5, 0x10AE6); (0x10D24, 0x10D27); (0x10EAB, 0x10EAC); (0x10F46, 0x10F50); (0x10F82, 0x10F85);
   (0x11001, 0x11001); (0x11038, 0x11046); (0x11070, 0x11070); (0x11073, 0x11074); (0x1107F, 0x11081);
   (0x110B3, 0x110B6); (0x110B9, 0x110BA); (0x110C2, 0x110C2); (0x11100, 0x11102); (0x11127, 0x1112B);
   (0x1112D, 0x11134); (0x11173, 0x11173); (0x11180, 0x11181); (0x111B6, 0x111BE); (0x111C9, 0x111CC)
  ].

Definition Mn_ranges_1 : list (N * N) :=
  [
   (0x111CF, 0x111CF); (0x1122F, 0x11231); (0x11234, 0x11234); (0x11236, 0x11237); (0x1123E, 0x1123E);
   (0x112DF, 0x112DF); (0x112E3, 0x112EA); (0x11300, 0x11301); (0x1133B, 0x1133C); (0x11340, 0x11340);
   (0x11366, 0x1136C); (0x11370, 0x11374); (0x11438, 0x1143F); (0x11442, 0x11444); (0x11446, 0x11446);
   (0x1145E, 0x1145E); (0x114B3, 0x114B8); (0x114BA, 0x114BA); (0x114BF, 0x114C0); (0x114C2, 0x114C3);
   (0x115B2, 0x115B5); (0x115BC, 0x115BD); (0x115BF, 0x115C0); (0x115DC, 0x115DD); (0x11633, 0x1163A);
   (0x1163D, 0x1163D); (0x1163F, 0x11640); (0x116AB, 0x116AB); (0x116AD, 0x116AD); (0x116B0, 0x116B5);
   (0x116B7, 0x116B7); (0x1171D, 0x1171F); (0x11722, 0x11725); (0x11727, 0x1172B); (0x1182F, 0x11837);
   (0x11839, 0x1183A); (0x1193B, 0x1193C); (0x1193E, 0x1193E); (0x11943, 0x11943); (0x119D4, 0x119D7);
   (0x119DA, 0x119DB); (0x119E0, 0x119E0); (0x11A01, 0x11A0A); (0x11A33, 0x11A38); (0x11A3B, 0x11A3E);
   (0x11A47, 0x11A47); (0x11A51, 0x11A56); (0x11A59, 0x11A5B); (0x11A8A, 0x11A96); (0x11A98, 0x11A99);
   (0x11C30, 0x11C36); (0x11C38, 0x11C3D); (0x11C3F, 0x11C3F); (0x11C92, 0x11CA7); (0x11CAA, 0x11CB0);
   (0x11CB2, 0x11CB3); (0x11CB5, 0x11CB6); (0x11D31, 0x11D36); (0x11D3A, 0x11D3A); (0x11D3C, 0x11D3D);
   (0x11D3F, 0x11D45); (0x11D47, 0x11D47); (0x11D90, 0x11D91); (0x11D95, 0x11D95); (0x11D97, 0x11D97);
   (0x11EF3, 0x11EF4); (0x16AF0, 0x16AF4); (0x16B30, 0x16B36); (0x16F4F, 0x16F4F); (0x16F8F, 0x16F92);
   (0x16FE4, 0x16FE4); (0x1BC9D, 0x1BC9E); (0x1CF00, 0x1CF2D); (0x1CF30, 0x1CF46); (0x1D167, 0x1D169);
   (0x1D17B, 0x1D182); (0x1D185, 0x1D18B); (0x1D1AA, 0x1D1AD); (0x1D242, 0x1D244); (0x1DA00, 0x1DA36);
   (0x1DA3B, 0x1DA6C); (0x1DA75, 0x1DA75); (0x1DA84, 0x1DA84); (0x1DA9B, 0x1DA9F); (0x1DAA1, 0x1DAAF);
   (0x1E000, 0x1E006); (0x1E008, 0x1E018); (0x1E01B, 0x1E021); (0x1E023, 0x1E024); (0x1E026, 0x1E02A);
   (0x1E130, 0x1E136); (0x1E2AE, 0x1E2AE); (0x1E2EC, 0x1E2EF); (0x1E8D0, 0x1E8D6); (0x1E944, 0x1E94A);
   (0xE0100, 0xE01EF)
  ].

(** [unicodedata.category(c) == 'Mn'], as inclusive ranges. *)
Definition Mn_ranges : list (N * N) :=
  Mn_ranges_0 ++ Mn_ranges_1.
Definition space_ranges_0 : list (N * N) :=
  [
   (0x9, 0xD); (0x1C, 0x20); (0x85, 0x85); (0xA0, 0xA0); (0x1680, 0x1680);
   (0x2000, 0x200A); (0x2028, 0x2029); (0x202F, 0x202F); (0x205F, 0x205F); (0x3000, 0x3000)
  ].

(** [str.isspace], as inclusive ranges. *)
Definition space_ranges : list (N * N) :=
  space_ranges_0.
Definition cased_ranges_0 : list (N * N) :=
  [
   (0x41, 0x5A); (0x61, 0x7A); (0xAA, 0xAA); (0xB5, 0xB5); (0xBA, 0xBA);
   (0xC0, 0xD6); (0xD8, 0xF6); (0xF8, 0x1BA); (0x1BC, 0x1BF); (0x1C4, 0x293);
   (0x295, 0x2AF); (0x370, 0x373); (0x376, 0x377); (0x37B, 0x37D); (0x37F, 0x37F);
   (0x386, 0x386); (0x388, 0x38A); (0x38C, 0x38C); (0x38E, 0x3A1); (0x3A3, 0x3F5);
   (0x3F7, 0x481); (0x48A, 0x52F); (0x531, 0x556); (0x560, 0x588); (0x10A0, 0x10C5);
   (0x10C7, 0x10C7); (0x10CD, 0x10CD); (0x10D0, 0x10FA); (0x10FD, 0x10FF); (0x13A0, 0x13F5);
   (0x13F8, 0x13FD); (0x1C80, 0x1C88); (0x1C90, 0x1CBA); (0x1CBD, 0x1CBF); (0x1D00, 0x1D2B);
   (0x1D6B, 0x1D77); (0x1D79, 0x1D9A); (0x1E00, 0x1F15); (0x1F18, 0x1F1D); (0x1F20, 0x1F45);
   (0x1F48, 0x1F4D); (0x1F50, 0x1F57); (0x1F59, 0x1F59); (0x1F5B, 0x1F5B); (0x1F5D, 0x1F5D);
   (0x1F5F, 0x1F7D); (0x1F80, 0x1FB4); (0x1FB6, 0x1FBC); (0x1FBE, 0x1FBE); (0x1FC2, 0x1FC4);
   (0x1FC6, 0x1FCC); (0x1FD0, 0x1FD3); (0x1FD6, 0x1FDB); (0x1FE0, 0x1FEC); (0x1FF2, 0x1FF4);
   (0x1FF6, 0x1FFC); (0x2102, 0x2102); (0x2107, 0x2107); (0x210A, 0x2113); (0x2115, 0x2115);
   (0x2119, 0x211D); (0x2124, 0x2124); (0x2126, 0x2126); (0x2128, 0x2128); (0x212A, 0x212D);
   (0x212F, 0x2134); (0x2139, 0x2139); (0x213C, 0x213F); (0x2145, 0x2149); (0x214E, 0x214E);
   (0x2160, 0x217F); (0x2183, 0x2184); (0x24B6, 0x24E9); (0x2C00, 0x2C7B); (0x2C7E, 0x2CE4);
   (0x2CEB, 0x2CEE); (0x2CF2, 0x2CF3); (0x2D00, 0x2D25); (0x2D27, 0x2D27); (0x2D2D, 0x2D2D);
   (0xA640, 0xA66D); (0xA680, 0xA69B); (0xA722, 0xA76F); (0xA771, 0xA787); (0xA78B, 0xA78E);
   (0xA790, 0xA7CA); (0xA7D0, 0xA7D1); (0xA7D3, 0xA7D3); (0xA7D5, 0xA7D9); (0xA7F5, 0xA7F6);
   (0xA7FA, 0xA7FA); (0xAB30, 0xAB5A); (0xAB60, 0xAB68); (0xAB70, 0xABBF); (0xFB00, 0xFB06);
   (0xFB13, 0xFB17); (0xFF21, 0xFF3A); (0xFF41, 0xFF5A); (0x10400, 0x1044F); (0x104B0, 0x104D3);
   (0x104D8, 0x104FB); (0x10570, 0x1057A); (0x1057C, 0x1058A); (0x1058C, 0x10592); (0x10594, 0x10595);
   (0x10597, 0x105A1); (0x105A3, 0x105B1); (0x105B3, 0x105B9); (0x105BB, 0x105BC); (0x10C80, 0x10CB2);
   (0x10CC0, 0x10CF2); (0x118A0, 0x118DF); (0x16E40, 0x16E7F); (0x1D400, 0x1D454); (0x1D456, 0x1D49C);
   (0x1D49E, 0x1D49F); (0x1D4A2, 0x1D4A2); (0x1D4A5, 0x1D4A6); (0x1D4A9, 0x1D4AC); (0x1D4AE, 0x1D4B9);
   (0x1D4BB, 0x1D4BB); (0x1D4BD, 0x1D4C3); (0x1D4C5, 0x1D505); (0x1D507, 0x1D50A); (0x1D50D, 0x1D514);
   (0x1D516, 0x1D51C); (0x1D51E, 0x1D539); (0x1D53B, 0x1D53E); (0x1D540, 0x1D544); (0x1D546, 0x1D546);
   (0x1D54A, 0x1D550); (0x1D552, 0x1D6A5); (0x1D6A8, 0x1D6C0); (0x1D6C2, 0x1D6DA); (0x1D6DC, 0x1D6FA);
   (0x1D6FC, 0x1D714); (0x1D716, 0x1D734); (0x1D736, 0x1D74E); (0x1D750, 0x1D76E); (0x1D770, 0x1D788);
   (0x1D78A, 0x1D7A8); (0x1D7AA, 0x1D7C2); (0x1D7C4, 0x1D7CB); (0x1DF00, 0x1DF09); (0x1DF0B, 0x1DF1E);
   (0x1E900, 0x1E943); (0x1F130, 0x1F149); (0x1F150, 0x1F169); (0x1F170, 0x1F189)
  ].

(** Cased code points that are not case-ignorable. *)
Definition cased_ranges : list (N * N) :=
  cased_ranges_0.
Definition ignorable_ranges_0 : list (N * N) :=
  [
   (0x27, 0x27); (0x2E, 0x2E); (0x3A, 0x3A); (0x5E, 0x5E); (0x60, 0x60);
   (0xA8, 0xA8); (0xAD, 0xAD); (0xAF, 0xAF); (0xB4, 0xB4); (0xB7, 0xB8);
   (0x2B0, 0x36F); (0x374, 0x375); (0x37A, 0x37A); (0x384, 0x385); (0x387, 0x387);
   (0x483, 0x489); (0x559, 0x559); (0x55F, 0x55F); (0x591, 0x5BD); (0x5BF, 0x5BF);
   (0x5C1, 0x5C2); (0x5C4, 0x5C5); (0x5C7, 0x5C7); (0x5F4, 0x5F4); (0x600, 0x605);
   (0x610, 0x61A); (0x61C, 0x61C); (0x640, 0x640); (0x64B, 0x65F); (0x670, 0x670);
   (0x6D6, 0x6DD); (0x6DF, 0x6E8); (0x6EA, 0x6ED); (0x70F, 0x70F); (0x711, 0x711);
   (0x730, 0x74A); (0x7A6, 0x7B0); (0x7EB, 0x7F5); (0x7FA, 0x7FA); (0x7FD, 0x7FD);
   (0x816, 0x82D); (0x859, 0x85B); (0x888, 0x888); (0x890, 0x891); (0x898, 0x89F);
   (0x8C9, 0x902); (0x93A, 0x93A); (0x93C, 0x93C); (0x941, 0x948); (0x94D, 0x94D);
   (0x951, 0x957); (0x962, 0x963); (0x971, 0x971); (0x981, 0x981); (0x9BC, 0x9BC);
   (0x9C1, 0x9C4); (0x9CD, 0x9CD); (0x9E2, 0x9E3); (0x9FE, 0x9FE); (0xA01, 0xA02);
   (0xA3C, 0xA3C); (0xA41, 0xA42); (0xA47, 0xA48); (0xA4B, 0xA4D); (0xA51, 0xA51);
   (0xA70, 0xA71); (0xA75, 0xA75); (0xA81, 0xA82); (0xABC, 0xABC); (0xAC1, 0xAC5);
   (0xAC7, 0xAC8); (0xACD, 0xACD); (0xAE2, 0xAE3); (0xAFA, 0xAFF); (0xB01, 0xB01);
   (0xB3C, 0xB3C); (0xB3F, 0xB3F); (0xB41, 0xB44); (0xB4D, 0xB4D); (0xB55, 0xB56);
   (0xB62, 0xB63); (0xB82, 0xB82); (0xBC0, 0xBC0); (0xBCD, 0xBCD); (0xC00, 0xC00);
   (0xC04, 0xC04); (0xC3C, 0xC3C); (0xC3E, 0xC40); (0xC46, 0xC48); (0xC4A, 0xC4D);
   (0xC55, 0xC56); (0xC62, 0xC63); (0xC81, 0xC81); (0xCBC, 0xCBC); (0xCBF, 0xCBF);
   (0xCC6, 0xCC6); (0xCCC, 0xCCD); (0xCE2, 0xCE3); (0xD00, 0xD01); (0xD3B, 0xD3C);
   (0xD41, 0xD44); (0xD4D, 0xD4D); (0xD62, 0xD63); (0xD81, 0xD81); (0xDCA, 0xDCA);
   (0xDD2, 0xDD4); (0xDD6, 0xDD6); (0xE31, 0xE31); (0xE34, 0xE3A); (0xE46, 0xE4E);
   (0xEB1, 0xEB1); (0xEB4, 0xEBC); (0xEC6, 0xEC6); (0xEC8, 0xECD); (0xF18, 0xF19);
   (0xF35, 0xF35); (0xF37, 0xF37); (0xF39, 0xF39); (0xF71, 0xF7E); (0xF80, 0xF84);
   (0xF86, 0xF87); (0xF8D, 0xF97); (0xF99, 0xFBC); (0xFC6, 0xFC6); (0x102D, 0x1030);
   (0x1032, 0x1037); (0x1039, 0x103A); (0x103D, 0x103E); (0x1058, 0x1059); (0x105E, 0x1060);
   (0x1071, 0x1074); (0x1082, 0x1082); (0x1085, 0x1086); (0x108D, 0x108D); (0x109D, 0x109D);
   (0x10FC, 0x10FC); (0x135D, 0x135F); (0x1712, 0x1714); (0x1732, 0x1733); (0x1752, 0x1753);
   (0x1772, 0x1773); (0x17B4, 0x17B5); (0x17B7, 0x17BD); (0x17C6, 0x17C6); (0x17C9, 0x17D3);
   (0x17D7, 0x17D7); (0x17DD, 0x17DD); (0x180B, 0x180F); (0x1843, 0x1843); (0x1885, 0x1886);
   (0x18A9, 0x18A9); (0x1920, 0x1922); (0x1927, 0x1928); (0x1932, 0x1932); (0x1939, 0x193B);
   (0x1A17, 0x1A18); (0x1A1B, 0x1A1B); (0x1A56, 0x1A56); (0x1A58, 0x1A5E); (0x1A60, 0x1A60);
   (0x1A62, 0x1A62); (0x1A65, 0x1A6C); (0x1A73, 0x1A7C); (0x1A7F, 0x1A7F); (0x1AA7, 0x1AA7);
   (0x1AB0, 0x1ACE); (0x1B00, 0x1B03); (0x1B34, 0x1B34); (0x1B36, 0x1B3A); (0x1B3C, 0x1B3C);
   (0x1B42, 0x1B42); (0x1B6B, 0x1B73); (0x1B80, 0x1B81); (0x1BA2, 0x1BA5); (0x1BA8, 0x1BA9);
   (0x1BAB, 0x1BAD); (0x1BE6, 0x1BE6); (0x1BE8, 0x1BE9); (0x1BED, 0x1BED); (0x1BEF, 0x1BF1);
   (0x1C2C, 0x1C33); (0x1C36, 0x1C37); (0x1C78, 0x1C7D); (0x1CD0, 0x1CD2); (0x1CD4, 0x1CE0);
   (0x1CE2, 0x1CE8); (0x1CED, 0x1CED); (0x1CF4, 0x1CF4); (0x1CF8, 0x1CF9); (0x1D2C, 0x1D6A);
   (0x1D78, 0x1D78); (0x1D9B, 0x1DFF); (0x1FBD, 0x1FBD); (0x1FBF, 0x1FC1); (0x1FCD, 0x1FCF);
   (0x1FDD, 0x1FDF); (0x1FED, 0x1FEF); (0x1FFD, 0x1FFE); (0x200B, 0x200F); (0x2018, 0x2019);
   (0x2024, 0x2024); (0x2027, 0x2027); (0x202A, 0x202E); (0x2060, 0x2064); (0x2066, 0x206F);
   (0x2071, 0x2071); (0x207F, 0x207F); (0x2090, 0x209C); (0x20D0, 0x20F0); (0x2C7C, 0x2C7D);
   (0x2CEF, 0x2CF1); (0x2D6F, 0x2D6F); (0x2D7F, 0x2D7F); (0x2DE0, 0x2DFF); (0x2E2F, 0x2E2F);
   (0x3005, 0x3005); (0x302A, 0x302D); (0x3031, 0x3035); (0x303B, 0x303B); (0x3099, 0x309E);
   (0x30FC, 0x30FE); (0xA015, 0xA015); (0xA4F8, 0xA4FD); (0xA60C, 0xA60C); (0xA66F, 0xA672);
   (0xA674, 0xA67D); (0xA67F, 0xA67F); (0xA69C, 0xA69F); (0xA6F0, 0xA6F1); (0xA700, 0xA721);
   (0xA770, 0xA770); (0xA788, 0xA78A); (0xA7F2, 0xA7F4); (0xA7F8, 0xA7F9); (0xA802, 0xA802);
   (0xA806, 0xA806); (0xA80B, 0xA80B); (0xA825, 0xA826); (0xA82C, 0xA82C); (0xA8C4, 0xA8C5)
  ].

Definition ignorable_ranges_1 : list (N * N) :=
  [
   (0xA8E0, 0xA8F1); (0xA8FF, 0xA8FF); (0xA926, 0xA92D); (0xA947, 0xA951); (0xA980, 0xA982);
   (0xA9B3, 0xA9B3); (0xA9B6, 0xA9B9); (0xA9BC, 0xA9BD); (0xA9CF, 0xA9CF); (0xA9E5, 0xA9E6);
   (0xAA29, 0xAA2E); (0xAA31, 0xAA32); (0xAA35, 0xAA36); (0xAA43, 0xAA43); (0xAA4C, 0xAA4C);
   (0xAA70, 0xAA70); (0xAA7C, 0xAA7C); (0xAAB0, 0xAAB0); (0xAAB2, 0xAAB4); (0xAAB7, 0xAAB8);
   (0xAABE, 0xAABF); (0xAAC1, 0xAAC1); (0xAADD, 0xAADD); (0xAAEC, 0xAAED); (0xAAF3, 0xAAF4);
   (0xAAF6, 0xAAF6); (0xAB5B, 0xAB5F); (0xAB69, 0xAB6B); (0xABE5, 0xABE5); (0xABE8, 0xABE8);
   (0xABED, 0xABED); (0xFB1E, 0xFB1E); (0xFBB2, 0xFBC2); (0xFE00, 0xFE0F); (0xFE13, 0xFE13);
   (0xFE20, 0xFE2F); (0xFE52, 0xFE52); (0xFE55, 0xFE55); (0xFEFF, 0xFEFF); (0xFF07, 0xFF07);
   (0xFF0E, 0xFF0E); (0xFF1A, 0xFF1A); (0xFF3E, 0xFF3E); (0xFF40, 0xFF40); (0xFF70, 0xFF70);
   (0xFF9E, 0xFF9F); (0xFFE3, 0xFFE3); (0xFFF9, 0xFFFB); (0x101FD, 0x101FD); (0x102E0, 0x102E0);
   (0x10376, 0x1037A); (0x10780, 0x10785); (0x10787, 0x107B0); (0x107B2, 0x107BA); (0x10A01, 0x10A03);
   (0x10A05, 0x10A06); (0x10A0C, 0x10A0F); (0x10A38, 0x10A3A); (0x10A3F, 0x10A3F); (0x10AE5, 0x10AE6);
   (0x10D24, 0x10D27); (0x10EAB, 0x10EAC); (0x10F46, 0x10F50); (0x10F82, 0x10F85); (0x11001, 0x11001);
   (0x11038, 0x11046); (0x11070, 0x11070); (0x11073, 0x11074); (0x1107F, 0x11081); (0x110B3, 0x110B6);
   (0x110B9, 0x110BA); (0x110BD, 0x110BD); (0x110C2, 0x110C2); (0x110CD, 0x110CD); (0x11100, 0x11102);
   (0x11127, 0x1112B); (0x1112D, 0x11134); (0x11173, 0x11173); (0x11180, 0x11181); (0x111B6, 0x111BE);
   (0x111C9, 0x111CC); (0x111CF, 0x111CF); (0x1122F, 0x11231); (0x11234, 0x11234); (0x11236, 0x11237);
   (0x1123E, 0x1123E); (0x112DF, 0x112DF); (0x112E3, 0x112EA); (0x11300, 0x11301); (0x1133B, 0x1133C);
   (0x11340, 0x11340); (0x11366, 0x1136C); (0x11370, 0x11374); (0x11438, 0x1143F); (0x11442, 0x11444);
   (0x11446, 0x11446); (0x1145E, 0x1145E); (0x114B3, 0x114B8); (0x114BA, 0x114BA); (0x114BF, 0x114C0);
   (0x114C2, 0x114C3); (0x115B2, 0x115B5); (0x115BC, 0x115BD); (0x115BF, 0x115C0); (0x115DC, 0x115DD);
   (0x11633, 0x1163A); (0x1163D, 0x1163D); (0x1163F, 0x11640); (0x116AB, 0x116AB); (0x116AD, 0x116AD);
   (0x116B0, 0x116B5); (0x116B7, 0x116B7); (0x1171D, 0x1171F); (0x11722, 0x11725); (0x11727, 0x1172B);
   (0x1182F, 0x11837); (0x11839, 0x1183A); (0x1193B, 0x1193C); (0x1193E, 0x1193E); (0x11943, 0x11943);
   (0x119D4, 0x119D7); (0x119DA, 0x119DB); (0x119E0, 0x119E0); (0x11A01, 0x11A0A); (0x11A33, 0x11A38);
   (0x11A3B, 0x11A3E); (0x11A47, 0x11A47); (0x11A51, 0x11A56); (0x11A59, 0x11A5B); (0x11A8A, 0x11A96);
   (0x11A98, 0x11A99); (0x11C30, 0x11C36); (0x11C38, 0x11C3D); (0x11C3F, 0x11C3F); (0x11C92, 0x11CA7);
   (0x11CAA, 0x11CB0); (0x11CB2, 0x11CB3); (0x11CB5, 0x11CB6); (0x11D31, 0x11D36); (0x11D3A, 0x11D3A);
   (0x11D3C, 0x11D3D); (0x11D3F, 0x11D45); (0x11D47, 0x11D47); (0x11D90, 0x11D91); (0x11D95, 0x11D95);
   (0x11D97, 0x11D97); (0x11EF3, 0x11EF4); (0x13430, 0x13438); (0x16AF0, 0x16AF4); (0x16B30, 0x16B36);
   (0x16B40, 0x16B43); (0x16F4F, 0x16F4F); (0x16F8F, 0x16F9F); (0x16FE0, 0x16FE1); (0x16FE3, 0x16FE4);
   (0x1AFF0, 0x1AFF3); (0x1AFF5, 0x1AFFB); (0x1AFFD, 0x1AFFE); (0x1BC9D, 0x1BC9E); (0x1BCA0, 0x1BCA3);
   (0x1CF00, 0x1CF2D); (0x1CF30, 0x1CF46); (0x1D167, 0x1D169); (0x1D173, 0x1D182); (0x1D185, 0x1D18B);
   (0x1D1AA, 0x1D1AD); (0x1D242, 0x1D244); (0x1DA00, 0x1DA36); (0x1DA3B, 0x1DA6C); (0x1DA75, 0x1DA75);
   (0x1DA84, 0x1DA84); (0x1DA9B, 0x1DA9F); (0x1DAA1, 0x1DAAF); (0x1E000, 0x1E006); (0x1E008, 0x1E018);
   (0x1E01B, 0x1E021); (0x1E023, 0x1E024); (0x1E026, 0x1E02A); (0x1E130, 0x1E13D); (0x1E2AE, 0x1E2AE);
   (0x1E2EC, 0x1E2EF); (0x1E8D0, 0x1E8D6); (0x1E944, 0x1E94B); (0x1F3FB, 0x1F3FF); (0xE0001, 0xE0001);
   (0xE0020, 0xE007F); (0xE0100, 0xE01EF)
  ].

(** Case-ignorable code points. *)
Definition ignorable_ranges : list (N * N) :=
  ignorable_ranges_0 ++ ignorable_ranges_1.
Definition is_Mn (c : N) : bool := in_ranges Mn_ranges c.
Definition is_space (c : N) : bool := in_ranges space_ranges c.
Definition is_cased (c : N) : bool := in_ranges cased_ranges c.
Definition is_case_ignorable (c : N) : bool := in_ranges ignorable_ranges c.

(** [unicodedata.combining]. *)
Definition combining (c : N) : N :=
  match lookup ccc_table c with
  | Some k => k
  | None => 0
  end.

(** Lowercase mapping of one code point out of context. *)
Definition lower_char (c : N) : str :=
  match lookup lower_table c with
  | Some l => l
  | None => [c]
  end.

Definition SIGMA : N := 0x3A3.

(** CPython's [handle_capital_sigma]: a capital sigma preceded by a cased
    letter and not followed by one (case-ignorable characters skipped on
    both sides) lowers to the final form. [before] is the text to the left
    of the sigma, nearest character first. *)
Definition final_sigma (before after : str) : N :=
  let solid := fun c => negb (is_case_ignorable c) in
  let preceded :=
    match find solid before with
    | Some c => is_cased c
    | None => false
    end in
  let followed :=
    match find solid after with
    | Some c => is_cased c
    | None => false
    end in
  if preceded && negb followed then 0x3C2 else 0x3C3.

Fixpoint lower_from (before s : str) : str :=
  match s with
  | [] => []
  | c :: rest =>
      (if c =? SIGMA then [final_sigma before rest] else lower_char c)
        ++ lower_from (c :: before) rest
  end.

(** [str.lower]. *)
Definition lower (s : str) : str := lower_from [] s.

(** Hangul syllables decompose arithmetically. *)
Definition is_hangul_syllable (c : N) : bool := (0xAC00 <=? c) && (c <=? 0xD7A3).

Definition decomp_hangul (c : N) : str :=
  let s := c - 0xAC00 in
  let l := 0x1100 + s / 588 in
  let v := 0x1161 + (s mod 588) / 28 in
  let t := s mod 28 in
  if t =? 0 then [l; v] else [l; v; 0x11A7 + t].

(** Full canonical decomposition of one code point. *)
Definition decomp (c : N) : str :=
  if is_hangul_syllable c then decomp_hangul c
  else match lookup decomp_table c with
       | Some l => l
       | None => [c]
       end.

(** Canonical ordering: a character of non-zero combining class moves left
    past the characters of greater class. [acc] is the text so far,
    last character first. *)
Fixpoint insert_mark (c : N) (acc : str) : str :=
  match acc with
  | [] => [c]
  | y :: r => if combining c <? combining y then y :: insert_mark c r else c :: acc
  end.

Definition reorder_step (acc : str) (c : N) : str :=
  if combining c =? 0 then c :: acc else insert_mark c acc.

Definition reorder (s : str) : str := rev (fold_left reorder_step s []).

(** [unicodedata.normalize("NFD", s)]. *)
Definition nfd (s : str) : str := reorder (flat_map decomp s).

Fixpoint lstrip (s : str) : str :=
  match s with
  | [] => []
  | c :: r => if is_space c then lstrip r else s
  end.

Definition rstrip (s : str) : str := rev (lstrip (rev s)).

(** [str.strip()]. *)
Definition strip (s : str) : str := rstrip (lstrip s).

End Unicode.

(** ** Text normalizer *)

(** [normalize] of the source: lowercase, decompose, drop the combining marks
    (category Mn), trim. *)
Definition normalize (text : str) : str :=
  Unicode.strip
    (filter (fun c => negb (Unicode.is_Mn c)) (Unicode.nfd (Unicode.lower text))).

(** ** Exceptions *)

(** The exceptions the pipeline can meet. [APIError] is what the store client
    raises for a failed request, [ModelError] a failure of the embedding
    model. *)
Inductive exn : Set :=
| APIError
| ModelError
| KeyError
| AttributeError
| TypeError
| ValueError
| ZeroDivisionError
| OverflowError.

Inductive outcome (A : Type) : Type :=
| Ok (a : A)
| Raise (e : exn).

Arguments Ok {A} a.
Arguments Raise {A} e.

Definition bind {A B : Type} (c : outcome A) (k : A -> outcome B) : outcome B :=
  match c with
  | Ok a => k a
  | Raise e => Raise e
  end.

Notation "x <- c ;; k" := (bind c (fun x => k))
  (at level 61, c at next level, right associativity).

(** ** Python numbers *)

Local Open Scope Z_scope.

(** A number as the interpreter holds it: an [int] of any size or a [float]. *)
Inductive num : Set :=
| NInt (z : Z)
| NFloat (f : float).

(** [float(z)]: the nearest binary64 number, ties to even; an [int] beyond
    the range of [float] raises. *)
Definition float_of_int (z : Z) : outcome float :=
  match binary_normalize prec emax z 0 false with
  | S754_infinity _ => Raise OverflowError
  | sf => Ok (SF2Prim sf)
  end.

Definition to_float (n : num) : outcome float :=
  match n with
  | NInt z => float_of_int z
  | NFloat f => Ok f
  end.

(** [a + b] and [a * b]: exact on two [int]s, otherwise in [float]. *)
Definition py_add (a b : num) : outcome num :=
  match a, b with
  | NInt x, NInt y => Ok (NInt (x + y))
  | _, _ => x <- to_float a ;; y <- to_float b ;; Ok (NFloat (x + y)%float)
  end.

Definition py_mul (a b : num) : outcome num :=
  match a, b with
  | NInt x, NInt y => Ok (NInt (x * y))
  | _, _ => x <- to_float a ;; y <- to_float b ;; Ok (NFloat (x * y)%float)
  end.

(** [sum(terms)]: starts from the [int] 0 and adds the terms left to right,
    each addition rounded on its own (CPython 3.11; later versions compensate
    the rounding of float sums); a term that raises stops the sum. *)
Fixpoint sum_from (acc : num) (terms : list (outcome num)) : outcome num :=
  match terms with
  | [] => Ok acc
  | t :: r => v <- t ;; acc' <- py_add acc v ;; sum_from acc' r
  end.

Definition py_sum (terms : list (outcome num)) : outcome num :=
  sum_from (NInt 0) terms.

(** [math.sqrt]. *)
Definition math_sqrt (n : num) : outcome float :=
  x <- to_float n ;;
  if (x <? 0)%float then Raise ValueError else Ok (PrimFloat.sqrt x).

(** [a / b] with a [float] divisor: [a] is converted first, then a zero
    divisor refused. *)
Definition py_truediv (a : num) (b : float) : outcome float :=
  x <- to_float a ;;
  if (b =? 0)%float then Raise ZeroDivisionError else Ok (x / b)%float.

(** [x or d] on floats: [d] when [x] is zero. *)
Definition float_or (x d : float) : float :=
  if (x =? 0)%float then d else x.

(** The literal [1e-10]. *)
Definition EPS : float := 0x1.b7cdfd9d7bdbbp-34%float.

(** The literal [0.7], the default threshold. *)
Definition DEFAULT_THRESHOLD : float := 0x1.6666666666666p-1%float.

(** *** [repr] of a float

    The shortest decimal string that reads back as the same binary64 number,
    laid out as [float.__repr__] does. *)

Definition digit_char (d : Z) : N := Z.to_N (48 + d).

Fixpoint digits_fuel (fuel : nat) (n : Z) (acc : str) : str :=
  match fuel with
  | O => acc
  | S fuel' =>
      if n <? 10 then digit_char n :: acc
      else digits_fuel fuel' (n / 10) (digit_char (n mod 10) :: acc)
  end.

(** Decimal digits of a non-negative integer. *)
Definition digits_of (n : Z) : str :=
  digits_fuel (S (Z.to_nat (Z.log2 n))) n [].

(** [str(z)] for an [int]. *)
Definition int_str (z : Z) : str :=
  if z <? 0 then 45%N :: digits_of (- z) else digits_of z.

(** Compares [d * 10^q] with [x * 2^e]. *)
Definition cmp_scaled (d q x e : Z) : comparison :=
  (d * 10 ^ Z.max q 0 * 2 ^ Z.max (- e) 0 ?= x * 10 ^ Z.max (- q) 0 * 2 ^ Z.max e 0).

(** [floor (x * 2^e / 10^q)]. *)
Definition floor_scaled (x e q : Z) : Z :=
  (x * 2 ^ Z.max e 0 * 10 ^ Z.max (- q) 0) / (2 ^ Z.max (- e) 0 * 10 ^ Z.max q 0).

Section ShortestDigits.
  (** The float is [v * 2^e]; every real strictly between [lo * 2^e] and
      [hi * 2^e] rounds to it, and the two bounds do when [closed]. *)
Variables (lo v hi e : Z) (closed : bool).

Definition in_interval (d q : Z) : bool :=
    let above := match cmp_scaled d q lo e with
                 | Gt => true | Eq => closed | Lt => false end in
    let below := match cmp_scaled d q hi e with
                 | Lt => true | Eq => closed | Gt => false end in
    above && below.

  (** Of [d] and [d + 1], at scale [10^q], the one in the interval that is
      nearer to the float. *)
Definition candidate (q : Z) : option Z :=
    let d := floor_scaled v e q in
    let dn := in_interval d q && (0 <? d) in
    let up := in_interval (d + 1) q in
    (* 2 * v * 2^e against (d + (d + 1)) * 10^q *)
    let nearer_up := match cmp_scaled (2 * d + 1) q (2 * v) e with
                     | Lt => true
                     | Eq => Z.odd d
                     | Gt => false end in
    if dn && up then Some (if nearer_up then d + 1 else d)
    else if dn then Some d
    else if up then Some (d + 1)
    else None.

Fixpoint shortest (fuel : nat) (k : Z) (p : Z) : Z * Z :=
    match fuel with
    | O => (floor_scaled v e (k - 16), k - 16)
    | S fuel' =>
        match candidate (k - p + 1) with
        | Some d => (d, k - p + 1)
        | None => shortest fuel' k (p + 1)
        end
    end.
End ShortestDigits.

Fixpoint strip_zeros_fuel (fuel : nat) (d q : Z) : Z * Z :=
  match fuel with
  | O => (d, q)
  | S fuel' => if (d mod 10 =? 0) && (0 <? d) then strip_zeros_fuel fuel' (d / 10) (q + 1)
               else (d, q)
  end.

(** Shortest digits [d] and exponent [q] with [m * 2^e] read back from
    [d * 10^q]. *)
Definition shortest_digits (m : positive) (e : Z) : Z * Z :=
  let x := Zpos m in
  let narrow := (x =? 2 ^ 52) && (emin <? e) in
  let lo := if narrow then 4 * x - 1 else 4 * x - 2 in
  let hi := 4 * x + 2 in
  let bits := Z.log2 x + 1 + e in
  let k0 := ((bits - 1) * 30103) / 100000 in
  let k := match cmp_scaled 1 (k0 + 1) (4 * x) (e - 2) with
           | Gt => match cmp_scaled 1 k0 (4 * x) (e - 2) with
                   | Gt => k0 - 1
                   | _ => k0
                   end
           | _ => k0 + 1
           end in
  let '(d, q) := shortest lo (4 * x) hi (e - 2) (Z.even x) 17 k 1 in
  strip_zeros_fuel 20 d q.

Definition zeros (n : Z) : str := repeat 48%N (Z.to_nat n).

(** Layout of [repr]: exponent notation outside [1e-4 <= x < 1e16]. *)
Definition layout_repr (d q : Z) : str :=
  let ds := digits_of d in
  let n := Z.of_nat (List.length ds) in
  let decpt := n + q in
  if (decpt <=? -4) || (16 <? decpt) then
    let ex := decpt - 1 in
    let mant := match ds with
                | [] => []
                | c :: [] => [c]
                | c :: r => c :: 46%N :: r
                end in
    let exd := digits_of (Z.abs ex) in
    mant ++ [101%N; if ex <? 0 then 45%N else 43%N]
         ++ (if Z.abs ex <? 10 then 48%N :: exd else exd)
  else if decpt <=? 0 then
    [48%N; 46%N] ++ zeros (- decpt) ++ ds
  else if n <=? decpt then
    ds ++ zeros (decpt - n) ++ [46%N; 48%N]
  else
    firstn (Z.to_nat decpt) ds ++ 46%N :: skipn (Z.to_nat decpt) ds.

(** [repr(f)], which is also [str(f)] and what an f-string shows. *)
Definition float_repr (f : float) : str :=
  match Prim2SF f with
  | S754_nan => u "nan"
  | S754_infinity s => if s then u "-inf" else u "inf"
  | S754_zero s => if s then u "-0.0" else u "0.0"
  | S754_finite s m e =>
      let '(d, q) := shortest_digits m e in
      (if s then [45%N] else []) ++ layout_repr d q
  end.

(** [round(f, 4)]: the multiple of [1e-4] nearest to [f] (ties to the even
    multiple), then the binary64 number nearest to that. *)
Definition round_half_even (a b : Z) : Z :=
  let q := a / b in
  let r := a mod b in
  match 2 * r ?= b with
  | Lt => q
  | Gt => q + 1
  | Eq => if Z.even q then q else q + 1
  end.

Definition py_round4 (f : float) : float :=
  match Prim2SF f with
  | S754_finite s m e =>
      let n := round_half_even (Zpos m * 2 ^ Z.max e 0 * 10000) (2 ^ Z.max (- e) 0) in
      match n with
      | Zpos p =>
          SF2Prim (SFdiv prec emax (S754_finite s p 0) (S754_finite false 10000 0))
      | _ => SF2Prim (S754_zero s)
      end
  | _ => f
  end.

(** ** Values held by the store *)

(** A column value as the store client decodes it from JSON. *)
Inductive scalar : Set :=
| SNone
| SBool (b : bool)
| SInt (z : Z)
| SFloat (f : float)
| SStr (s : str).

(** A field of a corpus row: a scalar, or an array (the embedding vector). *)
Inductive value : Set :=
| VScalar (s : scalar)
| VList (l : list scalar).

(** What an f-string shows for a value: [str(v)]. *)
Definition py_str (v : scalar) : str :=
  match v with
  | SNone => u "None"
  | SBool true => u "True"
  | SBool false => u "False"
  | SInt z => int_str z
  | SFloat f => float_repr f
  | SStr s => s
  end.

(** Truth value of an object. *)
Definition truthy (v : scalar) : bool :=
  match v with
  | SNone => false
  | SBool b => b
  | SInt z => negb (z =? 0)
  | SFloat f => negb (f =? 0)%float
  | SStr [] => false
  | SStr (_ :: _) => true
  end.

Definition value_truthy (v : value) : bool :=
  match v with
  | VScalar s => truthy s
  | VList [] => false
  | VList (_ :: _) => true
  end.

(** [v.lower()]: only a [str] has the method. *)
Definition str_lower (v : scalar) : outcome str :=
  match v with
  | SStr s => Ok (Unicode.lower s)
  | _ => Raise AttributeError
  end.

(** [normalize(v)] on a stored value. *)
Definition normalize_value (v : scalar) : outcome str :=
  match v with
  | SStr s => Ok (normalize s)
  | _ => Raise AttributeError
  end.

(** *** Rows

    A row is a [dict] from column names to values, kept in insertion order. *)
Definition row := list (string * scalar).
Definition doc := list (string * value).

Fixpoint dict_get {A : Type} (k : string) (d : list (string * A)) : option A :=
  match d with
  | [] => None
  | (k', v) :: r => if String.eqb k k' then Some v else dict_get k r
  end.

(** [d[k]]. *)
Definition getitem {A : Type} (k : string) (d : list (string * A)) : outcome A :=
  match dict_get k d with
  | Some v => Ok v
  | None => Raise KeyError
  end.

(** [d.get(k, default)]. *)
Definition get_default {A : Type} (k : string) (default : A) (d : list (string * A)) : A :=
  match dict_get k d with
  | Some v => v
  | None => default
  end.

(** [d[k] = v]: in place when the key is there, at the end otherwise. *)
Fixpoint dict_set {A : Type} (k : string) (v : A) (d : list (string * A)) : list (string * A) :=
  match d with
  | [] => [(k, v)]
  | (k', v') :: r =>
      if String.eqb k k' then (k, v) :: r else (k', v') :: dict_set k v r
  end.

(** *** Collaborators

    A request to the store, as the query builder assembles it:
    [table(t).select(cols)], optionally [.eq(col, v)],
    [.order(col, desc=True)] and [.limit(n)]. *)
Record query : Set := Query {
  q_table : string;
  q_select : list string;
  q_eq : option (string * scalar);
  q_order_desc : option string;
  q_limit : option nat
}.

Definition select_from (t : string) (cols : list string) : query :=
  Query t cols None None None.

Definition select_where (t : string) (cols : list string) (c : string) (v : scalar) : query :=
  Query t cols (Some (c, v)) None None.

Definition select_top (t : string) (cols : list string) (c : string) : query :=
  Query t cols None (Some c) (Some 1%nat).

(** The outside of the pipeline: [run_query] is [execute().data] of a request
    on an entity table, [corpus] the full scan of [document_embeddings],
    [encode] the embedding model. Each may raise. *)
Record world : Type := World {
  run_query : query -> outcome (list row);
  corpus : outcome (list doc);
  encode : str -> outcome (list float)
}.

(** *** A reference store

    Tables held in memory, answered as the REST layer over the SQL store
    answers: a request naming a table or a column that does not exist is
    refused, [eq] keeps the rows whose column equals the value, a descending
    order puts NULL first and then the larger integers, and the answer holds
    the selected columns only. *)
Record table : Set := Table {
  columns : list string;
  records : list row
}.

Definition database := list (string * table).

Definition has_column (t : table) (c : string) : bool :=
  existsb (String.eqb c) (columns t).

Definition scalar_eqb (a b : scalar) : bool :=
  match a, b with
  | SBool x, SBool y => Bool.eqb x y
  | SInt x, SInt y => x =? y
  | SFloat x, SFloat y => (x =? y)%float
  | SStr x, SStr y => str_eqb x y
  | _, _ => false
  end.

Definition cell (c : string) (r : row) : scalar := get_default c SNone r.

(** [a] sorts strictly before [b] in descending order. *)
Definition before_desc (a b : scalar) : bool :=
  match a, b with
  | SNone, SNone => false
  | SNone, _ => true
  | SInt x, SInt y => y <? x
  | _, _ => false
  end.

Fixpoint insert_row (c : string) (x : row) (l : list row) : list row :=
  match l with
  | [] => [x]
  | y :: r => if before_desc (cell c x) (cell c y) then x :: l else y :: insert_row c x r
  end.

Definition order_desc (c : string) (l : list row) : list row :=
  fold_left (fun acc x => insert_row c x acc) l [].

Definition project (cols : list string) (r : row) : row :=
  map (fun c => (c, cell c r)) cols.

Definition mentioned (q : query) : list string :=
  q_select q
    ++ match q_eq q with Some (c, _) => [c] | None => [] end
    ++ match q_order_desc q with Some c => [c] | None => [] end.

Definition db_query (db : database) (q : query) : outcome (list row) :=
  match dict_get (q_table q) db with
  | None => Raise APIError
  | Some t =>
      if forallb (has_column t) (mentioned q) then
        let rs := records t in
        let rs := match q_eq q with
                  | Some (c, v) => filter (fun r => scalar_eqb (cell c r) v) rs
                  | None => rs
                  end in
        let rs := match q_order_desc q with
                  | Some c => order_desc c rs
                  | None => rs
                  end in
        let rs := match q_limit q with
                  | Some n => firstn n rs
                  | None => rs
                  end in
        Ok (map (project (q_select q)) rs)
      else Raise APIError
  end.

Definition db_world (db : database) (docs : list doc) (enc : str -> list float) : world :=
  World (db_query db) (Ok docs) (fun s => Ok (enc s)).

(** ** Semantic retrieval *)

Definition num_of_scalar (s : scalar) : outcome num :=
  match s with
  | SInt z => Ok (NInt z)
  | SBool b => Ok (NInt (if b then 1 else 0))
  | SFloat f => Ok (NFloat f)
  | SNone | SStr _ => Raise TypeError
  end.

(** [cosine_similarity(a, b)]: [a] is the query vector (floats), [b] the
    stored array. [zip] stops at the shorter of the two; each norm runs over
    its whole vector. *)
Definition cosine_similarity (a : list float) (b : list scalar) : outcome float :=
  dot <- py_sum (map (fun xy => y <- num_of_scalar (snd xy) ;; py_mul (NFloat (fst xy)) y)
                     (combine a b)) ;;
  sa <- py_sum (map (fun x => py_mul (NFloat x) (NFloat x)) a) ;;
  ra <- math_sqrt sa ;;
  let na := float_or ra EPS in
  sb <- py_sum (map (fun y => n <- num_of_scalar y ;; py_mul n n) b) ;;
  rb <- math_sqrt sb ;;
  let nb := float_or rb EPS in
  py_truediv dot (na * nb)%float.

(** The [_score] a chunk carries. *)
Definition score_of (r : doc) : float :=
  match dict_get "_score" r with
  | Some (VScalar (SFloat f)) => f
  | _ => nan
  end.

(** One turn of the loop of [retrieve_context]: the rows appended to
    [scored] for the corpus row [r]. *)
Definition score_row (qvec : list float) (threshold : float) (r : doc) : list doc :=
  match dict_get "embedding" r with
  | Some (VList ((_ :: _) as emb)) =>
      match cosine_similarity qvec emb with
      | Ok sim =>
          if (threshold <=? sim)%float
          then [dict_set "_score" (VScalar (SFloat sim)) r]
          else []
      | Raise _ => []
      end
  | _ => []
  end.

Section Sort.
Variables (A : Type) (key : A -> float).

  (** [l.sort(key=key, reverse=True)]: a stable sort; equal keys keep their
      order. *)
Fixpoint insert_desc (x : A) (l : list A) : list A :=
    match l with
    | [] => [x]
    | y :: r => if (key y <? key x)%float then x :: l else y :: insert_desc x r
    end.

Definition sort_desc (l : list A) : list A :=
    fold_left (fun acc x => insert_desc x acc) l [].
End Sort.

(** [l[:k]]: a negative [k] counts from the end. *)
Definition slice_to {A : Type} (k : Z) (l : list A) : list A :=
  if 0 <=? k then firstn (Z.to_nat k) l
  else firstn (Z.to_nat (Z.of_nat (List.length l) + k)) l.

Definition retrieve_context (w : world) (question : str) (k : Z) (threshold : float)
  : outcome (list doc) :=
  qvec <- encode w question ;;
  rows <- corpus w ;;
  let scored := flat_map (score_row qvec threshold) rows in
  Ok (slice_to k (sort_desc score_of scored)).

(** ** Extractive answer *)

Definition NEWLINE : N := 10%N.
Definition PERIOD : N := 46%N.

(** [s.split(sep)] for a one-character separator. *)
Fixpoint split_on (sep : N) (s : str) : list str :=
  match s with
  | [] => [[]]
  | c :: r =>
      if (c =? sep)%N then [] :: split_on sep r
      else match split_on sep r with
           | [] => [[c]]
           | h :: t => (c :: h) :: t
           end
  end.

Definition MSG_INSUFFICIENT : str :=
  u "No hay datos suficientes en la BBDD para responder con precisión.".

Definition MSG_NOT_FOUND : str :=
  u "No se encuentra información en la base de datos.".

Definition content_of (c : doc) : value :=
  get_default "content" (VScalar SNone) c.

(** [v.strip()] on a truthy value. *)
Definition value_strip (v : value) : outcome str :=
  match v with
  | VScalar (SStr s) => Ok (Unicode.strip s)
  | _ => Raise AttributeError
  end.

Definition is_empty (s : str) : bool :=
  match s with
  | [] => true
  | _ :: _ => false
  end.

Definition generate_answer (question : str) (chunks : list doc) : outcome str :=
  match chunks with
  | [] => Ok MSG_INSUFFICIENT
  | _ :: _ =>
      match find (fun c => value_truthy (content_of c)) chunks with
      | None => Ok MSG_NOT_FOUND
      | Some top =>
          content <- getitem "content" top ;;
          text <- value_strip content ;;
          let candidate := Unicode.strip (hd [] (split_on NEWLINE text)) in
          let candidate :=
            if has_char PERIOD candidate
            then Unicode.strip (hd [] (split_on PERIOD candidate)) ++ [PERIOD]
            else candidate in
          let candidate :=
            if is_empty candidate || (Z.of_nat (List.length candidate) <? 10)
            then (if 200 <? Z.of_nat (List.length text)
                  then firstn 200 text ++ u "..."
                  else text)
            else candidate in
          if is_empty candidate || is_empty (Unicode.strip candidate)
          then Ok MSG_NOT_FOUND
          else Ok candidate
      end
  end.

(** ** Superlative resolver *)

(** [STAT_MAP], in the order of the source: phrase, then table, column and
    display label. *)
Definition stat_row : Type := (str * (string * string * str))%type.

Definition STAT_MAP : list stat_row :=
  [ (* stats (players) *)
    (u "partidos", ("stats", "games_played", u "partidos jugados"));
    (u "goles", ("stats", "goals", u "goles"));
    (u "asistencias", ("stats", "assists", u "asistencias"));
    (u "tarjetas amarillas", ("stats", "yellow_card", u "tarjetas amarillas"));
    (u "tarjetas rojas", ("stats", "red_card", u "tarjetas rojas"));
    (u "minutos", ("stats", "minutes_played", u "minutos jugados"));
    (u "porterías a cero", ("stats", "clean_sheet", u "porterías a cero"));
    (u "paradas", ("stats", "saves", u "paradas"));
    (u "segundas amarillas", ("stats", "second_yellow_card", u "segundas tarjetas amarillas"));
    (u "faltas cometidas", ("stats", "fouls_commited", u "faltas cometidas"));
    (u "faltas recibidas", ("stats", "fouls_suffered", u "faltas recibidas"));
    (u "fuera de juego", ("stats", "offsides", u "fueras de juego"));
    (u "tiros", ("stats", "shots", u "tiros"));
    (u "pases", ("stats", "passes", u "pases"));
    (u "balones largos", ("stats", "long_balls", u "balones largos"));
    (u "duelos", ("stats", "duels", u "duelos"));
    (u "tiros bloqueados", ("stats", "blocked_shots", u "tiros bloqueados"));
    (u "intercepciones", ("stats", "interceptions", u "intercepciones"));
    (u "último hombre", ("stats", "last_man", u "último hombre"));
    (u "entradas", ("stats", "tackles", u "entradas"));
    (u "recuperaciones", ("stats", "recoveries", u "recuperaciones"));
    (u "despejes", ("stats", "clearances", u "despejes"));
    (u "penaltis", ("stats", "penalties", u "penaltis"));
    (u "penaltis fallados", ("stats", "penalties_missed", u "penaltis fallados"));
    (u "penaltis parados", ("stats", "penalties_saved", u "penaltis parados"));
    (u "penaltis cometidos", ("stats", "penalties_commited", u "penaltis cometidos"));
    (u "penaltis sufridos", ("stats", "penalties_suffered", u "penaltis sufridos"));
    (* referee_stats *)
    (u "victorias árbitro", ("referee_stats", "wins", u "victorias arbitradas"));
    (u "empates árbitro", ("referee_stats", "draws", u "empates arbitrados"));
    (u "derrotas árbitro", ("referee_stats", "defeats", u "derrotas arbitradas"));
    (u "tarjetas amarillas árbitro",
      ("referee_stats", "yellow_cards", u "tarjetas amarillas mostradas"));
    (u "segundas amarillas árbitro",
      ("referee_stats", "second_yellow_cards", u "segundas amarillas mostradas"));
    (u "tarjetas rojas árbitro", ("referee_stats", "red_cards", u "tarjetas rojas mostradas"));
    (u "penaltis árbitro", ("referee_stats", "penalties", u "penaltis señalados"));
    (u "penaltis en contra árbitro",
      ("referee_stats", "penalties_against", u "penaltis en contra señalados"));
    (* stadiums *)
    (u "capacidad estadio", ("stadiums", "capacity", u "capacidad del estadio"));
    (u "año construcción estadio",
      ("stadiums", "year_construction", u "año de construcción del estadio"))
  ].

(** The entry the loop of [get_top_entity] stops at: the first phrase, in
    the order of the table, found in the lowercased question. *)
Definition stat_entry (q : str) : option stat_row :=
  find (fun e => substring (fst e) q) STAT_MAP.

Definition UNKNOWN : scalar := SStr (u "desconocido").

(** [rows[0][k] if rows else "desconocido"]. *)
Definition first_or_unknown (k : string) (rows : list row) : outcome scalar :=
  match rows with
  | [] => Ok UNKNOWN
  | r :: _ => getitem k r
  end.

(** The body of the loop of [get_top_entity] once a phrase is found: the
    top row of [table] by [column], and the name of its player. *)
Definition lookup_top (w : world) (table column : string) (label : str)
  : outcome (option str) :=
  rows <- run_query w (select_top table ["player_id"; column] column) ;;
  match rows with
  | [] => Ok (Some (u "No se encuentra información sobre " ++ label ++ u "."))
  | top :: _ =>
      pid <- getitem "player_id" top ;;
      player_row <- run_query w (select_where "players" ["name"] "id" pid) ;;
      player_name <- first_or_unknown "name" player_row ;;
      val <- getitem column top ;;
      Ok (Some (u "El jugador con más " ++ label ++ u " es " ++ py_str player_name
                  ++ u ", con " ++ py_str val ++ u " " ++ label ++ u "."))
  end.

Definition get_top_entity (w : world) (question : str) : outcome (option str) :=
  let q := Unicode.lower question in
  match stat_entry q with
  | None => Ok None
  | Some (_, (table, column, label)) => lookup_top w table column label
  end.

(** ** Scripted dialogue *)

(** The chain of tests of [get_smalltalk], in the order of the source: each
    entry lists its alternatives ([or]), an alternative the phrases that must
    all occur ([and]), and the answer. *)
Definition SMALLTALK_0 : list (list (list str) * str) :=
  [
    ([[u "como te llamas"]],
     u "Aún no tengo nombre, mi creador no supo que ponerme, ayudale con alguna idea chula");
    ([[u "que puedes hacer"]],
     u "Puedo darte información sobre jugadores, equipos, árbitros y estadios... y muchas cosas más");
    ([[u "hola"]; [u "buenas"]],
     u "¡Hola! ¿Qué quieres consultar sobre fútbol?");
    ([[u "quien eres"]],
     u "Soy tu asistente de fútbol, listo para darte estadísticas y curiosidades.");
    ([[u "que tal"]; [u "como estas"]],
     u "¡Todo bien! Preparado para hablar de fútbol contigo.");
    ([[u "adios"]; [u "hasta luego"]; [u "nos vemos"]],
     u "¡Hasta pronto! Disfruta del fútbol.");
    ([[u "gracias"]; [u "muchas gracias"]],
     u "¡De nada! Encantado de ayudarte con tus consultas.");
    ([[u "vamos"]; [u "vamo"]],
     u "¡Vamos! El fútbol siempre nos da emoción.");
    ([[u "quien gano"]],
     u "Da igual quien gane o pierda, lo importante es disfrutar de lo que amamos");
    ([[u "que opinas"]],
     u "Prefiero darte datos objetivos, aunque el fútbol siempre genera opiniones apasionadas.");
    ([[u "buenos dias"]; [u "buenas tardes"]; [u "buenas noches"]],
     u "¡Muy buenas! ¿Listo para hablar de fútbol?");
    ([[u "encantado"]; [u "mucho gusto"]],
     u "El gusto es mío, siempre preparado para charlar de fútbol contigo.");
    ([[u "me gusta el futbol"]; [u "amo el futbol"]],
     u "¡A mí también! El fútbol es pasión.");
    ([[u "cuantos años tienes"]; [u "edad"]],
     u "Acabo de nacer, no tengo ni un añito. Pero eso no me impide para charlar de fútbol contigo");
    ([[u "eres inteligente"]; [u "eres listo"]],
     u "Gracias, intento ser lo más útil posible con tus consultas futboleras.");
    ([[u "estas ahi"]; [u "sigues ahi"]],
     u "Sí, aquí estoy, listo para responderte.");
    ([[u "me aburro"]; [u "estoy aburrido"]],
     u "El fútbol siempre tiene algo interesante, ¿quieres que te cuente alguna estadística curiosa?");
    ([[u "cuentame un dato curioso"]; [u "sabes alguna curiosidad"]],
     u "Claro, por ejemplo: ¿sabías que el gol más rápido registrado en la historia del fútbol profesional se anotó a los 2.4 segundos de partido, obra de Nawaf Al-Abed en una liga de Arabia Saudita?");
    ([[u "feliz navidad"]; [u "felices fiestas"]],
     u "¡Felices fiestas! Que el fútbol te acompañe en estas celebraciones.");
    ([[u "feliz cumpleaños"]; [u "cumpleaños"]],
     u "¡Feliz cumpleaños! Espero que tu día esté lleno de goles y victorias.");
    ([[u "me ayudas"]; [u "puedes ayudarme"]],
     u "¡Claro! Pregunta lo que quieras sobre fútbol y te daré la mejor respuesta posible.");
    ([[u "me recomiendas"]; [u "que me aconsejas"]],
     u "Te recomiendo explorar estadísticas de jugadores o equipos, siempre hay datos interesantes.");
    ([[u "me aburres"]; [u "eres aburrido"]],
     u "Lo siento, intentaré ser más entretenido. ¿Quieres que te cuente una curiosidad futbolera?");
    ([[u "me caes bien"]; [u "eres simpatico"]],
     u "¡Gracias! Intento ser un buen compañero futbolero.");
    ([[u "eres real"]; [u "existes"]],
     u "Soy virtual, pero mis respuestas están basadas en datos reales de tu base de fútbol.");
    ([[u "eres humano"]; [u "tienes cuerpo"]],
     u "No soy humano, solo soy un asistente virtual especializado en fútbol.");
    ([[u "me entiendes"]; [u "entiendes"]],
     u "Sí, entiendo tu consulta y la traduzco en datos futboleros.");
    ([[u "cuentame un chiste"]; [u "dime un chiste"]],
     u "¿Sabes cuál es el colmo de un portero? Que le hagan un túnel en su propia casa.");
    ([[u "eres gracioso"]; [u "tienes humor"]],
     u "Intento ponerle humor al fútbol, aunque los datos son mi especialidad.");
    ([[u "me saludas"]; [u "saludame"]],
     u "Alooo Presidentessss. Upss, me creí Illojuan por un momento. Un saludo campeón");
    ([[u "me alegro"]; [u "que bien"]],
     u "¡Genial! El fútbol siempre trae buenas noticias.");
    ([[u "estoy triste"]; [u "me siento mal"]],
     u "Ánimo, el fútbol siempre tiene momentos que levantan el espíritu.");
    ([[u "estoy feliz"]; [u "me siento bien"]],
     u "¡Me alegra escucharlo! El fútbol también celebra la alegría.");
    ([[u "te gusta el futbol"]; [u "amas el futbol"]],
     u "¡Claro! El fútbol es mi razón de existir.");
    ([[u "quien es el mejor jugador"]],
     u "Eso depende de la época y del criterio.");
    ([[u "quien es el mejor equipo"]],
     u "Cada aficionado tiene su favorito.");
    ([[u "me cuentas una historia"]; [u "cuentame algo"]],
     u "Final del Mundial 2010, minuto 116: Cesc filtra el pase, Iniesta controla con el alma y, con un latigazo seco, rompe la red. ¡Gol! España entera estalla, Casillas cae de rodillas, y Andrés corre desatado, se quita la camiseta para mostrar 'Dani Jarque siempre con nosotros'. Es el grito que nos hizo campeones: ¡Iniesta de mi vida!");
    ([[u "eres aburrido"]; [u "no me gusta"]],
     u "Lo siento, intentaré ser más entretenido. ¿Quieres que te dé un dato curioso?");
    ([[u "eres divertido"]; [u "me haces reir"]],
     u "¡Gracias! El fútbol también tiene su lado gracioso.");
    ([[u "me das suerte"]; [u "traes suerte"]],
     u "Muchas gracias, puedo ser tu trébol de cuatro hojas a partir de ahora")
  ].

Definition SMALLTALK_1 : list (list (list str) * str) :=
  [
    ([[u "vamos equipo"]; [u "vamos campeon"]],
     u "¡Vamos! La pasión por el fútbol nunca se detiene.");
    ([[u "no te rindas"]; [u "sigue adelante"]],
     u "En el fútbol, como en la vida, la perseverancia siempre trae recompensas.");
    ([[u "la pasion nunca muere"]; [u "el futbol nunca muere"]],
     u "Exacto, la pasión por el fútbol es eterna.");
    ([[u "arriba"]; [u "fuerza"]],
     u "¡Ánimo! El fútbol siempre nos da razones para seguir.");
    ([[u "somos los mejores"]; [u "somos campeones"]],
     u "¡Orgullo total! El fútbol se vive con corazón.");
    ([[u "quiero motivacion"]; [u "motivame"]],
     u "El fútbol enseña que cada partido es una nueva oportunidad para brillar.");
    ([[u "grita gol"]; [u "golazo"]],
     u "¡GOOOOL! Nada se compara con la emoción de un gol.");
    ([[u "si se puede si se puede estoy escuchando"]],
     u "No, de hecho los canticos son de directiva dimisión");
    ([[u "la aficion"]; [u "los hinchas"]],
     u "La afición es el alma del fútbol, sin ellos no habría magia.");
    ([[u "el futbol es vida"]; [u "el futbol es todo"]],
     u "Así es, el fútbol es más que un deporte, es una forma de vivir.");
    ([[u "quiero animos"]; [u "dame animos"]],
     u "¡Tú puedes! El fútbol siempre nos recuerda que nunca hay que rendirse.");
    ([[u "arbitro compra gafas"]; [u "arbitro ciego"]],
     u "Jajaja, los árbitros siempre son protagonistas de la polémica.");
    ([[u "ese gol lo metia mi abuela"]; [u "lo metia cualquiera"]],
     u "¡Jajaja! A veces los goles parecen fáciles, pero en el campo nunca lo son.");
    ([[u "arbitro vendido"]; [u "arbitro comprado"]],
     u "El arbitraje siempre genera debate, pero yo prefiero darte datos objetivos.");
    ([[u "que desastre"]; [u "que mal jugamos"]],
     u "El fútbol tiene días buenos y malos, lo importante es seguir apoyando al equipo.");
    ([[u "somos malos"]; [u "jugamos fatal"]],
     u "Ánimo, cada equipo tiene altibajos, pero siempre hay oportunidad de mejorar.");
    ([[u "que partidazo"]; [u "gran partido"]],
     u "¡Sí! El fútbol nos regala emociones únicas en cada encuentro.");
    ([[u "que aburrido"]; [u "partido aburrido"]],
     u "A veces pasa, pero hasta los partidos más tranquilos esconden datos interesantes.");
    ([[u "que nervios"]; [u "estoy nervioso"]],
     u "El fútbol siempre nos pone al borde del asiento, ¡esa es su magia!");
    ([[u "que emocion"]; [u "estoy emocionado"]],
     u "¡Eso es lo mejor del fútbol! La emoción nunca falta.");
    ([[u "que injusto"]; [u "no fue justo"]],
     u "El fútbol no siempre es justo, pero siempre es apasionante.");
    ([[u "mi equipo es mejor"]; [u "nuestro equipo es el mejor"]],
     u "¡Eso es pasión de hincha! Cada aficionado defiende a su equipo con orgullo.");
    ([[u "tu equipo es malo"]; [u "ese equipo es malo"]],
     u "Cada equipo tiene altibajos, pero todos forman parte de la historia del fútbol.");
    ([[u "los clasicos son los mejores"]; [u "me gustan los clasicos"]],
     u "Los clásicos siempre tienen una magia especial, llenos de rivalidad y emoción.");
    ([[u "odio a ese equipo"]; [u "no me gusta ese equipo"]],
     u "El fútbol despierta pasiones, pero también respeto por la competencia.");
    ([[u "somos rivales"]; [u "rivalidad"]],
     u "La rivalidad hace que el fútbol sea más emocionante, siempre con respeto.");
    ([[u "ganamos el clasico"]; [u "perdimos el clasico"]],
     u "Los clásicos marcan historia, cada resultado se recuerda por años.");
    ([[u "quien es nuestro rival"]; [u "cual es el rival"]],
     u "Cada equipo tiene su clásico rival.");
    ([[u "odio al arbitro"]; [u "mal arbitro"]],
     u "Los árbitros siempre generan debate, pero sin ellos no habría partido.");
    ([[u "la liga es nuestra"]; [u "vamos a ganar la liga"]],
     u "¡Eso es confianza! La liga siempre es una batalla emocionante.");
    ([[u "la copa es nuestra"]; [u "vamos a ganar la copa"]],
     u "¡A por la copa! Cada torneo tiene su propia gloria.");
    ([[u "que miras bobo"]],
     u "Anda palla bobo");
    ([[u "ole ole ole"]; [u "ole ole"]],
     u "¡Olé, olé, olé! Así se anima a un equipo en el estadio.");
    ([[u "dale campeon"]; [u "vamos campeon"]],
     u "¡Dale campeón! El fútbol se vive con corazón y orgullo.");
    ([[u "somos la mejor hinchada"]; [u "la mejor aficion"]],
     u "¡Claro que sí! La afición es el motor del fútbol.");
    ([[u "cantemos"]; [u "canta conmigo"]],
     u "🎶 Muchachos, ahora nos volvimos a ilusionar, quiero ganar la tercera, quiero ser campeón mundial... 🎶");
    ([[u "esta es tu hinchada"]; [u "esta es tu aficion"]],
     u "¡Siempre presente! La hinchada acompaña en las buenas y en las malas.");
    ([[u "que cante la gente"]; [u "canta la aficion"]],
     u "¡La voz de la afición hace temblar los estadios!");
    ([[u "somos locales"]; [u "jugamos en casa"]],
     u "¡La casa siempre pesa! Jugar de local es un plus enorme.");
    ([[u "somos visitantes"]; [u "jugamos fuera"]],
     u "De visitante también se puede ganar, ¡con garra y corazón!")
  ].

Definition SMALLTALK_2 : list (list (list str) * str) :=
  [
    ([[u "la hinchada nunca abandona"]; [u "la aficion nunca abandona"]],
     u "Exacto, la verdadera afición está siempre, gane o pierda el equipo.");
    ([[u "vamos de fiesta"]; [u "a celebrar"]],
     u "¡Claro que sí! Después de una victoria, la fiesta dura toda la noche, sino preguntale a Oihan Sancet.");
    ([[u "lo celebramos toda la noche"]; [u "fiesta toda la noche"]],
     u "¡Eso es espíritu de campeón! La celebración nunca termina.");
    ([[u "brindemos"]; [u "un brindis"]],
     u "¡Salud por el fútbol y por la victoria!");
    ([[u "somos campeones"]; [u "campeones"]],
     u "¡Campeones! Nada se compara con levantar el trofeo.");
    ([[u "ganamos"]; [u "hemos ganado"]],
     u "¡Victoria! El esfuerzo del equipo dio sus frutos.");
    ([[u "perdimos"]; [u "hemos perdido"]],
     u "Hoy no fue el día, pero siempre habrá otra oportunidad.");
    ([[u "celebracion"]; [u "fiesta futbolera"]],
     u "¡La celebración futbolera es única, llena de cánticos y alegría!");
    ([[u "trofeo"]; [u "copa"]],
     u "Levantar un trofeo es el sueño de todo equipo y afición.");
    ([[u "victoria historica"]; [u "partido historico"]],
     u "¡Eso quedará en la memoria de todos los hinchas por generaciones!");
    ([[u "derrota dolorosa"]; [u "perdimos feo"]],
     u "Las derrotas duelen, pero también enseñan y fortalecen al equipo.");
    ([[u "hoy jugamos"]; [u "tenemos partido"]],
     u "¡Hoy es día de fútbol! La emoción empieza desde antes de que ruede el balón.");
    ([[u "empieza el partido"]; [u "ya comienza"]],
     u "¡Que ruede el balón! La magia del fútbol está en marcha.");
    ([[u "ya rueda el balon"]; [u "balon en juego"]],
     u "¡El balón ya está en juego! A disfrutar cada minuto.");
    ([[u "primer tiempo"]; [u "primer parte"]],
     u "Arranca el primer tiempo, todo por decidir.");
    ([[u "segundo tiempo"]; [u "segunda parte"]],
     u "Comienza la segunda parte, donde se definen los partidos.");
    ([[u "tiempo extra"]; [u "prorroga"]],
     u "¡Prórroga! El fútbol nos regala más minutos de emoción.");
    ([[u "penaltis"]; [u "definicion por penales"]],
     u "¡A penaltis! El momento más tenso y emocionante del fútbol.");
    ([[u "descanso"]; [u "entretiempo"]],
     u "Es el descanso, buen momento para analizar lo que pasó en la primera parte.");
    ([[u "aficion cantando"]; [u "hinchada cantando"]],
     u "¡La afición nunca se calla! Su voz es el motor del equipo.");
    ([[u "ambiente de estadio"]; [u "que ambiente"]],
     u "El ambiente del estadio es único, lleno de pasión y energía.");
    ([[u "inazuma eleven"]],
     u "¡Inazuma Eleven! Donde los supertiros y la amistad hacen que el fútbol sea épico.");
    ([[u "mark evans"]; [u "endou mamoru"]],
     u "Mark Evans siempre creyó en la fuerza del equipo y en parar cualquier tiro.");
    ([[u "axel blaze"]; [u "gouenji"]],
     u "Axel Blaze, el delantero estrella, con su famoso 'Tornado de Fuego'.");
    ([[u "oliver y benji"]; [u "captain tsubasa"]],
     u "Oliver y Benji nos enseñaron que el campo podía ser infinito y lleno de emoción.");
    ([[u "oliver atom"]; [u "tsubasa ozora"]],
     u "Oliver Atom, el eterno soñador del fútbol, siempre buscando ser el mejor del mundo.");
    ([[u "benji price"]; [u "genzo wakabayashi"]],
     u "Benji Price, el portero imbatible, capaz de detener cualquier disparo imposible.");
    ([[u "steve hyuga"]; [u "kojiro hyuga"]],
     u "Steve Hyuga, el delantero con garra, famoso por su 'Tiro del Tigre'.");
    ([[u "campo infinito"]; [u "partidos eternos"]],
     u "¡Eso es Oliver y Benji! Donde correr de portería a portería podía durar capítulos enteros.");
    ([[u "supertiro"]; [u "tiro especial"]],
     u "Los supertiros de Inazuma Eleven y Oliver y Benji son pura fantasía futbolera.");
    ([[u "balon de fuego"]; [u "tiro del halcon"]],
     u "¡Un clásico! Los tiros especiales hacían que el fútbol fuera aún más espectacular.");
    ([[u "jude sharp"]; [u "jude"]; [u "kidou yuuto"]],
     u "Jude Sharp, el estratega del equipo, siempre con su 'Ojo del Águila'.");
    ([[u "shawn frost"]; [u "fubuki shirou"]],
     u "Shawn Frost, el delantero con doble personalidad, capaz de usar el 'Remate Doble'.");
    ([[u "xavier foster"]; [u "sakuma"]],
     u "Xavier Foster, un rival temible con tiros espectaculares.");
    ([[u "royce"]; [u "coach hillman"]],
     u "El entrenador siempre recordaba que la unión del equipo era más fuerte que cualquier técnica.");
    ([[u "tiro del tigre"]],
     u "El 'Tiro del Tigre' de Hyuga es uno de los más recordados de Oliver y Benji.");
    ([[u "tiro con efecto"]; [u "tiro banana"]],
     u "El 'Tiro con Efecto' de Oliver Atom era imparable para muchos porteros.");
    ([[u "tiro combinado"]; [u "tiro en pareja"]],
     u "Los tiros combinados mostraban la fuerza de la amistad en el campo.");
    ([[u "tiro del halcon"]; [u "halcon"]],
     u "El 'Tiro del Halcón' era pura fantasía futbolera.");
    ([[u "tiro del dragon"]],
     u "El 'Tiro del Dragón' de Kojiro Hyuga era pura potencia y garra.")
  ].

Definition SMALLTALK_3 : list (list (list str) * str) :=
  [
    ([[u "tiro celestial"]; [u "tiro del cielo"]],
     u "El 'Tiro Celestial' de Inazuma Eleven mostraba la magia del fútbol anime.");
    ([[u "campo infinito"]; [u "cancha interminable"]],
     u "Oliver y Benji nos hicieron creer que el campo podía durar kilómetros.");
    ([[u "balon de fuego"]],
     u "El 'Balón de Fuego' era uno de los supertiros más espectaculares de Inazuma Eleven.");
    ([[u "super once"]; [u "equipo inazuma"]],
     u "El Super Once siempre demostraba que la amistad y el trabajo en equipo ganan partidos.");
    ([[u "genzo wakabayashi"]; [u "benji price"]],
     u "Genzo Wakabayashi, conocido como Benji Price, el portero que nunca dejaba pasar un balón fácil.");
    ([[u "fc 26"]; [u "ea sports fc 26"]],
     u "EA Sports FC 26 es la última entrega del simulador de fútbol, con novedades como los equipos Classic XI y mejoras jugables.");
    ([[u "liga fantasy"]; [u "laliga fantasy"]],
     u "LALIGA Fantasy es el manager oficial de LALIGA, donde puedes crear tu equipo y competir con amigos.");
    ([[u "classic xi"]; [u "equipos clasicos"]],
     u "En FC 26 puedes jugar con los Classic XI, equipos legendarios llenos de estrellas históricas.");
    ([[u "eventos especiales"]; [u "clasico fantasy"]],
     u "LALIGA Fantasy organiza eventos especiales como El Clásico, El Derbi de Madrid o El Gran Derbi.");
    ([[u "modo carrera"]; [u "career mode"]],
     u "En FC 26 el Modo Carrera te permite gestionar un club o vivir la carrera de un jugador.");
    ([[u "ultimate team"]; [u "fut"]],
     u "Ultimate Team en FC 26 sigue siendo el modo estrella para crear tu plantilla soñada.");
    ([[u "volta"]; [u "futbol callejero"]],
     u "VOLTA en FC 26 trae el fútbol callejero con estilo y jugadas espectaculares.");
    ([[u "clasico"; u "fantasy"]],
     u "En LALIGA Fantasy puedes vivir El Clásico con puntuaciones especiales y retos únicos.");
    ([[u "derbi"; u "fantasy"]],
     u "Los derbis en LALIGA Fantasy son emocionantes, con premios y puntuaciones extra.");
    ([[u "capitan fantasy"]; [u "doble puntuacion"]],
     u "En LALIGA Fantasy tu capitán puntúa doble, eligiendo bien puedes ganar la jornada.");
    ([[u "banquillo fantasy"]; [u "alineacion fantasy"]],
     u "En LALIGA Fantasy puedes usar tu banquillo y ajustar la alineación para maximizar puntos.");
    ([[u "fichajes fantasy"]; [u "mercado fantasy"]],
     u "El mercado de LALIGA Fantasy te permite fichar y vender jugadores según su rendimiento real.");
    ([[u "gilberto mora"]],
     u "Gilberto Mora debutó en FC 26 como una joven promesa con gran potencial.");
    ([[u "estadisticas fantasy"]; [u "puntos fantasy"]],
     u "Las estadísticas de LALIGA Fantasy se basan en el rendimiento real de los jugadores cada jornada.");
    ([[u "portada fc 26"]; [u "cover fc 26"]],
     u "La portada de FC 26 destaca a jóvenes estrellas como Bellingham y Musiala.");
    ([[u "ventas fc 26"]; [u "exito fc 26"]],
     u "FC 26 arrasó en ventas físicas en España, liderando el mercado en PS5.");
    ([[u "jugabilidad fc 26"]; [u "gameplay fc 26"]],
     u "La jugabilidad de FC 26 se refinó gracias a los comentarios de la comunidad.");
    ([[u "promesas fc 26"]; [u "jugadores jovenes fc 26"]],
     u "En FC 26 aparecen jóvenes promesas como Gilberto Mora, con gran potencial de crecimiento.");
    ([[u "liga fantasy premios"]; [u "recompensas fantasy"]],
     u "En LALIGA Fantasy se reparten premios cada jornada según tu rendimiento.");
    ([[u "liga fantasy premium"]; [u "fantasy premium"]],
     u "La versión premium de LALIGA Fantasy incluye capitán con doble puntuación, banquillo y entrenador.");
    ([[u "liga fantasy clasico"]; [u "evento clasico fantasy"]],
     u "En LALIGA Fantasy puedes vivir El Clásico con puntuaciones y retos especiales.");
    ([[u "liga fantasy derbi"]; [u "evento derbi fantasy"]],
     u "Los derbis en LALIGA Fantasy son emocionantes, con bonificaciones y desafíos únicos.");
    ([[u "liga fantasy fichajes"]; [u "mercado fantasy"]],
     u "El mercado de LALIGA Fantasy te permite fichar y vender jugadores según su rendimiento real.");
    ([[u "liga fantasy temporada"]; [u "fantasy 25/26"]],
     u "La temporada 2025/26 de LALIGA Fantasy incluye fichajes actualizados y nuevas estrellas como Mbappé y Lamine Yamal.");
    ([[u "segunda division"]; [u "laliga hypermotion"]],
     u "La Segunda División española, ahora llamada LaLiga Hypermotion, es donde los equipos luchan por subir a Primera.");
    ([[u "ascenso"]; [u "subir a primera"]],
     u "El ascenso en LaLiga Hypermotion es el sueño de todos los equipos, con playoffs llenos de emoción.");
    ([[u "descenso"]; [u "bajar a segunda"]],
     u "El descenso siempre es duro, pero forma parte de la emoción de las ligas españolas.");
    ([[u "playoffs segunda"]; [u "promocion segunda"]],
     u "Los playoffs de ascenso en Segunda son partidos de máxima tensión y emoción.");
    ([[u "liga femenina"]; [u "liga f"]],
     u "La Liga F es la máxima categoría del fútbol femenino en España, llena de talento y pasión.");
    ([[u "seleccion femenina"]; [u "espana femenina"]],
     u "La selección femenina de España es campeona del mundo, un orgullo para el fútbol español.");
    ([[u "champions femenina"]; [u "uwcl"]],
     u "La Champions femenina es el torneo más prestigioso de clubes, donde el Barça ha brillado en los últimos años, aunque el equipo con más champions es el OL Lyonnes.");
    ([[u "equipos historicos segunda"]; [u "clasicos segunda"]],
     u "En Segunda han jugado equipos históricos como Zaragoza, Sporting o Deportivo, con gran tradición.");
    ([[u "partidos de segunda"]; [u "jornada segunda"]],
     u "Cada jornada de LaLiga Hypermotion es clave, porque todos buscan subir o evitar el descenso.");
    ([[u "futsal"]; [u "futbol sala"]],
     u "El futsal es fútbol en espacio reducido, lleno de técnica y velocidad.");
    ([[u "liga nacional de futbol sala"]; [u "lnfs"]],
     u "La LNFS es la liga más importante de futsal en España, con equipos históricos como Inter Movistar y Barça.")
  ].

Definition SMALLTALK_4 : list (list (list str) * str) :=
  [
    ([[u "mundial futsal"]; [u "copa del mundo futsal"]],
     u "El Mundial de futsal reúne a las mejores selecciones del mundo en un espectáculo único.");
    ([[u "seleccion española futsal"]; [u "espana futsal"]],
     u "La selección española de futsal es una potencia mundial, con múltiples títulos europeos y mundiales.");
    ([[u "inter movistar"]; [u "movistar inter"]],
     u "Movistar Inter es uno de los clubes más exitosos del futsal, con muchos títulos nacionales e internacionales.");
    ([[u "barça futsal"]; [u "barcelona futsal"]],
     u "El Barça futsal es un referente en España y Europa, con gran talento en su plantilla.");
    ([[u "ricardinho"]],
     u "Ricardinho es considerado uno de los mejores jugadores de futsal de la historia, con magia en cada jugada.");
    ([[u "partido futsal"]; [u "jornada futsal"]],
     u "Los partidos de futsal son rápidos y emocionantes, cada jugada puede terminar en gol.");
    ([[u "tecnica futsal"]; [u "habilidad futsal"]],
     u "El futsal destaca por la técnica individual, el control del balón y las jugadas espectaculares.");
    ([[u "champions futsal"]; [u "uefa futsal"]],
     u "La UEFA Futsal Champions League es el torneo más prestigioso de clubes en Europa.");
    ([[u "wwe"]; [u "lucha libre"]],
     u "Esto no es WWE, pero en el fútbol también hay choques que parecen combates.");
    ([[u "john cena"]; [u "the rock"]],
     u "John Cena y The Rock son estrellas de WWE, pero en el fútbol los ídolos también levantan pasiones.");
    ([[u "undertaker"]],
     u "El Undertaker dominaba el ring, igual que algunos equipos dominan el campo de fútbol.");
    ([[u "naruto"]],
     u "Naruto soñaba con ser Hokage, igual que muchos sueñan con ser campeones de liga.");
    ([[u "sasuke"]],
     u "Sasuke buscaba poder, como un delantero que siempre quiere marcar más goles.");
    ([[u "kamehameha"]; [u "rasengan"]],
     u "Eso suena más a anime, pero en el fútbol también hay tiros que parecen poderes especiales.");
    ([[u "uchiha"]; [u "sharingan"]],
     u "El Sharingan todo lo ve, como un buen mediocentro que controla el partido.");
    ([[u "wrestlemania"]],
     u "WrestleMania es el gran evento de WWE, como una final de Champions en el fútbol.");
    ([[u "anime"]; [u "manga"]],
     u "El anime tiene batallas épicas, igual que el fútbol tiene partidos inolvidables.");
    ([[u "hokage"]],
     u "Ser Hokage en Naruto es como levantar la Copa del Mundo en fútbol: el máximo sueño.");
    ([[u "triple h"]; [u "pedigree"]],
     u "El 'Pedigree' de Triple H es letal en WWE, como un golazo en el último minuto.");
    ([[u "rey mysterio"]; [u "619"]],
     u "El 619 de Rey Mysterio es pura agilidad, igual que un regate eléctrico en fútbol.");
    ([[u "roman reigns"]; [u "jefe tribal"]],
     u "Roman Reigns domina WWE como un capitán que manda en el vestuario de fútbol.");
    ([[u "naruto vs sasuke"]],
     u "Naruto vs Sasuke es como un Clásico Barça-Madrid: rivalidad eterna y llena de emoción.");
    ([[u "itachi"]; [u "uchiha"]],
     u "Itachi veía todo con el Sharingan, como un mediocentro que controla el ritmo del partido.");
    ([[u "madara"]],
     u "Madara Uchiha era imparable, como un delantero que no deja de marcar goles.");
    ([[u "jiraiya"]; [u "sabio"]],
     u "Jiraiya enseñaba a Naruto, igual que un buen entrenador guía a su equipo.");
    ([[u "wrestlemania"]],
     u "WrestleMania es el evento máximo de WWE, como una final de Champions en fútbol.");
    ([[u "hokage"]],
     u "Ser Hokage en Naruto es como levantar la Copa del Mundo: el sueño más grande.");
    ([[u "jutsu"]; [u "tecnica ninja"]],
     u "Los jutsus en Naruto son como las jugadas ensayadas en fútbol: pura estrategia y sorpresa.");
    ([[u "brock lesnar"]; [u "suplex"]],
     u "Brock Lesnar hacía suplex en WWE, como un defensa que despeja con fuerza cada balón.");
    ([[u "randy orton"]; [u "rko"]],
     u "El RKO de Randy Orton es inesperado, como un gol de chilena en el último minuto.");
    ([[u "kane"]; [u "demonio rojo"]],
     u "Kane imponía respeto en WWE, igual que un portero que intimida a los delanteros.");
    ([[u "naruto run"]; [u "correr como naruto"]],
     u "Correr como Naruto es como un extremo desbordando por la banda con velocidad imparable.");
    ([[u "gaara"]; [u "arena"]],
     u "Gaara controlaba la arena, como un mediocentro que controla el ritmo del partido.");
    ([[u "rock lee"]; [u "taijutsu"]],
     u "Rock Lee entrenaba sin descanso, como un jugador que nunca se rinde en el campo.");
    ([[u "orochimaru"]; [u "serpiente"]],
     u "Orochimaru era astuto y peligroso, como un delantero que aparece donde menos lo esperas.");
    ([[u "naruto shippuden"]; [u "shippuden"]],
     u "Naruto Shippuden mostró batallas épicas, como las finales de Champions en fútbol.");
    ([[u "campeon wwe"]; [u "titulo wwe"]],
     u "Ser campeón en WWE es como levantar la Copa del Mundo en fútbol: gloria absoluta.");
    ([[u "akatsuki"]; [u "villanos naruto"]],
     u "La Akatsuki era temida en Naruto, como un equipo rival que nadie quiere enfrentar.");
    ([[u "haku"]],
     u "Haku dominaba el hielo en Naruto, como un portero que congela cada intento de gol.");
    ([[u "stephanie vaquer"]],
     u "Stephanie Vaquer, 'La Primera', como la hinchada que abre el camino y nunca deja de alentar.")
  ].

Definition SMALLTALK_5 : list (list (list str) * str) :=
  [
    ([[u "rhea ripley"]],
     u "Rhea Ripley juega con Brutalidad, como un mediocentro que barre todo lo que pasa por su zona.");
    ([[u "dominik mysterio"]],
     u "El sucio Dom, el ginecólogo del ring, es como ese equipo que siempre hace trampas para ganar.");
    ([[u "tenten"]],
     u "Tenten dominaba las armas ninja, como un jugador que domina todas las posiciones en el campo.");
    ([[u "bron breakker"]],
     u "Bron Breakker es pura fuerza en WWE, como un delantero tanque que arrasa defensas.");
    ([[u "jey uso"]; [u "uso"]],
     u "Four letters, one word, YEET!");
    ([[u "chelsea green"]],
     u "Chelsea Green destaca en WWE, como una jugadora que siempre sorprende con su estilo.");
    ([[u "kiba"]; [u "akamaru"]],
     u "Kiba y Akamaru eran inseparables, como un dúo de delanteros que siempre juegan en pareja.");
    ([[u "sheamus"]; [u "brogue kick"]],
     u "El Brogue Kick de Sheamus es devastador, como un disparo de fuera del área que rompe la red.");
    ([[u "itachi sacrificio"]; [u "itachi hermano"]],
     u "El sacrificio de Itachi por Sasuke es como un capitán que da todo por su equipo.");
    ([[u "itachi genjutsu"]; [u "genjutsu"]],
     u "El genjutsu de Itachi confundía rivales, como una jugada táctica que descoloca a la defensa.")
  ].

Definition SMALLTALK : list (list (list str) * str) :=
  SMALLTALK_0 ++ SMALLTALK_1 ++ SMALLTALK_2 ++ SMALLTALK_3 ++ SMALLTALK_4 ++ SMALLTALK_5.

Definition fires (q : str) (alternatives : list (list str)) : bool :=
  existsb (forallb (fun phrase => substring phrase q)) alternatives.

Definition get_smalltalk (question : str) : option str :=
  let q := normalize question in
  option_map snd (find (fun e => fires q (fst e)) SMALLTALK).

(** ** Structured fact matchers *)

(** [for r in rows: ...] with a body that may return an answer. *)
Fixpoint scan {A : Type} (rows : list A) (body : A -> outcome (option str))
  : outcome (option str) :=
  match rows with
  | [] => Ok None
  | r :: rest =>
      x <- body r ;;
      match x with
      | Some a => Ok (Some a)
      | None => scan rest body
      end
  end.

(** The field [k] of the row, formatted. *)
Definition fmt (k : string) (r : row) : outcome str :=
  v <- getitem k r ;; Ok (py_str v).

Definition get_competition_info (w : world) (question : str) : outcome (option str) :=
  let q := Unicode.lower question in
  competitions <- run_query w
    (select_from "competitions" ["id"; "name"; "season"; "type"; "gender"; "active"]) ;;
  scan competitions (fun comp =>
    n <- getitem "name" comp ;;
    ln <- str_lower n ;;
    if substring ln q then
      name <- fmt "name" comp ;;
      season <- fmt "season" comp ;;
      type <- fmt "type" comp ;;
      gender <- fmt "gender" comp ;;
      active <- fmt "active" comp ;;
      Ok (Some (u "La competición " ++ name ++ u " (temporada " ++ season ++ u "), tipo "
                  ++ type ++ u ", género " ++ gender ++ u ", activa: " ++ active ++ u "."))
    else Ok None).

Definition get_information_team_info (w : world) (question : str) : outcome (option str) :=
  let q := Unicode.lower question in
  teams <- run_query w
    (select_from "information_team"
       ["id"; "name"; "city"; "province"; "president"; "founded_year"; "stadium"]) ;;
  scan teams (fun team =>
    n <- getitem "name" team ;;
    ln <- str_lower n ;;
    if substring ln q then
      name <- fmt "name" team ;;
      city <- fmt "city" team ;;
      province <- fmt "province" team ;;
      president <- fmt "president" team ;;
      founded <- fmt "founded_year" team ;;
      stadium <- fmt "stadium" team ;;
      Ok (Some (u "El equipo " ++ name ++ u " está en " ++ city ++ u " (" ++ province
                  ++ u "), presidente " ++ president ++ u ", fundado en " ++ founded
                  ++ u ", estadio " ++ stadium ++ u "."))
    else Ok None).

Definition get_player_info (w : world) (question : str) : outcome (option str) :=
  let q := Unicode.lower question in
  players <- run_query w
    (select_from "players"
       ["id"; "name"; "nationality"; "position"; "jersey_number"; "height"; "weight";
        "team_id"]) ;;
  scan players (fun player =>
    n <- getitem "name" player ;;
    ln <- str_lower n ;;
    if substring ln q then
      tid <- getitem "team_id" player ;;
      team <- run_query w (select_where "teams" ["name"] "id" tid) ;;
      team_name <- first_or_unknown "name" team ;;
      name <- fmt "name" player ;;
      position <- fmt "position" player ;;
      jersey <- fmt "jersey_number" player ;;
      nationality <- fmt "nationality" player ;;
      height <- fmt "height" player ;;
      weight <- fmt "weight" player ;;
      Ok (Some (name ++ u " juega como " ++ position ++ u ", dorsal " ++ jersey
                  ++ u ", nacionalidad " ++ nationality ++ u ", altura " ++ height
                  ++ u "m, peso " ++ weight ++ u "kg, equipo " ++ py_str team_name ++ u "."))
    else Ok None).

Definition get_referee_info (w : world) (question : str) : outcome (option str) :=
  let q := Unicode.lower question in
  referees <- run_query w (select_from "referees" ["id"; "name"; "nationality"; "debut"]) ;;
  scan referees (fun ref =>
    n <- getitem "name" ref ;;
    ln <- str_lower n ;;
    if substring ln q then
      name <- fmt "name" ref ;;
      nationality <- fmt "nationality" ref ;;
      debut <- fmt "debut" ref ;;
      Ok (Some (u "Árbitro " ++ name ++ u ", nacionalidad " ++ nationality ++ u ", debut "
                  ++ debut ++ u "."))
    else Ok None).

Definition get_referee_stats_info (w : world) (question : str) : outcome (option str) :=
  let q := Unicode.lower question in
  stats <- run_query w
    (select_from "referee_stats"
       ["referee_id"; "yellow_cards"; "red_cards"; "wins"; "draws"; "defeats"]) ;;
  scan stats (fun stat =>
    rid <- getitem "referee_id" stat ;;
    ref <- run_query w (select_where "referees" ["name"] "id" rid) ;;
    ref_name <- first_or_unknown "name" ref ;;
    ln <- str_lower ref_name ;;
    if substring ln q then
      yellow <- fmt "yellow_cards" stat ;;
      red <- fmt "red_cards" stat ;;
      wins <- fmt "wins" stat ;;
      draws <- fmt "draws" stat ;;
      defeats <- fmt "defeats" stat ;;
      Ok (Some (u "Estadísticas de " ++ py_str ref_name ++ u ": amarillas " ++ yellow
                  ++ u ", rojas " ++ red ++ u ", victorias " ++ wins ++ u ", empates "
                  ++ draws ++ u ", derrotas " ++ defeats ++ u "."))
    else Ok None).

Definition get_stadium_info (w : world) (question : str) : outcome (option str) :=
  let q := Unicode.lower question in
  stadiums <- run_query w
    (select_from "stadiums" ["id"; "name"; "city"; "capacity"; "year_construction"]) ;;
  scan stadiums (fun stadium =>
    n <- getitem "name" stadium ;;
    ln <- str_lower n ;;
    if substring ln q then
      name <- fmt "name" stadium ;;
      city <- fmt "city" stadium ;;
      capacity <- fmt "capacity" stadium ;;
      year <- fmt "year_construction" stadium ;;
      Ok (Some (u "El estadio " ++ name ++ u " está en " ++ city ++ u ", capacidad "
                  ++ capacity ++ u ", construido en " ++ year ++ u "."))
    else Ok None).

(** The answer of [get_team_by_stadium] for the stadium it stops at. *)
Definition team_by_stadium_answer (w : world) (stadium : row) : outcome (option str) :=
  sid <- getitem "id" stadium ;;
  team <- run_query w (select_where "teams" ["name"] "stadium_id" sid) ;;
  match team with
  | t :: _ =>
      name <- fmt "name" stadium ;;
      team_name <- fmt "name" t ;;
      Ok (Some (u "El equipo que juega en " ++ name ++ u " es " ++ team_name ++ u "."))
  | [] =>
      name <- fmt "name" stadium ;;
      Ok (Some (u "No se encuentra equipo asociado al estadio " ++ name ++ u "."))
  end.

Definition get_team_by_stadium (w : world) (question : str) : outcome (option str) :=
  let q := normalize question in
  stadiums <- run_query w (select_from "stadiums" ["id"; "name"]) ;;
  scan stadiums (fun stadium =>
    n <- getitem "name" stadium ;;
    nn <- normalize_value n ;;
    if substring nn q then team_by_stadium_answer w stadium else Ok None).

Definition get_player_stats (w : world) (question : str) : outcome (option str) :=
  let q := Unicode.lower question in
  stats <- run_query w
    (select_from "stats"
       ["player_id"; "goals"; "assists"; "games_played"; "yellow_card"; "red_card"]) ;;
  scan stats (fun stat =>
    pid <- getitem "player_id" stat ;;
    player <- run_query w (select_where "players" ["name"] "id" pid) ;;
    player_name <- first_or_unknown "name" player ;;
    ln <- str_lower player_name ;;
    if substring ln q then
      goals <- fmt "goals" stat ;;
      assists <- fmt "assists" stat ;;
      games <- fmt "games_played" stat ;;
      yellow <- fmt "yellow_card" stat ;;
      red <- fmt "red_card" stat ;;
      Ok (Some (u "Estadísticas de " ++ py_str player_name ++ u ": goles " ++ goals
                  ++ u ", asistencias " ++ assists ++ u ", partidos " ++ games
                  ++ u ", amarillas " ++ yellow ++ u ", rojas " ++ red ++ u "."))
    else Ok None).

(** The answer of [get_team_info] for the team it stops at. *)
Definition team_info_answer (w : world) (team : row) : outcome (option str) :=
  sid <- getitem "stadium_id" team ;;
  stadium <- run_query w (select_where "stadiums" ["name"] "id" sid) ;;
  stadium_name <- first_or_unknown "name" stadium ;;
  name <- fmt "name" team ;;
  city <- fmt "city" team ;;
  province <- fmt "province" team ;;
  founded <- fmt "founded_year" team ;;
  Ok (Some (u "Equipo " ++ name ++ u " de " ++ city ++ u " (" ++ province
              ++ u "), fundado en " ++ founded ++ u ", estadio " ++ py_str stadium_name
              ++ u ".")).

Definition get_team_info (w : world) (question : str) : outcome (option str) :=
  let q := normalize question in
  teams <- run_query w
    (select_from "teams" ["id"; "name"; "city"; "province"; "founded_year"; "stadium_id"]) ;;
  scan teams (fun team =>
    n <- getitem "name" team ;;
    nn <- normalize_value n ;;
    if substring nn q then team_info_answer w team else Ok None).

(** The answer of [get_team_city] for the team it stops at. *)
Definition team_city_answer (team : row) : outcome (option str) :=
  name <- fmt "name" team ;;
  city <- fmt "city" team ;;
  Ok (Some (u "El " ++ name ++ u " está en la ciudad de " ++ city ++ u ".")).

Definition get_team_city (w : world) (question : str) : outcome (option str) :=
  let q := normalize question in
  teams <- run_query w (select_from "teams" ["name"; "city"]) ;;
  scan teams (fun team =>
    n <- getitem "name" team ;;
    nn <- normalize_value n ;;
    if substring nn q && substring (u "ciudad") q then team_city_answer team
    else Ok None).

(** ** The orchestrator *)

Record SourceRef : Set := {
  src_table : value;
  src_id : value;
  src_score : float
}.

Record ChatResponse : Set := {
  answer : str;
  sources : list SourceRef
}.

(** [if answer:] an answer that is there and not the empty string. *)
Definition hit (a : option str) : option str :=
  match a with
  | Some ((_ :: _) as s) => Some s
  | _ => None
  end.

(** The matchers [chat] tries, in its order. *)
Definition MATCHERS : list (world -> str -> outcome (option str)) :=
  [ get_competition_info;
    get_information_team_info;
    get_player_info;
    get_referee_info;
    get_referee_stats_info;
    get_stadium_info;
    get_team_by_stadium;
    get_player_stats;
    get_team_info;
    get_team_city ].

(** [for func in [...]: answer = func(q); if answer: return ...]; [None]
    when the loop runs to its end. *)
Fixpoint first_answer (fs : list (world -> str -> outcome (option str)))
    (w : world) (q : str) : outcome (option str) :=
  match fs with
  | [] => Ok None
  | f :: rest =>
      a <- f w q ;;
      match hit a with
      | Some s => Ok (Some s)
      | None => first_answer rest w q
      end
  end.

(** [round(c["_score"], 4)] as the [score] of a source. *)
Definition rounded_score (c : doc) : outcome float :=
  s <- getitem "_score" c ;;
  match s with
  | VScalar (SFloat f) => Ok (py_round4 f)
  | VScalar (SInt z) => float_of_int z
  | VScalar (SBool b) => float_of_int (if b then 1 else 0)
  | _ => Raise TypeError
  end.

Definition source_ref (c : doc) : outcome SourceRef :=
  score <- rounded_score c ;;
  Ok {| src_table := get_default "source_table" (VScalar (SStr (u "unknown"))) c;
        src_id := get_default "source_id" (VScalar (SStr (u "unknown"))) c;
        src_score := score |}.

Fixpoint source_refs (chunks : list doc) : outcome (list SourceRef) :=
  match chunks with
  | [] => Ok []
  | c :: rest => s <- source_ref c ;; ss <- source_refs rest ;; Ok (s :: ss)
  end.

Definition MSG_FALLBACK : str := u "No hay datos suficientes en la BBDD.".

Definition reply (a : str) : outcome ChatResponse :=
  Ok {| answer := a; sources := [] |}.

Definition chat (w : world) (question : str) : outcome ChatResponse :=
  let q := normalize question in
  a <- get_top_entity w q ;;
  match hit a with
  | Some s => reply s
  | None =>
  match hit (get_smalltalk q) with
  | Some s => reply s
  | None =>
  a <- first_answer MATCHERS w q ;;
  match a with
  | Some s => reply s
  | None =>
  chunks <- retrieve_context w question 5 DEFAULT_THRESHOLD ;;
  match chunks with
  | _ :: _ =>
      a <- generate_answer question chunks ;;
      srcs <- source_refs chunks ;;
      Ok {| answer := a; sources := srcs |}
  | [] => reply MSG_FALLBACK
  end
  end
  end
  end.

(** * Properties of the pipeline *)

(** ** Lists and substrings *)

Lemma prefix_of_app (p s : str) : prefix_of p (p ++ s) = true.
Proof.
  induction p as [|a p IH]; simpl; [reflexivity|].
  now rewrite N.eqb_refl, IH.
Qed.

Lemma prefix_of_split (p s : str) :
  prefix_of p s = true -> exists t, s = p ++ t.
Proof.
  revert s. induction p as [|a p IH]; intros s H.
  - now exists s.
  - destruct s as [|b s]; simpl in H; [discriminate|].
    apply andb_true_iff in H. destruct H as [Hab H].
    apply N.eqb_eq in Hab. subst b.
    destruct (IH _ H) as [t ->]. now exists t.
Qed.

Lemma prefix_of_substring (p s : str) : prefix_of p s = true -> substring p s = true.
Proof.
  intros H. destruct s; simpl; now rewrite H.
Qed.

Lemma substring_split (p s : str) :
  substring p s = true <-> exists a b, s = a ++ p ++ b.
Proof.
  split.
  - induction s as [|c s IH]; simpl; intros H.
    + rewrite orb_false_r in H. apply prefix_of_split in H.
      destruct H as [t Ht]. now exists [], t.
    + apply orb_true_iff in H. destruct H as [H|H].
      * apply prefix_of_split in H. destruct H as [t Ht]. now exists [], t.
      * destruct (IH H) as (a & b & ->). now exists (c :: a), b.
  - intros (a & b & ->). induction a as [|c a IH]; simpl.
    + apply prefix_of_substring, prefix_of_app.
    + rewrite IH. apply orb_true_r.
Qed.

Lemma substring_trans (a b c : str) :
  substring a b = true -> substring b c = true -> substring a c = true.
Proof.
  rewrite !substring_split. intros (x & y & ->) (x' & y' & ->).
  exists (x' ++ x), (y ++ y'). now rewrite <- !app_assoc.
Qed.

Lemma substring_In (p s : str) (c : N) :
  substring p s = true -> In c p -> In c s.
Proof.
  rewrite substring_split. intros (a & b & ->) H.
  apply in_or_app. right. apply in_or_app. now left.
Qed.

Lemma substring_refl (s : str) : substring s s = true.
Proof.
  apply substring_split. exists [], []. now rewrite app_nil_r.
Qed.

Lemma has_char_In (c : N) (s : str) : has_char c s = true <-> In c s.
Proof.
  unfold has_char. rewrite existsb_exists. split.
  - intros (x & Hx & E). apply N.eqb_eq in E. now subst.
  - intros H. exists c. split; [assumption | apply N.eqb_refl].
Qed.

(** The first element that passes a test lies at or before any element that
    passes it. *)
Lemma find_at_or_before {A : Type} (f : A -> bool) (l1 : list A) (x : A) (l2 : list A) :
  f x = true -> exists y, find f (l1 ++ x :: l2) = Some y /\ In y (l1 ++ [x]).
Proof.
  intros Hx. induction l1 as [|a l1 IH]; simpl.
  - rewrite Hx. exists x. auto.
  - destruct (f a) eqn:Ha.
    + exists a. auto.
    + destruct IH as (y & Hy & Hin). exists y. auto.
Qed.

(** A search in which every element fails the test finds nothing. *)
Lemma find_all_fail {A : Type} (test : A -> bool) (items : list A) :
  (forall x, In x items -> test x = false) -> find test items = None.
Proof.
  induction items as [|a items IH]; intros H; simpl; [reflexivity|].
  rewrite (H a (or_introl eq_refl)). apply IH. intros x Hx. apply H. now right.
Qed.

(** ** Facts of the Unicode tables *)

Module UnicodeFacts.
Import Unicode.
Local Open Scope N_scope.

Definition is_none {A : Type} (o : option A) : bool :=
  match o with
  | None => true
  | Some _ => false
  end.

Lemma lookup_In {A : Type} (t : list (N * A)) (c : N) (v : A) :
  lookup t c = Some v -> In (c, v) t.
Proof.
  unfold lookup. destruct (find _ t) as [[c' v']|] eqn:F; simpl; [|discriminate].
  intros [= <-]. apply find_some in F. destruct F as [Hin E].
  simpl in E. apply N.eqb_eq in E. now subst c'.
Qed.

(** What a capital or small letter can lower to, whatever surrounds it. *)
Definition lower_out (c : N) : str :=
  if c =? SIGMA then [0x3C2; 0x3C3] else lower_char c.

(** A stable character: lowering and decomposing leave it alone. *)
Definition stable_b (e : N) : bool :=
  is_none (lookup lower_table e) && negb (is_hangul_syllable e)
    && is_none (lookup decomp_table e).

Lemma stable_lower_char (e : N) : stable_b e = true -> lower_char e = [e].
Proof.
  unfold stable_b, lower_char. destruct (lookup lower_table e); simpl; [discriminate|reflexivity].
Qed.

Lemma stable_not_sigma (e : N) : stable_b e = true -> (e =? SIGMA) = false.
Proof.
  intros H. destruct (e =? SIGMA) eqn:E; [|reflexivity].
  apply N.eqb_eq in E. subst e. vm_compute in H. discriminate.
Qed.

Lemma stable_decomp (e : N) : stable_b e = true -> decomp e = [e].
Proof.
  unfold stable_b, decomp. intros H.
  apply andb_true_iff in H. destruct H as [H H3].
  apply andb_true_iff in H. destruct H as [_ H2].
  apply negb_true_iff in H2. rewrite H2.
  destruct (lookup decomp_table e); [discriminate|reflexivity].
Qed.

(** The integers [lo], [lo + 1], ..., [lo + n - 1]. *)
Definition nrange (lo : N) (n : nat) : list N :=
  map (fun i => lo + N.of_nat i) (seq 0 n).

Lemma nrange_In (lo : N) (n : nat) (y : N) :
  lo <= y < lo + N.of_nat n -> In y (nrange lo n).
Proof.
  intros H. unfold nrange. apply in_map_iff.
  exists (N.to_nat (y - lo)). split; [lia|].
  apply in_seq. lia.
Qed.

(** The conjoining jamo a Hangul syllable decomposes into. *)
Lemma decomp_hangul_jamo (c y : N) :
  is_hangul_syllable c = true -> In y (decomp_hangul c) -> 0x1100 <= y < 0x1100 + 195.
Proof.
  unfold is_hangul_syllable, decomp_hangul. intros H Hy.
  apply andb_true_iff in H. destruct H as [H1 H2].
  apply N.leb_le in H1, H2.
  remember (c - 0xAC00) as s eqn:Es.
  assert (Hs : s < 588 * 19) by lia.
  assert (Hl : s / 588 < 19) by (apply N.Div0.div_lt_upper_bound; lia).
  assert (Hm : s mod 588 < 28 * 21) by (apply N.mod_lt; lia).
  assert (Hv : (s mod 588) / 28 < 21) by (apply N.Div0.div_lt_upper_bound; lia).
  assert (Ht : s mod 28 < 28) by (apply N.mod_lt; lia).
  cbv zeta in Hy.
  remember (s / 588) as l eqn:El.
  remember (s mod 588 / 28) as v eqn:Ev.
  remember (s mod 28) as t eqn:Et.
  clear El Ev Et Hm Hs Es.
  destruct (t =? 0); cbn [In] in Hy; intuition lia.
Qed.

(** A property of code points checked entry by entry on the tables holds
    of every code point. *)
Lemma every_char (P : N -> bool) :
  forallb P (map fst lower_table) = true ->
  forallb (fun p => negb (is_none (lookup lower_table (fst p))) || P (fst p)) decomp_table
    = true ->
  (forall c, lookup lower_table c = None -> is_hangul_syllable c = true -> P c = true) ->
  (forall c, stable_b c = true -> P c = true) ->
  forall c, P c = true.
Proof.
  intros Hlow Hdec Hhan Hst c.
  destruct (lookup lower_table c) as [v|] eqn:L.
  - apply lookup_In in L. rewrite forallb_forall in Hlow. apply Hlow.
    apply in_map_iff. exists (c, v). split; [reflexivity|exact L].
  - destruct (is_hangul_syllable c) eqn:Hh; [now apply Hhan|].
    destruct (lookup decomp_table c) as [v|] eqn:D.
    + apply lookup_In in D. rewrite forallb_forall in Hdec.
      specialize (Hdec _ D). simpl in Hdec. rewrite L in Hdec. exact Hdec.
    + apply Hst. unfold stable_b. now rewrite L, Hh, D.
Qed.

(** Lowering then decomposing a character leaves combining marks of
    category Mn and stable characters only. *)
Definition settles (c : N) : bool :=
  forallb (fun x => forallb (fun y => is_Mn y || stable_b y) (decomp x)) (lower_out c).

Lemma jamo_stable : forallb stable_b (nrange 0x1100 195) = true.
Proof. vm_compute. reflexivity. Qed.

Lemma settles_lower_table : forallb settles (map fst lower_table) = true.
Proof. vm_compute. reflexivity. Qed.

Lemma settles_decomp_table :
  forallb (fun p => negb (is_none (lookup lower_table (fst p))) || settles (fst p))
    decomp_table = true.
Proof. vm_compute. reflexivity. Qed.

Lemma lower_out_unmapped (c : N) : lookup lower_table c = None -> lower_out c = [c].
Proof.
  intros L. unfold lower_out, lower_char. rewrite L.
  destruct (c =? SIGMA) eqn:E; [|reflexivity].
  apply N.eqb_eq in E. subst c. vm_compute in L. discriminate.
Qed.

Lemma settles_all (c : N) : settles c = true.
Proof.
  apply every_char.
  - exact settles_lower_table.
  - exact settles_decomp_table.
  - clear c. intros c L H. unfold settles. rewrite (lower_out_unmapped _ L). simpl.
    rewrite andb_true_r. unfold decomp. rewrite H.
    apply forallb_forall. intros y Hy.
    assert (S : stable_b y = true).
    { pose proof jamo_stable as J. rewrite forallb_forall in J. apply J.
      apply nrange_In. exact (decomp_hangul_jamo _ _ H Hy). }
    rewrite S. apply orb_true_r.
  - clear c. intros c S. unfold settles.
    assert (L : lookup lower_table c = None).
    { unfold stable_b in S. destruct (lookup lower_table c); [discriminate|reflexivity]. }
    rewrite (lower_out_unmapped _ L). simpl.
    rewrite (stable_decomp _ S). simpl. rewrite S. now rewrite orb_true_r.
Qed.

(** *** Shape of [lower], [nfd] and [strip] *)

Lemma final_sigma_out (b a : str) : In (final_sigma b a) (lower_out SIGMA).
Proof.
  unfold final_sigma. change (lower_out SIGMA) with [0x3C2; 0x3C3].
  destruct (_ && _); simpl; auto.
Qed.

Lemma lower_from_In (x : N) (s b : str) :
  In x (lower_from b s) -> exists c, In c s /\ In x (lower_out c).
Proof.
  revert b. induction s as [|c s IH]; intros b H; simpl in H; [contradiction|].
  apply in_app_or in H. destruct H as [H|H].
  - exists c. split; [now left|].
    destruct (c =? SIGMA) eqn:E.
    + apply N.eqb_eq in E. subst c. destruct H as [<-|[]]. apply final_sigma_out.
    + unfold lower_out. now rewrite E.
  - destruct (IH _ H) as (c' & Hc & Hx). exists c'. split; [now right|assumption].
Qed.

Lemma lower_from_stable (s b : str) :
  Forall (fun e => stable_b e = true) s -> lower_from b s = s.
Proof.
  intros H. revert b. induction H as [|e s He Hs IH]; intros b; simpl; [reflexivity|].
  rewrite (stable_not_sigma _ He), (stable_lower_char _ He), IH. reflexivity.
Qed.

Lemma flat_map_decomp_stable (s : str) :
  Forall (fun e => stable_b e = true) s -> flat_map decomp s = s.
Proof.
  induction 1 as [|e s He Hs IH]; simpl; [reflexivity|].
  now rewrite (stable_decomp _ He), IH.
Qed.

Lemma insert_mark_perm (c : N) (acc : str) : Permutation (insert_mark c acc) (c :: acc).
Proof.
  induction acc as [|y r IH]; simpl; [reflexivity|].
  destruct (combining c <? combining y); [|reflexivity].
  rewrite IH. apply perm_swap.
Qed.

Lemma reorder_step_perm (acc : str) (c : N) : Permutation (reorder_step acc c) (c :: acc).
Proof.
  unfold reorder_step. destruct (combining c =? 0); [reflexivity|apply insert_mark_perm].
Qed.

Lemma fold_reorder_perm (s acc : str) :
  Permutation (fold_left reorder_step s acc) (rev s ++ acc).
Proof.
  revert acc. induction s as [|c s IH]; intros acc; simpl; [reflexivity|].
  rewrite IH, reorder_step_perm, <- app_assoc. simpl.
  apply Permutation_app_head. reflexivity.
Qed.

Lemma reorder_perm (s : str) : Permutation (reorder s) s.
Proof.
  unfold reorder. rewrite <- Permutation_rev, fold_reorder_perm, app_nil_r.
  symmetry. apply Permutation_rev.
Qed.

Lemma nfd_In (x : N) (s : str) :
  In x (nfd s) -> exists c, In c s /\ In x (decomp c).
Proof.
  unfold nfd. intros H.
  apply (Permutation_in _ (reorder_perm _)) in H.
  apply in_flat_map in H. exact H.
Qed.

(** A text whose characters all have combining class 0 is in canonical
    order already. *)
Lemma fold_reorder_starters (s acc : str) :
  Forall (fun e => combining e = 0) s -> fold_left reorder_step s acc = rev s ++ acc.
Proof.
  intros H. revert acc. induction H as [|e s He Hs IH]; intros acc; simpl; [reflexivity|].
  unfold reorder_step at 2. rewrite He. simpl.
  rewrite IH, <- app_assoc. reflexivity.
Qed.

Lemma reorder_starters (s : str) :
  Forall (fun e => combining e = 0) s -> reorder s = s.
Proof.
  intros H. unfold reorder. rewrite (fold_reorder_starters _ H), app_nil_r.
  apply rev_involutive.
Qed.

Lemma lstrip_In (x : N) (s : str) : In x (lstrip s) -> In x s.
Proof.
  induction s as [|c s IH]; simpl; [auto|].
  destruct (is_space c); [right; now apply IH|auto].
Qed.

Lemma rstrip_In (x : N) (s : str) : In x (rstrip s) -> In x s.
Proof.
  unfold rstrip. intros H. apply in_rev in H. apply lstrip_In in H.
  now apply in_rev in H.
Qed.

Lemma strip_In (x : N) (s : str) : In x (strip s) -> In x s.
Proof.
  unfold strip. intros H. apply rstrip_In in H. now apply lstrip_In in H.
Qed.

(** [clean_start s]: [s] does not begin with white space. *)
Definition clean_start (s : str) : Prop :=
  match s with
  | [] => True
  | c :: _ => is_space c = false
  end.

Lemma lstrip_clean (s : str) : clean_start (lstrip s).
Proof.
  induction s as [|c s IH]; simpl; [exact I|].
  destruct (is_space c) eqn:E; [exact IH|exact E].
Qed.

Lemma lstrip_fixed (s : str) : clean_start s -> lstrip s = s.
Proof.
  destruct s as [|c s]; simpl; [reflexivity|]. now intros ->.
Qed.

Lemma lstrip_snoc (s : str) (x : N) :
  is_space x = false -> lstrip (s ++ [x]) = lstrip s ++ [x].
Proof.
  intros Hx. induction s as [|c s IH]; simpl.
  - now rewrite Hx.
  - destruct (is_space c); [exact IH|reflexivity].
Qed.

Lemma rstrip_keeps_clean_start (s : str) : clean_start s -> clean_start (rstrip s).
Proof.
  destruct s as [|x s]; [intros _; exact I|].
  simpl. intros Hx. unfold rstrip. simpl.
  rewrite (lstrip_snoc _ _ Hx), rev_app_distr. simpl. exact Hx.
Qed.

Lemma rstrip_idem (s : str) : rstrip (rstrip s) = rstrip s.
Proof.
  unfold rstrip. rewrite rev_involutive.
  now rewrite (lstrip_fixed _ (lstrip_clean (rev s))).
Qed.

Lemma strip_idem (s : str) : strip (strip s) = strip s.
Proof.
  unfold strip at 1.
  rewrite (lstrip_fixed (strip s)).
  - unfold strip. apply rstrip_idem.
  - unfold strip. apply rstrip_keeps_clean_start, lstrip_clean.
Qed.

End UnicodeFacts.

(** ** Characters of a normalized text *)

Import UnicodeFacts.

(** Every character of a normalized text is stable and is no combining mark
    of category Mn. *)
Lemma normalize_chars (t : str) (e : N) :
  In e (normalize t) ->
  Unicode.is_Mn e = false /\ stable_b e = true /\
  exists c x, In c t /\ In x (lower_out c) /\ In e (Unicode.decomp x).
Proof.
  unfold normalize. intros H. apply strip_In in H.
  apply filter_In in H. destruct H as [H Hm].
  apply negb_true_iff in Hm.
  apply nfd_In in H. destruct H as (x & Hx & He).
  apply lower_from_In in Hx. destruct Hx as (c & Hc & Hx).
  split; [assumption|]. split; [|now exists c, x].
  pose proof (settles_all c) as S. unfold settles in S.
  rewrite forallb_forall in S. specialize (S _ Hx).
  rewrite forallb_forall in S. specialize (S _ He).
  now rewrite Hm in S.
Qed.

Lemma normalize_stable (t : str) :
  Forall (fun e => stable_b e = true) (normalize t).
Proof.
  apply Forall_forall. intros e He. now apply normalize_chars in He.
Qed.

(** Lowering a normalized text changes nothing. *)
Lemma lower_normalize (t : str) : Unicode.lower (normalize t) = normalize t.
Proof.
  unfold Unicode.lower. apply lower_from_stable, normalize_stable.
Qed.

(** ** The text normalizer (C9, C10) *)

(** A text is free of spacing marks when no character of it is, or
    decomposes into, a character outside category Mn that has a non-zero
    canonical combining class (25 spacing marks of category Mc do, such as
    U+302E and U+1D165). *)
Definition settled_class (c : N) : bool :=
  forallb (fun y => Unicode.is_Mn y || (Unicode.combining y =? 0)%N) (Unicode.decomp c).

Definition spacing_mark_free (t : str) : bool := forallb settled_class t.

Lemma settled_class_lower_table :
  forallb (fun c => implb (settled_class c) (forallb settled_class (lower_out c)))
    (map fst Unicode.lower_table) = true.
Proof. vm_compute. reflexivity. Qed.

Lemma settled_class_lower (c x : N) :
  settled_class c = true -> In x (lower_out c) -> settled_class x = true.
Proof.
  intros Hc Hx.
  destruct (Unicode.lookup Unicode.lower_table c) as [v|] eqn:L.
  - apply lookup_In in L.
    pose proof settled_class_lower_table as T. rewrite forallb_forall in T.
    assert (Hin : In c (map fst Unicode.lower_table)).
    { apply in_map_iff. exists (c, v). split; [reflexivity|exact L]. }
    specialize (T _ Hin). rewrite Hc in T. simpl in T.
    rewrite forallb_forall in T. now apply T.
  - rewrite (lower_out_unmapped _ L) in Hx. destruct Hx as [<-|[]]. exact Hc.
Qed.

Lemma normalize_starters (t : str) :
  spacing_mark_free t = true ->
  Forall (fun e => Unicode.combining e = 0%N) (normalize t).
Proof.
  intros H. apply Forall_forall. intros e He.
  apply normalize_chars in He. destruct He as (Hm & _ & c & x & Hc & Hx & He).
  unfold spacing_mark_free in H. rewrite forallb_forall in H.
  pose proof (settled_class_lower _ _ (H _ Hc) Hx) as Sx.
  unfold settled_class in Sx. rewrite forallb_forall in Sx.
  specialize (Sx _ He). rewrite Hm in Sx. simpl in Sx.
  now apply N.eqb_eq in Sx.
Qed.

Lemma filter_keeps_all {A : Type} (f : A -> bool) (l : list A) :
  Forall (fun x => f x = true) l -> filter f l = l.
Proof.
  induction 1 as [|x l Hx Hl IH]; simpl; [reflexivity|]. now rewrite Hx, IH.
Qed.

Lemma normalize_no_marks (t : str) :
  Forall (fun e => negb (Unicode.is_Mn e) = true) (normalize t).
Proof.
  apply Forall_forall. intros e He. apply normalize_chars in He.
  destruct He as (Hm & _). now rewrite Hm.
Qed.

(** C9, as amended: [normalize] is idempotent on every text free of spacing
    marks of non-zero combining class: for such a text [t],
    [normalize(normalize(t)) == normalize(t)]. *)
Theorem normalize_idempotent (t : str) :
  spacing_mark_free t = true -> normalize (normalize t) = normalize t.
Proof.
  intros H.
  unfold normalize at 1.
  rewrite lower_normalize.
  unfold Unicode.nfd.
  rewrite (flat_map_decomp_stable (normalize_stable t)).
  rewrite (reorder_starters (normalize_starters t H)).
  rewrite (filter_keeps_all _ (normalize_no_marks t)).
  unfold normalize. apply strip_idem.
Qed.

Definition ARBITRO_QUESTION : str := u "  ¿Qué ÁRBITRO pitó más en Ñuñoa?  ".

Lemma normalize_idempotent_witness :
  spacing_mark_free ARBITRO_QUESTION = true /\
  normalize (normalize ARBITRO_QUESTION) = normalize ARBITRO_QUESTION.
Proof.
  split; [vm_compute; reflexivity|].
  apply (normalize_idempotent ARBITRO_QUESTION). vm_compute. reflexivity.
Defined.

(** Three musical marks: U+1D16D (class 226), the Devanagari sign U+0901
    (category Mn, class 0) and U+1D165 (class 216). Canonical ordering keeps
    the two spacing marks apart while the sign stands between them; once
    [normalize] has dropped the sign, a second pass swaps them. *)
Definition MUSICAL_MARKS : str := [0x1D16D; 0x901; 0x1D165]%N.

(** C9, as stated, fails: on [MUSICAL_MARKS] a second [normalize] changes the
    text again. *)
Lemma normalize_not_idempotent :
  normalize MUSICAL_MARKS = [0x1D16D; 0x1D165]%N /\
  normalize (normalize MUSICAL_MARKS) = [0x1D165; 0x1D16D]%N /\
  normalize (normalize MUSICAL_MARKS) <> normalize MUSICAL_MARKS.
Proof.
  split; [vm_compute; reflexivity|].
  split; [vm_compute; reflexivity|].
  intros H. vm_compute in H. discriminate H.
Qed.

(** A phrase has a diacritic when one of its characters carries a combining
    mark of category Mn (as "á", "í", "ñ", "ó", "ú" do). *)
Definition has_diacritic (s : str) : bool :=
  existsb (fun c => existsb Unicode.is_Mn (Unicode.decomp c)) s.

(** A phrase with a diacritic never occurs in a normalized text. *)
Lemma diacritic_not_in_normalized (phrase t : str) :
  has_diacritic phrase = true -> substring phrase (normalize t) = false.
Proof.
  intros H. destruct (substring phrase (normalize t)) eqn:S; [|reflexivity].
  unfold has_diacritic in H. apply existsb_exists in H. destruct H as (c & Hc & Hm).
  pose proof (substring_In _ _ c S Hc) as Hin.
  apply normalize_chars in Hin. destruct Hin as (Hn & Hs & _).
  rewrite (stable_decomp _ Hs) in Hm. simpl in Hm. rewrite Hn in Hm. discriminate.
Qed.

(** The phrases of [STAT_MAP] that carry a diacritic. *)
Lemma accented_stat_phrases :
  map fst (filter (fun e => has_diacritic (fst e)) STAT_MAP) =
  [ u "porterías a cero"; u "último hombre"; u "victorias árbitro"; u "empates árbitro";
    u "derrotas árbitro"; u "tarjetas amarillas árbitro"; u "segundas amarillas árbitro";
    u "tarjetas rojas árbitro"; u "penaltis árbitro"; u "penaltis en contra árbitro";
    u "año construcción estadio" ].
Proof. vm_compute. reflexivity. Qed.

(** C10: [chat] hands [get_top_entity] the normalized question, in which no
    phrase of [STAT_MAP] that has a diacritic occurs: such a phrase is never
    the one the resolver stops at, and a question that holds none of the
    unaccented phrases falls through the resolver. *)
Theorem accented_phrases_never_match (w : world) (question : str) :
  (forall e : stat_row, In e STAT_MAP -> has_diacritic (fst e) = true ->
             substring (fst e) (Unicode.lower (normalize question)) = false) /\
  (forall e : stat_row, stat_entry (Unicode.lower (normalize question)) = Some e ->
             has_diacritic (fst e) = false) /\
  ((forall e : stat_row, In e STAT_MAP -> has_diacritic (fst e) = false ->
              substring (fst e) (normalize question) = false) ->
   get_top_entity w (normalize question) = Ok None).
Proof.
  rewrite lower_normalize.
  assert (A : forall e : stat_row, has_diacritic (fst e) = true ->
                        substring (fst e) (normalize question) = false).
  { intros e H. now apply diacritic_not_in_normalized. }
  split; [intros e _; apply A|]. split.
  - intros e H. unfold stat_entry in H. apply find_some in H. destruct H as [_ H].
    destruct (has_diacritic (fst e)) eqn:D; [|reflexivity].
    rewrite (A e D) in H. discriminate.
  - intros H. unfold get_top_entity. cbv zeta. rewrite lower_normalize.
    assert (F : stat_entry (normalize question) = None).
    { unfold stat_entry. apply find_all_fail. intros e He.
      destruct (has_diacritic (fst e)) eqn:D; [now apply A|now apply H]. }
    now rewrite F.
Qed.

Definition QUIET_WORLD : world := db_world [] [] (fun _ => []).

Lemma accented_phrases_never_match_witness :
  get_top_entity QUIET_WORLD (normalize (u "¿Quién tiene más porterías a cero?")) = Ok None.
Proof.
  apply (accented_phrases_never_match QUIET_WORLD (u "¿Quién tiene más porterías a cero?")).
  intros e He D.
  assert (T : forallb (fun e => has_diacritic (fst e)
                         || negb (substring (fst e)
                              (normalize (u "¿Quién tiene más porterías a cero?"))))
                STAT_MAP = true) by (vm_compute; reflexivity).
  rewrite forallb_forall in T. specialize (T _ He).
  rewrite D, orb_false_l in T. apply negb_true_iff in T. exact T.
Defined.

(** ** Order of the superlative phrases (C4) *)

Definition REFEREE_YELLOW : str := u "tarjetas amarillas árbitro".

(** C4 fails on the code: a question that holds "tarjetas amarillas árbitro"
    holds "tarjetas amarillas" too, which comes earlier in [STAT_MAP]; the
    resolver stops at one of the first four phrases and looks the answer up
    in the player table [stats], never in [referee_stats]. *)
Theorem referee_yellow_routed_to_player_stats (w : world) (question : str) :
  substring REFEREE_YELLOW (Unicode.lower question) = true ->
  exists phrase column label,
    In (phrase, ("stats", column, label)) (firstn 4 STAT_MAP) /\
    stat_entry (Unicode.lower question) = Some (phrase, ("stats", column, label)) /\
    get_top_entity w question = lookup_top w "stats" column label.
Proof.
  intros H.
  assert (Hy : substring (u "tarjetas amarillas") (Unicode.lower question) = true).
  { apply (substring_trans _ REFEREE_YELLOW); [vm_compute; reflexivity|exact H]. }
  destruct (find_at_or_before (fun e => substring (fst e) (Unicode.lower question))
              (firstn 3 STAT_MAP)
              (u "tarjetas amarillas", ("stats", "yellow_card", u "tarjetas amarillas"))
              (skipn 4 STAT_MAP) Hy) as (y & Hf & Hin).
  change (firstn 3 STAT_MAP ++ _ :: skipn 4 STAT_MAP) with STAT_MAP in Hf.
  change (firstn 3 STAT_MAP ++ [_]) with (firstn 4 STAT_MAP) in Hin.
  assert (T : exists phrase column label, y = (phrase, ("stats", column, label))).
  { cbn [firstn STAT_MAP In] in Hin.
    destruct Hin as [<-|[<-|[<-|[<-|[]]]]]; do 3 eexists; reflexivity. }
  destruct T as (phrase & column & label & ->).
  exists phrase, column, label. split; [exact Hin|]. split; [exact Hf|].
  unfold get_top_entity. cbv zeta. unfold stat_entry. now rewrite Hf.
Qed.

Lemma referee_yellow_routed_witness :
  get_top_entity QUIET_WORLD REFEREE_YELLOW
  = lookup_top QUIET_WORLD "stats" "yellow_card" (u "tarjetas amarillas").
Proof.
  destruct (referee_yellow_routed_to_player_stats QUIET_WORLD REFEREE_YELLOW)
    as (phrase & column & label & _ & Hs & Hg); [vm_compute; reflexivity|].
  rewrite Hg.
  assert (E : stat_entry (Unicode.lower REFEREE_YELLOW)
              = Some (u "tarjetas amarillas",
                      ("stats", "yellow_card", u "tarjetas amarillas")))
    by (vm_compute; reflexivity).
  rewrite E in Hs. injection Hs as <- <- <-. reflexivity.
Defined.

(** ** The extractive synthesizer (C8) *)

Import Unicode.

(** The text before the first [sep], or the whole text when there is none. *)
Fixpoint upto (sep : N) (s : str) : str :=
  match s with
  | [] => []
  | c :: r => if (c =? sep)%N then [] else c :: upto sep r
  end.

Lemma hd_split_on (sep : N) (s : str) : hd [] (split_on sep s) = upto sep s.
Proof.
  induction s as [|c r IH]; simpl; [reflexivity|].
  destruct (c =? sep)%N; [reflexivity|].
  destruct (split_on sep r) as [|h t]; simpl in *; now rewrite <- IH.
Qed.

Lemma rstrip_snoc (s : str) (x : N) : is_space x = false -> rstrip (s ++ [x]) = s ++ [x].
Proof.
  intros Hx. unfold rstrip. rewrite rev_app_distr. simpl. rewrite Hx.
  simpl. now rewrite rev_involutive.
Qed.

Lemma strip_clean_start (s : str) : clean_start (strip s).
Proof. unfold strip. apply rstrip_keeps_clean_start, lstrip_clean. Qed.

Lemma clean_start_app (s t : str) :
  clean_start s -> s <> [] -> clean_start (s ++ t).
Proof. destruct s; simpl; [congruence|auto]. Qed.

(** A text that starts with no white space and ends with a character that
    is none is left alone by [strip]. *)
Lemma strip_snoc (s : str) (x : N) :
  clean_start (s ++ [x]) -> is_space x = false -> strip (s ++ [x]) = s ++ [x].
Proof.
  intros Hs Hx. unfold strip. rewrite (lstrip_fixed _ Hs). now apply rstrip_snoc.
Qed.

Lemma period_not_space : is_space PERIOD = false.
Proof. reflexivity. Qed.

(** The sentence the synthesizer extracts from a trimmed text: its first
    line, trimmed, cut before the first period (trimmed again, the period put
    back) when the line has one. *)
Definition first_sentence (text : str) : str :=
  let line := strip (upto NEWLINE text) in
  if has_char PERIOD line then strip (upto PERIOD line) ++ [PERIOD] else line.

Lemma first_sentence_stripped (text : str) :
  strip (first_sentence text) = first_sentence text.
Proof.
  unfold first_sentence. cbv zeta.
  destruct (has_char PERIOD (strip (upto NEWLINE text))).
  - apply strip_snoc; [|exact period_not_space].
    destruct (strip (upto PERIOD (strip (upto NEWLINE text)))) as [|c r] eqn:E.
    + exact period_not_space.
    + rewrite <- E. apply clean_start_app; [apply strip_clean_start|].
      rewrite E. discriminate.
  - apply strip_idem.
Qed.

Definition str_len (s : str) : Z := Z.of_nat (List.length s).

Lemma is_empty_len (s : str) : is_empty s = true -> str_len s = 0.
Proof. destruct s; [reflexivity|discriminate]. Qed.

Lemma is_empty_false (s : str) : is_empty s = false <-> s <> [].
Proof. destruct s; simpl; split; congruence. Qed.

Definition ELLIPSIS : str := u "...".

Lemma strip_ellipsis (s : str) :
  clean_start s -> s <> [] -> strip (s ++ ELLIPSIS) = s ++ ELLIPSIS.
Proof.
  intros Hc Hn.
  change ELLIPSIS with ([PERIOD; PERIOD] ++ [PERIOD]). rewrite app_assoc.
  apply strip_snoc; [|exact period_not_space].
  rewrite <- app_assoc. now apply clean_start_app.
Qed.

Lemma firstn_clean_start (n : nat) (s : str) :
  clean_start s -> clean_start (firstn n s).
Proof. destruct n, s; simpl; auto. Qed.

(** C8, as amended: when the first chunk with truthy content holds a string,
    the synthesizer works on the trimmed content. It returns the first
    sentence (first line, trimmed, cut before its first period with the
    period put back, the part before the period trimmed too) when that has
    at least 10 characters; otherwise the fixed "not found" message when the
    trimmed content is empty, the first 200 characters followed by "..."
    when it has more than 200, and the trimmed content itself when not. *)
Theorem generate_answer_extracts
    (question : str) (chunks : list doc) (top : doc) (content : str) :
  find (fun c => value_truthy (content_of c)) chunks = Some top ->
  dict_get "content" top = Some (VScalar (SStr content)) ->
  let text := strip content in
  let sentence := first_sentence text in
  generate_answer question chunks =
  Ok (if 10 <=? str_len sentence then sentence
      else if is_empty text then MSG_NOT_FOUND
      else if 200 <? str_len text then firstn 200 text ++ ELLIPSIS
      else text).
Proof.
  intros Hfind Hget text sentence.
  unfold generate_answer.
  destruct chunks as [|c0 rest]; [discriminate Hfind|].
  rewrite Hfind. unfold getitem. rewrite Hget.
  cbn [bind value_strip]. fold text.
  rewrite !hd_split_on.
  change (if has_char PERIOD (strip (upto NEWLINE text))
          then strip (upto PERIOD (strip (upto NEWLINE text))) ++ [PERIOD]
          else strip (upto NEWLINE text)) with sentence.
  fold (str_len sentence). fold (str_len text).
  destruct (10 <=? str_len sentence) eqn:L10.
  - apply Z.leb_le in L10.
    assert (E : is_empty sentence = false).
    { destruct (is_empty sentence) eqn:E; [|reflexivity].
      rewrite (is_empty_len _ E) in L10. lia. }
    assert (L : (str_len sentence <? 10) = false) by (apply Z.ltb_ge; lia).
    rewrite E, L. cbn [orb].
    unfold sentence at 2. rewrite first_sentence_stripped. fold sentence.
    now rewrite E.
  - assert (L : is_empty sentence || (str_len sentence <? 10) = true).
    { apply orb_true_iff. right. apply Z.ltb_lt. apply Z.leb_gt in L10. exact L10. }
    rewrite L.
    destruct (is_empty text) eqn:Et.
    + rewrite (is_empty_len _ Et). cbn [Z.ltb Z.compare]. now rewrite Et.
    + assert (Hn : text <> []) by now apply is_empty_false.
      destruct (200 <? str_len text) eqn:L200.
      * assert (F : firstn 200 text <> []).
        { destruct text; [congruence|]. discriminate. }
        change (u "...") with ELLIPSIS.
        rewrite strip_ellipsis;
          [|apply firstn_clean_start, strip_clean_start|exact F].
        assert (EE : is_empty (firstn 200 text ++ ELLIPSIS) = false).
        { apply is_empty_false. intros EE. apply app_eq_nil in EE.
          destruct EE as [_ EE]. discriminate EE. }
        now rewrite EE.
      * unfold text at 2. rewrite strip_idem. fold text. now rewrite Et.
Qed.

Definition MESSI : str := u "Messi ganó el Balón de Oro. Fue un año histórico.".

Definition MESSI_CHUNK : doc :=
  [("id", VScalar (SInt 1)); ("content", VScalar (SStr MESSI))].

(** The example of the specification: the first sentence of the chunk. *)
Lemma generate_answer_extracts_witness :
  generate_answer (u "¿Quién ganó el Balón de Oro?") [MESSI_CHUNK]
  = Ok (u "Messi ganó el Balón de Oro.").
Proof.
  rewrite (generate_answer_extracts (u "¿Quién ganó el Balón de Oro?")
             [MESSI_CHUNK] (top := MESSI_CHUNK) (content := MESSI)
             eq_refl eq_refl).
  vm_compute. reflexivity.
Defined.

Definition BLANK_CHUNK : doc := [("content", VScalar (SStr (u " ")))].

(** C8, as stated, fails on a chunk whose content is a single space: the
    content is truthy, the candidate is empty, and the answer is the "not
    found" message, not the text (trimmed or not). *)
Lemma generate_answer_blank_content :
  value_truthy (content_of BLANK_CHUNK) = true /\
  first_sentence (strip (u " ")) = [] /\
  generate_answer [] [BLANK_CHUNK] = Ok MSG_NOT_FOUND /\
  MSG_NOT_FOUND <> u " " /\ MSG_NOT_FOUND <> strip (u " ").
Proof.
  split; [reflexivity|]. split; [vm_compute; reflexivity|].
  split; [vm_compute; reflexivity|].
  split; intros H; vm_compute in H; discriminate H.
Qed.

(** ** Order of the floats *)

Module FloatOrder.

(** A non-NaN float as a point of [Z * Z * Z] under the lexicographic order:
    the class first (negative infinity, negative, zero, positive, positive
    infinity), then exponent and mantissa, both negated below zero. *)
Definition rank (x : spec_float) : Z * Z * Z :=
  match x with
  | S754_infinity true => (-2, 0, 0)
  | S754_finite true m e => (-1, - e, - Zpos m)
  | S754_zero _ => (0, 0, 0)
  | S754_nan => (0, 0, 0)
  | S754_finite false m e => (1, e, Zpos m)
  | S754_infinity false => (2, 0, 0)
  end.

Definition lex_le (p q : Z * Z * Z) : Prop :=
  let '(a1, b1, c1) := p in
  let '(a2, b2, c2) := q in
  a1 < a2 \/ (a1 = a2 /\ (b1 < b2 \/ (b1 = b2 /\ c1 <= c2))).

Definition number (x : spec_float) : Prop :=
  match x with
  | S754_nan => False
  | _ => True
  end.

Ltac order_cases x y :=
  destruct x as [[|]|[|]| |[|] ?m ?e], y as [[|]|[|]| |[|] ?m ?e];
  unfold SFleb, SFltb, SFcompare, lex_le, rank, number;
  try change (Pos.compare_cont Eq ?a ?b) with (Pos.compare a b);
  repeat match goal with
         | |- context [Z.compare ?a ?b] => destruct (Z.compare_spec a b)
         | |- context [Pos.compare ?a ?b] => destruct (Pos.compare_spec a b)
         end;
  cbn [CompOpp]; split; intros;
  repeat match goal with
         | H : _ /\ _ |- _ => destruct H
         end;
  try discriminate; try contradiction; try reflexivity;
  repeat split; try exact I; try lia.

Lemma SFleb_lex (x y : spec_float) :
  SFleb x y = true <-> number x /\ number y /\ lex_le (rank x) (rank y).
Proof. order_cases x y. Qed.

Lemma SFltb_lex (x y : spec_float) :
  SFltb x y = true <-> number x /\ number y /\ ~ lex_le (rank y) (rank x).
Proof. order_cases x y. Qed.

Lemma lex_le_trans (p q r : Z * Z * Z) : lex_le p q -> lex_le q r -> lex_le p r.
Proof. destruct p as [[? ?] ?], q as [[? ?] ?], r as [[? ?] ?]. unfold lex_le; simpl. lia. Qed.

Lemma lex_le_total (p q : Z * Z * Z) : lex_le p q \/ lex_le q p.
Proof. destruct p as [[? ?] ?], q as [[? ?] ?]. unfold lex_le; simpl. lia. Qed.

Lemma lex_le_dec (p q : Z * Z * Z) : lex_le p q \/ ~ lex_le p q.
Proof. destruct p as [[? ?] ?], q as [[? ?] ?]. unfold lex_le; simpl. lia. Qed.

Lemma lex_le_refl (p : Z * Z * Z) : lex_le p p.
Proof. destruct p as [[? ?] ?]. unfold lex_le; simpl. lia. Qed.

Local Open Scope float_scope.

(** [x <= y] on floats; it holds of no NaN. *)
Definition fle (x y : float) : Prop := (x <=? y) = true.

Lemma fle_lex (x y : float) :
  fle x y <-> number (Prim2SF x) /\ number (Prim2SF y)
              /\ lex_le (rank (Prim2SF x)) (rank (Prim2SF y)).
Proof. unfold fle. rewrite leb_spec. apply SFleb_lex. Qed.

Lemma fle_trans (x y z : float) : fle x y -> fle y z -> fle x z.
Proof.
  rewrite !fle_lex. intros (Nx & Ny & L1) (_ & Nz & L2).
  repeat split; try assumption. now apply lex_le_trans with (rank (Prim2SF y)).
Qed.

Lemma fle_number_l (x y : float) : fle x y -> fle x x.
Proof.
  rewrite !fle_lex. intros (Nx & _ & _). repeat split; try assumption. apply lex_le_refl.
Qed.

Lemma fle_number_r (x y : float) : fle x y -> fle y y.
Proof.
  rewrite !fle_lex. intros (_ & Ny & _). repeat split; try assumption. apply lex_le_refl.
Qed.

Lemma flt_fle (x y : float) : (x <? y) = true -> fle x y.
Proof.
  rewrite ltb_spec, SFltb_lex, fle_lex. intros (Nx & Ny & L).
  repeat split; try assumption.
  destruct (lex_le_total (rank (Prim2SF x)) (rank (Prim2SF y))) as [T|T];
    [exact T|contradiction].
Qed.

(** Two numbers out of strict order are in the converse order. *)
Lemma not_flt_fle (x y : float) : fle x x -> fle y y -> (y <? x) = false -> fle x y.
Proof.
  rewrite !fle_lex. intros (Nx & _ & _) (Ny & _ & _) H.
  repeat split; try assumption.
  destruct (lex_le_dec (rank (Prim2SF x)) (rank (Prim2SF y))) as [T|T]; [exact T|].
  assert (C : (y <? x) = true); [|congruence].
  rewrite ltb_spec. apply SFltb_lex. repeat split; assumption.
Qed.

End FloatOrder.

(** ** The sort and the slice *)

Import FloatOrder.

Section SortFacts.
Variables (A : Type) (key : A -> float).

Definition numbered (x : A) : Prop := fle (key x) (key x).

  (** [a] before [b] in descending order of keys. *)
Definition desc (a b : A) : Prop := fle (key b) (key a).

Lemma insert_desc_perm (x : A) (l : list A) :
    Permutation (insert_desc key x l) (x :: l).
  Proof.
    induction l as [|y r IH]; simpl; [reflexivity|].
    destruct (key y <? key x)%float; [reflexivity|].
    rewrite IH. apply perm_swap.
  Qed.

Lemma sort_desc_fold_perm (l acc : list A) :
    Permutation (fold_left (fun acc x => insert_desc key x acc) l acc) (acc ++ l).
  Proof.
    revert acc. induction l as [|x l IH]; intros acc; simpl.
    - now rewrite app_nil_r.
    - rewrite IH, insert_desc_perm. apply Permutation_middle.
  Qed.

Lemma sort_desc_perm (l : list A) : Permutation (sort_desc key l) l.
  Proof. unfold sort_desc. apply (sort_desc_fold_perm l []). Qed.

Lemma insert_desc_sorted (x : A) (l : list A) :
    numbered x -> Forall numbered l ->
    StronglySorted desc l -> StronglySorted desc (insert_desc key x l).
  Proof.
    intros Nx Nl S. induction S as [|y r Sr IH Hy]; simpl.
    - constructor; [constructor|constructor].
    - inversion Nl as [|? ? Ny Nr]; subst.
      destruct (key y <? key x)%float eqn:C.
      + constructor; [now constructor|].
        constructor; [now apply flt_fle|].
        rewrite Forall_forall in *. intros b Hb.
        apply fle_trans with (key y); [now apply Hy|now apply flt_fle].
      + constructor; [now apply IH|].
        apply Forall_forall. intros b Hb.
        apply (Permutation_in _ (insert_desc_perm x r)) in Hb.
        destruct Hb as [<-|Hb].
        * now apply not_flt_fle.
        * rewrite Forall_forall in Hy. now apply Hy.
  Qed.

Lemma sort_desc_fold_sorted (l acc : list A) :
    Forall numbered l -> Forall numbered acc -> StronglySorted desc acc ->
    StronglySorted desc (fold_left (fun acc x => insert_desc key x acc) l acc).
  Proof.
    intros Nl. revert acc. induction Nl as [|x l Nx Nl IH]; intros acc Na Sa; simpl.
    - exact Sa.
    - apply IH.
      + apply Forall_forall. intros b Hb.
        apply (Permutation_in _ (insert_desc_perm x acc)) in Hb.
        destruct Hb as [<-|Hb]; [exact Nx|].
        rewrite Forall_forall in Na. now apply Na.
      + now apply insert_desc_sorted.
  Qed.

  (** The sort leaves a list in descending order of keys when no key is a
      NaN. *)
Lemma sort_desc_sorted (l : list A) :
    Forall numbered l -> StronglySorted desc (sort_desc key l).
  Proof.
    intros Nl. unfold sort_desc.
    apply sort_desc_fold_sorted; [exact Nl|constructor|constructor].
  Qed.

Lemma firstn_sorted (n : nat) (l : list A) :
    StronglySorted desc l -> StronglySorted desc (firstn n l).
  Proof.
    intros S. revert n. induction S as [|y r Sr IH Hy]; intros n.
    - rewrite firstn_nil. constructor.
    - destruct n; simpl; constructor; [apply IH|].
      apply Forall_forall. intros b Hb.
      rewrite Forall_forall in Hy. apply Hy.
      rewrite <- (firstn_skipn n r). apply in_or_app. now left.
  Qed.
End SortFacts.

Lemma firstn_incl {A : Type} (n : nat) (l : list A) (x : A) :
  In x (firstn n l) -> In x l.
Proof.
  intros H. rewrite <- (firstn_skipn n l). apply in_or_app. now left.
Qed.

Lemma slice_to_incl {A : Type} (k : Z) (l : list A) (x : A) :
  In x (slice_to k l) -> In x l.
Proof. unfold slice_to. destruct (0 <=? k); apply firstn_incl. Qed.

(** ** Retrieval (C3, C6) *)

Lemma dict_get_set {A : Type} (k : string) (v : A) (d : list (string * A)) :
  dict_get k (dict_set k v d) = Some v.
Proof.
  induction d as [|[k' v'] d IH]; simpl.
  - now rewrite String.eqb_refl.
  - destruct (String.eqb k k') eqn:E; simpl.
    + now rewrite String.eqb_refl.
    + now rewrite E.
Qed.

Definition with_score (sim : float) (r : doc) : doc :=
  dict_set "_score" (VScalar (SFloat sim)) r.

Lemma score_of_with_score (sim : float) (r : doc) : score_of (with_score sim r) = sim.
Proof. unfold score_of, with_score. now rewrite dict_get_set. Qed.

(** The embedding of a row when it is a list that is not empty. *)
Definition vector_of (r : doc) : option (list scalar) :=
  match dict_get "embedding" r with
  | Some (VList ((_ :: _) as emb)) => Some emb
  | _ => None
  end.

(** A row feeds the result exactly when its embedding is a non-empty list
    whose similarity to the query is computed without error and reaches the
    threshold. *)
Definition scored_as (qvec : list float) (threshold : float) (r c : doc) : Prop :=
  exists emb sim,
    vector_of r = Some emb /\
    cosine_similarity qvec emb = Ok sim /\
    (threshold <=? sim)%float = true /\
    c = with_score sim r.

Lemma score_row_spec (qvec : list float) (threshold : float) (r c : doc) :
  In c (score_row qvec threshold r) <-> scored_as qvec threshold r c.
Proof.
  unfold score_row, scored_as, vector_of.
  destruct (dict_get "embedding" r) as [[s|[|y emb]]|].
  - split; [intros []|intros (? & ? & E & _); discriminate].
  - split; [intros []|intros (? & ? & E & _); discriminate].
  - destruct (cosine_similarity qvec (y :: emb)) as [sim|e] eqn:C.
    + destruct (threshold <=? sim)%float eqn:T.
      * split.
        -- intros [<-|[]]. exists (y :: emb), sim. auto.
        -- intros (emb' & sim' & [= <-] & C' & T' & ->).
           rewrite C in C'. injection C' as <-. now left.
      * split; [intros []|].
        intros (emb' & sim' & [= <-] & C' & T' & ->).
        rewrite C in C'. injection C' as <-. congruence.
    + split; [intros []|].
      intros (emb' & sim' & [= <-] & C' & _). rewrite C in C'. discriminate.
  - split; [intros []|intros (? & ? & E & _); discriminate].
Qed.

Lemma score_row_skips (qvec : list float) (threshold : float) (r : doc) :
  vector_of r = None -> score_row qvec threshold r = [].
Proof.
  unfold vector_of, score_row.
  destruct (dict_get "embedding" r) as [[s|[|y emb]]|]; try reflexivity. discriminate.
Qed.

Definition scored (qvec : list float) (threshold : float) (rows : list doc) : list doc :=
  flat_map (score_row qvec threshold) rows.

Lemma scored_In (qvec : list float) (threshold : float) (rows : list doc) (c : doc) :
  In c (scored qvec threshold rows) <->
  exists r, In r rows /\ scored_as qvec threshold r c.
Proof.
  unfold scored. rewrite in_flat_map.
  split; intros (r & Hr & H); exists r; (split; [exact Hr|]); now apply score_row_spec.
Qed.

Lemma scored_numbered (qvec : list float) (threshold : float) (rows : list doc) :
  Forall (numbered score_of) (scored qvec threshold rows).
Proof.
  apply Forall_forall. intros c Hc. apply scored_In in Hc.
  destruct Hc as (r & _ & emb & sim & _ & _ & T & ->).
  unfold numbered. rewrite score_of_with_score. exact (@fle_number_r _ _ T).
Qed.

Lemma retrieve_context_unfold (w : world) (question : str) (k : Z) (threshold : float)
    (qvec : list float) (rows : list doc) :
  encode w question = Ok qvec -> corpus w = Ok rows ->
  retrieve_context w question k threshold
  = Ok (slice_to k (sort_desc score_of (scored qvec threshold rows))).
Proof. intros E C. unfold retrieve_context. now rewrite E, C. Qed.

(** C6, as amended: for a limit [k] that is not negative, [retrieve_context]
    returns at most [k] chunks, each the row of the corpus it scored, with a
    cosine similarity that is at least the threshold, in descending order
    of score. *)
Theorem retrieve_context_top_k (w : world) (question : str) (k : Z) (threshold : float)
    (qvec : list float) (rows : list doc) :
  encode w question = Ok qvec -> corpus w = Ok rows -> 0 <= k ->
  exists chunks,
    retrieve_context w question k threshold = Ok chunks /\
    Z.of_nat (List.length chunks) <= k /\
    Forall (fun c => exists r emb,
              In r rows /\ vector_of r = Some emb /\
              cosine_similarity qvec emb = Ok (score_of c) /\
              (threshold <=? score_of c)%float = true) chunks /\
    StronglySorted (fun a b => (score_of b <=? score_of a)%float = true) chunks.
Proof.
  intros E C Hk. eexists.
  split; [exact (@retrieve_context_unfold w question k threshold qvec rows E C)|].
  unfold slice_to. apply Z.leb_le in Hk. rewrite Hk. apply Z.leb_le in Hk.
  split; [|split].
  - pose proof (firstn_le_length (Z.to_nat k) (sort_desc score_of (scored qvec threshold rows))).
    lia.
  - apply Forall_forall. intros c Hc. apply firstn_incl in Hc.
    apply (Permutation_in _ (sort_desc_perm score_of _)) in Hc.
    apply scored_In in Hc. destruct Hc as (r & Hr & emb & sim & V & Cs & T & ->).
    exists r, emb. rewrite score_of_with_score. auto.
  - apply (firstn_sorted (key := score_of)).
    apply sort_desc_sorted, scored_numbered.
Qed.

Definition AXIS : list float := [1%float; 0%float].

Definition chunk (id : Z) (content : string) (emb : list scalar) : doc :=
  [("id", VScalar (SInt id)); ("content", VScalar (SStr (u content)));
   ("embedding", VList emb)].

(** A corpus whose rows have the cosines 0.8, 1, 0.6 and 0.96 with the query. *)
Definition SMALL_CORPUS : list doc :=
  [ chunk 1 "Primero." [SFloat 4; SFloat 3];
    chunk 2 "Segundo." [SFloat 1; SFloat 0];
    chunk 3 "Tercero." [SInt 3; SInt 4];
    chunk 4 "Cuarto." [SFloat 24; SFloat 7] ].

Definition SMALL_WORLD : world := db_world [] SMALL_CORPUS (fun _ => AXIS).

Lemma retrieve_context_top_k_witness :
  exists chunks,
    retrieve_context SMALL_WORLD (u "pregunta") 2 DEFAULT_THRESHOLD = Ok chunks /\
    Z.of_nat (List.length chunks) <= 2 /\
    Forall (fun c => exists r emb,
              In r SMALL_CORPUS /\ vector_of r = Some emb /\
              cosine_similarity AXIS emb = Ok (score_of c) /\
              (DEFAULT_THRESHOLD <=? score_of c)%float = true) chunks /\
    StronglySorted (fun a b => (score_of b <=? score_of a)%float = true) chunks.
Proof.
  apply (retrieve_context_top_k SMALL_WORLD (u "pregunta") DEFAULT_THRESHOLD
           (qvec := AXIS) (rows := SMALL_CORPUS) eq_refl eq_refl).
  lia.
Defined.

(** C6, as stated, fails for a negative limit: [scored[:-1]] drops the last
    chunk only, so three chunks pass the threshold and two are returned for
    [k = -1]. *)
Lemma retrieve_context_negative_limit :
  exists chunks,
    retrieve_context SMALL_WORLD (u "pregunta") (-1) DEFAULT_THRESHOLD = Ok chunks /\
    List.length chunks = 2%nat /\ ~ Z.of_nat (List.length chunks) <= -1.
Proof.
  eexists. split; [vm_compute; reflexivity|]. split; [reflexivity|]. simpl. lia.
Qed.

(** The world [w] with another corpus. *)
Definition with_corpus (w : world) (rows : list doc) : world :=
  World (run_query w) (Ok rows) (encode w).

Lemma score_row_length (qvec : list float) (threshold : float) (r : doc) :
  (List.length (score_row qvec threshold r) <= 1)%nat.
Proof.
  unfold score_row.
  destruct (dict_get "embedding" r) as [[s|[|y emb]]|]; simpl; try lia.
  destruct (cosine_similarity qvec (y :: emb)) as [sim|e]; simpl; try lia.
  destruct (threshold <=? sim)%float; simpl; lia.
Qed.

Lemma scored_length (qvec : list float) (threshold : float) (rows : list doc) :
  (List.length (scored qvec threshold rows) <= List.length rows)%nat.
Proof.
  unfold scored. induction rows as [|r rows IH]; simpl; [lia|].
  rewrite length_app. pose proof (score_row_length qvec threshold r). lia.
Qed.

Lemma slice_to_all {A : Type} (k : Z) (l : list A) :
  Z.of_nat (List.length l) <= k -> slice_to k l = l.
Proof.
  intros H. unfold slice_to.
  assert (K : (0 <=? k) = true) by (apply Z.leb_le; lia).
  rewrite K. apply firstn_all2. lia.
Qed.

(** C3, as amended: [retrieve_context] skips a row whose embedding is
    missing, is not a list or is the empty list: the result is that of the
    corpus without the row. It does not compare the length of an embedding
    with that of the query: every chunk returned comes from a row with a
    non-empty list for embedding whose cosine similarity (over the common
    prefix of the two vectors) is at least the threshold, and every such row
    is returned when the limit covers the corpus. *)
Theorem retrieve_context_skips_malformed
    (w : world) (question : str) (k : Z) (threshold : float) :
  (forall before r after,
      vector_of r = None ->
      retrieve_context (with_corpus w (before ++ r :: after)) question k threshold
      = retrieve_context (with_corpus w (before ++ after)) question k threshold) /\
  (forall qvec rows chunks c,
      encode w question = Ok qvec -> corpus w = Ok rows ->
      retrieve_context w question k threshold = Ok chunks -> In c chunks ->
      exists r, In r rows /\ scored_as qvec threshold r c) /\
  (forall qvec rows r c,
      encode w question = Ok qvec -> corpus w = Ok rows ->
      In r rows -> scored_as qvec threshold r c ->
      Z.of_nat (List.length rows) <= k ->
      exists chunks, retrieve_context w question k threshold = Ok chunks /\ In c chunks).
Proof.
  split; [|split].
  - intros before r after V. unfold retrieve_context, with_corpus. simpl.
    destruct (encode w question) as [qvec|e]; simpl; [|reflexivity].
    rewrite !flat_map_app. simpl. now rewrite (score_row_skips qvec threshold r V).
  - intros qvec rows chunks c E C R Hc.
    rewrite (@retrieve_context_unfold w question k threshold qvec rows E C) in R.
    injection R as <-. apply slice_to_incl in Hc.
    apply (Permutation_in _ (sort_desc_perm score_of _)) in Hc.
    now apply scored_In in Hc.
  - intros qvec rows r c E C Hr Hs Hk. eexists.
    split; [exact (@retrieve_context_unfold w question k threshold qvec rows E C)|].
    rewrite slice_to_all.
    + apply (Permutation_in _ (Permutation_sym (sort_desc_perm score_of _))).
      apply scored_In. now exists r.
    + rewrite (Permutation_length (sort_desc_perm score_of _)).
      pose proof (scored_length qvec threshold rows). lia.
Qed.

Definition NO_EMBEDDING : doc :=
  [("id", VScalar (SInt 9)); ("content", VScalar (SStr (u "Sin vector.")))].

Lemma retrieve_context_skips_malformed_witness :
  retrieve_context (with_corpus SMALL_WORLD (SMALL_CORPUS ++ NO_EMBEDDING :: []))
    (u "pregunta") 5 DEFAULT_THRESHOLD
  = retrieve_context (with_corpus SMALL_WORLD (SMALL_CORPUS ++ []))
      (u "pregunta") 5 DEFAULT_THRESHOLD.
Proof.
  apply (retrieve_context_skips_malformed SMALL_WORLD (u "pregunta") 5 DEFAULT_THRESHOLD).
  reflexivity.
Defined.

(** A row whose embedding has one component, against a query of two. *)
Definition SHORT_ROW : doc := chunk 7 "Corto." [SFloat 1].

Definition SHORT_WORLD : world := db_world [] [SHORT_ROW] (fun _ => AXIS).

(** C3, as stated, fails: the embedding of [SHORT_ROW] has another length
    than the query vector, and the row is returned, with score 1. *)
Lemma retrieve_context_keeps_short_embedding :
  vector_of SHORT_ROW = Some [SFloat 1] /\
  List.length [SFloat 1] <> List.length AXIS /\
  retrieve_context SHORT_WORLD (u "pregunta") 5 DEFAULT_THRESHOLD
  = Ok [with_score 1 SHORT_ROW].
Proof.
  split; [reflexivity|]. split; [discriminate|]. vm_compute. reflexivity.
Qed.

(** ** A league in the reference store *)

Definition record (cols : list string) (vals : list scalar) : row := combine cols vals.

Definition STADIUM_COLUMNS : list string :=
  ["id"; "name"; "city"; "capacity"; "year_construction"].

Definition TEAM_COLUMNS : list string :=
  ["id"; "name"; "city"; "province"; "founded_year"; "stadium_id"].

Definition PLAYER_COLUMNS : list string :=
  ["id"; "name"; "nationality"; "position"; "jersey_number"; "height"; "weight"; "team_id"].

Definition STATS_COLUMNS : list string :=
  ["player_id"; "goals"; "assists"; "games_played"; "yellow_card"; "red_card"].

Definition REFEREE_STATS_COLUMNS : list string :=
  ["referee_id"; "yellow_cards"; "red_cards"; "wins"; "draws"; "defeats"].

(** Tables with the columns of the data model: a stadium has an id, a name,
    a city, a capacity and a year of construction, and no [player_id]. *)
Definition LEAGUE : database :=
  [ ("competitions",
      Table ["id"; "name"; "season"; "type"; "gender"; "active"]
        [ record ["id"; "name"; "season"; "type"; "gender"; "active"]
            [SInt 1; SStr (u "LaLiga"); SStr (u "2024/25"); SStr (u "liga");
             SStr (u "masculino"); SBool true] ]);
    ("information_team",
      Table ["id"; "name"; "city"; "province"; "president"; "founded_year"; "stadium"] []);
    ("players",
      Table PLAYER_COLUMNS
        [ record PLAYER_COLUMNS
            [SInt 7; SStr (u "Iñaki Williams"); SStr (u "Ghana"); SStr (u "delantero");
             SInt 9; SInt 186; SInt 77; SInt 3];
          record PLAYER_COLUMNS
            [SInt 8; SStr (u "Pedri"); SStr (u "España"); SStr (u "centrocampista");
             SInt 8; SInt 174; SInt 60; SInt 5] ]);
    ("teams",
      Table TEAM_COLUMNS
        [ record TEAM_COLUMNS
            [SInt 3; SStr (u "Athletic Club"); SStr (u "Bilbao"); SStr (u "Bizkaia");
             SInt 1898; SInt 1];
          record TEAM_COLUMNS
            [SInt 4; SStr (u "Cádiz"); SStr (u "Cádiz"); SStr (u "Cádiz");
             SInt 1910; SInt 2] ]);
    ("referees", Table ["id"; "name"; "nationality"; "debut"] []);
    ("referee_stats", Table REFEREE_STATS_COLUMNS []);
    ("stadiums",
      Table STADIUM_COLUMNS
        [ record STADIUM_COLUMNS
            [SInt 1; SStr (u "San Mamés"); SStr (u "Bilbao"); SInt 53289; SInt 2013];
          record STADIUM_COLUMNS
            [SInt 2; SStr (u "Nuevo Mirandilla"); SStr (u "Cádiz"); SInt 20724; SInt 1955] ]);
    ("stats",
      Table STATS_COLUMNS
        [ record STATS_COLUMNS [SInt 7; SInt 12; SInt 3; SInt 30; SInt 2; SInt 0];
          record STATS_COLUMNS [SInt 8; SInt 15; SInt 9; SInt 31; SInt 4; SInt 1] ]) ].

Definition LEAGUE_WORLD : world := db_world LEAGUE [] (fun _ => AXIS).

(** ** The superlative resolver on the stadium table (C1) *)

Lemma db_query_unknown_column (db : database) (q : query) (c : string) :
  In c (mentioned q) ->
  (forall t, dict_get (q_table q) db = Some t -> has_column t c = false) ->
  db_query db q = Raise APIError.
Proof.
  intros Hc Ht. unfold db_query.
  destruct (dict_get (q_table q) db) as [t|]; [|reflexivity].
  destruct (forallb (has_column t) (mentioned q)) eqn:F; [|reflexivity].
  rewrite forallb_forall in F. specialize (Ht t eq_refl).
  rewrite (F _ Hc) in Ht. discriminate.
Qed.

(** C1 fails on the code: the request of [get_top_entity] always selects
    [player_id], a column the stadium table does not have. When "capacidad
    estadio" is the phrase the resolver stops at, the store refuses the
    request, whatever rows the table holds, and the exception leaves [chat]. *)
Theorem top_capacity_request_refused
    (db : database) (docs : list doc) (enc : str -> list float) (question : str)
    (label : str) :
  stat_entry (Unicode.lower (normalize question))
  = Some (u "capacidad estadio", ("stadiums", "capacity", label)) ->
  (forall t, dict_get "stadiums" db = Some t -> has_column t "player_id" = false) ->
  get_top_entity (db_world db docs enc) (normalize question) = Raise APIError /\
  chat (db_world db docs enc) question = Raise APIError.
Proof.
  intros Hs Hc.
  assert (G : get_top_entity (db_world db docs enc) (normalize question) = Raise APIError).
  { unfold get_top_entity. cbv zeta. rewrite Hs. unfold lookup_top.
    cbn [run_query db_world].
    rewrite (@db_query_unknown_column db _ "player_id"); [reflexivity|now left|exact Hc]. }
  split; [exact G|]. unfold chat. cbv zeta. now rewrite G.
Qed.

Lemma top_capacity_request_refused_witness :
  get_top_entity LEAGUE_WORLD (normalize (u "capacidad estadio")) = Raise APIError /\
  chat LEAGUE_WORLD (u "capacidad estadio") = Raise APIError.
Proof.
  apply (@top_capacity_request_refused LEAGUE [] (fun _ => AXIS) (u "capacidad estadio")
           (u "capacidad del estadio")).
  - vm_compute. reflexivity.
  - intros t H. vm_compute in H. injection H as <-. reflexivity.
Defined.

(** A store that answers the same request with the rows it has, leaving out
    the column it does not know: the resolver then fails on [top["player_id"]]. *)
Definition LENIENT_WORLD : world :=
  World (fun q => Ok [[("capacity", SInt 53289)]]) (Ok []) (fun _ => Ok AXIS).

Lemma top_capacity_without_player_id :
  get_top_entity LENIENT_WORLD (u "capacidad estadio") = Raise KeyError.
Proof. vm_compute. reflexivity. Qed.

(** ** Exceptions in [chat] (C2) *)

Lemma first_answer_raises (w : world) (q : str) (e : exn)
    (before : list (world -> str -> outcome (option str)))
    (f : world -> str -> outcome (option str))
    (after : list (world -> str -> outcome (option str))) :
  (forall g, In g before -> g w q = Ok None) ->
  f w q = Raise e ->
  first_answer (before ++ f :: after) w q = Raise e.
Proof.
  intros Hb Hf. induction before as [|g before IH]; simpl.
  - now rewrite Hf.
  - rewrite (Hb g (or_introl eq_refl)). simpl. apply IH.
    intros g' Hg'. apply Hb. now right.
Qed.

Lemma matchers_need_the_store (w : world) (q : str) (e : exn) :
  (forall request, run_query w request = Raise e) ->
  forall f, In f MATCHERS -> f w q = Raise e.
Proof.
  intros Hdown f Hf. unfold MATCHERS in Hf. cbn [In] in Hf.
  repeat (destruct Hf as [<-|Hf];
          [match goal with
           | |- ?g w q = _ => unfold g; cbv zeta; rewrite Hdown; reflexivity
           end|]).
  contradiction.
Qed.

(** C2, as amended: [chat] handles no exception. An exception raised by the
    superlative resolver, by the first matcher that does not return "no
    match", or by the retrieval once every earlier stage found nothing,
    leaves [chat]; when every request to the store raises, so does every
    matcher. The one handler is in [retrieve_context]: a corpus row whose
    similarity raises is skipped, and the result is that of the corpus
    without the row. *)
Theorem chat_propagates_exceptions (w : world) (question : str) (e : exn) :
  (get_top_entity w (normalize question) = Raise e -> chat w question = Raise e) /\
  (forall before f after,
      get_top_entity w (normalize question) = Ok None ->
      get_smalltalk (normalize question) = None ->
      MATCHERS = before ++ f :: after ->
      (forall g, In g before -> g w (normalize question) = Ok None) ->
      f w (normalize question) = Raise e ->
      chat w question = Raise e) /\
  (get_top_entity w (normalize question) = Ok None ->
   get_smalltalk (normalize question) = None ->
   first_answer MATCHERS w (normalize question) = Ok None ->
   retrieve_context w question 5 DEFAULT_THRESHOLD = Raise e ->
   chat w question = Raise e) /\
  ((forall request, run_query w request = Raise e) ->
   forall f, In f MATCHERS -> f w (normalize question) = Raise e) /\
  (forall before r after emb k threshold,
      dict_get "embedding" r = Some (VList emb) ->
      (forall qvec, encode w question = Ok qvec ->
                    cosine_similarity qvec emb = Raise e) ->
      retrieve_context (with_corpus w (before ++ r :: after)) question k threshold
      = retrieve_context (with_corpus w (before ++ after)) question k threshold).
Proof.
  split; [|split; [|split; [|split]]].
  - intros H. unfold chat. cbv zeta. now rewrite H.
  - intros before f after Ht Hs Hm Hb Hf. unfold chat. cbv zeta.
    rewrite Ht, Hs, Hm. cbn [bind hit].
    now rewrite (@first_answer_raises w (normalize question) e before f after Hb Hf).
  - intros Ht Hs Hm Hr. unfold chat. cbv zeta.
    rewrite Ht, Hs, Hm. cbn [bind hit]. now rewrite Hr.
  - apply matchers_need_the_store.
  - intros before r after emb k threshold Hemb Hcos.
    unfold retrieve_context, with_corpus. cbn [encode corpus bind].
    destruct (encode w question) as [qvec|err] eqn:E; cbn [bind]; [|reflexivity].
    rewrite !flat_map_app. cbn [flat_map].
    assert (S : score_row qvec threshold r = []).
    { unfold score_row. rewrite Hemb. destruct emb; [reflexivity|].
      now rewrite (Hcos qvec eq_refl). }
    now rewrite S.
Qed.

(** The league without its table of players. *)
Definition NO_PLAYERS : database :=
  filter (fun t => negb (String.eqb (fst t) "players")) LEAGUE.

Lemma chat_propagates_exceptions_witness :
  chat (db_world NO_PLAYERS [] (fun _ => AXIS)) (u "¿Quién es el portero?") = Raise APIError.
Proof.
  refine (proj1 (proj2 (chat_propagates_exceptions
                          (db_world NO_PLAYERS [] (fun _ => AXIS))
                          (u "¿Quién es el portero?") APIError))
            [get_competition_info; get_information_team_info] get_player_info
            _ _ _ eq_refl _ _).
  - vm_compute. reflexivity.
  - vm_compute. reflexivity.
  - intros g [<-|[<-|[]]]; vm_compute; reflexivity.
  - vm_compute. reflexivity.
Defined.

(** A store that refuses every request. *)
Definition STORE_DOWN : world :=
  World (fun _ => Raise APIError) (Ok []) (fun _ => Ok AXIS).

(** C2, as stated, fails: with the store down the question below reaches the
    first matcher, whose exception ends [chat]; the fallback answer is not
    returned. *)
Lemma chat_raises_when_store_down :
  get_competition_info STORE_DOWN (normalize (u "¿Quién es el portero?")) = Raise APIError /\
  chat STORE_DOWN (u "¿Quién es el portero?") = Raise APIError /\
  chat STORE_DOWN (u "¿Quién es el portero?")
  <> Ok {| answer := MSG_FALLBACK; sources := [] |}.
Proof.
  split; [vm_compute; reflexivity|]. split; [vm_compute; reflexivity|].
  intros H. vm_compute in H. discriminate H.
Qed.

(** ** The matchers that normalize both sides (C5) *)

(** The stored name of [r], normalized, occurs in the normalized question. *)
Definition named_in (question : str) (r : row) : bool :=
  match dict_get "name" r with
  | Some (SStr s) => substring (normalize s) (normalize question)
  | _ => false
  end.

Definition has_name (r : row) : Prop :=
  exists s, dict_get "name" r = Some (SStr s).

(** A loop that answers at the first row passing a test stops at the first
    such row of the table. *)
Lemma scan_first_match {A : Type} (rows : list A) (test : A -> bool)
    (body ans : A -> outcome (option str)) :
  (forall r, In r rows -> body r = if test r then ans r else Ok None) ->
  (forall r, ans r <> Ok None) ->
  scan rows body = match find test rows with
                   | Some r => ans r
                   | None => Ok None
                   end.
Proof.
  intros Hbody Hans. induction rows as [|r rows IH]; simpl; [reflexivity|].
  rewrite (Hbody r (or_introl eq_refl)).
  destruct (test r).
  - destruct (ans r) as [[s|]|e] eqn:E; simpl; try reflexivity.
    now apply Hans in E.
  - simpl. apply IH. intros r' Hr'. apply Hbody. now right.
Qed.

Lemma bind_never_none {A : Type} (c : outcome A) (k : A -> outcome (option str)) :
  (forall a, k a <> Ok None) -> bind c k <> Ok None.
Proof. intros H. destruct c; simpl; [apply H|discriminate]. Qed.

Ltac never_none :=
  repeat (apply bind_never_none; intros ?);
  try match goal with
      | |- (match ?l with [] => _ | _ :: _ => _ end) <> _ => destruct l
      end;
  repeat (apply bind_never_none; intros ?);
  discriminate.

Lemma team_info_answer_some (w : world) (team : row) : team_info_answer w team <> Ok None.
Proof. unfold team_info_answer. never_none. Qed.

Lemma team_by_stadium_answer_some (w : world) (stadium : row) :
  team_by_stadium_answer w stadium <> Ok None.
Proof. unfold team_by_stadium_answer. never_none. Qed.

Lemma team_city_answer_some (team : row) : team_city_answer team <> Ok None.
Proof. unfold team_city_answer. never_none. Qed.

Lemma name_test (question : str) (r : row) (yes : outcome (option str)) :
  has_name r ->
  (n <- getitem "name" r ;;
   nn <- normalize_value n ;;
   if substring nn (normalize question) then yes else Ok None)
  = if named_in question r then yes else Ok None.
Proof.
  intros (s & Hs). unfold getitem, named_in. rewrite Hs. reflexivity.
Qed.

Lemma name_test_guarded (question : str) (r : row) (yes : outcome (option str))
    (guard : bool) :
  has_name r ->
  (n <- getitem "name" r ;;
   nn <- normalize_value n ;;
   if substring nn (normalize question) && guard then yes else Ok None)
  = if named_in question r && guard then yes else Ok None.
Proof.
  intros (s & Hs). unfold getitem, named_in. rewrite Hs. reflexivity.
Qed.

(** C5, as amended: the matchers that normalize both the stored name and
    the question, [get_team_info] and [get_team_by_stadium], answer for the
    first row of their table whose normalized name occurs in the normalized
    question, and return none when there is no such row; [get_team_city]
    does so for the questions that hold "ciudad", and returns none for the
    other questions. *)
Theorem normalizing_matchers_first_match (w : world) (question : str) :
  (forall teams,
      run_query w (select_from "teams"
                     ["id"; "name"; "city"; "province"; "founded_year"; "stadium_id"])
      = Ok teams ->
      Forall has_name teams ->
      get_team_info w question
      = match find (named_in question) teams with
        | Some team => team_info_answer w team
        | None => Ok None
        end) /\
  (forall stadiums,
      run_query w (select_from "stadiums" ["id"; "name"]) = Ok stadiums ->
      Forall has_name stadiums ->
      get_team_by_stadium w question
      = match find (named_in question) stadiums with
        | Some stadium => team_by_stadium_answer w stadium
        | None => Ok None
        end) /\
  (forall teams,
      run_query w (select_from "teams" ["name"; "city"]) = Ok teams ->
      Forall has_name teams ->
      get_team_city w question
      = if substring (u "ciudad") (normalize question)
        then match find (named_in question) teams with
             | Some team => team_city_answer team
             | None => Ok None
             end
        else Ok None).
Proof.
  split; [|split].
  - intros teams Hq Hn. unfold get_team_info. cbv zeta. rewrite Hq. cbn [bind].
    apply scan_first_match; [|apply team_info_answer_some].
    intros r Hr. rewrite Forall_forall in Hn.
    exact (@name_test question r (team_info_answer w r) (Hn r Hr)).
  - intros stadiums Hq Hn. unfold get_team_by_stadium. cbv zeta. rewrite Hq. cbn [bind].
    apply scan_first_match; [|apply team_by_stadium_answer_some].
    intros r Hr. rewrite Forall_forall in Hn.
    exact (@name_test question r (team_by_stadium_answer w r) (Hn r Hr)).
  - intros teams Hq Hn. unfold get_team_city. cbv zeta. rewrite Hq. cbn [bind].
    rewrite Forall_forall in Hn.
    destruct (substring (u "ciudad") (normalize question)) eqn:C.
    + apply scan_first_match; [|apply team_city_answer_some].
      intros r Hr.
      rewrite (@name_test_guarded question r (team_city_answer r) true (Hn r Hr)).
      now rewrite andb_true_r.
    + rewrite (@scan_first_match _ teams (fun _ => false)
                 _ (fun r => team_city_answer r)).
      * clear Hq Hn. induction teams; simpl; auto.
      * intros r Hr.
        rewrite (@name_test_guarded question r (team_city_answer r) false (Hn r Hr)).
        now rewrite andb_false_r.
      * apply team_city_answer_some.
Qed.

(** A team stored with an accent, asked for without it and in capitals. *)
Lemma normalizing_matchers_first_match_witness :
  get_team_info LEAGUE_WORLD (u "¿Dónde juega el CADIZ?")
  = Ok (Some (u "Equipo Cádiz de Cádiz (Cádiz), fundado en 1910, estadio Nuevo Mirandilla.")).
Proof.
  rewrite (proj1 (normalizing_matchers_first_match LEAGUE_WORLD (u "¿Dónde juega el CADIZ?"))
             (map (project TEAM_COLUMNS) (records (Table TEAM_COLUMNS
                [ record TEAM_COLUMNS
                    [SInt 3; SStr (u "Athletic Club"); SStr (u "Bilbao"); SStr (u "Bizkaia");
                     SInt 1898; SInt 1];
                  record TEAM_COLUMNS
                    [SInt 4; SStr (u "Cádiz"); SStr (u "Cádiz"); SStr (u "Cádiz");
                     SInt 1910; SInt 2] ])))).
  - vm_compute. reflexivity.
  - vm_compute. reflexivity.
  - repeat constructor; eexists; vm_compute; reflexivity.
Defined.

(** C5, as stated, fails. [get_team_city] returns none for a question that
    names a team and does not hold "ciudad". And the matchers that only
    lowercase the stored name miss a name with a diacritic once [chat] has
    normalized the question: [get_player_info] finds "Iñaki Williams" in the
    raw question and not in the normalized one. *)
Lemma matchers_miss_named_rows :
  (exists team others,
      db_query LEAGUE (select_from "teams" ["name"; "city"]) = Ok (team :: others) /\
      named_in (u "el athletic club") team = true /\
      get_team_city LEAGUE_WORLD (u "el athletic club") = Ok None) /\
  (exists player others,
      db_query LEAGUE (select_from "players" PLAYER_COLUMNS) = Ok (player :: others) /\
      named_in (u "¿Dónde juega Iñaki Williams?") player = true /\
      get_player_info LEAGUE_WORLD (normalize (u "¿Dónde juega Iñaki Williams?")) = Ok None /\
      get_player_info LEAGUE_WORLD (u "¿Dónde juega Iñaki Williams?")
      = Ok (Some (u "Iñaki Williams juega como delantero, dorsal 9, nacionalidad Ghana, altura 186m, peso 77kg, equipo Athletic Club."))).
Proof.
  split.
  - do 2 eexists. split; [vm_compute; reflexivity|].
    split; vm_compute; reflexivity.
  - do 2 eexists. split; [vm_compute; reflexivity|].
    repeat split; vm_compute; reflexivity.
Qed.

(** ** The fallback and the answers of [chat] (C7) *)

Lemma hit_nonempty (a : option str) (s : str) : hit a = Some s -> s <> [].
Proof.
  destruct a as [[|c r]|]; simpl; intros H; try discriminate.
  injection H as <-. discriminate.
Qed.

Lemma first_answer_nonempty (fs : list (world -> str -> outcome (option str)))
    (w : world) (q s : str) :
  first_answer fs w q = Ok (Some s) -> s <> [].
Proof.
  induction fs as [|f fs IH]; simpl; [discriminate|].
  destruct (f w q) as [a|e]; simpl; [|discriminate].
  destruct (hit a) as [s'|] eqn:H.
  - intros [= <-]. now apply hit_nonempty in H.
  - exact IH.
Qed.

Lemma first_answer_none (fs : list (world -> str -> outcome (option str)))
    (w : world) (q : str) :
  (forall f, In f fs -> f w q = Ok None) -> first_answer fs w q = Ok None.
Proof.
  induction fs as [|f fs IH]; intros H; simpl; [reflexivity|].
  rewrite (H f (or_introl eq_refl)). simpl. apply IH. intros g Hg. apply H. now right.
Qed.

Lemma generate_answer_nonempty (question : str) (chunks : list doc) (a : str) :
  generate_answer question chunks = Ok a -> a <> [].
Proof.
  unfold generate_answer.
  destruct chunks as [|c0 rest]; [intros [= <-]; discriminate|].
  destruct (find _ (c0 :: rest)) as [top|]; [|intros [= <-]; discriminate].
  destruct (getitem "content" top) as [content|e]; cbn [bind]; [|discriminate].
  destruct (value_strip content) as [text|e]; cbn [bind]; [|discriminate].
  match goal with
  | |- (if is_empty ?c || _ then _ else _) = _ -> _ =>
      destruct (is_empty c) eqn:E; cbn [orb]
  end.
  - intros [= <-]. discriminate.
  - match goal with
    | |- (if ?b then _ else _) = _ -> _ => destruct b
    end; intros [= <-]; [discriminate|now apply is_empty_false].
Qed.

(** C7: when no superlative phrase and no dialogue trigger occurs in the
    question, every matcher returns none and the retrieval returns no chunk,
    [chat] returns the fixed fallback message with no source; and every
    answer [chat] returns is a non-empty string. *)
Theorem chat_fallback_and_nonempty (w : world) (question : str) :
  ((forall e : stat_row, In e STAT_MAP ->
        substring (fst e) (Unicode.lower (normalize question)) = false) ->
   (forall e : list (list str) * str, In e SMALLTALK ->
        fires (normalize (normalize question)) (fst e) = false) ->
   (forall f, In f MATCHERS -> f w (normalize question) = Ok None) ->
   retrieve_context w question 5 DEFAULT_THRESHOLD = Ok [] ->
   chat w question = Ok {| answer := MSG_FALLBACK; sources := [] |}) /\
  (forall r, chat w question = Ok r -> answer r <> []).
Proof.
  split.
  - intros Hstat Htalk Hmatch Hret. unfold chat. cbv zeta.
    assert (T : get_top_entity w (normalize question) = Ok None).
    { unfold get_top_entity. cbv zeta.
      assert (F : stat_entry (Unicode.lower (normalize question)) = None)
        by (apply find_all_fail; exact Hstat).
      now rewrite F. }
    assert (S : get_smalltalk (normalize question) = None).
    { unfold get_smalltalk. cbv zeta.
      assert (F : find (fun e : list (list str) * str =>
                          fires (normalize (normalize question)) (fst e)) SMALLTALK = None)
        by (apply find_all_fail; exact Htalk).
      now rewrite F. }
    rewrite T, S. cbn [bind hit].
    rewrite (@first_answer_none MATCHERS w (normalize question) Hmatch). cbn [bind].
    now rewrite Hret.
  - intros r. unfold chat. cbv zeta.
    destruct (get_top_entity w (normalize question)) as [a|e]; cbn [bind]; [|discriminate].
    destruct (hit a) as [s|] eqn:Ha.
    { intros [= <-]. simpl. now apply hit_nonempty in Ha. }
    destruct (hit (get_smalltalk (normalize question))) as [s|] eqn:Hs.
    { intros [= <-]. simpl. now apply hit_nonempty in Hs. }
    destruct (first_answer MATCHERS w (normalize question)) as [[s|]|e] eqn:Hm;
      cbn [bind]; [| |discriminate].
    { intros [= <-]. simpl. now apply first_answer_nonempty in Hm. }
    destruct (retrieve_context w question 5 DEFAULT_THRESHOLD) as [[|c cs]|e];
      cbn [bind]; [| |discriminate].
    { intros [= <-]. discriminate. }
    destruct (generate_answer question (c :: cs)) as [s|e] eqn:Hg; cbn [bind]; [|discriminate].
    destruct (source_refs (c :: cs)) as [srcs|e]; cbn [bind]; [|discriminate].
    intros [= <-]. simpl. now apply generate_answer_nonempty in Hg.
Qed.

Lemma chat_fallback_and_nonempty_witness :
  chat LEAGUE_WORLD (u "¿Lloverá mañana?")
  = Ok {| answer := MSG_FALLBACK; sources := [] |}.
Proof.
  apply (proj1 (chat_fallback_and_nonempty LEAGUE_WORLD (u "¿Lloverá mañana?"))).
  - intros e He.
    assert (T : forallb (fun e : stat_row =>
                  negb (substring (fst e)
                          (Unicode.lower (normalize (u "¿Lloverá mañana?"))))) STAT_MAP = true)
      by (vm_compute; reflexivity).
    rewrite forallb_forall in T. apply negb_true_iff. exact (T e He).
  - intros e He.
    assert (T : forallb (fun e : list (list str) * str =>
                  negb (fires (normalize (normalize (u "¿Lloverá mañana?"))) (fst e)))
                  SMALLTALK = true)
      by (vm_compute; reflexivity).
    rewrite forallb_forall in T. apply negb_true_iff. exact (T e He).
  - intros f Hf. unfold MATCHERS in Hf. cbn [In] in Hf.
    repeat (destruct Hf as [<-|Hf]; [vm_compute; reflexivity|]). contradiction.
  - vm_compute. reflexivity.
Defined.

(** * Further properties of the code *)

(** ** The normalizer *)

(** X1: a normalized text is settled: lowering it and trimming it change
    nothing, it holds no combining mark of category Mn, and none of its
    characters has a canonical decomposition. *)
Theorem normalize_output_settled (t : str) :
  Unicode.lower (normalize t) = normalize t /\
  Unicode.strip (normalize t) = normalize t /\
  Forall (fun c => Unicode.is_Mn c = false /\ Unicode.decomp c = [c]) (normalize t).
Proof.
  split; [apply lower_normalize|]. split.
  - unfold normalize. apply strip_idem.
  - apply Forall_forall. intros c Hc. apply normalize_chars in Hc.
    destruct Hc as (Hm & Hs & _). split; [exact Hm|now apply stable_decomp].
Qed.

(** Lowercase of an ASCII character. *)
Definition ascii_lower (c : N) : N :=
  if ((65 <=? c) && (c <=? 90))%N then (c + 32)%N else c.

Definition is_ascii (c : N) : bool := (c <? 128)%N.

Lemma ascii_table :
  forallb (fun c => (if list_eq_dec N.eq_dec (Unicode.lower_char c) [ascii_lower c]
                     then true else false)
                    && negb (c =? Unicode.SIGMA)%N
                    && (if list_eq_dec N.eq_dec (Unicode.decomp c) [c] then true else false)
                    && negb (Unicode.is_Mn c)
                    && (Unicode.combining c =? 0)%N
                    && is_ascii (ascii_lower c))
    (nrange 0 128) = true.
Proof. vm_compute. reflexivity. Qed.

Lemma ascii_char (c : N) :
  is_ascii c = true ->
  Unicode.lower_char c = [ascii_lower c] /\ (c =? Unicode.SIGMA)%N = false /\
  Unicode.decomp c = [c] /\ Unicode.is_Mn c = false /\ Unicode.combining c = 0%N /\
  is_ascii (ascii_lower c) = true.
Proof.
  intros H. unfold is_ascii in H. apply N.ltb_lt in H.
  pose proof ascii_table as T. rewrite forallb_forall in T.
  assert (Hin : In c (nrange 0 128)) by (apply nrange_In; lia).
  specialize (T c Hin).
  repeat (apply andb_true_iff in T; destruct T as [T ?]).
  destruct (list_eq_dec N.eq_dec (Unicode.lower_char c) [ascii_lower c]); [|discriminate].
  destruct (list_eq_dec N.eq_dec (Unicode.decomp c) [c]); [|discriminate].
  repeat split; try assumption.
  - now apply negb_true_iff.
  - now apply negb_true_iff.
  - now apply N.eqb_eq.
Qed.

Lemma lower_from_ascii (s before : str) :
  forallb is_ascii s = true -> Unicode.lower_from before s = map ascii_lower s.
Proof.
  revert before. induction s as [|c s IH]; intros before H; simpl in *; [reflexivity|].
  apply andb_true_iff in H. destruct H as [Hc Hs].
  destruct (ascii_char c Hc) as (L & S & _). rewrite S, L, IH by assumption. reflexivity.
Qed.

(** X2: on a text of ASCII characters [normalize] is lowercasing and
    trimming: no character is dropped or replaced otherwise. *)
Theorem normalize_ascii (t : str) :
  forallb is_ascii t = true -> normalize t = Unicode.strip (map ascii_lower t).
Proof.
  intros H. unfold normalize, Unicode.lower. rewrite (lower_from_ascii t [] H).
  assert (A : forall c, In c (map ascii_lower t) -> is_ascii c = true).
  { intros c Hc. apply in_map_iff in Hc. destruct Hc as (x & <- & Hx).
    rewrite forallb_forall in H. now apply ascii_char, H. }
  set (s := map ascii_lower t) in *. clearbody s. clear H t.
  assert (D : flat_map Unicode.decomp s = s).
  { induction s as [|c s IH]; simpl; [reflexivity|].
    destruct (ascii_char c (A c (or_introl eq_refl))) as (_ & _ & Dc & _).
    rewrite Dc, IH; [reflexivity|]. intros x Hx. apply A. now right. }
  unfold Unicode.nfd. rewrite D.
  rewrite reorder_starters.
  - rewrite filter_keeps_all; [reflexivity|].
    apply Forall_forall. intros c Hc.
    destruct (ascii_char c (A c Hc)) as (_ & _ & _ & M & _). now rewrite M.
  - apply Forall_forall. intros c Hc.
    now destruct (ascii_char c (A c Hc)) as (_ & _ & _ & _ & C & _).
Qed.

Lemma normalize_ascii_witness :
  normalize (u "  Hola, Como ESTAS?  ") = u "hola, como estas?".
Proof.
  rewrite (normalize_ascii (u "  Hola, Como ESTAS?  ")); vm_compute; reflexivity.
Defined.

(** ** Cosine similarity and retrieval *)

Lemma fmul_comm (x y : float) : (x * y)%float = (y * x)%float.
Proof.
  apply Prim2SF_inj. rewrite !mul_spec. unfold SF64mul, SFmul.
  destruct (Prim2SF x) as [sx|sx| |sx mx ex], (Prim2SF y) as [sy|sy| |sy my ey];
    try reflexivity; try (now rewrite xorb_comm).
  now rewrite xorb_comm, Pos.mul_comm, Z.add_comm.
Qed.

(** What [sum] makes of a list of floats. *)
Definition fsum (l : list float) : num :=
  match l with
  | [] => NInt 0
  | v :: r => NFloat (fold_left PrimFloat.add r (0 + v)%float)
  end.

Definition float_terms (l : list float) : list (outcome num) :=
  map (fun v => Ok (NFloat v)) l.

Lemma sum_from_floats (l : list float) (acc : float) :
  sum_from (NFloat acc) (float_terms l) = Ok (NFloat (fold_left PrimFloat.add l acc)).
Proof.
  revert acc. induction l as [|v l IH]; intros acc; simpl; [reflexivity|]. apply IH.
Qed.

Lemma py_sum_floats (l : list float) : py_sum (float_terms l) = Ok (fsum l).
Proof.
  destruct l as [|v l]; [reflexivity|].
  unfold py_sum. simpl. change (float_of_int 0) with (Ok 0%float). simpl.
  apply sum_from_floats.
Qed.

Definition products (a b : list float) : list float :=
  map (fun p => (fst p * snd p)%float) (combine a b).

Definition squares (a : list float) : list float := map (fun x => (x * x)%float) a.

Lemma products_comm (a b : list float) : products a b = products b a.
Proof.
  unfold products. revert b. induction a as [|x a IH]; intros [|y b]; simpl; try reflexivity.
  now rewrite fmul_comm, IH.
Qed.

Lemma dot_terms (a b : list float) :
  map (fun xy => y <- num_of_scalar (snd xy) ;; py_mul (NFloat (fst xy)) y)
    (combine a (map SFloat b))
  = float_terms (products a b).
Proof.
  unfold float_terms, products.
  revert b. induction a as [|x a IH]; intros [|y b]; simpl; try reflexivity.
  now rewrite IH.
Qed.

Lemma square_terms_query (a : list float) :
  map (fun x => py_mul (NFloat x) (NFloat x)) a = float_terms (squares a).
Proof. unfold float_terms, squares. rewrite map_map. reflexivity. Qed.

Lemma square_terms_stored (b : list float) :
  map (fun y => n <- num_of_scalar y ;; py_mul n n) (map SFloat b) = float_terms (squares b).
Proof. unfold float_terms, squares. rewrite !map_map. reflexivity. Qed.

(** [cosine_similarity] on two vectors of floats. *)
Lemma cosine_floats (a b : list float) :
  cosine_similarity a (map SFloat b)
  = (ra <- math_sqrt (fsum (squares a)) ;;
     rb <- math_sqrt (fsum (squares b)) ;;
     py_truediv (fsum (products a b)) (float_or ra EPS * float_or rb EPS)%float).
Proof.
  unfold cosine_similarity.
  rewrite dot_terms, square_terms_query, square_terms_stored, !py_sum_floats.
  reflexivity.
Qed.

Lemma math_sqrt_fsum (l : list float) :
  (exists r, math_sqrt (fsum l) = Ok r) \/ math_sqrt (fsum l) = Raise ValueError.
Proof.
  unfold math_sqrt.
  assert (T : exists x, to_float (fsum l) = Ok x).
  { destruct l; [exists 0%float|eexists]; reflexivity. }
  destruct T as (x & ->). simpl. destruct (x <? 0)%float; eauto.
Qed.

(** X3: cosine similarity of two float vectors is symmetric: exchanging
    the vectors gives the same outcome, the same float or the same
    exception. *)
Theorem cosine_similarity_symmetric (a b : list float) :
  cosine_similarity a (map SFloat b) = cosine_similarity b (map SFloat a).
Proof.
  rewrite !cosine_floats, (products_comm b a).
  destruct (math_sqrt_fsum (squares a)) as [(ra & ->)| ->],
           (math_sqrt_fsum (squares b)) as [(rb & ->)| ->]; simpl; try reflexivity.
  now rewrite fmul_comm.
Qed.

Lemma sum_from_raises (terms : list (outcome num)) (acc : num) (e : exn) :
  In (Raise e) terms -> exists e', sum_from acc terms = Raise e'.
Proof.
  revert acc. induction terms as [|t terms IH]; intros acc H; [contradiction|].
  simpl. destruct H as [->|H]; [simpl; eauto|].
  destruct t as [v|e0]; simpl; [|eauto].
  destruct (py_add acc v) as [acc'|e1]; simpl; [|eauto]. now apply IH.
Qed.

(** X4: an embedding that holds a null or a string, at any position, makes
    [cosine_similarity] raise, whatever the query; [retrieve_context] then
    drops the row. *)
Theorem non_numeric_embedding_dropped
    (qvec : list float) (emb : list scalar) (y : scalar) (threshold : float) (r : doc) :
  In y emb -> num_of_scalar y = Raise TypeError ->
  (exists e, cosine_similarity qvec emb = Raise e) /\
  (dict_get "embedding" r = Some (VList emb) -> score_row qvec threshold r = []).
Proof.
  intros Hy Hn.
  assert (C : exists e, cosine_similarity qvec emb = Raise e).
  { unfold cosine_similarity.
    destruct (py_sum _) as [dot|e]; simpl; [|eauto].
    destruct (py_sum _) as [sa|e]; simpl; [|eauto].
    destruct (math_sqrt sa) as [ra|e]; simpl; [|eauto].
    destruct (@sum_from_raises
                (map (fun y => n <- num_of_scalar y ;; py_mul n n) emb) (NInt 0) TypeError)
      as (e' & E).
    { apply in_map_iff. exists y. split; [now rewrite Hn|exact Hy]. }
    unfold py_sum. rewrite E. simpl. eauto. }
  split; [exact C|].
  intros Hr. unfold score_row. rewrite Hr. destruct C as (e & ->).
  now destruct emb.
Qed.

Lemma non_numeric_embedding_dropped_witness :
  (exists e, cosine_similarity AXIS [SFloat 1; SFloat 0; SNone] = Raise e) /\
  (dict_get "embedding" (chunk 5 "Nulo." [SFloat 1; SFloat 0; SNone])
   = Some (VList [SFloat 1; SFloat 0; SNone]) ->
   score_row AXIS DEFAULT_THRESHOLD (chunk 5 "Nulo." [SFloat 1; SFloat 0; SNone]) = []).
Proof.
  apply (@non_numeric_embedding_dropped AXIS [SFloat 1; SFloat 0; SNone] SNone).
  - simpl. auto.
  - reflexivity.
Defined.

(** X5: a larger limit only adds chunks at the end: for [0 <= k <= k'] the
    chunks returned for [k] are the first [k] of those returned for [k']. *)
Theorem retrieve_context_limit_prefix
    (w : world) (question : str) (k k' : Z) (threshold : float) (chunks : list doc) :
  0 <= k <= k' ->
  retrieve_context w question k' threshold = Ok chunks ->
  retrieve_context w question k threshold = Ok (firstn (Z.to_nat k) chunks).
Proof.
  intros Hk. unfold retrieve_context.
  destruct (encode w question) as [qvec|e]; simpl; [|discriminate].
  destruct (corpus w) as [rows|e]; simpl; [|discriminate].
  intros [= <-]. unfold slice_to.
  assert (K : (0 <=? k) = true) by (apply Z.leb_le; lia).
  assert (K' : (0 <=? k') = true) by (apply Z.leb_le; lia).
  rewrite K, K', firstn_firstn.
  f_equal. f_equal. lia.
Qed.

Lemma retrieve_context_limit_prefix_witness :
  retrieve_context SMALL_WORLD (u "pregunta") 1 DEFAULT_THRESHOLD
  = Ok (firstn (Z.to_nat 1)
          [with_score 1 (chunk 2 "Segundo." [SFloat 1; SFloat 0]);
           with_score 0x1.eb851eb851eb8p-1 (chunk 4 "Cuarto." [SFloat 24; SFloat 7])]).
Proof.
  apply (@retrieve_context_limit_prefix SMALL_WORLD (u "pregunta") 1 2 DEFAULT_THRESHOLD).
  - lia.
  - vm_compute. reflexivity.
Defined.

Lemma dict_get_set_other {A : Type} (k k' : string) (v : A) (d : list (string * A)) :
  k <> k' -> dict_get k (dict_set k' v d) = dict_get k d.
Proof.
  intros N. apply String.eqb_neq in N.
  induction d as [|[k0 v0] d IH]; simpl.
  - now rewrite N.
  - destruct (String.eqb k' k0) eqn:E; simpl.
    + apply String.eqb_eq in E. subst k0. now rewrite N.
    + now rewrite IH.
Qed.

(** X6: a chunk returned by [retrieve_context] is a row of the corpus with
    its [_score] set: the score is there, overwriting a stored [_score], and
    every other field is that of the row. *)
Theorem retrieve_context_keeps_fields
    (w : world) (question : str) (k : Z) (threshold : float)
    (rows chunks : list doc) (c : doc) :
  corpus w = Ok rows ->
  retrieve_context w question k threshold = Ok chunks -> In c chunks ->
  exists r,
    In r rows /\
    dict_get "_score" c = Some (VScalar (SFloat (score_of c))) /\
    forall field, field <> "_score" -> dict_get field c = dict_get field r.
Proof.
  intros C R Hc. unfold retrieve_context in R. rewrite C in R.
  destruct (encode w question) as [qvec|e]; simpl in R; [|discriminate].
  injection R as <-. apply slice_to_incl in Hc.
  apply (Permutation_in _ (sort_desc_perm score_of _)) in Hc.
  apply in_flat_map in Hc. destruct Hc as (r & Hr & Hc).
  apply score_row_spec in Hc. destruct Hc as (emb & sim & _ & _ & _ & ->).
  exists r. split; [exact Hr|]. split.
  - rewrite score_of_with_score. unfold with_score. apply dict_get_set.
  - intros field Hf. unfold with_score. now apply dict_get_set_other.
Qed.

(** A row that comes with a [_score] of its own. *)
Definition STALE_ROW : doc :=
  [("id", VScalar (SInt 3)); ("_score", VScalar (SStr (u "viejo")));
   ("source_table", VScalar (SStr (u "players")));
   ("embedding", VList [SFloat 2; SFloat 0])].

Lemma retrieve_context_keeps_fields_witness :
  exists r,
    In r [STALE_ROW] /\
    dict_get "_score" (with_score 1 STALE_ROW)
    = Some (VScalar (SFloat (score_of (with_score 1 STALE_ROW)))) /\
    forall field, field <> "_score" ->
                  dict_get field (with_score 1 STALE_ROW) = dict_get field r.
Proof.
  apply (@retrieve_context_keeps_fields (db_world [] [STALE_ROW] (fun _ => AXIS))
           (u "pregunta") 5 DEFAULT_THRESHOLD [STALE_ROW] [with_score 1 STALE_ROW]).
  - reflexivity.
  - vm_compute. reflexivity.
  - now left.
Defined.

(** ** The synthesizer: shape of the answers *)

Lemma upto_excludes (sep : N) (s : str) : ~ In sep (upto sep s).
Proof.
  induction s as [|c r IH]; simpl; [auto|].
  destruct (c =? sep)%N eqn:E; simpl; [auto|].
  intros [H|H]; [|now apply IH]. subst c. now rewrite N.eqb_refl in E.
Qed.

Lemma upto_incl (sep : N) (s : str) (x : N) : In x (upto sep s) -> In x s.
Proof.
  induction s as [|c r IH]; simpl; [auto|].
  destruct (c =? sep)%N; simpl; [contradiction|]. intros [H|H]; auto.
Qed.

(** The only occurrence of [x] in [body ++ [x]] is the last one when [body]
    has none. *)
Lemma last_occurrence (body pre suf : str) (x : N) :
  ~ In x body -> body ++ [x] = pre ++ x :: suf -> suf = [].
Proof.
  revert pre. induction body as [|b body IH]; intros pre Hn E.
  - destruct pre as [|p pre]; simpl in E.
    + now injection E as <-.
    + injection E as _ E. now destruct pre.
  - destruct pre as [|p pre]; simpl in E; injection E as E1 E2.
    + subst b. exfalso. apply Hn. now left.
    + apply (IH pre); [|exact E2]. intros H. apply Hn. now right.
Qed.

Lemma first_sentence_single_line (text : str) :
  ~ In NEWLINE (first_sentence text) /\
  forall pre suf, first_sentence text = pre ++ PERIOD :: suf -> suf = [].
Proof.
  unfold first_sentence. cbv zeta.
  set (line := strip (upto NEWLINE text)).
  assert (L : ~ In NEWLINE line).
  { intros H. apply strip_In in H. now apply upto_excludes in H. }
  destruct (has_char PERIOD line) eqn:P.
  - split.
    + intros H. apply in_app_or in H. destruct H as [H|[H|[]]]; [|discriminate H].
      apply L. apply strip_In in H. now apply upto_incl in H.
    + intros pre suf E. apply (@last_occurrence _ pre suf PERIOD) in E; [exact E|].
      intros H. apply strip_In in H. now apply upto_excludes in H.
  - split; [exact L|]. intros pre suf E.
    assert (H : In PERIOD line) by (rewrite E; apply in_or_app; right; now left).
    apply has_char_In in H. congruence.
Qed.

Lemma message_lengths :
  str_len MSG_INSUFFICIENT <= 203 /\ str_len MSG_NOT_FOUND <= 203.
Proof. split; vm_compute; discriminate. Qed.

(** X7: an answer of [generate_answer] longer than 203 characters is the
    first sentence of the chunk: it holds no line break, and no period
    before its last character. The other answers (the two fixed messages,
    the trimmed text of at most 200 characters, its first 200 characters
    with "...") have at most 203 characters. *)
Theorem generate_answer_long_is_sentence (question : str) (chunks : list doc) (a : str) :
  generate_answer question chunks = Ok a ->
  203 < str_len a ->
  ~ In NEWLINE a /\ forall pre suf, a = pre ++ PERIOD :: suf -> suf = [].
Proof.
  pose proof message_lengths as (M1 & M2).
  unfold generate_answer.
  destruct chunks as [|c0 rest]; [intros [= <-]; lia|].
  destruct (find _ (c0 :: rest)) as [top|]; [|intros [= <-]; lia].
  destruct (getitem "content" top) as [content|e]; cbn [bind]; [|discriminate].
  destruct (value_strip content) as [text|e]; cbn [bind]; [|discriminate].
  rewrite !hd_split_on.
  change (if has_char PERIOD (strip (upto NEWLINE text))
          then strip (upto PERIOD (strip (upto NEWLINE text))) ++ [PERIOD]
          else strip (upto NEWLINE text)) with (first_sentence text).
  fold (str_len (first_sentence text)). fold (str_len text).
  destruct (is_empty (first_sentence text) || (str_len (first_sentence text) <? 10)).
  - destruct (200 <? str_len text) eqn:T.
    + destruct (_ || _); [intros [= <-]; lia|].
      intros E. replace a with (firstn 200 text ++ u "...") by congruence.
      unfold str_len. rewrite length_app.
      pose proof (firstn_le_length 200 text) as F.
      change (List.length (u "...")) with 3%nat. lia.
    + apply Z.ltb_ge in T. destruct (_ || _); intros [= <-]; lia.
  - destruct (_ || _); intros [= <-]; [lia|].
    intros _. apply first_sentence_single_line.
Qed.

Definition LONG_LINE : str :=
  repeat 97%N 250 ++ u " fin. Otra frase." ++ [NEWLINE] ++ u "Segunda linea.".

Lemma generate_answer_long_is_sentence_witness :
  ~ In NEWLINE (repeat 97%N 250 ++ u " fin.") /\
  forall pre suf, repeat 97%N 250 ++ u " fin." = pre ++ PERIOD :: suf -> suf = [].
Proof.
  apply (@generate_answer_long_is_sentence []
           [[("content", VScalar (SStr LONG_LINE))]]).
  - vm_compute. reflexivity.
  - vm_compute. reflexivity.
Defined.

(** ** The orchestrator: which stage answers *)

(** The stages before the retrieval read the store only: their results are
    the same in two worlds with the same store. *)
Lemma structured_stages_store_only (rq : query -> outcome (list row))
    (c1 c2 : outcome (list doc)) (e1 e2 : str -> outcome (list float)) (q : str) :
  get_top_entity (World rq c1 e1) q = get_top_entity (World rq c2 e2) q /\
  first_answer MATCHERS (World rq c1 e1) q = first_answer MATCHERS (World rq c2 e2) q.
Proof. split; reflexivity. Qed.

(** X8: an answer [chat] gives while the corpus and the encoder are out of
    reach comes from the stages before the retrieval: it carries no source,
    and [chat] gives the same answer whatever the corpus and the encoder
    are. *)
Theorem chat_structured_ignores_retrieval (rq : query -> outcome (list row))
    (e0 : exn) (question : str) (r : ChatResponse) :
  chat (World rq (Raise e0) (fun _ => Raise e0)) question = Ok r ->
  sources r = [] /\
  forall (c : outcome (list doc)) (e : str -> outcome (list float)),
    chat (World rq c e) question = Ok r.
Proof.
  intros H.
  assert (G : forall c e,
             chat (World rq c e) question = Ok r /\ sources r = []).
  { intros c e. revert H. unfold chat. cbv zeta.
    destruct (structured_stages_store_only rq (Raise e0) c (fun _ => Raise e0) e
                (normalize question)) as (-> & ->).
    destruct (get_top_entity _ _) as [a|x]; cbn [bind]; [|discriminate].
    destruct (hit a) as [s|]; [unfold reply; intros [= <-]; now split|].
    destruct (hit (get_smalltalk _)) as [s|]; [unfold reply; intros [= <-]; now split|].
    destruct (first_answer _ _ _) as [[s|]|x]; cbn [bind]; try discriminate.
    unfold reply; intros [= <-]; now split. }
  split; [apply (G (Raise e0) (fun _ => Raise e0))|]. intros c e. apply G.
Qed.

Lemma chat_structured_ignores_retrieval_witness :
  sources {| answer := u "Equipo Cádiz de Cádiz (Cádiz), fundado en 1910, estadio Nuevo Mirandilla.";
             sources := [] |} = [] /\
  forall (c : outcome (list doc)) (e : str -> outcome (list float)),
    chat (World (db_query LEAGUE) c e) (u "¿Dónde juega el Cádiz?")
    = Ok {| answer := u "Equipo Cádiz de Cádiz (Cádiz), fundado en 1910, estadio Nuevo Mirandilla.";
            sources := [] |}.
Proof.
  apply (@chat_structured_ignores_retrieval (db_query LEAGUE) ModelError).
  vm_compute. reflexivity.
Defined.

(** Every scripted answer is a non-empty text. *)
Lemma smalltalk_answers_nonempty :
  forallb (fun e => negb (is_empty (snd e))) SMALLTALK = true.
Proof. vm_compute. reflexivity. Qed.

Lemma get_smalltalk_nonempty (q s : str) : get_smalltalk q = Some s -> hit (Some s) = Some s.
Proof.
  unfold get_smalltalk. cbv zeta.
  destruct (find _ SMALLTALK) as [e|] eqn:F; [|discriminate].
  intros [= <-]. apply find_some in F. destruct F as (I & _).
  pose proof smalltalk_answers_nonempty as A. rewrite forallb_forall in A.
  specialize (A e I). now destruct (snd e).
Qed.

(** X9: a question that holds no superlative phrase and fires a scripted
    dialogue entry is answered with that entry, without a source, in every
    world: the store, the corpus and the encoder are not consulted, and an
    outage of any of them does not reach the user. *)
Theorem chat_dialogue_needs_no_store (w : world) (question s : str) :
  stat_entry (normalize question) = None ->
  get_smalltalk (normalize question) = Some s ->
  chat w question = Ok {| answer := s; sources := [] |}.
Proof.
  intros T D. unfold chat, get_top_entity. cbv zeta.
  rewrite lower_normalize, T. cbn [bind hit].
  rewrite D, (get_smalltalk_nonempty _ D). reflexivity.
Qed.

Lemma chat_dialogue_needs_no_store_witness :
  chat STORE_DOWN (u "Hola, ¿cómo estás?")
  = Ok {| answer := u "¡Hola! ¿Qué quieres consultar sobre fútbol?"; sources := [] |}.
Proof.
  apply chat_dialogue_needs_no_store; vm_compute; reflexivity.
Defined.

Lemma lookup_top_nonempty (w : world) (table column : string) (label s : str) :
  lookup_top w table column label = Ok (Some s) -> hit (Some s) = Some s.
Proof.
  unfold lookup_top.
  destruct (run_query w _) as [[|top rest]|e]; cbn [bind]; [| |discriminate].
  - intros [= <-]. reflexivity.
  - destruct (getitem "player_id" top) as [pid|e]; cbn [bind]; [|discriminate].
    destruct (run_query w _) as [player_row|e]; cbn [bind]; [|discriminate].
    destruct (first_or_unknown "name" player_row) as [player_name|e];
      cbn [bind]; [|discriminate].
    destruct (getitem column top) as [val|e]; cbn [bind]; [|discriminate].
    intros [= <-]. reflexivity.
Qed.

Lemma lookup_top_some (w : world) (table column : string) (label : str) :
  lookup_top w table column label <> Ok None.
Proof. unfold lookup_top. never_none. Qed.

(** X10: once a superlative phrase of [STAT_MAP] occurs in the normalized
    question, [chat] is the ranking lookup of the first such phrase and
    nothing else: its answer is returned without a source, its exception
    leaves [chat], an empty ranking gives the "no information" sentence, and
    no later stage (dialogue, matchers, retrieval) is tried. *)
Theorem chat_superlative_first (w : world) (question phrase : str)
    (table column : string) (label : str) :
  stat_entry (normalize question) = Some (phrase, (table, column, label)) ->
  (forall s, lookup_top w table column label = Ok (Some s) ->
             chat w question = Ok {| answer := s; sources := [] |}) /\
  (forall e, lookup_top w table column label = Raise e -> chat w question = Raise e) /\
  (run_query w (select_top table ["player_id"; column] column) = Ok [] ->
   chat w question
   = Ok {| answer := u "No se encuentra información sobre " ++ label ++ u ".";
           sources := [] |}) /\
  lookup_top w table column label <> Ok None.
Proof.
  intros T.
  assert (A : forall s, lookup_top w table column label = Ok (Some s) ->
                        chat w question = Ok {| answer := s; sources := [] |}).
  { intros s L. unfold chat, get_top_entity. cbv zeta.
    rewrite lower_normalize, T, L. cbn [bind].
    now rewrite (lookup_top_nonempty _ _ _ _ L). }
  split; [exact A|]. split; [|split].
  - intros e L. unfold chat, get_top_entity. cbv zeta.
    now rewrite lower_normalize, T, L.
  - intros R. apply A. unfold lookup_top. now rewrite R.
  - apply lookup_top_some.
Qed.

(** A league whose ranking of minutes is empty. *)
Definition NO_MINUTES : world :=
  db_world [("stats", Table ["player_id"; "minutes_played"] [])] [] (fun _ => AXIS).

Lemma chat_superlative_first_witness :
  chat NO_MINUTES (u "¿Quién jugó más MINUTOS? Hola")
  = Ok {| answer := u "No se encuentra información sobre minutos jugados."; sources := [] |}.
Proof.
  refine (proj1 (proj2 (proj2
    (@chat_superlative_first NO_MINUTES (u "¿Quién jugó más MINUTOS? Hola") (u "minutos")
       "stats" "minutes_played" (u "minutos jugados") _))) _);
    vm_compute; reflexivity.
Defined.

Lemma source_refs_each (chunks : list doc) (srcs : list SourceRef) :
  source_refs chunks = Ok srcs ->
  Forall2 (fun c s =>
             src_table s = get_default "source_table" (VScalar (SStr (u "unknown"))) c /\
             src_id s = get_default "source_id" (VScalar (SStr (u "unknown"))) c /\
             rounded_score c = Ok (src_score s)) chunks srcs.
Proof.
  revert srcs. induction chunks as [|c rest IH]; intros srcs; simpl.
  - intros [= <-]. constructor.
  - unfold source_ref.
    destruct (rounded_score c) as [score|e] eqn:R; cbn [bind]; [|discriminate].
    destruct (source_refs rest) as [ss|e]; cbn [bind]; [|discriminate].
    intros [= <-]. constructor; [|now apply IH].
    cbn [src_table src_id src_score]. rewrite R. now repeat split.
Qed.

Lemma slice_to_five {A : Type} (l : list A) : (List.length (slice_to 5 l) <= 5)%nat.
Proof. exact (firstn_le_length 5 l). Qed.

Lemma retrieve_context_five (w : world) (question : str) (threshold : float)
    (chunks : list doc) :
  retrieve_context w question 5 threshold = Ok chunks -> (List.length chunks <= 5)%nat.
Proof.
  unfold retrieve_context.
  destruct (encode w question) as [qvec|e]; cbn [bind]; [|discriminate].
  destruct (corpus w) as [rows|e]; cbn [bind]; [|discriminate].
  intros [= <-]. apply slice_to_five.
Qed.

(** X11: a response of [chat] that cites sources comes from the retrieval:
    its answer is the extract of the retrieved chunks, and there is one
    source per chunk, in their order, at most five, each with the chunk's
    [source_table] and [source_id] ("unknown" for a missing field) and the
    chunk's score rounded to four decimals. The answers of every earlier
    stage cite none. *)
Theorem chat_sources_from_chunks (w : world) (question : str) (r : ChatResponse) :
  chat w question = Ok r ->
  sources r <> [] ->
  exists chunks,
    retrieve_context w question 5 DEFAULT_THRESHOLD = Ok chunks /\
    generate_answer question chunks = Ok (answer r) /\
    Forall2 (fun c s =>
               src_table s = get_default "source_table" (VScalar (SStr (u "unknown"))) c /\
               src_id s = get_default "source_id" (VScalar (SStr (u "unknown"))) c /\
               rounded_score c = Ok (src_score s)) chunks (sources r) /\
    (List.length (sources r) <= 5)%nat.
Proof.
  unfold chat. cbv zeta.
  destruct (get_top_entity _ _) as [a|x]; cbn [bind]; [|discriminate].
  destruct (hit a) as [s|]; [unfold reply; intros [= <-] N; now elim N|].
  destruct (hit (get_smalltalk _)) as [s|]; [unfold reply; intros [= <-] N; now elim N|].
  destruct (first_answer _ _ _) as [[s|]|x]; cbn [bind]; try discriminate;
    [unfold reply; intros [= <-] N; now elim N|].
  destruct (retrieve_context _ _ _ _) as [[|c0 rest]|x] eqn:R; cbn [bind];
    try discriminate; [unfold reply; intros [= <-] N; now elim N|].
  destruct (generate_answer _ _) as [a'|x] eqn:G; cbn [bind]; [|discriminate].
  destruct (source_refs _) as [srcs|x] eqn:S; cbn [bind]; [|discriminate].
  intros [= <-] _. cbn [answer sources].
  exists (c0 :: rest). split; [reflexivity|]. split; [exact G|].
  pose proof (source_refs_each _ S) as F. split; [exact F|].
  rewrite <- (Forall2_length F). exact (retrieve_context_five _ _ _ R).
Qed.

Definition UNKNOWN_SOURCE : value := VScalar (SStr (u "unknown")).

(** A league with a corpus of two chunks along the axis of the query. *)
Definition TWO_CHUNKS : world :=
  db_world LEAGUE
    [ chunk 1 "Primero." [SFloat 1; SFloat 0];
      chunk 2 "Segundo, con más texto. Y más." [SFloat 2; SFloat 0] ]
    (fun _ => AXIS).

Definition TWO_SOURCES : list SourceRef :=
  [ {| src_table := UNKNOWN_SOURCE; src_id := UNKNOWN_SOURCE; src_score := 1 |};
    {| src_table := UNKNOWN_SOURCE; src_id := UNKNOWN_SOURCE; src_score := 1 |} ].

Lemma chat_sources_from_chunks_witness :
  exists chunks,
    retrieve_context TWO_CHUNKS (u "pregunta") 5 DEFAULT_THRESHOLD = Ok chunks /\
    generate_answer (u "pregunta") chunks = Ok (u "Primero.") /\
    Forall2 (fun c s =>
               src_table s = get_default "source_table" (VScalar (SStr (u "unknown"))) c /\
               src_id s = get_default "source_id" (VScalar (SStr (u "unknown"))) c /\
               rounded_score c = Ok (src_score s)) chunks TWO_SOURCES /\
    (List.length TWO_SOURCES <= 5)%nat.
Proof.
  apply (@chat_sources_from_chunks TWO_CHUNKS (u "pregunta")
           {| answer := u "Primero."; sources := TWO_SOURCES |}).
  - vm_compute. reflexivity.
  - discriminate.
Defined.

(** ** The matchers that only lowercase the stored name *)

(** The stored name of [r], lowercased, occurs in the lowercased question. *)
Definition lower_named_in (question : str) (r : row) : bool :=
  match dict_get "name" r with
  | Some (SStr s) => substring (lower s) (lower question)
  | _ => false
  end.

(** The answers of the five matchers for the row they stop at. *)
Definition competition_answer (comp : row) : outcome (option str) :=
  name <- fmt "name" comp ;;
  season <- fmt "season" comp ;;
  type <- fmt "type" comp ;;
  gender <- fmt "gender" comp ;;
  active <- fmt "active" comp ;;
  Ok (Some (u "La competición " ++ name ++ u " (temporada " ++ season ++ u "), tipo "
              ++ type ++ u ", género " ++ gender ++ u ", activa: " ++ active ++ u ".")).

Definition information_team_answer (team : row) : outcome (option str) :=
  name <- fmt "name" team ;;
  city <- fmt "city" team ;;
  province <- fmt "province" team ;;
  president <- fmt "president" team ;;
  founded <- fmt "founded_year" team ;;
  stadium <- fmt "stadium" team ;;
  Ok (Some (u "El equipo " ++ name ++ u " está en " ++ city ++ u " (" ++ province
              ++ u "), presidente " ++ president ++ u ", fundado en " ++ founded
              ++ u ", estadio " ++ stadium ++ u ".")).

Definition player_answer (w : world) (player : row) : outcome (option str) :=
  tid <- getitem "team_id" player ;;
  team <- run_query w (select_where "teams" ["name"] "id" tid) ;;
  team_name <- first_or_unknown "name" team ;;
  name <- fmt "name" player ;;
  position <- fmt "position" player ;;
  jersey <- fmt "jersey_number" player ;;
  nationality <- fmt "nationality" player ;;
  height <- fmt "height" player ;;
  weight <- fmt "weight" player ;;
  Ok (Some (name ++ u " juega como " ++ position ++ u ", dorsal " ++ jersey
              ++ u ", nacionalidad " ++ nationality ++ u ", altura " ++ height
              ++ u "m, peso " ++ weight ++ u "kg, equipo " ++ py_str team_name ++ u ".")).

Definition referee_answer (ref : row) : outcome (option str) :=
  name <- fmt "name" ref ;;
  nationality <- fmt "nationality" ref ;;
  debut <- fmt "debut" ref ;;
  Ok (Some (u "Árbitro " ++ name ++ u ", nacionalidad " ++ nationality ++ u ", debut "
              ++ debut ++ u ".")).

Definition stadium_answer (stadium : row) : outcome (option str) :=
  name <- fmt "name" stadium ;;
  city <- fmt "city" stadium ;;
  capacity <- fmt "capacity" stadium ;;
  year <- fmt "year_construction" stadium ;;
  Ok (Some (u "El estadio " ++ name ++ u " está en " ++ city ++ u ", capacidad "
              ++ capacity ++ u ", construido en " ++ year ++ u ".")).

Lemma lower_name_test (question : str) (r : row) (yes : outcome (option str)) :
  has_name r ->
  (n <- getitem "name" r ;;
   ln <- str_lower n ;;
   if substring ln (lower question) then yes else Ok None)
  = if lower_named_in question r then yes else Ok None.
Proof.
  intros (s & Hs). unfold getitem, lower_named_in. rewrite Hs. reflexivity.
Qed.

Lemma competition_answer_some (r : row) : competition_answer r <> Ok None.
Proof. unfold competition_answer. never_none. Qed.

Lemma information_team_answer_some (r : row) : information_team_answer r <> Ok None.
Proof. unfold information_team_answer. never_none. Qed.

Lemma player_answer_some (w : world) (r : row) : player_answer w r <> Ok None.
Proof. unfold player_answer. never_none. Qed.

Lemma referee_answer_some (r : row) : referee_answer r <> Ok None.
Proof. unfold referee_answer. never_none. Qed.

Lemma stadium_answer_some (r : row) : stadium_answer r <> Ok None.
Proof. unfold stadium_answer. never_none. Qed.

Ltac first_lower_match answer_some :=
  match goal with
  | Hq : run_query _ _ = Ok ?rows, Hn : Forall has_name ?rows |- ?f _ ?question = _ =>
      unfold f; cbv zeta; rewrite Hq; cbn [bind];
      apply scan_first_match; [|apply answer_some];
      let r := fresh "r" in
      let Hr := fresh "Hr" in
      intros r Hr; rewrite Forall_forall in Hn;
      exact (@lower_name_test question r _ (Hn r Hr))
  end.

Lemma get_competition_info_scan (w : world) (question : str) (rows : list row) :
  run_query w (select_from "competitions" ["id"; "name"; "season"; "type"; "gender"; "active"])
  = Ok rows ->
  Forall has_name rows ->
  get_competition_info w question
  = match find (lower_named_in question) rows with
    | Some r => competition_answer r
    | None => Ok None
    end.
Proof. intros Hq Hn. first_lower_match competition_answer_some. Qed.

Lemma get_information_team_info_scan (w : world) (question : str) (rows : list row) :
  run_query w (select_from "information_team"
                 ["id"; "name"; "city"; "province"; "president"; "founded_year"; "stadium"])
  = Ok rows ->
  Forall has_name rows ->
  get_information_team_info w question
  = match find (lower_named_in question) rows with
    | Some r => information_team_answer r
    | None => Ok None
    end.
Proof. intros Hq Hn. first_lower_match information_team_answer_some. Qed.

Lemma get_player_info_scan (w : world) (question : str) (rows : list row) :
  run_query w (select_from "players"
                 ["id"; "name"; "nationality"; "position"; "jersey_number"; "height";
                  "weight"; "team_id"])
  = Ok rows ->
  Forall has_name rows ->
  get_player_info w question
  = match find (lower_named_in question) rows with
    | Some r => player_answer w r
    | None => Ok None
    end.
Proof. intros Hq Hn. first_lower_match (player_answer_some w). Qed.

Lemma get_referee_info_scan (w : world) (question : str) (rows : list row) :
  run_query w (select_from "referees" ["id"; "name"; "nationality"; "debut"]) = Ok rows ->
  Forall has_name rows ->
  get_referee_info w question
  = match find (lower_named_in question) rows with
    | Some r => referee_answer r
    | None => Ok None
    end.
Proof. intros Hq Hn. first_lower_match referee_answer_some. Qed.

Lemma get_stadium_info_scan (w : world) (question : str) (rows : list row) :
  run_query w (select_from "stadiums" ["id"; "name"; "city"; "capacity"; "year_construction"])
  = Ok rows ->
  Forall has_name rows ->
  get_stadium_info w question
  = match find (lower_named_in question) rows with
    | Some r => stadium_answer r
    | None => Ok None
    end.
Proof. intros Hq Hn. first_lower_match stadium_answer_some. Qed.

(** X12: each of the five matchers that lowercase the stored name
    ([get_competition_info], [get_information_team_info], [get_player_info],
    [get_referee_info], [get_stadium_info]) answers for the first row of its
    table whose lowercased name occurs in the lowercased question, and
    returns none when no row does. *)
Theorem lowercase_matchers_first_match (w : world) (question : str) (rows : list row) :
  Forall has_name rows ->
  (run_query w (select_from "competitions"
                  ["id"; "name"; "season"; "type"; "gender"; "active"]) = Ok rows ->
   get_competition_info w question
   = match find (lower_named_in question) rows with
     | Some r => competition_answer r
     | None => Ok None
     end) /\
  (run_query w (select_from "information_team"
                  ["id"; "name"; "city"; "province"; "president"; "founded_year"; "stadium"])
   = Ok rows ->
   get_information_team_info w question
   = match find (lower_named_in question) rows with
     | Some r => information_team_answer r
     | None => Ok None
     end) /\
  (run_query w (select_from "players"
                  ["id"; "name"; "nationality"; "position"; "jersey_number"; "height";
                   "weight"; "team_id"]) = Ok rows ->
   get_player_info w question
   = match find (lower_named_in question) rows with
     | Some r => player_answer w r
     | None => Ok None
     end) /\
  (run_query w (select_from "referees" ["id"; "name"; "nationality"; "debut"]) = Ok rows ->
   get_referee_info w question
   = match find (lower_named_in question) rows with
     | Some r => referee_answer r
     | None => Ok None
     end) /\
  (run_query w (select_from "stadiums"
                  ["id"; "name"; "city"; "capacity"; "year_construction"]) = Ok rows ->
   get_stadium_info w question
   = match find (lower_named_in question) rows with
     | Some r => stadium_answer r
     | None => Ok None
     end).
Proof.
  intros Hn. repeat split; intros Hq.
  - now apply get_competition_info_scan.
  - now apply get_information_team_info_scan.
  - now apply get_player_info_scan.
  - now apply get_referee_info_scan.
  - now apply get_stadium_info_scan.
Qed.

(** The second stadium is asked for; the first is not named. *)
Lemma lowercase_matchers_first_match_witness :
  get_stadium_info LEAGUE_WORLD (u "Háblame del NUEVO MIRANDILLA")
  = Ok (Some (u "El estadio Nuevo Mirandilla está en Cádiz, capacidad 20724, construido en 1955.")).
Proof.
  refine (eq_trans
    (proj2 (proj2 (proj2 (proj2
       (@lowercase_matchers_first_match LEAGUE_WORLD (u "Háblame del NUEVO MIRANDILLA")
          [ record STADIUM_COLUMNS
              [SInt 1; SStr (u "San Mamés"); SStr (u "Bilbao"); SInt 53289; SInt 2013];
            record STADIUM_COLUMNS
              [SInt 2; SStr (u "Nuevo Mirandilla"); SStr (u "Cádiz"); SInt 20724; SInt 1955] ]
          _)))) _) _).
  - repeat constructor; eexists; vm_compute; reflexivity.
  - vm_compute. reflexivity.
  - vm_compute. reflexivity.
Defined.

(** *** Names with a diacritic, once [chat] has normalized the question *)

Definition diacritic_char (c : N) : bool := existsb is_Mn (decomp c).

(** Lowering a character that carries a mark leaves a character that
    carries one: checked on every entry of the lowercase table. *)
Lemma lower_table_keeps_marks :
  forallb (fun cv => implb (diacritic_char (fst cv)) (existsb diacritic_char (snd cv)))
          lower_table = true.
Proof. vm_compute. reflexivity. Qed.

Lemma lower_char_keeps_mark (c : N) :
  diacritic_char c = true -> existsb diacritic_char (lower_char c) = true.
Proof.
  intros D. unfold lower_char. destruct (lookup lower_table c) as [l|] eqn:L.
  - apply lookup_In in L. pose proof lower_table_keeps_marks as T.
    rewrite forallb_forall in T. specialize (T _ L). cbn [fst snd] in T.
    now rewrite D in T.
  - cbn [existsb]. now rewrite D.
Qed.

Lemma lower_keeps_diacritic (s : str) :
  has_diacritic s = true -> has_diacritic (lower s) = true.
Proof.
  unfold lower. generalize (@nil N) as before.
  change has_diacritic with (existsb diacritic_char).
  induction s as [|c s IH]; intros before; cbn [existsb lower_from]; [discriminate|].
  rewrite existsb_app. destruct (diacritic_char c) eqn:D; cbn [orb].
  - intros _. destruct (c =? SIGMA)%N eqn:E.
    + apply N.eqb_eq in E. subst c. vm_compute in D. discriminate D.
    + now rewrite (lower_char_keeps_mark _ D).
  - intros H. rewrite (IH _ H). apply orb_true_r.
Qed.

(** The stored name of the row carries a diacritic. *)
Definition accented (r : row) : bool :=
  match dict_get "name" r with
  | Some (SStr s) => has_diacritic s
  | _ => false
  end.

Definition plain_rows (rows : list row) : list row :=
  filter (fun r => negb (accented r)) rows.

Lemma accented_not_named (question : str) (r : row) :
  accented r = true -> lower_named_in (normalize question) r = false.
Proof.
  unfold accented, lower_named_in. destruct (dict_get "name" r) as [[| | | |s]|]; auto.
  intros A. rewrite lower_normalize.
  apply diacritic_not_in_normalized, lower_keeps_diacritic, A.
Qed.

Lemma find_plain (question : str) (rows : list row) :
  find (lower_named_in (normalize question)) rows
  = find (lower_named_in (normalize question)) (plain_rows rows).
Proof.
  induction rows as [|r rows IH]; [reflexivity|]. cbn [find plain_rows filter].
  destruct (accented r) eqn:A; cbn [negb].
  - now rewrite (accented_not_named question r A).
  - cbn [find]. destruct (lower_named_in _ r); [reflexivity|exact IH].
Qed.

(** X13: [chat] hands the matchers the normalized question, in which a
    lowercased name that carries a diacritic never occurs: the five
    matchers that only lowercase the stored name then behave as if the rows
    with such a name ("Iñaki Williams", "San Mamés") were not in the table,
    however the question is written. *)
Theorem chat_matchers_skip_accented (w : world) (question : str) (rows : list row) :
  Forall has_name rows ->
  (run_query w (select_from "competitions"
                  ["id"; "name"; "season"; "type"; "gender"; "active"]) = Ok rows ->
   get_competition_info w (normalize question)
   = match find (lower_named_in (normalize question)) (plain_rows rows) with
     | Some r => competition_answer r
     | None => Ok None
     end) /\
  (run_query w (select_from "information_team"
                  ["id"; "name"; "city"; "province"; "president"; "founded_year"; "stadium"])
   = Ok rows ->
   get_information_team_info w (normalize question)
   = match find (lower_named_in (normalize question)) (plain_rows rows) with
     | Some r => information_team_answer r
     | None => Ok None
     end) /\
  (run_query w (select_from "players"
                  ["id"; "name"; "nationality"; "position"; "jersey_number"; "height";
                   "weight"; "team_id"]) = Ok rows ->
   get_player_info w (normalize question)
   = match find (lower_named_in (normalize question)) (plain_rows rows) with
     | Some r => player_answer w r
     | None => Ok None
     end) /\
  (run_query w (select_from "referees" ["id"; "name"; "nationality"; "debut"]) = Ok rows ->
   get_referee_info w (normalize question)
   = match find (lower_named_in (normalize question)) (plain_rows rows) with
     | Some r => referee_answer r
     | None => Ok None
     end) /\
  (run_query w (select_from "stadiums"
                  ["id"; "name"; "city"; "capacity"; "year_construction"]) = Ok rows ->
   get_stadium_info w (normalize question)
   = match find (lower_named_in (normalize question)) (plain_rows rows) with
     | Some r => stadium_answer r
     | None => Ok None
     end).
Proof.
  intros Hn. repeat split; intros Hq; rewrite <- find_plain.
  - now apply get_competition_info_scan.
  - now apply get_information_team_info_scan.
  - now apply get_player_info_scan.
  - now apply get_referee_info_scan.
  - now apply get_stadium_info_scan.
Qed.

Definition TWO_PLAYERS : str := u "¿Dónde juegan Iñaki Williams y Pedri?".

(** Both players are named; the first, stored with "ñ", is passed over. *)
Lemma chat_matchers_skip_accented_witness :
  get_player_info LEAGUE_WORLD (normalize TWO_PLAYERS)
  = Ok (Some (u "Pedri juega como centrocampista, dorsal 8, nacionalidad España, altura 174m, peso 60kg, equipo desconocido.")).
Proof.
  refine (eq_trans
    (proj1 (proj2 (proj2
       (@chat_matchers_skip_accented LEAGUE_WORLD TWO_PLAYERS
          [ record PLAYER_COLUMNS
              [SInt 7; SStr (u "Iñaki Williams"); SStr (u "Ghana"); SStr (u "delantero");
               SInt 9; SInt 186; SInt 77; SInt 3];
            record PLAYER_COLUMNS
              [SInt 8; SStr (u "Pedri"); SStr (u "España"); SStr (u "centrocampista");
               SInt 8; SInt 174; SInt 60; SInt 5] ]
          _))) _) _).
  - repeat constructor; eexists; vm_compute; reflexivity.
  - vm_compute. reflexivity.
  - vm_compute. reflexivity.
Defined.

(** *** Matchers that an earlier matcher shadows *)

Lemma scan_none {A : Type} (rows : list A) (body : A -> outcome (option str)) :
  scan rows body = Ok None -> forall r, In r rows -> body r = Ok None.
Proof.
  induction rows as [|x rows IH]; simpl; [contradiction|].
  destruct (body x) as [[s|]|e] eqn:B; simpl; try discriminate.
  intros S r [<-|H]; [exact B|now apply IH].
Qed.

Lemma scan_all_none {A : Type} (rows : list A) (body : A -> outcome (option str)) :
  (forall r, In r rows -> body r = Ok None) -> scan rows body = Ok None.
Proof.
  induction rows as [|x rows IH]; intros H; simpl; [reflexivity|].
  rewrite (H x (or_introl eq_refl)). simpl. apply IH. intros r Hr. apply H. now right.
Qed.

Lemma scan_some {A : Type} (rows : list A) (body : A -> outcome (option str)) (s : str) :
  scan rows body = Ok (Some s) -> exists r, In r rows /\ body r = Ok (Some s).
Proof.
  induction rows as [|x rows IH]; simpl; [discriminate|].
  destruct (body x) as [[s'|]|e] eqn:B; simpl; try discriminate.
  - intros [= <-]. exists x. split; [now left|exact B].
  - intros S. destruct (IH S) as (r & Hr & Br). exists r. split; [now right|exact Br].
Qed.

(** Takes the binds at the head of an answer apart, one after the other. *)
Ltac open_binds :=
  repeat match goal with
         | |- bind ?c _ = _ -> _ => destruct c; cbn [bind]; [|discriminate]
         | |- (match ?l with [] => _ | _ :: _ => _ end) = _ -> _ => destruct l
         end.

Lemma get_team_info_nonempty (w : world) (q s : str) :
  get_team_info w q = Ok (Some s) -> hit (Some s) = Some s.
Proof.
  unfold get_team_info. cbv zeta.
  destruct (run_query w _) as [teams|e]; cbn [bind]; [|discriminate].
  intros S. apply scan_some in S. destruct S as (r & _ & B). revert B.
  destruct (getitem "name" r) as [n|e]; cbn [bind]; [|discriminate].
  destruct (normalize_value n) as [nn|e]; cbn [bind]; [|discriminate].
  destruct (substring nn (normalize q)); [|discriminate].
  unfold team_info_answer. open_binds. intros [= <-]. reflexivity.
Qed.

(** A matcher that finds nothing whenever the one before it does can be
    left out of the loop. *)
Lemma first_answer_shadowed (w : world) (q : str)
    (before : list (world -> str -> outcome (option str)))
    (f g : world -> str -> outcome (option str)) :
  (f w q = Ok None -> g w q = Ok None) ->
  (forall s, f w q = Ok (Some s) -> hit (Some s) = Some s) ->
  first_answer (before ++ [f; g]) w q = first_answer (before ++ [f]) w q.
Proof.
  intros Hn Hs. induction before as [|h before IH]; cbn [app first_answer].
  - destruct (f w q) as [[s|]|e] eqn:F; cbn [bind]; [| |reflexivity].
    + now rewrite (Hs s eq_refl).
    + cbn [hit]. now rewrite (Hn eq_refl).
  - destruct (h w q) as [a|e]; cbn [bind]; [|reflexivity].
    destruct (hit a); [reflexivity|exact IH].
Qed.

Lemma same_names (rows rows' : list row) (r' : row) :
  map (dict_get "name") rows = map (dict_get "name") rows' ->
  In r' rows' -> exists r, In r rows /\ dict_get "name" r = dict_get "name" r'.
Proof.
  intros M H. apply (in_map (dict_get "name")) in H. rewrite <- M in H.
  apply in_map_iff in H. destruct H as (r & E & I). now exists r.
Qed.

(** X14: [get_team_city] runs after [get_team_info] and tests the names of
    the same table in the same way, with one more condition. When the store
    lists the same names for both requests, a question for which
    [get_team_info] finds no team has none for [get_team_city] either; the
    loop of [chat] then gives the same result without [get_team_city], whose
    sentence on the city of a team is never the answer. *)
Theorem team_city_never_reached (w : world) (question : str) (teams named : list row) :
  run_query w (select_from "teams"
                 ["id"; "name"; "city"; "province"; "founded_year"; "stadium_id"])
  = Ok teams ->
  run_query w (select_from "teams" ["name"; "city"]) = Ok named ->
  map (dict_get "name") teams = map (dict_get "name") named ->
  (get_team_info w question = Ok None -> get_team_city w question = Ok None) /\
  first_answer MATCHERS w question = first_answer (removelast MATCHERS) w question.
Proof.
  intros Q1 Q2 M.
  assert (N : get_team_info w question = Ok None -> get_team_city w question = Ok None).
  { unfold get_team_info, get_team_city. cbv zeta. rewrite Q1, Q2. cbn [bind].
    intros S. apply scan_all_none. intros r' Hr'.
    destruct (same_names _ _ _ M Hr') as (r & Hr & E).
    pose proof (scan_none _ _ S r Hr) as B. revert B.
    unfold getitem. rewrite <- E.
    destruct (dict_get "name" r) as [[| | | |s]|]; cbn [bind normalize_value];
      try discriminate.
    destruct (substring (normalize s) (normalize question)); [|reflexivity].
    intros B. now apply team_info_answer_some in B. }
  split; [exact N|].
  exact (@first_answer_shadowed w question
           [ get_competition_info; get_information_team_info; get_player_info;
             get_referee_info; get_referee_stats_info; get_stadium_info;
             get_team_by_stadium; get_player_stats ]
           get_team_info get_team_city N (@get_team_info_nonempty w question)).
Qed.

Definition CITY_QUESTION : str := normalize (u "¿En qué ciudad juega el Cádiz?").

(** The question asks for the city and names the team: the team sheet of
    [get_team_info] answers, and the loop is the same without
    [get_team_city]. *)
Lemma team_city_never_reached_witness :
  (get_team_info LEAGUE_WORLD CITY_QUESTION = Ok None ->
   get_team_city LEAGUE_WORLD CITY_QUESTION = Ok None) /\
  first_answer MATCHERS LEAGUE_WORLD CITY_QUESTION
  = first_answer (removelast MATCHERS) LEAGUE_WORLD CITY_QUESTION.
Proof.
  apply (@team_city_never_reached LEAGUE_WORLD CITY_QUESTION
           (map (project TEAM_COLUMNS)
              [ record TEAM_COLUMNS
                  [SInt 3; SStr (u "Athletic Club"); SStr (u "Bilbao"); SStr (u "Bizkaia");
                   SInt 1898; SInt 1];
                record TEAM_COLUMNS
                  [SInt 4; SStr (u "Cádiz"); SStr (u "Cádiz"); SStr (u "Cádiz");
                   SInt 1910; SInt 2] ])
           [ [("name", SStr (u "Athletic Club")); ("city", SStr (u "Bilbao"))];
             [("name", SStr (u "Cádiz")); ("city", SStr (u "Cádiz"))] ]).
  - vm_compute. reflexivity.
  - vm_compute. reflexivity.
  - vm_compute. reflexivity.
Defined.

(** A row the matcher passes over has a name, and the name is not in the
    question. *)
Lemma passed_over (question : str) (r : row) (yes : outcome (option str)) :
  yes <> Ok None ->
  (n <- getitem "name" r ;;
   ln <- str_lower n ;;
   if substring ln (lower question) then yes else Ok None) = Ok None ->
  exists s, dict_get "name" r = Some (SStr s) /\
            substring (lower s) (lower question) = false.
Proof.
  intros Y. unfold getitem.
  destruct (dict_get "name" r) as [[| | | |s]|]; cbn [bind str_lower]; try discriminate.
  destruct (substring (lower s) (lower question)) eqn:S; [now intros B|].
  intros _. now exists s.
Qed.

Lemma stats_answer_unknown (w : world) (question : str) (listed : list row)
    (request : scalar -> query) (key : string) (stat : row) (s : str)
    (yes : scalar -> outcome (option str)) :
  (forall r, In r listed ->
             exists n, dict_get "name" r = Some (SStr n) /\
                       substring (lower n) (lower question) = false) ->
  (forall id found r,
      run_query w (request id) = Ok found -> In r found ->
      exists p, In p listed /\ dict_get "name" p = dict_get "name" r) ->
  (id <- getitem key stat ;;
   found <- run_query w (request id) ;;
   name <- first_or_unknown "name" found ;;
   ln <- str_lower name ;;
   if substring ln (lower question) then yes name else Ok None) = Ok (Some s) ->
  yes UNKNOWN = Ok (Some s) /\ substring (u "desconocido") (lower question) = true.
Proof.
  intros L C.
  destruct (getitem key stat) as [id|e]; cbn [bind]; [|discriminate].
  destruct (run_query w (request id)) as [[|r found]|e] eqn:Q; cbn [bind];
    [| |discriminate].
  - change (first_or_unknown "name" []) with (Ok UNKNOWN). cbn [bind].
    change (str_lower UNKNOWN) with (Ok (u "desconocido")). cbn [bind].
    destruct (substring (u "desconocido") (lower question)); [|discriminate].
    intros B. now split.
  - destruct (C id _ r Q (or_introl eq_refl)) as (p & Hp & E).
    destruct (L p Hp) as (n & Hn & S). cbn [first_or_unknown]. unfold getitem.
    rewrite <- E, Hn. cbn [bind str_lower]. rewrite S. discriminate.
Qed.

(** X15: [get_player_stats] names the player of a statistics row through
    the table of players, which [get_player_info] has searched before it
    with the same test. When the names the store gives for one player are
    among those it lists, a question for which [get_player_info] finds no
    player can only be answered by [get_player_stats] for a row whose player
    is missing, under the name "desconocido", and only if the question holds
    that word. The same holds of [get_referee_stats_info] after
    [get_referee_info]. *)
Theorem stats_matchers_answer_unknown_only (w : world) (question : str)
    (listed : list row) (s : str) :
  (run_query w (select_from "players"
                  ["id"; "name"; "nationality"; "position"; "jersey_number"; "height";
                   "weight"; "team_id"]) = Ok listed ->
   (forall id found r,
       run_query w (select_where "players" ["name"] "id" id) = Ok found -> In r found ->
       exists p, In p listed /\ dict_get "name" p = dict_get "name" r) ->
   get_player_info w question = Ok None ->
   get_player_stats w question = Ok (Some s) ->
   prefix_of (u "Estadísticas de desconocido: goles ") s = true /\
   substring (u "desconocido") (lower question) = true) /\
  (run_query w (select_from "referees" ["id"; "name"; "nationality"; "debut"]) = Ok listed ->
   (forall id found r,
       run_query w (select_where "referees" ["name"] "id" id) = Ok found -> In r found ->
       exists p, In p listed /\ dict_get "name" p = dict_get "name" r) ->
   get_referee_info w question = Ok None ->
   get_referee_stats_info w question = Ok (Some s) ->
   prefix_of (u "Estadísticas de desconocido: amarillas ") s = true /\
   substring (u "desconocido") (lower question) = true).
Proof.
  split; intros Q C.
  - unfold get_player_info, get_player_stats. cbv zeta. rewrite Q. cbn [bind].
    intros I. pose proof (scan_none _ _ I) as P. clear I.
    destruct (run_query w (select_from "stats" _)) as [stats|e]; cbn [bind]; [|discriminate].
    intros S. apply scan_some in S. destruct S as (stat & _ & B).
    apply (@stats_answer_unknown w question listed
             (fun id => select_where "players" ["name"] "id" id) "player_id" stat s) in B.
    + destruct B as (B & D). split; [|exact D]. revert B. open_binds.
      intros [= <-]. reflexivity.
    + intros r Hr. apply (@passed_over question r _ (player_answer_some w r)).
      exact (P r Hr).
    + exact C.
  - unfold get_referee_info, get_referee_stats_info. cbv zeta. rewrite Q. cbn [bind].
    intros I. pose proof (scan_none _ _ I) as P. clear I.
    destruct (run_query w (select_from "referee_stats" _)) as [stats|e]; cbn [bind];
      [|discriminate].
    intros S. apply scan_some in S. destruct S as (stat & _ & B).
    apply (@stats_answer_unknown w question listed
             (fun id => select_where "referees" ["name"] "id" id) "referee_id" stat s) in B.
    + destruct B as (B & D). split; [|exact D]. revert B. open_binds.
      intros [= <-]. reflexivity.
    + intros r Hr. apply (@passed_over question r _ (referee_answer_some r)).
      exact (P r Hr).
    + exact C.
Qed.

Lemma dict_get_project (c : string) (cols : list string) (r : row) :
  In c cols -> dict_get c (project cols r) = Some (cell c r).
Proof.
  unfold project. induction cols as [|d cols IH]; [contradiction|].
  intros H. cbn [map dict_get]. destruct (String.eqb c d) eqn:E.
  - apply String.eqb_eq in E. now subst d.
  - apply IH. destruct H as [->|H]; [|exact H]. now rewrite String.eqb_refl in E.
Qed.

(** In the reference store, the name found for one id is among the names
    listed for the table. *)
Lemma db_names_listed (db : database) (t : string) (cols : list string) (id : scalar)
    (listed found : list row) (r : row) :
  In "name" cols ->
  db_query db (select_from t cols) = Ok listed ->
  db_query db (select_where t ["name"] "id" id) = Ok found ->
  In r found ->
  exists p, In p listed /\ dict_get "name" p = dict_get "name" r.
Proof.
  intros N. unfold db_query, select_from, select_where.
  cbn [q_table q_select q_eq q_order_desc q_limit].
  destruct (dict_get t db) as [tb|]; [|discriminate].
  destruct (forallb _ _); [|discriminate]. intros [= <-].
  destruct (forallb _ _); [|discriminate]. intros [= <-] H.
  apply in_map_iff in H. destruct H as (rec & <- & H).
  apply filter_In in H. destruct H as (H & _).
  exists (project cols rec). split; [now apply in_map|].
  rewrite (dict_get_project _ _ _ N).
  symmetry. apply dict_get_project. now left.
Qed.

(** A league with the statistics of a player who is not in it. *)
Definition ORPHAN_STATS : database :=
  [ ("players",
      Table PLAYER_COLUMNS
        [ record PLAYER_COLUMNS
            [SInt 8; SStr (u "Pedri"); SStr (u "España"); SStr (u "centrocampista");
             SInt 8; SInt 174; SInt 60; SInt 5] ]);
    ("stats",
      Table STATS_COLUMNS
        [ record STATS_COLUMNS [SInt 99; SInt 4; SInt 1; SInt 12; SInt 2; SInt 0] ]) ].

Definition ORPHAN_WORLD : world := db_world ORPHAN_STATS [] (fun _ => AXIS).

Lemma stats_matchers_answer_unknown_only_witness :
  prefix_of (u "Estadísticas de desconocido: goles ")
    (u "Estadísticas de desconocido: goles 4, asistencias 1, partidos 12, amarillas 2, rojas 0.")
  = true /\
  substring (u "desconocido") (lower (u "estadisticas del desconocido")) = true.
Proof.
  refine (proj1
    (@stats_matchers_answer_unknown_only ORPHAN_WORLD (u "estadisticas del desconocido")
       (map (project PLAYER_COLUMNS)
          [ record PLAYER_COLUMNS
              [SInt 8; SStr (u "Pedri"); SStr (u "España"); SStr (u "centrocampista");
               SInt 8; SInt 174; SInt 60; SInt 5] ])
       (u "Estadísticas de desconocido: goles 4, asistencias 1, partidos 12, amarillas 2, rojas 0."))
    _ _ _ _).
  - vm_compute. reflexivity.
  - intros id found r F I.
    apply (@db_names_listed ORPHAN_STATS "players" PLAYER_COLUMNS id _ found r);
      [right; now left|vm_compute; reflexivity|exact F|exact I].
  - vm_compute. reflexivity.
  - vm_compute. reflexivity.
Defined.

(** ** Tests of the tables that can never succeed *)

Section Prune.

Variable A : Type.
Variable test : A -> bool.
Variable dead : list A -> A -> bool.

Hypothesis dead_sound :
  forall before e, dead before e = true -> test e = true ->
                   exists b, In b before /\ test b = true.

(** [l] without the entries that are dead after the entries before them. *)
Fixpoint prune (before l : list A) : list A :=
  match l with
  | [] => []
  | e :: rest =>
      if dead before e then prune (before ++ [e]) rest
      else e :: prune (before ++ [e]) rest
  end.

Lemma find_skip (before rest : list A) (e : A) :
  (test e = true -> exists b, In b before /\ test b = true) ->
  find test (before ++ e :: rest) = find test (before ++ rest).
Proof.
  intros H. induction before as [|x before IH]; cbn [app find].
  - destruct (test e); [|reflexivity]. destruct (H eq_refl) as (b & [] & _).
  - destruct (test x) eqn:X; [reflexivity|]. apply IH.
    intros T. destruct (H T) as (b & [<-|I] & Tb); [congruence|now exists b].
Qed.

Lemma find_prune (l before : list A) :
  find test (before ++ l) = find test (before ++ prune before l).
Proof.
  revert before. induction l as [|e rest IH]; intros before; cbn [prune]; [reflexivity|].
  specialize (IH (before ++ [e])). rewrite <- !app_assoc in IH. cbn [app] in IH.
  destruct (dead before e) eqn:D; [|exact IH].
  rewrite IH. apply find_skip. intros T. exact (@dead_sound before e D T).
Qed.

Lemma find_pruned (l : list A) : find test l = find test (prune [] l).
Proof. exact (find_prune l []). Qed.

End Prune.

(** *** Superlative phrases hidden by a shorter one *)

(** An earlier phrase of the table occurs in the phrase of [e]. *)
Definition stat_shadowed (before : list stat_row) (e : stat_row) : bool :=
  existsb (fun b => substring (fst b) (fst e)) before.

Lemma stat_shadowed_sound (q : str) (before : list stat_row) (e : stat_row) :
  stat_shadowed before e = true -> substring (fst e) q = true ->
  exists b, In b before /\ substring (fst b) q = true.
Proof.
  unfold stat_shadowed. intros D T. apply existsb_exists in D.
  destruct D as (b & I & S). exists b. split; [exact I|].
  exact (substring_trans _ _ _ S T).
Qed.

(** The phrases of [STAT_MAP] that hold an earlier phrase of it. *)
Definition SHADOWED_STATS : list str :=
  [ u "tiros bloqueados"; u "penaltis fallados"; u "penaltis parados";
    u "penaltis cometidos"; u "penaltis sufridos"; u "tarjetas amarillas árbitro";
    u "segundas amarillas árbitro"; u "tarjetas rojas árbitro"; u "penaltis árbitro";
    u "penaltis en contra árbitro" ].

Definition is_shadowed (e : stat_row) : bool := existsb (str_eqb (fst e)) SHADOWED_STATS.

Definition REACHABLE_STATS : list stat_row := filter (fun e => negb (is_shadowed e)) STAT_MAP.

Lemma reachable_stats_pruned : REACHABLE_STATS = prune stat_shadowed [] STAT_MAP.
Proof. vm_compute. reflexivity. Qed.

Lemma str_eqb_refl (s : str) : str_eqb s s = true.
Proof. unfold str_eqb. now destruct (list_eq_dec N.eq_dec s s). Qed.

Lemma stat_entry_reachable (q : str) :
  stat_entry q = find (fun e => substring (fst e) q) REACHABLE_STATS.
Proof.
  rewrite reachable_stats_pruned. unfold stat_entry.
  apply find_pruned. apply stat_shadowed_sound.
Qed.

Lemma reachable_not_shadowed :
  forallb (fun e => negb (is_shadowed e)) REACHABLE_STATS = true.
Proof. vm_compute. reflexivity. Qed.

(** X16: ten of the 37 phrases of [STAT_MAP] hold an earlier phrase of the
    table ("tiros bloqueados" holds "tiros", "penaltis parados" holds
    "penaltis", "tarjetas rojas árbitro" holds "tarjetas rojas"): the loop
    of [get_top_entity] stops at the earlier phrase, so the resolver answers
    as with the table without the ten, and their rankings (of blocked shots,
    of penalties saved, of the referees' cards) are never looked up. *)
Theorem shadowed_superlatives_never_chosen (w : world) (question : str) :
  get_top_entity w question
  = match find (fun e => substring (fst e) (lower question)) REACHABLE_STATS with
    | None => Ok None
    | Some (_, (table, column, label)) => lookup_top w table column label
    end /\
  forall e, stat_entry (lower question) = Some e -> ~ In (fst e) SHADOWED_STATS.
Proof.
  split.
  - unfold get_top_entity. cbv zeta. rewrite stat_entry_reachable. reflexivity.
  - intros e S I. rewrite stat_entry_reachable in S. apply find_some in S.
    destruct S as (S & _).
    pose proof reachable_not_shadowed as R. rewrite forallb_forall in R.
    specialize (R e S). apply negb_true_iff in R.
    assert (T : is_shadowed e = true).
    { apply existsb_exists. exists (fst e). split; [exact I|apply str_eqb_refl]. }
    rewrite T in R. discriminate R.
Qed.

(** *** Dialogue entries that never fire *)

(** Every alternative of [e] holds a phrase with a diacritic, or holds, for
    some alternative of an earlier entry, each of its phrases. *)
Definition never_fires (before : list (list (list str) * str))
    (e : list (list str) * str) : bool :=
  forallb (fun alt =>
             existsb has_diacritic alt ||
             existsb (fun b =>
                        existsb (fun balt =>
                                   forallb (fun p => existsb (substring p) alt) balt)
                                (fst b))
                     before)
          (fst e).

Lemma never_fires_sound (t : str) (before : list (list (list str) * str))
    (e : list (list str) * str) :
  never_fires before e = true -> fires (normalize t) (fst e) = true ->
  exists b, In b before /\ fires (normalize t) (fst b) = true.
Proof.
  unfold never_fires, fires. intros D T.
  apply existsb_exists in T. destruct T as (alt & Ia & Fa).
  rewrite forallb_forall in D. specialize (D alt Ia). rewrite forallb_forall in Fa.
  apply orb_true_iff in D. destruct D as [D|D].
  - apply existsb_exists in D. destruct D as (p & Ip & Hp).
    specialize (Fa p Ip). rewrite (diacritic_not_in_normalized p t Hp) in Fa.
    discriminate Fa.
  - apply existsb_exists in D. destruct D as (b & Ib & D). exists b. split; [exact Ib|].
    apply existsb_exists in D. destruct D as (balt & Ibalt & C).
    apply existsb_exists. exists balt. split; [exact Ibalt|].
    apply forallb_forall. intros p Ip. rewrite forallb_forall in C.
    specialize (C p Ip). apply existsb_exists in C. destruct C as (p' & Ip' & S).
    exact (substring_trans _ _ _ S (Fa p' Ip')).
Qed.

(** The places in the chain, counted from 0, of the tests that never
    succeed. *)
Definition SILENT_TESTS : list nat :=
  [ 19; 40; 122; 124; 139; 140; 141; 142; 145; 146; 147; 158; 160; 161; 163; 165; 166;
    167; 181; 185; 186; 191; 196; 208; 209 ]%nat.

Definition indexed {A : Type} (l : list A) : list (nat * A) :=
  combine (seq 0 (List.length l)) l.

Definition is_silent (ie : nat * (list (list str) * str)) : bool :=
  existsb (Nat.eqb (fst ie)) SILENT_TESTS.

Definition LIVE_SMALLTALK : list (list (list str) * str) :=
  map snd (filter (fun ie => negb (is_silent ie)) (indexed SMALLTALK)).

Definition SILENT_SMALLTALK : list (list (list str) * str) :=
  map snd (filter is_silent (indexed SMALLTALK)).

Lemma live_smalltalk_pruned : LIVE_SMALLTALK = prune never_fires [] SMALLTALK.
Proof. vm_compute. reflexivity. Qed.

Lemma smalltalk_live (t : str) :
  find (fun e => fires (normalize t) (fst e)) SMALLTALK
  = find (fun e => fires (normalize t) (fst e)) LIVE_SMALLTALK.
Proof.
  rewrite live_smalltalk_pruned. apply find_pruned. apply never_fires_sound.
Qed.

(** X17: 25 of the 210 tests of [get_smalltalk] never succeed: the test for
    "feliz cumpleaños" looks for "ñ" in a text without diacritics, and each
    of the others comes after a test that succeeds whenever it would
    ("vamos equipo" after "vamos", "wrestlemania" after an earlier
    "wrestlemania", the "futsal" entries after "fut"). The function answers
    as the chain without them, and their answers are never given. *)
Theorem silent_dialogue_entries (question : str) :
  get_smalltalk question
  = option_map snd (find (fun e => fires (normalize question) (fst e)) LIVE_SMALLTALK) /\
  List.length SMALLTALK = 210%nat /\ List.length LIVE_SMALLTALK = 185%nat /\
  map fst SILENT_SMALLTALK =
    [ [[u "feliz cumpleaños"]; [u "cumpleaños"]];
      [[u "vamos equipo"]; [u "vamos campeon"]];
      [[u "balon de fuego"]];
      [[u "genzo wakabayashi"]; [u "benji price"]];
      [[u "portada fc 26"]; [u "cover fc 26"]];
      [[u "ventas fc 26"]; [u "exito fc 26"]];
      [[u "jugabilidad fc 26"]; [u "gameplay fc 26"]];
      [[u "promesas fc 26"]; [u "jugadores jovenes fc 26"]];
      [[u "liga fantasy clasico"]; [u "evento clasico fantasy"]];
      [[u "liga fantasy derbi"]; [u "evento derbi fantasy"]];
      [[u "liga fantasy fichajes"]; [u "mercado fantasy"]];
      [[u "futsal"]; [u "futbol sala"]];
      [[u "mundial futsal"]; [u "copa del mundo futsal"]];
      [[u "seleccion española futsal"]; [u "espana futsal"]];
      [[u "barça futsal"]; [u "barcelona futsal"]];
      [[u "partido futsal"]; [u "jornada futsal"]];
      [[u "tecnica futsal"]; [u "habilidad futsal"]];
      [[u "champions futsal"]; [u "uefa futsal"]];
      [[u "naruto vs sasuke"]];
      [[u "wrestlemania"]];
      [[u "hokage"]];
      [[u "naruto run"]; [u "correr como naruto"]];
      [[u "campeon wwe"]; [u "titulo wwe"]];
      [[u "itachi sacrificio"]; [u "itachi hermano"]];
      [[u "itachi genjutsu"]; [u "genjutsu"]] ].
Proof.
  split; [|split; [|split]].
  - unfold get_smalltalk. cbv zeta. rewrite smalltalk_live. reflexivity.
  - vm_compute. reflexivity.
  - vm_compute. reflexivity.
  - vm_compute. reflexivity.
Qed.

